(* ===== verification/_CoqProject ===== *)
-Q . S2P
Prelude.v
Types.v
StableSort.v
Comparator.v
Allocation.v
Ranking.v
Json.v
Backend.v
Loops.v
Concurrency.v
Storage.v
Api.v
Dashboard.v
Settings.v
App.v
StudentList.v
Entry.v
ExcelExport.v
StudentTable.v
ListScreen.v
SettingsScreen.v
SettingsView.v
DashboardScreen.v
