(* ===== verification/Prelude.v ===== *)
(** * A verification development of NPSS, the student-track selection system

    NPSS (src/ of thanitrachkul/NPSS) ranks the applicants of a cohort by
    exam score and places each of them in a study track ("study plan")
    whose seat count ("quota") is limited.  Its parts are:

    - the ranking service [rankStudents] (src/unnamed/part_001, the file
      services/rankingService.ts): score aggregation [calculateTotal], the
      tie-break comparator [tieBreaker], a global sort with
      [Array.prototype.sort], positional ranks, and the waterfall allocator
      that walks the ranked list with a shared mutable [quotaUsage] object;
    - the Google Apps Script backend (src/unnamed/part_000, lines 1-471):
      three spreadsheets of rows, CRUD handlers and the [handleRequest]
      dispatcher;
    - the browser side: [storage] over localStorage (part_000, 473-600),
      the HTTP client [api] (part_000, 602-728), the settings editor and
      the Dashboard page with its handlers (src/components/SettingsPage.tsx,
      1-480 and 486-849), the student list screen with its filters, pagination,
      modals and Excel export (src/components/StudentList.tsx), the entry forms
      (src/unnamed/part_002) and the view state of [App]
      (src/App.tsx).

    The Dashboard calls [rankStudents] on its in-memory student list and
    plan list; the list is loaded from and saved to the backend through
    [api]; nothing of the ranking is persisted.

    ** Layout of the library

    - [Prelude] (this file): the [npss_scope] notations, the tactics and
      the [npss] hint database, counting lemmas on lists, and the model
      of a plain JavaScript object used as a dictionary ([JsObj]): the
      [__proto__] key cannot be assigned and the keys of
      [Object.prototype] read as inherited values.
    - [Types]: the records of types.ts (not under src/, modelled from the
      way the sources use them): [Scores], [Student], [StudyPlan],
      [ExamSubject], [RankedStudent].
    - [Comparator]: [calculateTotal], [tieBreaker] and the sort callback
      [compareRanked] of [rankStudents]; it is a consistent comparator
      (instance of [StableSort.Comparator]) and coincides with the
      lexicographic order on the key (total, science, math, english,
      thai, social), all descending.
    - [StableSort]: the interface a comparator promises to
      [Array.prototype.sort] (class [Comparator]), the abstract
      specification of a stable sort ([IsStableSort]: a permutation that
      is strongly sorted by (comparator, input position)), the insertion
      sort [sortBy] that implements it, and the uniqueness theorem: every
      stable sort returns exactly [sortBy], so the model does not depend
      on the engine's algorithm (V8 uses TimSort, stable since 2019).
    - [Allocation]: the two dictionaries [quotaUsage] and [planQuotas]
      built by [plans.forEach], the preference scan [pickPlan] (the [for]
      loop with its [break]) and [allocate], the final [map] whose
      callback mutates [quotaUsage]; the allocation state is threaded
      explicitly.  Theorems: capacity, preference containment,
      priority (no lower-ranked student takes a track that a
      higher-ranked student wanted more), non-wastefulness, the
      rank-prefix characterisation of each decision.
    - [Ranking]: [rankStudents] composed from the parts as the source
      composes them (map, sort, map with index, allocation) and its
      end-to-end theorems: the result is a permutation of the input
      students, ranks are 1..N, totals are exact, the list is sorted by
      the comparator, and the spec's scenarios evaluate as stated.
    - [Json]: JSON values ([jvalue]) and spreadsheet cells ([cell]),
      [String(x)], [String.prototype.trim] ([jsTrim], idempotent),
      [JSON.stringify] and [JSON.parse] on cells, and the field
      operations of plain objects.
    - [Backend]: Code.gs.  A [Spreadsheet] is a record of the three sheets
      [DB_Classrooms], [DB_Students], [DB_Settings], each [None] when it
      does not exist or a list of rows whose row 0 is the header [setup]
      writes.  [World] holds the active spreadsheet and those [openById]
      opens; [getDB] picks one.  Each handler of the source is one
      function [Spreadsheet -> Spreadsheet * HResult] that performs the
      writes of the source in order ([setCell] for [setValue],
      [++ [row]] for [appendRow], [deleteRowAt] for [deleteRow]); a
      thrown exception is [HExn] and keeps the writes made before it.
      A written string is stored as Sheets parses typed input
      ([Json.stored]: an integer numeral becomes a number, TRUE or FALSE
      a boolean), so the theorems that read an id back assume the id
      survives that parsing ([Json.sheetsStable]); a lemma shows two
      saves of the student id '007' giving two rows.
      [dispatch] and [handleRequest] are the action chain of
      [handleRequest(e)].  Theorems: [saveStudent] keeps one row per
      (classroom, student) and what it saves is read back by
      [getDashboardData]; [saveStudents] breaks the uniqueness on a batch
      that repeats a new id; [deleteClassroom] cascades to the students
      and settings of the classroom; [deleteStudent] removes the student;
      an unknown action changes nothing and answers with an error.
    - [Concurrency]: Apps Script runs each request in its own execution,
      and [handleRequest] wraps the handler in the script lock
      ([tryLock(30000)], released in [finally]).  A state [CState] holds
      the rows of [DB_Students], the execution holding the lock, where
      each execution of [saveStudent], [saveStudents] or [deleteStudent]
      is ([Pc]) and
      the order in which they finished; [stepAct] performs one action of
      one execution: take the lock or time out, read the rows, one
      write decided on the rows read, release.  Proved by an invariant
      of the locked runs ([LockInv]): any interleaving in which every
      execution takes the lock and all finish leaves the rows of the
      handlers run one after the other in the order they finished
      (refinement of [serialRun]; [saveStudent_steps],
      [saveStudents_steps] and [deleteStudent_steps] tie the steps to
      [Backend]); every run has at most [reqSteps] actions per request
      (the lock, the read, the writes, the release), and no locked run
      can deadlock.  Lemmas show what happens when [tryLock] times out and
      the handler runs anyway: a duplicate student row, and a save
      writing into the row of another student.
    - [Loops]: the counting loops of Code.gs as the source writes them,
      [for (let i = data.length - 1; i >= 1; i--)] ([forDown]) and
      [for (let i = 1; i < n; i++)] ([forUp]), with a JavaScript number
      index, a body that may [break] ([Flow]), defined with Equations by
      well-founded recursion on the variant ([Z.to_nat i], resp.
      [Z.to_nat (n - i)]) and also given as step relations on
      [LoopState].  Every run terminates, whatever the body does, and
      ends in the loop's value (termination); [deleteClassroom],
      [deleteStudent] and [updateClassroomTimestamp] written with these
      loops, their [break]s and early [return]s compute the [Backend]
      handlers, which use [list_find] and [deleteWhere].
    - [Storage]: services/storage.ts.  The four [localStorage] items are
      the slots of [Store]; the methods run in a state-and-exception
      monad.  The methods, [saveUsers] included, are also the steps of
      a machine: every store reachable from an empty [localStorage]
      holds at most 100 log entries; every method but [saveUsers] keeps
      the super admin account, which [saveUsers] can drop (a lemma);
      [addUser] keeps usernames unique and [validateUser] then finds the
      new user; a lemma shows that [updateUser] does not keep them
      unique.
    - [Api]: services/api.ts.  [sendPostRequest] builds the URL and the
      body and posts them to the Web App, modelled as a call of
      [Backend.handleRequest] with the query parameters read as Apps
      Script reads them.  End to end, a student saved with
      [api.saveStudent] is listed by [api.getDashboardData]; a lemma
      shows that the empty classroom id is not read back.
    - [Dashboard]: the Dashboard component of SettingsPage.tsx.  A
      handler is a step of [Sys] (backend world, browser store, React
      state, alerts).  Theorems: the merge of [handleAddStudents], an
      edit survives a reload, a viewer changes nothing; lemmas show that
      [handleResetData] is not persisted and that the screen and the
      backend disagree on a batch with a repeated new id.
    - [Settings]: the SettingsPage editor, written against a record of
      the parent's callbacks ([SettingsProps]); the confirmation guard
      and both outcomes of a confirmed save hold for any parent, and the
      Dashboard is one instance.  The effect that shows the saved or the
      default selection rules runs when its dependencies change; a
      renamed subject leaves a stale default rule.  The [async]
      [handleConfirmSave] is cut at its [await]: the click runs the
      parent's callback and leaves its outcome pending with [isSaving]
      set, and [resumeConfirmSave] finishes it later.
    - [StudentList]: the filters, the two sorts (stable, as
      [StableSort.sortBy]) and the pages of StudentList.tsx; the pages
      partition the filtered list, and the list as it opens shows the
      students in the order of [rankStudents].
    - [App]: App.tsx as a step function [fire] on the events of the page
      on screen; the reachable states (rule induction) keep the view
      consistent with the signed-in user, the stored session and the
      selected classroom, and a sign-out is always at most three clicks
      away (liveness).
    - [Entry]: the entry forms of src/unnamed/part_002.  [Number(text)]
      is [numberOfString], read exactly on decimal, radix and [Infinity]
      literals; [String(n)] then [Number] gives [n] back.  The manual
      form shared by [DataEntry] and [EditStudentForm] is a [Form] with
      one function per handler and [formStudent] for [handleConfirm];
      the browser's constraint validation ([required], [min], [max],
      step 1) is [formValid].  [DataEntry] is a step function
      [fireDataEntry] on the events its rendered elements raise (a
      disabled option cannot be picked), from the state after the first
      render's effects; its reachable states keep the chosen plans
      distinct, so a confirmed student has distinct preferences among
      the plan names and scores within [0, maxScore].  The import reads
      ExcelJS cell values ([XCell]) as [getVal] and [Number(val) || 0]
      do; every student it yields is well formed, the template's example
      row reads back as one student, and an upload always ends with the
      preview or one of the two messages.  The edit form gives back the
      student it was opened on.  The lemmas at the end of the file show
      what the import does with rich text, a zero id, bad scores and a
      repeated plan, and what the edit form does with surplus
      preferences.
    - [ExcelExport]: the Excel export of StudentList.tsx.  [handleExport]
      builds the worksheets (all students, one per plan, the waiting
      students) with their title, header and student rows; JavaScript
      strings are read as UTF-16 code units ([utf16]) for [substring]
      and [charCodeAt]; [toFixed(4)] is read exactly.  The sheets of a
      ranked list partition its students when the plan names are
      distinct and non-empty (composed with [Allocation]: a plan
      obtained is a configured one).  The badge hash of
      [getStreamBadgeStyle] uses 32-bit shifts ([toInt32]) on doubles;
      its bound shows that the doubles stay exact for names of up to
      2^21 units, so the [Z] model computes what the browser computes.
    - [ListScreen]: the rendered StudentList with its three modals
      (entry, delete confirmation, student detail), composed with the
      forms of [Entry] and the handlers of [Dashboard] they call back.
      Its state is the Dashboard's [Sys] with a [Screen] (the list state
      of [StudentList], the three modal fields and the form the entry
      modal holds); [fireScreen] sends a click to the topmost layer
      ([entryStep], [deleteStep], [detailStep] or [pageStep]) and then
      renders, mounting or dropping the form as React does.  In every
      reachable state at most one modal is open and the add form is a
      reachable [DataEntry] state (rule induction); confirming a manual
      entry always lists the student; editing without a change keeps the
      list; confirming a deletion removes exactly the row's id.
    - [StudentTable]: what the table of StudentList shows: the cells of
      a student's row ([rowView]: rank badge, names, first preference
      with its badge, plan or waiting label, total, percentage, the
      scores with the sort column highlighted, the actions of an
      editor), the header, the empty-list row, the pagination controls
      ([pager]) and the content of the detail modal ([detailView]).  The
      row shows, cell for cell, what the export writes for the student;
      every enabled pagination button asks for a page [goToPage]
      accepts while the current page exists; the detail marks with a
      trophy exactly the plan obtained when the preferences are
      distinct (composed with [Allocation]).  Lemmas show the page left
      empty with no controls after a deletion, and the cells where the
      table and the export differ.
    - [SettingsScreen]: the rendered SettingsPage: the three open
      buttons of the page, the edit portal (backdrop, close, cancel, the
      rows of the list being edited, save) and the destructive
      confirmation, as a step [fireEditor] over the [Settings] handlers
      for any parent ([SettingsProps]); the number inputs are
      [Number(e.target.value)] ([Entry.numberOfString]).  In the
      reachable editor states (mount, events, settling of a pending
      save, reruns of the rules effect) [isSaving] is set exactly while
      a save is in flight, and the confirmation shows only over the
      plans or subjects dialog; no event but a confirmed save with
      'delete' typed reaches the parent's data.  Lemmas show that a
      negative quota can be typed and saved, and that closing the
      dialog by its backdrop while saving does not stop the reset of
      the list.
    - [SettingsView]: the three panels of SettingsPage outside its
      dialogs ([pageView]): plan rows and the total quota, subject rows
      with their rounded share ([toFixed(0)], read on the exact
      quotient), the rules.  Composed with [Dashboard] and
      [Allocation]: with distinct plan names and no negative quota, the
      total quota shown bounds the number of students the ranked list
      places; lemmas show a negative quota and the rounded shares.
    - [DashboardScreen]: the Dashboard page around its handlers: the
      active tab, the mobile menu and the loading flag ([Shell]), the
      sidebar and the overlay on a narrow or a wide screen ([mobile]),
      and the mounting of [ListScreen] and [SettingsScreen] on the
      active tab ([render], React dropping a child's state when it is
      unmounted).  A click goes to the topmost layer: a modal portal of
      a child takes every click.  In every reachable state a viewer
      never reaches the settings tab, each child is mounted exactly when
      its tab is active after the load and is in a state its own events
      reach, so the invariants of [ListScreen] and [SettingsScreen] hold
      inside the page; and no click of a viewer changes the system
      state (only the completion of [loadData] does).  A settings save
      still in flight when its tab is left is kept as an orphan and
      still resets the list when it settles.  A lemma shows that
      leaving the list tab and coming back drops the list's filters
      and page.

    ** Modelling choices

    - Scores and quotas are JavaScript numbers; they are modelled as [Z].
      The forms fill them with [Number(...)], which [Entry] models on
      all numbers ([JsNum]); a student reaches the ranking
      ([Entry.toStudent]) with integer scores.  Ranks are [nat]
      ([index + 1]).
    - A student's [scores] object always has the five fields read by
      [calculateTotal]; a missing field (NaN in the source) is not
      modelled (see the findings of the manifest).
    - Strings are Rocq [string]s; JavaScript [===] on strings is
      [String.eqb].
    - Functions are total; the loops of the ranking (the sort, the
      preference scan, the allocation map) are structural recursions on
      lists, and the index loops of Code.gs ([Loops]) are well-founded
      recursions on their variant, so no fuel is needed.
    - In [Backend] a [getValues()] cell is [CText], [CNum], [CBool] or
      [CJson v] (the text [JSON.stringify v] wrote, which [JSON.parse]
      reads back as [v]); [==] between a cell and a value compares values
      of the same type only.  The handlers use [list_find], [fold_left]
      or structural recursion for their loops over rows; [Loops] proves
      them equal to the index loops as written.  The response envelope
      of [ContentService] and the [stack] field of an error response are
      not modelled.  The script lock is modelled in [Concurrency] for
      [saveStudent], [saveStudents] and [deleteStudent], whose read and
      writes are
      split into steps; the other handlers are not split, and the
      classroom timestamp write (on [DB_Classrooms] only) is left out
      of the interleavings.  [releaseLock] by an execution that does
      not hold the lock does nothing, as in Apps Script.
    - The browser side runs one handler at a time to completion: an
      [await] is the whole request, except the settings save, whose
      [await] is a separate step ([SettingsScreen.settleEditor],
      [DashboardScreen]'s [SSettle]) so that the events of the page can
      come between the click and the outcome.  Other interleavings of
      pending requests of the React handlers are not modelled.
    - A write to a sheet is visible at once.  Apps Script may buffer
      writes until a read, a [flush()] or the end of the execution;
      every locked handler of [Concurrency] reads [DB_Classrooms]
      ([updateClassroomTimestamp]) after its writes and before the
      lock is released, which the model takes to apply them.

    - In [Entry] a JavaScript number is [JsNum]: an integer ([NInt]), a
      finite non-integer ([NFrac]), an infinity or [NaN]; decimal text
      is read exactly, which agrees with IEEE doubles on the integers
      below 2^53 that scores are; a decimal literal with more digits
      than a double holds is not rounded, and ['1e400'] reads as the
      finite number it denotes, where the browser gives [Infinity].  [String.prototype.trim] and
      [Number]'s white space are the ASCII ones.  A hole left by writing
      past the end of the [selectedStreams] array reads as [''], which is
      what every use of the array ([|| ''], [filter], [some]) sees.  A
      subject id that names a member of [Object.prototype] other than
      [__proto__] is not modelled.
    - The parsed records of [getDashboardData] are [Student],
      [StudyPlan] and [ExamSubject] values; a record of another shape
      (data not written by the application) is left out.
    - ExcelJS: a row object fills the last column registered under
      each key, and [addWorksheet] throws on an empty or repeated
      (case-insensitive) sheet name, which [ExcelExport.exportWorkbook]
      reports as the failed export.

    ** Not modelled, and the plan

    A batch whose scores are not all integers, or that lacks one of the
    five ranking fields, stops at [Entry.toStudent] in [ListScreen]: the
    Dashboard handlers are modelled on integer scores.
    Sheets' other conversions of typed text (decimal fractions, dates,
    percentages, formulas) are not modelled.
    The browser's date formatting ([toLocaleString]) is a parameter of
    [StudentTable.formatUpdateDate]; [toFixed] is read on the exact
    quotient, which can differ from the double at an exact tie.
    The Analysis tab renders a component ([Analysis]) whose source is
    not under src/, so it is not modelled; [onBack] and [onLogout] of the
    Dashboard are events of [App].  The pages are modelled from their
    event handlers and the conditions under which their elements are
    rendered and clickable; the rest of the JSX, styling and the Excel
    file layout are presentation and are not modelled; the HTTP transport (fetch, redirects) is
    replaced by a direct call of [handleRequest] with the request it
    carries. *)

From stdpp Require Export base list gmap strings sorting.
From Stdlib Require Export ZArith Lia.

Declare Scope npss_scope.
Delimit Scope npss_scope with npss.
Open Scope npss_scope.

(** JavaScript strict equality on strings. *)
Notation "a =s? b" := (String.eqb a b) (at level 70, no associativity) : npss_scope.

Create HintDb npss.
Create Rewrite HintDb npss_rw.

(** ** Tactics *)

(** Case on the boolean tests of the code, keeping the equations. *)
Ltac case_ifs :=
  repeat match goal with
  | |- context [if ?b then _ else _] =>
      lazymatch b with
      | true => fail
      | false => fail
      | context [if _ then _ else _] => fail
      | _ => destruct b eqn:?
      end
  end.

Ltac bool_to_prop :=
  repeat match goal with
  | H : (_ =? _)%Z = true |- _ => apply Z.eqb_eq in H
  | H : (_ =? _)%Z = false |- _ => apply Z.eqb_neq in H
  | H : (_ <? _)%Z = true |- _ => apply Z.ltb_lt in H
  | H : (_ <? _)%Z = false |- _ => apply Z.ltb_ge in H
  | H : (_ <=? _)%Z = true |- _ => apply Z.leb_le in H
  | H : (_ <=? _)%Z = false |- _ => apply Z.leb_gt in H
  | H : String.eqb _ _ = true |- _ => apply String.eqb_eq in H
  | H : String.eqb _ _ = false |- _ => apply String.eqb_neq in H
  end.

(** ** Counting the elements of a list that satisfy a test *)

Definition countIf {A} (f : A → bool) (l : list A) : nat :=
  length (List.filter f l).

Lemma countIf_nil {A} (f : A → bool) : countIf f [] = 0%nat.
Proof. done. Qed.

Lemma countIf_cons {A} (f : A → bool) x l :
  countIf f (x :: l) = ((if f x then 1 else 0) + countIf f l)%nat.
Proof. unfold countIf; simpl. by destruct (f x). Qed.

Lemma countIf_app {A} (f : A → bool) l1 l2 :
  countIf f (l1 ++ l2) = (countIf f l1 + countIf f l2)%nat.
Proof. unfold countIf. by rewrite List.filter_app, length_app. Qed.

Lemma countIf_perm {A} (f : A → bool) l1 l2 :
  l1 ≡ₚ l2 → countIf f l1 = countIf f l2.
Proof.
  induction 1; rewrite ?countIf_cons; lia.
Qed.

Lemma countIf_zero {A} (f : A → bool) l :
  (∀ x, x ∈ l → f x = false) → countIf f l = 0%nat.
Proof.
  induction l as [|x l IH]; intros Hf; [done|].
  rewrite countIf_cons, Hf by set_solver. simpl. apply IH. set_solver.
Qed.

#[export] Hint Rewrite @countIf_nil @countIf_cons @countIf_app : npss_rw.

(** ** A plain JavaScript object used as a dictionary

    [const o: Record<string, number> = {}] holds its own properties in a
    map; a read [o[k]] of a missing own key falls back to
    [Object.prototype], and the assignment [o["__proto__"] = n] of a
    number changes nothing. *)

Module JsObj.

Inductive jsval :=
| JNum (n : Z)      (** an own numeric property *)
| JInherited        (** a function or object inherited from Object.prototype *)
| JUndef.           (** [undefined] *)

(** The property names of [Object.prototype]. *)
Definition objectProtoKeys : list string :=
  ["constructor"; "__defineGetter__"; "__defineSetter__"; "hasOwnProperty";
   "__lookupGetter__"; "__lookupSetter__"; "isPrototypeOf";
   "propertyIsEnumerable"; "toString"; "valueOf"; "__proto__";
   "toLocaleString"].

Definition get (o : gmap string Z) (k : string) : jsval :=
  match o !! k with
  | Some n => JNum n
  | None => if existsb (String.eqb k) objectProtoKeys then JInherited else JUndef
  end.

(** [o[k] = n]: the [__proto__] setter ignores a non-object value. *)
Definition set (k : string) (n : Z) (o : gmap string Z) : gmap string Z :=
  if k =s? "__proto__" then o else <[k := n]> o.

(** [a !== undefined] *)
Definition isDefined (v : jsval) : bool :=
  match v with JUndef => false | _ => true end.

(** [a < b]: numbers compare as numbers; [undefined] gives NaN and an
    inherited function or object is compared through its string form
    with the same string on the other side, so the test is false. *)
Definition lt (a b : jsval) : bool :=
  match a, b with
  | JNum x, JNum y => (x <? y)%Z
  | _, _ => false
  end.

Lemma get_set_eq o k n : k ≠ "__proto__" → get (set k n o) k = JNum n.
Proof.
  intros Hk. unfold get, set.
  destruct (String.eqb_spec k "__proto__"); [done|].
  by rewrite lookup_insert_eq.
Qed.

Lemma lookup_set_ne o k k' n : k ≠ k' → set k n o !! k' = o !! k'.
Proof.
  intros Hk. unfold set. case_ifs; [done|]. by rewrite lookup_insert_ne.
Qed.

Lemma lookup_set o k k' n :
  set k n o !! k' = if decide (k = k' ∧ k ≠ "__proto__") then Some n else o !! k'.
Proof.
  unfold set. destruct (String.eqb_spec k "__proto__") as [->|Hk].
  - case_decide as Hd; [by destruct Hd|done].
  - rewrite lookup_insert. repeat case_decide; naive_solver.
Qed.

Lemma lookup_set_proto o n : set "__proto__" n o = o.
Proof. done. Qed.

Lemma lt_num_inv a b : lt a b = true → ∃ x y, a = JNum x ∧ b = JNum y ∧ (x < y)%Z.
Proof. destruct a, b; simpl; try done. intros H. apply Z.ltb_lt in H. eauto. Qed.

End JsObj.

#[export] Hint Resolve JsObj.get_set_eq JsObj.lookup_set_ne : npss.

(** ** Sortedness through a projection *)

Lemma StronglySorted_fmap_inv {A B} (f : A → B) (R : B → B → Prop) (R' : A → A → Prop) l :
  (∀ x y, R (f x) (f y) → R' x y) → StronglySorted R (f <$> l) → StronglySorted R' l.
Proof.
  intros HR. induction l as [|x l IH]; csimpl; intros Hs; [constructor|].
  apply StronglySorted_inv in Hs as [Hs Hx]. constructor; [by apply IH|].
  rewrite Forall_fmap in Hx. eapply Forall_impl; [exact Hx|]. intros y Hy. by apply HR.
Qed.

Lemma fmap_id_on {A} (f : A → A) (l : list A) : (∀ x, x ∈ l → f x = x) → f <$> l = l.
Proof.
  induction l as [|x l IH]; intros Hf; csimpl; [done|].
  rewrite Hf, IH; [done| |]; set_solver.
Qed.

(** ** Sums over a list updated at one index *)

Lemma sum_list_with_insert {A} (f : A → nat) l k x y :
  l !! k = Some y → sum_list_with f (<[k:=x]> l) + f y = sum_list_with f l + f x.
Proof.
  revert k. induction l as [|z l IH]; intros [|k] Hk; simplify_eq/=; [lia|].
  specialize (IH k Hk). lia.
Qed.
