(* ===== verification/Types.v ===== *)
(** * The data of the ranking engine

    The records of types.ts, which is not part of src/: they are modelled
    from the way src/ builds and reads them ([Student] in the entry forms
    of part_002, [StudyPlan] in SettingsPage.tsx, the spread
    [{...s, totalScore, rank, qualifiedStream}] of rankingService.ts). *)

From S2P Require Import Prelude.

(** The five subject fields that [calculateTotal] and [tieBreaker] read. *)
Record Scores := mkScores {
  math : Z;
  science : Z;
  thai : Z;
  english : Z;
  social : Z
}.

Record Student := mkStudent {
  id : string;
  title : string;
  firstName : string;
  lastName : string;
  preferredStreams : list string;
  scores : Scores
}.

Record StudyPlan := mkStudyPlan {
  plan_id : string;
  name : string;
  quota : Z
}.

(** An exam subject of the settings page. *)
Record ExamSubject := mkExamSubject {
  subject_id : string;
  subject_name : string;
  maxScore : Z
}.

(** [RankedStudent = Student & {totalScore; rank; qualifiedStream}]: the
    student's own fields are kept in [student]. *)
Record RankedStudent := mkRanked {
  student : Student;
  totalScore : Z;
  rank : nat;
  qualifiedStream : option string
}.

(** [{...s, rank: r}] and [{...s, qualifiedStream: q}] *)
Definition withRank (r : nat) (s : RankedStudent) : RankedStudent :=
  mkRanked (student s) (totalScore s) r (qualifiedStream s).

Definition withStream (q : option string) (s : RankedStudent) : RankedStudent :=
  mkRanked (student s) (totalScore s) (rank s) q.

Lemma withStream_student q s : student (withStream q s) = student s.
Proof. done. Qed.

Lemma withStream_rank q s : rank (withStream q s) = rank s.
Proof. done. Qed.

Lemma withStream_totalScore q s : totalScore (withStream q s) = totalScore s.
Proof. done. Qed.

#[export] Hint Rewrite withStream_student withStream_rank withStream_totalScore : npss_rw.

#[export] Instance Scores_eq_dec : EqDecision Scores.
Proof. solve_decision. Defined.
#[export] Instance Student_eq_dec : EqDecision Student.
Proof. solve_decision. Defined.
#[export] Instance StudyPlan_eq_dec : EqDecision StudyPlan.
Proof. solve_decision. Defined.
#[export] Instance RankedStudent_eq_dec : EqDecision RankedStudent.
Proof. solve_decision. Defined.
