(* ===== verification/StableSort.v ===== *)
(** * [Array.prototype.sort] with a comparator callback

    [processed.sort((a, b) => ...)] (rankingService.ts, lines 27-32) sorts
    in place with a comparator returning a number.  ECMAScript requires
    the comparator to be consistent (the class [Comparator] below: the sign
    is antisymmetric and [<= 0] is transitive) and, since ES2019, the sort
    to be stable.  This file states what a stable sort promises
    ([IsStableSort]: a permutation of the input strongly sorted by the
    comparator and, among ties, by input position), implements it with an
    insertion sort [sortBy], and proves that the specification has exactly
    one solution, so [sortBy] is what the engine's sort returns. *)

From S2P Require Import Prelude.

(** What a sort callback must promise to [Array.prototype.sort]. *)
Class Comparator {A} (cmp : A → A → Z) : Prop := {
  cmp_sgn_antisym a b : Z.sgn (cmp b a) = (- Z.sgn (cmp a b))%Z;
  cmp_le_trans a b c : (cmp a b ≤ 0 → cmp b c ≤ 0 → cmp a c ≤ 0)%Z
}.

Section SortBy.
Context {A : Type} (cmp : A → A → Z).

(** Insert [x] before the first element it does not come after. *)
Fixpoint insertBy (x : A) (l : list A) : list A :=
  match l with
  | [] => [x]
  | y :: l' => if (cmp x y <=? 0)%Z then x :: l else y :: insertBy x l'
  end.

Fixpoint sortBy (l : list A) : list A :=
  match l with
  | [] => []
  | x :: l' => insertBy x (sortBy l')
  end.

(** Elements tagged with their input position, from [k]. *)
Fixpoint tagFrom (k : nat) (l : list A) : list (nat * A) :=
  match l with
  | [] => []
  | x :: l' => (k, x) :: tagFrom (S k) l'
  end.

(** The order a stable sort produces: by comparator, ties by position. *)
Definition tagLt (p q : nat * A) : Prop :=
  (cmp p.2 q.2 < 0)%Z ∨ (cmp p.2 q.2 = 0%Z ∧ p.1 < q.1).

(** The specification of a stable sort of [l]. *)
Definition IsStableSort (l out : list A) : Prop :=
  ∃ t, t ≡ₚ tagFrom 0 l ∧ StronglySorted tagLt t ∧ out = snd <$> t.

Lemma insertBy_perm x l : insertBy x l ≡ₚ x :: l.
Proof.
  induction l as [|y l IH]; simpl; [done|]. case_ifs; [done|].
  rewrite IH. constructor.
Qed.

Lemma sortBy_perm l : sortBy l ≡ₚ l.
Proof.
  induction l as [|x l IH]; simpl; [done|]. by rewrite insertBy_perm, IH.
Qed.

Lemma tagFrom_snd k l : snd <$> tagFrom k l = l.
Proof. revert k. induction l; intros k; simpl; f_equal; auto. Qed.

Lemma tagFrom_ge k l p : p ∈ tagFrom k l → k ≤ p.1.
Proof.
  revert k. induction l as [|x l IH]; intros k; simpl; [set_solver|].
  rewrite elem_of_cons. intros [->|Hp]; [simpl; lia|]. apply IH in Hp. lia.
Qed.

Lemma tagFrom_sorted k l : StronglySorted (λ p q : nat * A, p.1 < q.1) (tagFrom k l).
Proof.
  revert k. induction l as [|x l IH]; intros k; simpl; constructor; [done|].
  apply Forall_forall. intros p Hp%tagFrom_ge. simpl. lia.
Qed.
End SortBy.

Section SortByMap.
Context {A B : Type} (cmp : B → B → Z) (f : A → B).

Lemma insertBy_map x l :
  f <$> insertBy (λ a b, cmp (f a) (f b)) x l = insertBy cmp (f x) (f <$> l).
Proof. induction l as [|y l IH]; simpl; [done|]. destruct (cmp (f x) (f y) <=? 0)%Z; csimpl; congruence. Qed.

Lemma sortBy_map l : f <$> sortBy (λ a b, cmp (f a) (f b)) l = sortBy cmp (f <$> l).
Proof. induction l as [|x l IH]; csimpl; [done|]. by rewrite insertBy_map, IH. Qed.
End SortByMap.

Section ComparatorFacts.
Context {A : Type} (cmp : A → A → Z) `{!Comparator cmp}.

Lemma cmp_refl a : cmp a a = 0%Z.
Proof. pose proof (cmp_sgn_antisym a a). destruct (Z.sgn_spec (cmp a a)) as [[]|[[]|[]]]; lia. Qed.

Lemma cmp_flip_lt a b : (cmp a b < 0 ↔ 0 < cmp b a)%Z.
Proof.
  pose proof (cmp_sgn_antisym a b).
  destruct (Z.sgn_spec (cmp a b)) as [[? Ha]|[[? Ha]|[? Ha]]];
  destruct (Z.sgn_spec (cmp b a)) as [[? Hb]|[[? Hb]|[? Hb]]]; lia.
Qed.

Lemma cmp_flip_zero a b : cmp a b = 0%Z ↔ cmp b a = 0%Z.
Proof.
  pose proof (cmp_sgn_antisym a b).
  destruct (Z.sgn_spec (cmp a b)) as [[? Ha]|[[? Ha]|[? Ha]]];
  destruct (Z.sgn_spec (cmp b a)) as [[? Hb]|[[? Hb]|[? Hb]]]; lia.
Qed.

Lemma cmp_flip_le a b : (0 < cmp a b → cmp b a ≤ 0)%Z.
Proof. intros H. destruct (Z_lt_le_dec 0 (cmp b a)); [|done]. apply cmp_flip_lt in l. lia. Qed.

Lemma cmp_lt_le_trans a b c : (cmp a b < 0 → cmp b c ≤ 0 → cmp a c < 0)%Z.
Proof.
  intros Hab Hbc. pose proof (cmp_le_trans (cmp:=cmp) a b c ltac:(lia) Hbc) as Hac.
  destruct (Z.eq_dec (cmp a c) 0) as [Hz|]; [|lia].
  apply cmp_flip_zero in Hz. pose proof (cmp_le_trans (cmp:=cmp) b c a Hbc ltac:(lia)).
  apply cmp_flip_lt in Hab. lia.
Qed.

Lemma cmp_le_lt_trans a b c : (cmp a b ≤ 0 → cmp b c < 0 → cmp a c < 0)%Z.
Proof.
  intros Hab Hbc. pose proof (cmp_le_trans (cmp:=cmp) a b c Hab ltac:(lia)) as Hac.
  destruct (Z.eq_dec (cmp a c) 0) as [Hz|]; [|lia].
  apply cmp_flip_zero in Hz. pose proof (cmp_le_trans (cmp:=cmp) c a b ltac:(lia) Hab).
  apply cmp_flip_lt in Hbc. lia.
Qed.

Lemma tagLt_asym p q : tagLt cmp p q → tagLt cmp q p → False.
Proof.
  unfold tagLt. pose proof (cmp_flip_lt p.2 q.2). pose proof (cmp_flip_zero p.2 q.2). lia.
Qed.

Lemma tagLt_le p q : tagLt cmp p q → (cmp p.2 q.2 ≤ 0)%Z.
Proof. unfold tagLt. lia. Qed.

(** Inserting an element whose position precedes every position of a
    sorted list keeps it sorted. *)
Lemma insertBy_tag_sorted x t :
  StronglySorted (tagLt cmp) t → (∀ p, p ∈ t → x.1 < p.1) →
  StronglySorted (tagLt cmp) (insertBy (λ p q, cmp p.2 q.2) x t).
Proof.
  induction t as [|y t IH]; intros Hs Hx; simpl.
  { repeat constructor. }
  pose proof Hs as Hyt. apply StronglySorted_inv in Hs as [Hs Hy].
  rewrite Forall_forall in Hy. case_ifs; bool_to_prop.
  - constructor; [done|]. constructor.
    + destruct (Z.eq_dec (cmp x.2 y.2) 0); [right|left]; [split; [done|] |lia].
      apply Hx. set_solver.
    + apply Forall_forall. intros z Hz. pose proof (Hy z Hz) as Hyz.
      destruct Hyz as [Hyz|[Hyz _]].
      * left. by eapply cmp_le_lt_trans.
      * pose proof (cmp_le_trans (cmp:=cmp) x.2 y.2 z.2 ltac:(lia) ltac:(lia)).
        destruct (Z.eq_dec (cmp x.2 z.2) 0); [right|left]; [split; [done|]|lia].
        apply Hx. set_solver.
  - constructor; [apply IH; [done|set_solver]|].
    apply Forall_forall. intros z Hz.
    rewrite (insertBy_perm _ x t), elem_of_cons in Hz. destruct Hz as [->|Hz]; [|by apply Hy].
    left. apply cmp_flip_lt. lia.
Qed.
End ComparatorFacts.

Section StableSortSpec.
Context {A : Type} (cmp : A → A → Z) `{!Comparator cmp}.

Lemma sortBy_tag_sorted k l :
  StronglySorted (tagLt cmp) (sortBy (λ p q : nat * A, cmp p.2 q.2) (tagFrom k l)).
Proof.
  revert k. induction l as [|x l IH]; intros k; simpl; [constructor|].
  apply insertBy_tag_sorted; [done|done|].
  intros p Hp. rewrite sortBy_perm in Hp. apply tagFrom_ge in Hp. simpl. lia.
Qed.

(** The insertion sort [sortBy] is a stable sort: its result is the
    input, permuted, ordered by the comparator and, among elements the
    comparator ties, in input order. *)
Theorem sortBy_isStableSort l : IsStableSort cmp l (sortBy cmp l).
Proof.
  exists (sortBy (λ p q : nat * A, cmp p.2 q.2) (tagFrom 0 l)). split_and!.
  - apply sortBy_perm.
  - apply sortBy_tag_sorted.
  - by rewrite (sortBy_map cmp snd), tagFrom_snd.
Qed.

(** A stable sort has one result: any output that meets the
    specification of a stable sort of [l] is [sortBy cmp l].  Hence the
    model of [processed.sort] is exact whatever algorithm the engine
    runs. *)
Theorem stableSort_unique l out : IsStableSort cmp l out → out = sortBy cmp l.
Proof.
  intros (t & Hperm & Hsorted & ->).
  destruct (sortBy_isStableSort l) as (t' & Hperm' & Hsorted' & ->).
  f_equal. apply (StronglySorted_unique_strong (tagLt cmp)); [|done|done|].
  - intros p q _ _ Hpq Hqp. by destruct (tagLt_asym cmp p q Hpq Hqp).
  - by rewrite Hperm, Hperm'.
Qed.

Lemma stableSort_perm l out : IsStableSort cmp l out → out ≡ₚ l.
Proof. intros (t & Hp & _ & ->). by rewrite Hp, tagFrom_snd. Qed.

Lemma stableSort_sorted l out :
  IsStableSort cmp l out → StronglySorted (λ a b, cmp a b ≤ 0)%Z out.
Proof.
  intros (t & _ & Hs & ->). eapply StronglySorted_fmap; [|exact Hs].
  intros p q. apply tagLt_le.
Qed.

Lemma sortBy_sorted l : StronglySorted (λ a b, cmp a b ≤ 0)%Z (sortBy cmp l).
Proof. apply (stableSort_sorted l), sortBy_isStableSort. Qed.
End StableSortSpec.

(** A list already in order is left as it is. *)
Lemma sortBy_id {A} (cmp : A → A → Z) l :
  StronglySorted (λ a b, cmp a b ≤ 0)%Z l → sortBy cmp l = l.
Proof.
  induction l as [|x l IH]; intros Hs; [done|]. simpl.
  apply StronglySorted_inv in Hs as [Hs Hx]. rewrite IH by done.
  destruct l as [|y l]; [done|]. simpl. apply Forall_inv in Hx.
  by rewrite (proj2 (Z.leb_le _ _) Hx).
Qed.

(** Comparing by a numeric key, ascending or descending. *)
#[export] Instance key_asc_comparator {A} (f : A → Z) : Comparator (λ a b, f a - f b)%Z.
Proof. split; intros; [rewrite <-Z.sgn_opp; f_equal; lia|lia]. Qed.

#[export] Instance key_desc_comparator {A} (f : A → Z) : Comparator (λ a b, f b - f a)%Z.
Proof. split; intros; [rewrite <-Z.sgn_opp; f_equal; lia|lia]. Qed.
