(* ===== verification/Comparator.v ===== *)
(** * Score aggregation and the ranking comparator

    [calculateTotal], [tieBreaker] and the callback of [processed.sort] in
    rankingService.ts (src/unnamed/part_001, lines 3-15 and 27-32).  The
    callback is a consistent comparator (an instance of
    [StableSort.Comparator]), and its sign is the lexicographic comparison
    of the key (total, science, math, english, thai, social), every
    component descending. *)

From S2P Require Import Prelude Types StableSort.

(** [calculateTotal]: the optional [subjects] argument is ignored and the
    five fields are added in the order of the source. *)
Definition calculateTotal (s : Student) : Z :=
  let sc := scores s in
  (math sc + science sc + thai sc + english sc + social sc)%Z.

(** [tieBreaker a b]: negative when [a] comes first. *)
Definition tieBreaker (a b : Student) : Z :=
  let sa := scores a in let sb := scores b in
  if negb (science sa =? science sb)%Z then (science sb - science sa)%Z
  else if negb (math sa =? math sb)%Z then (math sb - math sa)%Z
  else if negb (english sa =? english sb)%Z then (english sb - english sa)%Z
  else if negb (thai sa =? thai sb)%Z then (thai sb - thai sa)%Z
  else (social sb - social sa)%Z.

(** The callback of [processed.sort]. *)
Definition compareRanked (a b : RankedStudent) : Z :=
  if negb (totalScore b =? totalScore a)%Z then (totalScore b - totalScore a)%Z
  else tieBreaker (student a) (student b).

(** ** The reference order: lexicographic on the sort key *)

Definition sortKey (r : RankedStudent) : list Z :=
  let sc := scores (student r) in
  [totalScore r; science sc; math sc; english sc; thai sc; social sc].

Fixpoint lexCompare (k1 k2 : list Z) : comparison :=
  match k1, k2 with
  | [], [] => Eq
  | [], _ :: _ => Lt
  | _ :: _, [] => Gt
  | x :: k1', y :: k2' =>
      match (x ?= y)%Z with Eq => lexCompare k1' k2' | c => c end
  end.

Lemma lexCompare_antisym k1 k2 : lexCompare k2 k1 = CompOpp (lexCompare k1 k2).
Proof.
  revert k2. induction k1 as [|x k1 IH]; intros [|y k2]; simpl; try done.
  rewrite (Z.compare_antisym x y). destruct (x ?= y)%Z; simpl; auto.
Qed.

Lemma lexCompare_eq k1 k2 : lexCompare k1 k2 = Eq ↔ k1 = k2.
Proof.
  revert k2. induction k1 as [|x k1 IH]; intros [|y k2]; simpl; try done.
  destruct (Z.compare_spec x y) as [->|Hxy|Hxy].
  - rewrite IH. naive_solver.
  - split; [done|]. intros [= -> _]. lia.
  - split; [done|]. intros [= -> _]. lia.
Qed.

Lemma lexCompare_trans k1 k2 k3 c :
  c ≠ Eq → lexCompare k1 k2 = c → lexCompare k2 k3 = c → lexCompare k1 k3 = c.
Proof.
  revert k2 k3. induction k1 as [|x k1 IH]; intros [|y k2] [|z k3]; simpl;
    try congruence.
  destruct (Z.compare_spec x y), (Z.compare_spec y z), (Z.compare_spec x z);
    subst; try lia; intros; try congruence; eauto.
Qed.

Lemma compare_sub_zero (x y : Z) : (y - x ?= 0)%Z = (y ?= x)%Z.
Proof. by rewrite <-Z.compare_sub. Qed.

(** C8: the sort callback orders two students exactly as the descending
    lexicographic comparison of (total, science, math, english, thai,
    social): its sign is the comparison of [b]'s key with [a]'s. *)
Theorem compareRanked_lex a b :
  (compareRanked a b ?= 0)%Z = lexCompare (sortKey b) (sortKey a).
Proof.
  unfold compareRanked, tieBreaker, sortKey; simpl.
  repeat match goal with
  | |- context [(?x =? ?y)%Z] => destruct (Z.eqb_spec x y); simpl
  end; rewrite ?compare_sub_zero;
  repeat match goal with
  | |- context [(?x ?= ?y)%Z] => destruct (Z.compare_spec x y)
  end; try reflexivity; try congruence; lia.
Qed.

Lemma compare_zero_le (x : Z) : (x ≤ 0)%Z ↔ (x ?= 0)%Z ≠ Gt.
Proof. destruct (Z.compare_spec x 0); split; intros; try done; lia. Qed.

Lemma sgn_compare (x : Z) :
  Z.sgn x = match (x ?= 0)%Z with Eq => 0 | Lt => -1 | Gt => 1 end%Z.
Proof. by destruct x. Qed.

Lemma lexCompare_not_gt_trans k1 k2 k3 :
  lexCompare k1 k2 ≠ Gt → lexCompare k2 k3 ≠ Gt → lexCompare k1 k3 ≠ Gt.
Proof.
  destruct (lexCompare k1 k2) eqn:E12; try done;
    destruct (lexCompare k2 k3) eqn:E23; try done; intros _ _.
  - apply lexCompare_eq in E12, E23. subst. by rewrite (proj2 (lexCompare_eq _ _) eq_refl).
  - apply lexCompare_eq in E12. by subst; rewrite E23.
  - apply lexCompare_eq in E23. by subst; rewrite E12.
  - by rewrite (lexCompare_trans k1 k2 k3 Lt).
Qed.

(** The callback meets what [Array.prototype.sort] requires of it. *)
#[export] Instance compareRanked_comparator : Comparator compareRanked.
Proof.
  split.
  - intros a b. rewrite !sgn_compare, !compareRanked_lex, lexCompare_antisym.
    by destruct (lexCompare (sortKey b) (sortKey a)).
  - intros a b c. rewrite !compare_zero_le, !compareRanked_lex.
    intros Hab Hbc. by eapply lexCompare_not_gt_trans.
Qed.
