(* ===== verification/Allocation.v ===== *)
(** * The waterfall allocator of [rankStudents]

    rankingService.ts (src/unnamed/part_001), lines 42-74: two plain
    objects [quotaUsage] and [planQuotas] filled by [plans.forEach], then
    [processed.map(student => ...)] whose callback scans the student's
    preferences in order and claims the first plan that is configured and
    not yet full, incrementing the shared [quotaUsage].  The shared
    counter is threaded explicitly: [allocate] returns the annotated
    students and the final [quotaUsage]. *)

From S2P Require Import Prelude Types.

Section Allocation.
(** [planQuotas], fixed during the whole pass. *)
Context (planQuotas : gmap string Z).

(** The test of the loop body: [planQuotas[planName] !== undefined] and
    [currentUsage < planQuotas[planName]]. *)
Definition canTake (quotaUsage : gmap string Z) (planName : string) : bool :=
  JsObj.isDefined (JsObj.get planQuotas planName) &&
  JsObj.lt (JsObj.get quotaUsage planName) (JsObj.get planQuotas planName).

(** [for (const planName of student.preferredStreams) { ... break; }] *)
Fixpoint pickPlan (quotaUsage : gmap string Z) (prefs : list string) : option string :=
  match prefs with
  | [] => None
  | planName :: rest =>
      if canTake quotaUsage planName then Some planName else pickPlan quotaUsage rest
  end.

(** [quotaUsage[planName]++]; it runs only after [canTake] held, so the
    property is an own number. *)
Definition incrUsage (quotaUsage : gmap string Z) (planName : string) : gmap string Z :=
  match quotaUsage !! planName with
  | Some u => JsObj.set planName (u + 1) quotaUsage
  | None => quotaUsage
  end.

(** One call of the [map] callback: the student annotated with
    [assignedPlan], and the counter after the call. *)
Definition allocateOne (quotaUsage : gmap string Z) (s : RankedStudent)
    : RankedStudent * gmap string Z :=
  let assignedPlan := pickPlan quotaUsage (preferredStreams (student s)) in
  let quotaUsage' :=
    match assignedPlan with
    | Some p => incrUsage quotaUsage p
    | None => quotaUsage
    end in
  (withStream assignedPlan s, quotaUsage').

(** [processed.map(...)]: the callbacks run left to right over the
    ranked list and share [quotaUsage]. *)
Fixpoint allocate (quotaUsage : gmap string Z) (l : list RankedStudent)
    : list RankedStudent * gmap string Z :=
  match l with
  | [] => ([], quotaUsage)
  | s :: l' =>
      let (s', quotaUsage') := allocateOne quotaUsage s in
      let (out, final) := allocate quotaUsage' l' in
      (s' :: out, final)
  end.
End Allocation.

(** [plans.forEach(p => { quotaUsage[p.name] = 0; })] *)
Definition initUsage (plans : list StudyPlan) : gmap string Z :=
  fold_left (λ o p, JsObj.set (name p) 0 o) plans ∅.

(** [plans.forEach(p => planQuotas[p.name] = p.quota)]: a later plan of
    the same name overwrites the quota of an earlier one. *)
Definition initQuotas (plans : list StudyPlan) : gmap string Z :=
  fold_left (λ o p, JsObj.set (name p) (quota p) o) plans ∅.

(** The allocation phase of [rankStudents] on the ranked list. *)
Definition allocatePlans (plans : list StudyPlan) (processed : list RankedStudent)
    : list RankedStudent :=
  (allocate (initQuotas plans) (initUsage plans) processed).1.

(** The number of students of [l] whose [qualifiedStream] is [p]. *)
Definition countStream (p : string) (l : list RankedStudent) : nat :=
  countIf (λ s, bool_decide (qualifiedStream s = Some p)) l.

(** ** The preference scan *)

Section PickPlan.
Context (planQuotas : gmap string Z).
Implicit Types (quotaUsage : gmap string Z).

Lemma canTake_spec quotaUsage k :
  canTake planQuotas quotaUsage k = true ↔
  ∃ u q, quotaUsage !! k = Some u ∧ planQuotas !! k = Some q ∧ (u < q)%Z.
Proof.
  unfold canTake, JsObj.get.
  destruct (quotaUsage !! k), (planQuotas !! k); simpl;
    repeat case_match; simpl; rewrite ?andb_false_r, ?Z.ltb_lt; naive_solver.
Qed.

(** The scan returns the first preference that [canTake] accepts:
    [pickPlan] is stdpp's [list_find] on the preference list. *)
Lemma pickPlan_find quotaUsage prefs :
  pickPlan planQuotas quotaUsage prefs =
  snd <$> list_find (λ k, canTake planQuotas quotaUsage k = true) prefs.
Proof.
  induction prefs as [|k prefs IH]; simpl; [done|].
  case_decide as Hk; [by rewrite Hk|].
  apply not_true_is_false in Hk. rewrite Hk, IH.
  by destruct (list_find _ prefs) as [[]|].
Qed.

Lemma pickPlan_Some quotaUsage prefs p :
  pickPlan planQuotas quotaUsage prefs = Some p →
  ∃ n, prefs !! n = Some p ∧ canTake planQuotas quotaUsage p = true ∧
    ∀ m p', prefs !! m = Some p' → m < n → canTake planQuotas quotaUsage p' = false.
Proof.
  rewrite pickPlan_find. destruct (list_find _ prefs) as [[n p']|] eqn:E; [|done].
  intros [= <-]. apply list_find_Some in E as (Hn & Hp & Hbefore).
  exists n. split_and!; [done|done|]. intros m p'' Hm Hlt.
  apply not_true_is_false. by eapply Hbefore.
Qed.

Lemma pickPlan_None quotaUsage prefs p :
  pickPlan planQuotas quotaUsage prefs = None → p ∈ prefs →
  canTake planQuotas quotaUsage p = false.
Proof.
  rewrite pickPlan_find. destruct (list_find _ prefs) eqn:E; [done|]. intros _ Hp.
  rewrite list_find_None, Forall_forall in E. apply not_true_is_false. by apply E.
Qed.

(** A preference at index [m] that [canTake] accepts bounds the index of
    the scan's result. *)
Lemma pickPlan_first quotaUsage prefs m p :
  prefs !! m = Some p → canTake planQuotas quotaUsage p = true →
  ∃ n p', n ≤ m ∧ prefs !! n = Some p' ∧ pickPlan planQuotas quotaUsage prefs = Some p'.
Proof.
  intros Hm Hp. rewrite pickPlan_find.
  destruct (list_find _ prefs) as [[n p']|] eqn:E.
  - apply list_find_Some in E as (Hn & _ & Hbefore). exists n, p'.
    split_and!; [|done|done]. destruct (decide (n ≤ m)); [done|].
    exfalso. eapply Hbefore; [exact Hm|lia|done].
  - rewrite list_find_None, Forall_forall in E. exfalso. eapply E; [|done].
    by eapply list_elem_of_lookup_2.
Qed.

Lemma pickPlan_elem quotaUsage prefs p :
  pickPlan planQuotas quotaUsage prefs = Some p →
  p ∈ prefs ∧ canTake planQuotas quotaUsage p = true.
Proof.
  intros (n & Hn & Hp & _)%pickPlan_Some. split; [|done].
  by eapply list_elem_of_lookup_2.
Qed.
End PickPlan.

(** ** The shared counter *)

(** A counter that has no own [__proto__] property, as every object built
    by [JsObj.set] from [{}]. *)
Definition protoFree (o : gmap string Z) : Prop := o !! "__proto__" = None.

Lemma protoFree_empty : protoFree ∅.
Proof. done. Qed.

Lemma protoFree_set o k n : protoFree o → protoFree (JsObj.set k n o).
Proof. unfold protoFree. intros H. rewrite JsObj.lookup_set. case_decide; naive_solver. Qed.

#[export] Hint Resolve protoFree_empty protoFree_set : npss.

Lemma countStream_nil p : countStream p [] = 0%nat.
Proof. done. Qed.

Lemma countStream_cons p s l :
  countStream p (s :: l) =
  ((if bool_decide (qualifiedStream s = Some p) then 1 else 0) + countStream p l)%nat.
Proof. unfold countStream. by rewrite countIf_cons. Qed.

Lemma countStream_app p l1 l2 :
  countStream p (l1 ++ l2) = (countStream p l1 + countStream p l2)%nat.
Proof. apply countIf_app. Qed.

#[export] Hint Rewrite countStream_nil countStream_cons countStream_app : npss_rw.

Section AllocState.
Context (planQuotas : gmap string Z).
Implicit Types (quotaUsage : gmap string Z) (l : list RankedStudent).

Lemma incrUsage_lookup quotaUsage p u k :
  protoFree quotaUsage → quotaUsage !! p = Some u →
  incrUsage quotaUsage p !! k = if decide (p = k) then Some (u + 1)%Z else quotaUsage !! k.
Proof.
  unfold incrUsage, protoFree. intros Hproto Hp. rewrite Hp, JsObj.lookup_set.
  destruct (decide (p = k)) as [<-|Hne].
  - rewrite decide_True; [done|]. split; [done|]. intros ->. congruence.
  - rewrite decide_False; [done|]. naive_solver.
Qed.

(** One callback adds one to the counter of the plan it assigns and
    leaves every other counter alone. *)
Lemma allocateOne_lookup quotaUsage s k :
  protoFree quotaUsage →
  (allocateOne planQuotas quotaUsage s).2 !! k =
  (λ u, u + if bool_decide (qualifiedStream (allocateOne planQuotas quotaUsage s).1 = Some k)
            then 1 else 0)%Z <$> quotaUsage !! k.
Proof.
  intros Hproto. unfold allocateOne; simpl.
  destruct (pickPlan planQuotas quotaUsage _) as [p|] eqn:E.
  - apply pickPlan_elem in E as [_ (u & q & Hu & _)%canTake_spec].
    rewrite (incrUsage_lookup quotaUsage p u) by done.
    case_decide; [subst; rewrite Hu, bool_decide_true by done; done|].
    rewrite bool_decide_false by congruence.
    destruct (quotaUsage !! k); simpl; [f_equal; lia|done].
  - rewrite bool_decide_false by done. destruct (quotaUsage !! k); simpl; [f_equal; lia|done].
Qed.

Lemma allocateOne_protoFree quotaUsage s :
  protoFree quotaUsage → protoFree (allocateOne planQuotas quotaUsage s).2.
Proof. intros H. unfold protoFree. rewrite allocateOne_lookup by done. by rewrite H. Qed.

Lemma allocate_cons quotaUsage s l :
  allocate planQuotas quotaUsage (s :: l) =
  let r := allocateOne planQuotas quotaUsage s in
  (r.1 :: (allocate planQuotas r.2 l).1, (allocate planQuotas r.2 l).2).
Proof.
  cbn -[allocateOne]. destruct (allocateOne planQuotas quotaUsage s) as [s' u']; simpl.
  by destruct (allocate planQuotas u' l).
Qed.

(** After the pass, each counter is its initial value plus the number of
    students the pass assigned to that plan. *)
Lemma allocate_lookup quotaUsage l k :
  protoFree quotaUsage →
  (allocate planQuotas quotaUsage l).2 !! k =
  (λ u, u + Z.of_nat (countStream k (allocate planQuotas quotaUsage l).1))%Z
    <$> quotaUsage !! k.
Proof.
  revert quotaUsage. induction l as [|s l IH]; intros quotaUsage Hproto.
  { simpl. destruct (quotaUsage !! k); simpl; [f_equal; rewrite countStream_nil; lia|done]. }
  rewrite allocate_cons; cbn -[allocateOne countStream]. rewrite IH by (by apply allocateOne_protoFree).
  rewrite allocateOne_lookup, countStream_cons by done.
  destruct (quotaUsage !! k); simpl; [|done]. f_equal. case_bool_decide; lia.
Qed.

Lemma allocate_protoFree quotaUsage l :
  protoFree quotaUsage → protoFree (allocate planQuotas quotaUsage l).2.
Proof. intros H. unfold protoFree. rewrite allocate_lookup by done. by rewrite H. Qed.

(** A counter only moves while it is below its quota. *)
Lemma allocate_le_max quotaUsage l k q u u' :
  protoFree quotaUsage → planQuotas !! k = Some q → quotaUsage !! k = Some u →
  (allocate planQuotas quotaUsage l).2 !! k = Some u' → (u' ≤ Z.max u q)%Z.
Proof.
  revert quotaUsage u. induction l as [|s l IH]; intros quotaUsage u Hproto Hq Hu Hfin.
  { simpl in Hfin. simplify_eq. lia. }
  rewrite allocate_cons in Hfin; cbn -[allocateOne] in Hfin.
  pose proof (allocateOne_lookup quotaUsage s k Hproto) as Hstep. rewrite Hu in Hstep.
  eapply IH in Hfin; [|by apply allocateOne_protoFree|done|exact Hstep].
  revert Hfin. case_bool_decide as Hk; [|lia].
  unfold allocateOne in Hk; simpl in Hk.
  apply pickPlan_elem in Hk as [_ (u1 & q1 & Hu1 & Hq1 & Hlt)%canTake_spec].
  simplify_eq. lia.
Qed.

Lemma allocate_erase quotaUsage l :
  withStream None <$> (allocate planQuotas quotaUsage l).1 = withStream None <$> l.
Proof.
  revert quotaUsage. induction l as [|s l IH]; intros quotaUsage; [done|].
  rewrite allocate_cons. csimpl. by rewrite IH.
Qed.

Lemma allocate_length quotaUsage l : length (allocate planQuotas quotaUsage l).1 = length l.
Proof.
  rewrite <-(length_fmap (withStream None) (allocate planQuotas quotaUsage l).1).
  rewrite allocate_erase.
  apply length_fmap.
Qed.

(** The pass over a concatenation is the pass over the first part
    followed by the pass over the second from the counter it left. *)
Lemma allocate_app quotaUsage l1 l2 :
  allocate planQuotas quotaUsage (l1 ++ l2) =
  let r1 := allocate planQuotas quotaUsage l1 in
  let r2 := allocate planQuotas r1.2 l2 in
  (r1.1 ++ r2.1, r2.2).
Proof.
  revert quotaUsage. induction l1 as [|s l1 IH]; intros quotaUsage; cbn -[allocateOne].
  { by destruct (allocate planQuotas quotaUsage l2). }
  destruct (allocateOne planQuotas quotaUsage s) as [s' u']. rewrite IH; simpl.
  destruct (allocate planQuotas u' l1) as [o1 u1]; simpl.
  by destruct (allocate planQuotas u1 l2).
Qed.
End AllocState.

(** ** The pass, student by student *)

Section AllocDecisions.
Context (planQuotas : gmap string Z).
Implicit Types (quotaUsage : gmap string Z) (l : list RankedStudent).

(** The student at index [i] of the result is the student at index [i]
    of the input, with the plan that the scan picks against the counter
    left by the [i] students before it. *)
Lemma allocate_lookup_decision quotaUsage l i s :
  l !! i = Some s →
  (allocate planQuotas quotaUsage l).1 !! i =
  Some (withStream (pickPlan planQuotas (allocate planQuotas quotaUsage (take i l)).2
                      (preferredStreams (student s))) s).
Proof.
  intros Hi. rewrite <-(take_drop_middle l i s Hi) at 1.
  rewrite allocate_app; cbn -[allocate]. rewrite allocate_cons; cbn -[allocate].
  rewrite lookup_app_r; rewrite allocate_length, length_take_le;
    [|apply lookup_lt_Some in Hi; lia..].
  by rewrite Nat.sub_diag.
Qed.

Lemma allocate_lookup_inv quotaUsage l i s' :
  (allocate planQuotas quotaUsage l).1 !! i = Some s' →
  ∃ s, l !! i = Some s ∧
    s' = withStream (pickPlan planQuotas (allocate planQuotas quotaUsage (take i l)).2
                       (preferredStreams (student s))) s.
Proof.
  intros Hi. pose proof (lookup_lt_Some _ _ _ Hi) as Hlt.
  rewrite allocate_length in Hlt. apply lookup_lt_is_Some_2 in Hlt as [s Hs].
  exists s. split; [done|]. rewrite (allocate_lookup_decision quotaUsage l i s Hs) in Hi. by simplify_eq.
Qed.

(** The counter at the end is the counter after any prefix, run on. *)
Lemma allocate_split quotaUsage l i :
  (allocate planQuotas quotaUsage l).2 =
  (allocate planQuotas (allocate planQuotas quotaUsage (take i l)).2 (drop i l)).2.
Proof. rewrite <-(take_drop i l) at 1. by rewrite allocate_app. Qed.

(** Counters never decrease, and a counter exists at the end only if it
    existed at the start. *)
Lemma allocate_mono quotaUsage l k u' :
  protoFree quotaUsage → (allocate planQuotas quotaUsage l).2 !! k = Some u' →
  ∃ u, quotaUsage !! k = Some u ∧ (u ≤ u')%Z.
Proof.
  intros Hproto. rewrite allocate_lookup by done.
  destruct (quotaUsage !! k) as [u|]; simpl; [|done]. intros [= <-]. exists u. split; [done|lia].
Qed.

Lemma canTake_antimono quotaUsage1 quotaUsage2 k u1 u2 :
  quotaUsage1 !! k = Some u1 → quotaUsage2 !! k = Some u2 → (u1 ≤ u2)%Z →
  canTake planQuotas quotaUsage2 k = true → canTake planQuotas quotaUsage1 k = true.
Proof.
  rewrite !canTake_spec. intros H1 H2 Hle (u & q & Hu & Hq & Hlt).
  simplify_eq. exists u1, q. split_and!; [done|done|lia].
Qed.

Lemma canTake_false_full quotaUsage k u q :
  canTake planQuotas quotaUsage k = false → quotaUsage !! k = Some u →
  planQuotas !! k = Some q → (q ≤ u)%Z.
Proof.
  intros Hc Hu Hq. destruct (Z_lt_le_dec u q) as [Hlt|]; [|done].
  assert (canTake planQuotas quotaUsage k = true) by (apply canTake_spec; eauto).
  congruence.
Qed.

Lemma allocate_stream_elem quotaUsage l s' p :
  s' ∈ (allocate planQuotas quotaUsage l).1 → qualifiedStream s' = Some p →
  p ∈ preferredStreams (student s') ∧ is_Some (planQuotas !! p).
Proof.
  intros (i & Hi)%list_elem_of_lookup Hp.
  apply allocate_lookup_inv in Hi as (s & _ & ->). simpl in *.
  apply pickPlan_elem in Hp as [Hin (u & q & _ & Hq & _)%canTake_spec]. eauto.
Qed.
End AllocDecisions.

(** ** The initial dictionaries *)

Lemma initUsage_lookup plans k :
  initUsage plans !! k = (λ _, 0%Z) <$> initQuotas plans !! k.
Proof.
  unfold initUsage, initQuotas.
  cut (∀ (o1 o2 : gmap string Z), (∀ k, o1 !! k = (λ _, 0%Z) <$> o2 !! k) →
       fold_left (λ o p, JsObj.set (name p) 0 o) plans o1 !! k =
       (λ _, 0%Z) <$> fold_left (λ o p, JsObj.set (name p) (quota p) o) plans o2 !! k).
  { intros H. by apply H. }
  induction plans as [|p plans IH]; intros o1 o2 Ho; simpl; [done|].
  apply IH. intros k'. rewrite !JsObj.lookup_set. case_decide; [done|apply Ho].
Qed.

Lemma fold_set_protoFree {A} (f : A → string) (g : A → Z) (xs : list A) o :
  protoFree o → protoFree (fold_left (λ o x, JsObj.set (f x) (g x) o) xs o).
Proof. revert o. induction xs; intros o Ho; simpl; auto with npss. Qed.

Lemma initUsage_protoFree plans : protoFree (initUsage plans).
Proof. apply fold_set_protoFree, protoFree_empty. Qed.

Lemma initQuotas_protoFree plans : protoFree (initQuotas plans).
Proof. apply fold_set_protoFree, protoFree_empty. Qed.

#[export] Hint Resolve initUsage_protoFree initQuotas_protoFree allocate_protoFree : npss.

(** ** Properties of the pass from any counter without [__proto__] *)

Section AllocProps.
Context (planQuotas : gmap string Z).
Implicit Types (quotaUsage : gmap string Z) (l : list RankedStudent).

Lemma allocate_capacity_gen quotaUsage l k q u :
  protoFree quotaUsage → planQuotas !! k = Some q → quotaUsage !! k = Some u →
  (u + Z.of_nat (countStream k (allocate planQuotas quotaUsage l).1) ≤ Z.max u q)%Z.
Proof.
  intros Hproto Hq Hu. eapply (allocate_le_max planQuotas quotaUsage l k q u); [done..|].
  by rewrite allocate_lookup, Hu.
Qed.

Lemma allocate_unknown_gen quotaUsage l k :
  planQuotas !! k = None → countStream k (allocate planQuotas quotaUsage l).1 = 0%nat.
Proof.
  intros Hk. apply countIf_zero. intros s' Hs'. apply bool_decide_eq_false.
  intros Hp. destruct (allocate_stream_elem planQuotas quotaUsage l s' k Hs' Hp) as [_ [q Hq]].
  congruence.
Qed.

(** Priority: if a later student of the pass obtains plan [p], every
    earlier student that lists [p] obtains [p] or a plan listed before
    it. *)
Lemma allocate_priority_gen quotaUsage l i j si sj p m :
  protoFree quotaUsage → i < j →
  (allocate planQuotas quotaUsage l).1 !! i = Some si →
  (allocate planQuotas quotaUsage l).1 !! j = Some sj →
  qualifiedStream sj = Some p →
  preferredStreams (student si) !! m = Some p →
  ∃ n p', n ≤ m ∧ preferredStreams (student si) !! n = Some p' ∧
    qualifiedStream si = Some p'.
Proof.
  intros Hproto Hij (s_i & Hli & ->)%allocate_lookup_inv (s_j & Hlj & ->)%allocate_lookup_inv.
  simpl. intros Hpj Hm.
  apply pickPlan_elem in Hpj as [_ Hcan].
  pose proof Hcan as (uj & q & Huj & _)%canTake_spec.
  set (Ui := (allocate planQuotas quotaUsage (take i l)).2).
  assert ((allocate planQuotas quotaUsage (take j l)).2 =
          (allocate planQuotas Ui (take (j - i) (drop i l))).2) as HUj.
  { unfold Ui. replace j with (i + (j - i)) at 1 by lia.
    by rewrite <-take_take_drop, allocate_app. }
  rewrite HUj in Huj, Hcan. pose proof Huj as Huj'.
  apply allocate_mono in Huj as (ui & Hui & Hle); [|by apply allocate_protoFree].
  apply (pickPlan_first planQuotas Ui _ m p Hm).
  exact (canTake_antimono _ _ _ _ _ _ Hui Huj' Hle Hcan).
Qed.

(** A student the pass leaves without a plan finds every configured
    preference full at the end. *)
Lemma allocate_waitlist_gen quotaUsage l i si p q u0 :
  protoFree quotaUsage →
  (allocate planQuotas quotaUsage l).1 !! i = Some si →
  qualifiedStream si = None → p ∈ preferredStreams (student si) →
  planQuotas !! p = Some q → quotaUsage !! p = Some u0 →
  (q ≤ u0 + Z.of_nat (countStream p (allocate planQuotas quotaUsage l).1))%Z.
Proof.
  intros Hproto (s & Hs & ->)%allocate_lookup_inv. simpl. intros Hnone Hin Hq Hu0.
  eapply pickPlan_None in Hnone; [|exact Hin].
  set (Ui := (allocate planQuotas quotaUsage (take i l)).2) in Hnone.
  assert (∃ ui, Ui !! p = Some ui) as [ui Hui].
  { unfold Ui. rewrite allocate_lookup, Hu0 by done. eauto. }
  pose proof (canTake_false_full planQuotas _ _ _ _ Hnone Hui Hq) as Hfull.
  pose proof (allocate_lookup planQuotas quotaUsage l p Hproto) as Hfin.
  rewrite Hu0 in Hfin. rewrite (allocate_split planQuotas quotaUsage l i) in Hfin.
  apply allocate_mono in Hfin as (ui' & Hui' & Hle); [|by apply allocate_protoFree].
  fold Ui in Hui'. simplify_eq. lia.
Qed.

Lemma allocate_prefix_gen quotaUsage l1 l2 :
  take (length l1) (allocate planQuotas quotaUsage (l1 ++ l2)).1 =
  (allocate planQuotas quotaUsage l1).1.
Proof.
  rewrite allocate_app; simpl. rewrite take_app_length'; [done|].
  by rewrite allocate_length.
Qed.
End AllocProps.

(** ** The allocation phase of [rankStudents] *)

Section AllocatePlans.
Context (plans : list StudyPlan).

Lemma initUsage_zero k q : initQuotas plans !! k = Some q → initUsage plans !! k = Some 0%Z.
Proof. intros Hq. by rewrite initUsage_lookup, Hq. Qed.

(** C1: no plan receives more students than its quota (a negative
    quota counts as zero). *)
Theorem allocatePlans_capacity l k q :
  initQuotas plans !! k = Some q →
  (Z.of_nat (countStream k (allocatePlans plans l)) ≤ Z.max 0 q)%Z.
Proof.
  intros Hq. pose proof (allocate_capacity_gen (initQuotas plans) (initUsage plans) l k q 0
    (initUsage_protoFree plans) Hq (initUsage_zero k q Hq)) as H.
  rewrite Z.add_0_l in H. exact H.
Qed.

(** C2: a student's [qualifiedStream], when set, is one of the
    student's own preferences and a configured plan. *)
Theorem allocatePlans_stream_in_prefs l s p :
  s ∈ allocatePlans plans l → qualifiedStream s = Some p →
  p ∈ preferredStreams (student s) ∧ is_Some (initQuotas plans !! p).
Proof. apply allocate_stream_elem. Qed.

(** C3: priority in list order: when a later student obtains plan [p],
    every earlier student that lists [p] at index [m] obtains a plan it
    lists at an index [n <= m]; no student is overtaken by a later one
    on a plan it wanted at least as much as the plan it got. *)
Theorem allocatePlans_priority l i j si sj p m :
  i < j → allocatePlans plans l !! i = Some si → allocatePlans plans l !! j = Some sj →
  qualifiedStream sj = Some p → preferredStreams (student si) !! m = Some p →
  ∃ n p', n ≤ m ∧ preferredStreams (student si) !! n = Some p' ∧
    qualifiedStream si = Some p'.
Proof. apply allocate_priority_gen, initUsage_protoFree. Qed.

(** C10: a student left without a plan finds every configured plan of
    its preference list filled to its quota. *)
Theorem allocatePlans_waitlist_full l i s p q :
  allocatePlans plans l !! i = Some s → qualifiedStream s = None →
  p ∈ preferredStreams (student s) → initQuotas plans !! p = Some q →
  (q ≤ Z.of_nat (countStream p (allocatePlans plans l)))%Z.
Proof.
  intros Hi Hnone Hin Hq.
  pose proof (allocate_waitlist_gen (initQuotas plans) (initUsage plans) l i s p q 0
    (initUsage_protoFree plans) Hi Hnone Hin Hq (initUsage_zero p q Hq)).
  unfold allocatePlans. lia.
Qed.

(** The plans of the first [k] students do not depend on the
    students after them. *)
Theorem allocatePlans_prefix l1 l2 :
  take (length l1) (allocatePlans plans (l1 ++ l2)) = allocatePlans plans l1.
Proof. apply allocate_prefix_gen. Qed.

(** A plan name that is not configured is never assigned. *)
Theorem allocatePlans_unknown l k :
  initQuotas plans !! k = None → countStream k (allocatePlans plans l) = 0%nat.
Proof. apply allocate_unknown_gen. Qed.
End AllocatePlans.

(** The pass changes nothing but [qualifiedStream]. *)
Lemma allocate_fmap_stream_invariant {B} (f : RankedStudent → B) planQuotas quotaUsage l :
  (∀ q s, f (withStream q s) = f s) →
  f <$> (allocate planQuotas quotaUsage l).1 = f <$> l.
Proof.
  intros Hf. revert quotaUsage. induction l as [|s l IH]; intros quotaUsage; [done|].
  rewrite allocate_cons. csimpl. rewrite IH. unfold allocateOne; simpl. by rewrite Hf.
Qed.

(** ** Witnesses on a small cohort

    Plans X and Y with one seat each; three students who all list X then
    Y, in rank order A, B, C: A obtains X, B obtains Y, C waits. *)

Definition exScores : Scores := mkScores 0 0 0 0 0.
Definition exStudent (sid : string) (r : nat) : RankedStudent :=
  mkRanked (mkStudent sid "" "" "" ["X"; "Y"] exScores) 0 r None.
Definition exPlans : list StudyPlan := [mkStudyPlan "1" "X" 1; mkStudyPlan "2" "Y" 1].
Definition exRanked : list RankedStudent := [exStudent "A" 1; exStudent "B" 2; exStudent "C" 3].

Lemma allocatePlans_capacity_witness :
  initQuotas exPlans !! "X" = Some 1%Z ∧
  (Z.of_nat (countStream "X" (allocatePlans exPlans exRanked)) ≤ Z.max 0 1)%Z.
Proof. split; [reflexivity|]. apply allocatePlans_capacity. reflexivity. Defined.

Lemma allocatePlans_stream_in_prefs_witness :
  withStream (Some "Y") (exStudent "B" 2) ∈ allocatePlans exPlans exRanked ∧
  qualifiedStream (withStream (Some "Y") (exStudent "B" 2)) = Some "Y" ∧
  ("Y" ∈ preferredStreams (student (withStream (Some "Y") (exStudent "B" 2))) ∧
   is_Some (initQuotas exPlans !! "Y")).
Proof.
  assert (withStream (Some "Y") (exStudent "B" 2) ∈ allocatePlans exPlans exRanked) as Hin
    by (apply list_elem_of_lookup_2 with 1; reflexivity).
  split; [exact Hin|]. split; [reflexivity|].
  apply (allocatePlans_stream_in_prefs exPlans exRanked); [exact Hin|reflexivity].
Defined.

Lemma allocatePlans_priority_witness :
  0 < 1 ∧
  allocatePlans exPlans exRanked !! 0 = Some (withStream (Some "X") (exStudent "A" 1)) ∧
  allocatePlans exPlans exRanked !! 1 = Some (withStream (Some "Y") (exStudent "B" 2)) ∧
  qualifiedStream (withStream (Some "Y") (exStudent "B" 2)) = Some "Y" ∧
  preferredStreams (student (withStream (Some "X") (exStudent "A" 1))) !! 1 = Some "Y" ∧
  ∃ n p', n ≤ 1 ∧
    preferredStreams (student (withStream (Some "X") (exStudent "A" 1))) !! n = Some p' ∧
    qualifiedStream (withStream (Some "X") (exStudent "A" 1)) = Some p'.
Proof.
  split; [lia|]. do 4 (split; [reflexivity|]).
  apply (allocatePlans_priority exPlans exRanked 0 1 (withStream (Some "X") (exStudent "A" 1))
    (withStream (Some "Y") (exStudent "B" 2)) "Y" 1); [lia|reflexivity..].
Defined.

Lemma allocatePlans_waitlist_full_witness :
  allocatePlans exPlans exRanked !! 2 = Some (withStream None (exStudent "C" 3)) ∧
  qualifiedStream (withStream None (exStudent "C" 3)) = None ∧
  "X" ∈ preferredStreams (student (withStream None (exStudent "C" 3))) ∧
  initQuotas exPlans !! "X" = Some 1%Z ∧
  (1 ≤ Z.of_nat (countStream "X" (allocatePlans exPlans exRanked)))%Z.
Proof.
  assert ("X" ∈ preferredStreams (student (withStream None (exStudent "C" 3)))) as Hin
    by (apply list_elem_of_lookup_2 with 0; reflexivity).
  split; [reflexivity|]. split; [reflexivity|]. split; [exact Hin|]. split; [reflexivity|].
  apply (allocatePlans_waitlist_full exPlans exRanked 2 (withStream None (exStudent "C" 3)));
    [reflexivity|reflexivity|exact Hin|reflexivity].
Defined.

Lemma allocatePlans_unknown_witness :
  initQuotas exPlans !! "Z" = None ∧ countStream "Z" (allocatePlans exPlans exRanked) = 0%nat.
Proof. split; [reflexivity|]. apply allocatePlans_unknown. reflexivity. Defined.
