(* ===== verification/Ranking.v ===== *)
(** * [rankStudents]: the ranking and allocation engine

    rankingService.ts (src/unnamed/part_001, lines 17-75) composed as the
    source composes it: [students.map] adds the total, [processed.sort]
    orders with [compareRanked], [processed.map((s, index) => ...)]
    numbers the ranks, and the allocation [map] assigns the plans.  The
    theorems are stated on the result of the whole function. *)

From S2P Require Import Prelude Types StableSort Comparator Allocation.

(** Step 1: [{...s, totalScore: calculateTotal(s), rank: 0, qualifiedStream: null}] *)
Definition initRanked (s : Student) : RankedStudent :=
  mkRanked s (calculateTotal s) 0 None.

(** Step 3: [processed.map((s, index) => ({...s, rank: index + 1}))] *)
Definition assignRanks (processed : list RankedStudent) : list RankedStudent :=
  imap (λ index s, withRank (S index) s) processed.

Definition rankStudents (students : list Student) (plans : list StudyPlan)
    : list RankedStudent :=
  let processed := initRanked <$> students in
  let sorted := sortBy compareRanked processed in
  let ranked := assignRanks sorted in
  allocatePlans plans ranked.

(** The fields the comparator reads, with rank and plan reset. *)
Definition eraseAll (s : RankedStudent) : RankedStudent :=
  mkRanked (student s) (totalScore s) 0 None.

Lemma compareRanked_eraseAll a b : compareRanked (eraseAll a) (eraseAll b) = compareRanked a b.
Proof. done. Qed.

Lemma eraseAll_withStream q s : eraseAll (withStream q s) = eraseAll s.
Proof. done. Qed.

Lemma eraseAll_initRanked s : eraseAll (initRanked s) = initRanked s.
Proof. done. Qed.

Lemma allocatePlans_eraseAll plans l : eraseAll <$> allocatePlans plans l = eraseAll <$> l.
Proof. by apply allocate_fmap_stream_invariant. Qed.

Lemma allocatePlans_rank plans l : rank <$> allocatePlans plans l = rank <$> l.
Proof. by apply allocate_fmap_stream_invariant. Qed.

Lemma allocatePlans_student plans l : student <$> allocatePlans plans l = student <$> l.
Proof. by apply allocate_fmap_stream_invariant. Qed.

Lemma assignRanks_eraseAll l : eraseAll <$> assignRanks l = eraseAll <$> l.
Proof.
  unfold assignRanks. rewrite fmap_imap, <-imap_const. by apply imap_ext.
Qed.

Lemma assignRanks_rank_from k l :
  rank <$> imap (λ index s, withRank (k + index) s) l = seq k (length l).
Proof.
  revert k. induction l as [|s l IH]; intros k; [done|].
  rewrite imap_cons. csimpl. rewrite Nat.add_0_r. f_equal.
  rewrite <-(IH (S k)). f_equal. apply imap_ext. intros i x _. simpl. by rewrite Nat.add_succ_r.
Qed.

Lemma sortBy_initRanked_eraseAll students :
  eraseAll <$> sortBy compareRanked (initRanked <$> students) =
  sortBy compareRanked (initRanked <$> students).
Proof.
  apply fmap_id_on. intros x Hx. rewrite sortBy_perm in Hx.
  apply list_elem_of_fmap in Hx as (s & -> & _). done.
Qed.

(** The order of [rankStudents], with ranks and plans erased, is the
    sorted list of step 2. *)
Lemma rankStudents_eraseAll students plans :
  eraseAll <$> rankStudents students plans = sortBy compareRanked (initRanked <$> students).
Proof.
  unfold rankStudents. rewrite allocatePlans_eraseAll, assignRanks_eraseAll.
  apply sortBy_initRanked_eraseAll.
Qed.

Lemma rankStudents_rank_seq students plans :
  rank <$> rankStudents students plans = seq 1 (length students).
Proof.
  unfold rankStudents. rewrite allocatePlans_rank.
  rewrite <-(length_fmap initRanked students).
  rewrite <-(Permutation_length (sortBy_perm compareRanked (initRanked <$> students))).
  exact (assignRanks_rank_from 1 _).
Qed.

Lemma rankStudents_length students plans : length (rankStudents students plans) = length students.
Proof.
  rewrite <-(length_fmap eraseAll), rankStudents_eraseAll, sortBy_perm. apply length_fmap.
Qed.

(** C4: the ranks are positional: the [i]-th student of the result has
    rank [i + 1], so the ranks are exactly 1, ..., N, each once, even
    for students the comparator ties. *)
Theorem rankStudents_ranks students plans :
  rank <$> rankStudents students plans = seq 1 (length students).
Proof. apply rankStudents_rank_seq. Qed.

(** C5: the result holds the input students, each once: the [student]
    records of the result are a permutation of the input. *)
Theorem rankStudents_perm students plans :
  student <$> rankStudents students plans ≡ₚ students.
Proof.
  replace (student <$> rankStudents students plans)
    with (student <$> (eraseAll <$> rankStudents students plans))
    by (rewrite <-list_fmap_compose; by apply list_fmap_ext).
  rewrite rankStudents_eraseAll, sortBy_perm, <-list_fmap_compose.
  apply reflexive_eq. by apply fmap_id_on.
Qed.

(** C6: the result is ordered by the sort callback: every student
    compares [<= 0] with every student after it (best first). *)
Theorem rankStudents_sorted students plans :
  StronglySorted (λ a b, compareRanked a b ≤ 0)%Z (rankStudents students plans).
Proof.
  apply (StronglySorted_fmap_inv eraseAll (λ a b, compareRanked a b ≤ 0)%Z).
  { intros a b. by rewrite compareRanked_eraseAll. }
  rewrite rankStudents_eraseAll. apply sortBy_sorted, _.
Qed.

(** C9: every [totalScore] of the result is the sum of the five score
    fields of that student, [math + science + thai + english + social]
    (the [subjects] argument of [calculateTotal] is not read). *)
Theorem rankStudents_totals students plans s :
  s ∈ rankStudents students plans →
  totalScore s = (math (scores (student s)) + science (scores (student s)) + thai (scores (student s)) +
                  english (scores (student s)) + social (scores (student s)))%Z.
Proof.
  intros Hs. apply (list_elem_of_fmap_2 eraseAll) in Hs.
  rewrite rankStudents_eraseAll, sortBy_perm in Hs.
  apply list_elem_of_fmap in Hs as (st & Hst & _). unfold eraseAll, initRanked in Hst.
  simplify_eq. match goal with H : totalScore _ = _ |- _ => rewrite H end. reflexivity.
Qed.

(** C7: the order of the result is a stable sort of the input by the
    callback: ranks and plans aside, it is the input permuted, ordered by
    [compareRanked], ties in input order. *)
Theorem rankStudents_stable students plans :
  IsStableSort compareRanked (initRanked <$> students) (eraseAll <$> rankStudents students plans).
Proof. rewrite rankStudents_eraseAll. apply sortBy_isStableSort, _. Qed.

(** The order of the result is the order that any stable sort
    returns: [rankStudents] agrees with every ECMAScript engine whose
    [Array.prototype.sort] is stable. *)
Theorem rankStudents_refines students plans out :
  IsStableSort compareRanked (initRanked <$> students) out →
  eraseAll <$> rankStudents students plans = out.
Proof.
  intros Hout. rewrite rankStudents_eraseAll. symmetry.
  exact (stableSort_unique compareRanked _ _ Hout).
Qed.

(** ** The scenarios of the specification, evaluated *)

Definition scenarioScores (sci m : Z) : Scores := mkScores m sci 0 0 0.
Definition scenarioStudent (sid : string) (sc : Scores) (prefs : list string) : Student :=
  mkStudent sid "" "" "" prefs sc.
Definition planX (q : Z) : StudyPlan := mkStudyPlan "1" "X" q.

(** What the Dashboard shows of a result: id, rank and plan. *)
Definition summary (l : list RankedStudent) : list (string * nat * option string) :=
  (λ s, (id (student s), rank s, qualifiedStream s)) <$> l.

(** Scenario 1 of the specification: with science tied, math
    decides; the first student takes the single seat of X and the second
    waits. *)
Theorem scenario_tiebreak_capacity :
  summary (rankStudents [scenarioStudent "S1" (scenarioScores 90 80) ["X"];
                         scenarioStudent "S2" (scenarioScores 90 70) ["X"]] [planX 1]) =
  [("S1", 1, Some "X"); ("S2", 2, None)].
Proof. vm_compute. reflexivity. Qed.

(** Scenario 3 of the specification: two students with equal scores
    in every subject receive the distinct ranks 1 and 2 in input order,
    whichever of them comes first in the input. *)
Theorem scenario_equal_scores :
  summary (rankStudents [scenarioStudent "A" (scenarioScores 50 50) [];
                         scenarioStudent "B" (scenarioScores 50 50) []] [planX 5]) =
    [("A", 1, None); ("B", 2, None)] ∧
  summary (rankStudents [scenarioStudent "B" (scenarioScores 50 50) [];
                         scenarioStudent "A" (scenarioScores 50 50) []] [planX 5]) =
    [("B", 1, None); ("A", 2, None)].
Proof. split; vm_compute; reflexivity. Qed.

(** Scenarios 2, 4 and 5 of the specification: an empty preference
    list, a preference naming no configured plan, and a plan of quota 0
    all leave the student waiting, even with seats free elsewhere. *)
Theorem scenario_unassigned :
  summary (rankStudents [scenarioStudent "S" (scenarioScores 10 10) []] [planX 5]) =
    [("S", 1, None)] ∧
  summary (rankStudents [scenarioStudent "S" (scenarioScores 10 10) ["W"]] [planX 5]) =
    [("S", 1, None)] ∧
  summary (rankStudents [scenarioStudent "S" (scenarioScores 10 10) ["X"]] [planX 0]) =
    [("S", 1, None)].
Proof. split_and!; vm_compute; reflexivity. Qed.

(** A plan named [__proto__] never receives a student: the
    assignments [quotaUsage["__proto__"] = 0] and
    [planQuotas["__proto__"] = quota] do not create own properties, and
    the inherited [Object.prototype] fails the [<] test.  The same cohort
    with the plan renamed is served. *)
Lemma proto_plan_example :
  summary (rankStudents [scenarioStudent "S" (scenarioScores 10 10) ["__proto__"]]
             [mkStudyPlan "1" "__proto__" 5]) = [("S", 1, None)] ∧
  summary (rankStudents [scenarioStudent "S" (scenarioScores 10 10) ["proto"]]
             [mkStudyPlan "1" "proto" 5]) = [("S", 1, Some "proto")].
Proof. split; vm_compute; reflexivity. Qed.


(** ** Witnesses *)

Definition tieStudents : list Student :=
  [scenarioStudent "A" (scenarioScores 50 50) []; scenarioStudent "B" (scenarioScores 50 50) []].

Lemma rankStudents_refines_witness :
  IsStableSort compareRanked (initRanked <$> tieStudents) (initRanked <$> tieStudents) ∧
  eraseAll <$> rankStudents tieStudents [planX 5] = initRanked <$> tieStudents.
Proof.
  assert (IsStableSort compareRanked (initRanked <$> tieStudents) (initRanked <$> tieStudents))
    as Hs.
  { exists (tagFrom 0 (initRanked <$> tieStudents)). split_and!.
    - reflexivity.
    - apply (bool_decide_unpack _). vm_compute. reflexivity.
    - reflexivity. }
  split; [exact Hs|]. exact (rankStudents_refines tieStudents [planX 5] _ Hs).
Defined.

Lemma rankStudents_totals_witness :
  let s := mkRanked (scenarioStudent "A" (scenarioScores 50 50) []) 100 1 None in
  s ∈ rankStudents tieStudents [planX 5] ∧
  totalScore s = (math (scores (student s)) + science (scores (student s)) + thai (scores (student s)) +
                  english (scores (student s)) + social (scores (student s)))%Z.
Proof.
  intros s.
  assert (mkRanked (scenarioStudent "A" (scenarioScores 50 50) []) 100 1 None
            ∈ rankStudents tieStudents [planX 5]) as Hin.
  { apply list_elem_of_lookup_2 with 0. vm_compute. reflexivity. }
  split; [exact Hin|]. exact (rankStudents_totals _ _ _ Hin).
Defined.

