(* ===== verification/Json.v ===== *)
(** * JSON values, JavaScript strings and spreadsheet cells

    The backend (Code.gs, src/unnamed/part_000 lines 1-471) stores
    [JSON.stringify] output in spreadsheet cells, compares ids with
    [String(x).trim()] and rebuilds objects with [JSON.parse].  This file
    gives those operations a meaning: [jvalue] for JSON values, [cell] for
    what [getValues()] returns, [jsTrim] for [String.prototype.trim] on
    the ASCII white space, and the field operations of plain objects. *)

From S2P Require Import Prelude.
From stdpp Require Import pretty.
From Stdlib Require Import Ascii.
Local Open Scope string_scope.

Inductive jvalue :=
| JNull
| JBool (b : bool)
| JNum (z : Z)
| JStr (s : string)
| JArr (xs : list jvalue)
| JObj (fields : list (string * jvalue)).

(** A cell of a sheet: text, a number, a boolean, or the text that
    [JSON.stringify v] wrote.  Text written by the code is either an id,
    a type tag, a timestamp or JSON, so a [CText] cell in a data column
    stands for text that [JSON.parse] rejects (a corrupted row). *)
Inductive cell :=
| CText (s : string)
| CNum (z : Z)
| CBool (b : bool)
| CJson (v : jvalue).

Definition emptyCell : cell := CText "".

(** ** [String.prototype.trim] on ASCII white space *)

Definition isWs (a : ascii) : bool :=
  match nat_of_ascii a with
  | 9 | 10 | 11 | 12 | 13 | 32 => true
  | _ => false
  end%nat.

Fixpoint dropWs (l : list ascii) : list ascii :=
  match l with
  | [] => []
  | a :: l' => if isWs a then dropWs l' else l
  end.

Definition jsTrim (s : string) : string :=
  String.string_of_list_ascii
    (reverse (dropWs (reverse (dropWs (String.list_ascii_of_string s))))).

(** ** [String(v)] and [JSON.stringify(v)] *)

(** The double quote character. *)
Definition dq : string := String.String (ascii_of_nat 34) String.EmptyString.

Definition quoted (s : string) : string := dq ++ s ++ dq.

Definition boolText (b : bool) : string := if b then "true" else "false".

Fixpoint jsonText (v : jvalue) : string :=
  match v with
  | JNull => "null"
  | JBool b => boolText b
  | JNum z => pretty z
  | JStr s => quoted s
  | JArr xs =>
      "[" ++ (fix go (xs : list jvalue) : string :=
                match xs with
                | [] => ""
                | [x] => jsonText x
                | x :: xs' => jsonText x ++ "," ++ go xs'
                end) xs ++ "]"
  | JObj fs =>
      "{" ++ (fix go (fs : list (string * jvalue)) : string :=
                match fs with
                | [] => ""
                | [(k, x)] => quoted k ++ ":" ++ jsonText x
                | (k, x) :: fs' => quoted k ++ ":" ++ jsonText x ++ "," ++ go fs'
                end) fs ++ "}"
  end.

(** [String(v)], with [None] for [undefined]. *)
Definition jsString (v : option jvalue) : string :=
  match v with
  | None => "undefined"
  | Some JNull => "null"
  | Some (JBool b) => boolText b
  | Some (JNum z) => pretty z
  | Some (JStr s) => s
  | Some (JArr _) => jsonText (default JNull v)
  | Some (JObj _) => "[object Object]"
  end.

(** [String(cell)] for a value of [getValues()]. *)
Definition cellString (c : cell) : string :=
  match c with
  | CText s => s
  | CNum z => pretty z
  | CBool b => boolText b
  | CJson v => jsonText v
  end.

(** [if (cell)]: JavaScript truthiness of a cell value. *)
Definition cellTruthy (c : cell) : bool :=
  match c with
  | CText s => negb (String.eqb s "")
  | CNum z => negb (z =? 0)%Z
  | CBool b => b
  | CJson _ => true
  end.

(** [JSON.parse(cell)]: the text of [JSON.stringify v] parses back to [v];
    a number or boolean cell is read as its text. *)
Definition parseCell (c : cell) : option jvalue :=
  match c with
  | CText _ => None
  | CNum z => Some (JNum z)
  | CBool b => Some (JBool b)
  | CJson v => Some v
  end.

(** [setValue(v)] / [appendRow([... v ...])] of a JavaScript value. *)
Definition cellOfValue (v : option jvalue) : cell :=
  match v with
  | None | Some JNull => emptyCell
  | Some (JStr s) => CText s
  | Some (JNum z) => CNum z
  | Some (JBool b) => CBool b
  | Some w => CText (jsString (Some w))
  end.

(** ** What Sheets stores for a written string

    [setValue], [appendRow] and [setValues] parse a string as if it were
    typed into the cell: an integer numeral (an optional sign and
    decimal digits, leading zeros allowed) becomes a number and
    [TRUE]/[FALSE] in any case becomes a boolean, so [getValues()] later
    returns [7] for the text ['007'].  Other strings are kept as text.
    Decimal fractions, dates, times, percentages and currency, which
    Sheets also converts, are outside this model: the theorems that need
    a written id to read back as itself state it as the hypothesis
    [sheetsStable], which these conversions would also have to meet. *)

Definition digitVal (a : ascii) : option Z :=
  let n := nat_of_ascii a in
  if (48 <=? n)%nat && (n <=? 57)%nat then Some (Z.of_nat (n - 48)) else None.

Fixpoint digitsVal (acc : Z) (l : list ascii) : option Z :=
  match l with
  | [] => Some acc
  | a :: l' => d ← digitVal a; digitsVal (10 * acc + d)%Z l'
  end.

(** An integer numeral: [-], [+] or nothing, then at least one digit. *)
Definition intNumeral (s : string) : option Z :=
  match String.list_ascii_of_string s with
  | [] => None
  | a :: l =>
      if Ascii.eqb a "-"%char then (match l with [] => None | _ => Z.opp <$> digitsVal 0 l end)
      else if Ascii.eqb a "+"%char then (match l with [] => None | _ => digitsVal 0 l end)
      else digitsVal 0 (a :: l)
  end.

(** ASCII letters to upper case, for the case-blind [TRUE]/[FALSE]. *)
Definition upperAscii (a : ascii) : ascii :=
  let n := nat_of_ascii a in
  if (97 <=? n)%nat && (n <=? 122)%nat then ascii_of_nat (n - 32) else a.

Definition upperString (s : string) : string :=
  String.string_of_list_ascii (upperAscii <$> String.list_ascii_of_string s).

Definition sheetsValue (s : string) : cell :=
  match intNumeral s with
  | Some z => CNum z
  | None =>
      if String.eqb (upperString s) "TRUE" then CBool true
      else if String.eqb (upperString s) "FALSE" then CBool false
      else CText s
  end.

(** The value a written cell holds afterwards.  The JSON text the code
    writes for a student, a classroom or the settings is an object and
    starts with [{], so it stays text. *)
Definition stored (c : cell) : cell :=
  match c with
  | CText s => sheetsValue s
  | _ => c
  end.

(** A string that [String(cell)] gives back after Sheets stored it. *)
Definition sheetsStable (s : string) : bool := String.eqb (cellString (stored (CText s))) s.

Lemma sheetsStable_spec s : sheetsStable s = true → cellString (stored (CText s)) = s.
Proof. unfold sheetsStable. by rewrite String.eqb_eq. Qed.

Lemma sheetsStable_value s : sheetsStable s = true → cellString (sheetsValue s) = s.
Proof. apply sheetsStable_spec. Qed.

Lemma sheetsStable_007 : sheetsStable "007" = false ∧ stored (CText "007") = CNum 7.
Proof. split; vm_compute; reflexivity. Qed.

(** ** Plain objects: [o.k], [o.k = x], [delete o.k] *)

Definition jget (k : string) (v : jvalue) : option jvalue :=
  match v with
  | JObj fs =>
      match list_find (λ p : string * jvalue, p.1 = k) fs with
      | Some (_, (_, x)) => Some x
      | None => None
      end
  | _ => None
  end.

Definition jset (k : string) (x : jvalue) (v : jvalue) : jvalue :=
  match v with
  | JObj fs =>
      match list_find (λ p : string * jvalue, p.1 = k) fs with
      | Some (i, _) => JObj (<[i := (k, x)]> fs)
      | None => JObj (fs ++ [(k, x)])
      end
  | _ => v
  end.

Definition jdelete (k : string) (v : jvalue) : jvalue :=
  match v with
  | JObj fs => JObj (List.filter (λ p, negb (String.eqb p.1 k)) fs)
  | _ => v
  end.

(** [Array.isArray(v) ? v.length : 0] *)
Definition arrayLengthOr0 (v : jvalue) : Z :=
  match v with JArr xs => Z.of_nat (length xs) | _ => 0%Z end.

(** ** Trimming is idempotent *)

Definition trimList (l : list ascii) : list ascii := reverse (dropWs (reverse (dropWs l))).

Definition startsNonWs (l : list ascii) : Prop := ∀ a, head l = Some a → isWs a = false.

Lemma dropWs_suffix l : ∃ p, l = (p ++ dropWs l)%list.
Proof.
  induction l as [|a l [p Hp]]; simpl; [by exists []|].
  destruct (isWs a); [exists (a :: p); simpl; by f_equal|by exists []].
Qed.

Lemma dropWs_starts l : startsNonWs (dropWs l).
Proof.
  induction l as [|a l IH]; simpl; [done|]. destruct (isWs a) eqn:E; [done|].
  intros b [= <-]. done.
Qed.

Lemma dropWs_fix l : startsNonWs l → dropWs l = l.
Proof. destruct l as [|a l]; simpl; [done|]. intros H. by rewrite (H a eq_refl). Qed.

Lemma trimList_starts l : startsNonWs (trimList l).
Proof.
  unfold trimList, startsNonWs. rewrite head_reverse. intros a Ha.
  destruct (dropWs_suffix (reverse (dropWs l))) as [p Hp].
  assert (last (reverse (dropWs l)) = Some a) as Hl.
  { rewrite Hp, last_app, Ha. done. }
  rewrite last_reverse in Hl. exact (dropWs_starts l a Hl).
Qed.

Lemma trimList_ends l : startsNonWs (reverse (trimList l)).
Proof. unfold trimList. rewrite reverse_involutive. apply dropWs_starts. Qed.

Lemma trimList_idem l : trimList (trimList l) = trimList l.
Proof.
  unfold trimList at 1. rewrite (dropWs_fix (trimList l)) by apply trimList_starts.
  rewrite (dropWs_fix (reverse (trimList l))) by apply trimList_ends.
  apply reverse_involutive.
Qed.

Lemma jsTrim_idem s : jsTrim (jsTrim s) = jsTrim s.
Proof.
  unfold jsTrim. rewrite String.list_ascii_of_string_of_list_ascii.
  change (String.string_of_list_ascii (trimList (trimList (String.list_ascii_of_string s))) =
          String.string_of_list_ascii (trimList (String.list_ascii_of_string s))).
  by rewrite trimList_idem.
Qed.

#[export] Hint Rewrite jsTrim_idem : npss_rw.
