(* ===== verification/Backend.v ===== *)
(** * The Apps Script backend (Code.gs)

    src/unnamed/part_000, lines 1-471.  A spreadsheet holds three sheets,
    [DB_Classrooms], [DB_Students] and [DB_Settings]; each is a list of
    rows whose row 0 is the header written by [setup].  Every handler
    reads the rows with [getDataRange().getValues()] and writes cells,
    appends or deletes rows; a write is immediate, so a handler that
    throws half-way keeps its earlier writes.  Sheets parses a written
    string as if it were typed ([Json.stored]): [setCell], [appendRow]
    and [appendRows] store ['007'] as the number [7], so the theorems
    that read an id back assume it is [sheetsStable].  A handler is a function
    [Spreadsheet -> Spreadsheet * HResult]; [handleRequest] resolves the
    spreadsheet with [getDB], dispatches on the action and turns an
    exception into an error response.  The script lock is the file
    [Concurrency]; the HTTP envelope ([ContentService]) is not
    modelled. *)

From S2P Require Import Prelude Json.

Abbreviation Row := (list cell).

Record Spreadsheet := mkSpreadsheet {
  shClassrooms : option (list Row);
  shStudents : option (list Row);
  shSettings : option (list Row)
}.

(** [SpreadsheetApp]: the container-bound spreadsheet and the ones that
    [openById] can open. *)
Record World := mkWorld {
  active : Spreadsheet;
  byId : gmap string Spreadsheet
}.

(** The result of a handler: the object it returns, or the message of
    the exception it throws. *)
Inductive HResult :=
| HOk (v : jvalue)
| HExn (msg : string).

Definition successResult : jvalue := JObj [("status", JStr "success")].
Definition successMsg (m : string) : jvalue :=
  JObj [("status", JStr "success"); ("message", JStr m)].
Definition errorResult (m : string) : jvalue :=
  JObj [("status", JStr "error"); ("message", JStr m)].

(** ** [getDB(sheetId)] *)

Inductive Target := TActive | TById (sid : string).

(** A string id longer than 10 characters is opened; an id that
    [openById] cannot open throws and falls back to the active one. *)
Definition getDB (w : World) (sheetId : option jvalue) : Target :=
  match sheetId with
  | Some (JStr sid) =>
      if (10 <? String.length sid)%nat then
        match byId w !! sid with Some _ => TById sid | None => TActive end
      else TActive
  | _ => TActive
  end.

Definition readSS (w : World) (t : Target) : Spreadsheet :=
  match t with
  | TActive => active w
  | TById sid => default (active w) (byId w !! sid)
  end.

Definition writeSS (w : World) (t : Target) (ss : Spreadsheet) : World :=
  match t with
  | TActive => mkWorld ss (byId w)
  | TById sid => mkWorld (active w) (<[sid := ss]> (byId w))
  end.

(** ** [setup(sheetId)] *)

Definition headerRow (names : list string) : Row := CText <$> names.
Definition classroomsHeader : Row := headerRow ["id"; "data"; "updated_at"; "deleted_at"].
Definition studentsHeader : Row := headerRow ["classroom_id"; "student_id"; "data"; "updated_at"].
Definition settingsHeader : Row := headerRow ["classroom_id"; "type"; "data"; "updated_at"].

(** A missing sheet is inserted with its header row. *)
Definition setup (ss : Spreadsheet) : Spreadsheet :=
  mkSpreadsheet
    (Some (default [classroomsHeader] (shClassrooms ss)))
    (Some (default [studentsHeader] (shStudents ss)))
    (Some (default [settingsHeader] (shSettings ss))).

(** ** Rows and cells *)

(** [data[i][k]]: [getValues()] is rectangular, padded with empty cells. *)
Definition cellAt (r : Row) (k : nat) : cell := default emptyCell (r !! k).

(** [String(data[i][k]).trim()] *)
Definition keyAt (r : Row) (k : nat) : string := jsTrim (cellString (cellAt r k)).

(** [for (let i = 1; i < data.length; i++) if (p(data[i])) { ...; break; }]:
    the first data row (index 1 or more) that satisfies [p]. *)
Definition findFrom1 (p : Row → bool) (rows : list Row) : option nat :=
  (λ ir : nat * Row, S ir.1) <$> list_find (λ r, p r = true) (drop 1 rows).

(** [for (let i = data.length - 1; i >= 1; i--) if (p(data[i])) { ...; break; }]:
    the last data row that satisfies [p]. *)
Definition findLastFrom1 (p : Row → bool) (rows : list Row) : option nat :=
  (λ ir : nat * Row, (length rows - 1 - ir.1)%nat) <$>
    list_find (λ r, p r = true) (reverse (drop 1 rows)).

(** [getRange(i + 1, k + 1).setValue(c)] on one row: a cell beyond the
    row's last one is created, the cells between stay empty. *)
Definition setCellRow (k : nat) (c : cell) (r : Row) : Row :=
  <[k := c]> (r ++ replicate (S k - length r) emptyCell).

(** [sheet.getRange(i + 1, k + 1).setValue(c)]: Sheets parses the
    written value ([stored]). *)
Definition setCell (i k : nat) (c : cell) (rows : list Row) : list Row :=
  alter (setCellRow k (stored c)) i rows.

(** [sheet.appendRow(r)] *)
Definition appendRow (rows : list Row) (r : Row) : list Row := rows ++ [stored <$> r].

(** [sheet.getRange(sheet.getLastRow() + 1, 1, rs.length, 4).setValues(rs)] *)
Definition appendRows (rows : list Row) (rs : list Row) : list Row := rows ++ ((λ r : Row, stored <$> r) <$> rs).

(** [sheet.deleteRow(i + 1)] *)
Definition deleteRowAt (i : nat) (rows : list Row) : list Row :=
  take i rows ++ drop (S i) rows.

(** Deleting, from the last row back to row 1, every row that satisfies
    [p]: the header stays and the other rows keep their order. *)
Definition deleteWhere (p : Row → bool) (rows : list Row) : list Row :=
  match rows with
  | [] => []
  | h :: t => h :: List.filter (λ r, negb (p r)) t
  end.

(** [String(a).trim() == b] on column [k]. *)
Definition keyIs (k : nat) (key : string) (r : Row) : bool := keyAt r k =s? key.

(** [payload.deletedAt || ''] *)
Definition orEmpty (v : option jvalue) : cell :=
  match v with
  | Some x => if cellTruthy (cellOfValue (Some x)) then cellOfValue (Some x) else emptyCell
  | None => emptyCell
  end.

(** [cell === "s"]: strict equality of a cell value with a string. *)
Definition cellIsText (s : string) (c : cell) : bool :=
  match c with CText t => t =s? s | _ => false end.

(** The value of a cell as a JavaScript value. *)
Definition cellValue (c : cell) : jvalue :=
  match c with
  | CText s => JStr s
  | CNum z => JNum z
  | CBool b => JBool b
  | CJson v => JStr (jsonText v)
  end.

(** [data[i][1] == type]: loose equality of a cell with a JS value. *)
Definition looseEq (c : cell) (v : option jvalue) : bool :=
  match c, v with
  | CText s, Some (JStr s') => s =s? s'
  | CNum z, Some (JNum z') => (z =? z')%Z
  | CBool b, Some (JBool b') => Bool.eqb b b'
  | CJson x, Some (JStr s') => jsonText x =s? s'
  | _, _ => false
  end.

(** ** The handlers *)

(** [updateClassroomTimestamp(classroomId, ss)] *)
Definition updateClassroomTimestamp (classroomId : option jvalue) (now : string)
    (ss : Spreadsheet) : Spreadsheet :=
  match shClassrooms ss with
  | None => ss
  | Some data =>
      let cid := jsTrim (jsString classroomId) in
      match findFrom1 (keyIs 0 cid) data with
      | Some i => mkSpreadsheet (Some (setCell i 2 (CText now) data)) (shStudents ss) (shSettings ss)
      | None => ss
      end
  end.

(** The [planCounts] object of [getClassrooms]: for every [PLANS] row,
    the length of its array (0 if it is not an array); a row whose JSON
    does not parse is skipped; a later row overwrites. *)
Definition planCounts (setData : list Row) : gmap string Z :=
  fold_left (λ pc r,
      if cellIsText "PLANS" (cellAt r 1) then
        match parseCell (cellAt r 2) with
        | Some plans => JsObj.set (keyAt r 0) (arrayLengthOr0 plans) pc
        | None => pc
        end
      else pc) (drop 1 setData) ∅.

(** One row of [DB_Classrooms] as [getClassrooms] returns it, or [None]
    when the row is empty or its JSON is corrupted (or [null], on which
    the property writes throw). *)
Definition classroomOfRow (pc : gmap string Z) (r : Row) : option jvalue :=
  let json := cellAt r 1 in
  let updatedAt := cellAt r 2 in
  let deletedAt := cellAt r 3 in
  if cellTruthy json then
    match parseCell json with
    | None | Some JNull => None
    | Some obj =>
        let obj1 := if cellTruthy deletedAt then jset "deletedAt" (cellValue deletedAt) obj else obj in
        let obj2 := if cellTruthy updatedAt then jset "updatedAt" (cellValue updatedAt) obj1 else obj1 in
        let objId := jsTrim (jsString (jget "id" obj2)) in
        let count :=
          match pc !! objId with
          | Some n => JNum n
          | None => default (JNum 0) (jget "planCount" obj2)
          end in
        Some (jset "planCount" count obj2)
    end
  else None.

(** [getClassrooms(sheetId)] *)
Definition getClassrooms (ss : Spreadsheet) : jvalue :=
  match shClassrooms ss with
  | None => JObj [("status", JStr "success"); ("data", JArr [])]
  | Some data =>
      let pc := match shSettings ss with Some setData => planCounts setData | None => ∅ end in
      JObj [("status", JStr "success"); ("data", JArr (omap (classroomOfRow pc) (drop 1 data)))]
  end.

(** [saveClassroom(payload, sheetId)] *)
Definition saveClassroom (payload : jvalue) (now : string) (ss : Spreadsheet)
    : Spreadsheet * HResult :=
  let ss1 := match shClassrooms ss with None => setup ss | Some _ => ss end in
  match shClassrooms ss1 with
  | None => (ss1, HOk (errorResult "Failed to create DB_Classrooms sheet."))
  | Some data =>
      let id := jsTrim (jsString (jget "id" payload)) in
      let json := CJson (jdelete "sheetId" (jdelete "action" payload)) in
      let data' :=
        match findFrom1 (keyIs 0 id) data with
        | Some i =>
            setCell i 3 (match jget "deletedAt" payload with
                         | None => emptyCell
                         | Some v => cellOfValue (Some v)
                         end)
              (setCell i 2 (CText now) (setCell i 1 json data))
        | None => appendRow data [CText id; json; CText now; orEmpty (jget "deletedAt" payload)]
        end in
      (mkSpreadsheet (Some data') (shStudents ss1) (shSettings ss1), HOk successResult)
  end.

(** [deleteClassroom(id, sheetId)]: the last row with the id goes, then
    every student row and every settings row of the classroom. *)
Definition deleteClassroom (idv : option jvalue) (ss : Spreadsheet) : Spreadsheet * HResult :=
  match shClassrooms ss with
  | None => (ss, HOk (errorResult "Sheet DB_Classrooms not found"))
  | Some data =>
      let targetId := jsTrim (jsString idv) in
      match findLastFrom1 (keyIs 0 targetId) data with
      | None => (ss, HOk (errorResult ("Classroom ID not found: " ++ targetId)%string))
      | Some i =>
          (mkSpreadsheet (Some (deleteRowAt i data))
             (deleteWhere (keyIs 0 targetId) <$> shStudents ss)
             (deleteWhere (keyIs 0 targetId) <$> shSettings ss),
           HOk successResult)
      end
  end.

(** [getDashboardData(classroomId, sheetId)]: the parsed student rows of
    the classroom, in sheet order, and the last [PLANS] and [SUBJECTS]
    settings of the classroom that parse. *)
Definition dashStudents (cid : string) (stuData : list Row) : list jvalue :=
  omap (λ r, if keyIs 0 cid r then parseCell (cellAt r 2) else None) (drop 1 stuData).

Definition dashSetting (cid ty : string) (setData : list Row) : option jvalue :=
  fold_left (λ acc r,
      if keyIs 0 cid r && cellIsText ty (cellAt r 1) then
        match parseCell (cellAt r 2) with Some v => Some v | None => acc end
      else acc) (drop 1 setData) None.

Definition getDashboardData (classroomId : option jvalue) (ss : Spreadsheet) : jvalue :=
  let cid := jsTrim (jsString classroomId) in
  let students := match shStudents ss with Some d => dashStudents cid d | None => [] end in
  let plans := match shSettings ss with Some d => dashSetting cid "PLANS" d | None => None end in
  let subjects := match shSettings ss with Some d => dashSetting cid "SUBJECTS" d | None => None end in
  JObj [("status", JStr "success"); ("students", JArr students);
        ("plans", default JNull plans); ("subjects", default JNull subjects)].

(** The loop of [saveStudent]: the first row of (classroom, student)
    gets the new JSON and time, or a row is appended. *)
Definition upsertStudentRow (classroomId studentId : string) (json : cell) (now : string)
    (data : list Row) : list Row :=
  match findFrom1 (λ r, keyIs 0 classroomId r && keyIs 1 studentId r) data with
  | Some i => setCell i 3 (CText now) (setCell i 2 json data)
  | None => appendRow data [CText classroomId; CText studentId; json; CText now]
  end.

(** [saveStudent(payload, sheetId)]: update the row of (classroom,
    student) or append one, then touch the classroom.  [student.id] on an
    absent or [null] student throws, after the sheet was set up. *)
Definition saveStudent (payload : jvalue) (now : string) (ss : Spreadsheet)
    : Spreadsheet * HResult :=
  let ss1 := match shStudents ss with None => setup ss | Some _ => ss end in
  match shStudents ss1 with
  | None => (ss1, HOk (errorResult "Failed to create DB_Students sheet."))
  | Some data =>
      let classroomId := jsTrim (jsString (jget "classroomId" payload)) in
      match jget "student" payload with
      | None | Some JNull => (ss1, HExn "TypeError: Cannot read properties of student")
      | Some student =>
          let studentId := jsTrim (jsString (jget "id" student)) in
          let data' := upsertStudentRow classroomId studentId (CJson student) now data in
          (updateClassroomTimestamp (Some (JStr classroomId)) now
             (mkSpreadsheet (shClassrooms ss1) (Some data') (shSettings ss1)),
           HOk successResult)
      end
  end.

(** The [indexMap] of [saveStudents]: student id to row index, for the
    rows of the classroom; a later row overwrites. *)
Definition indexMap (classroomId : string) (data : list Row) : gmap string nat :=
  fold_left (λ m ir,
      let '(i, r) := ir in
      if keyIs 0 classroomId r then <[keyAt r 1 := i]> m else m)
    (zip (seq 1 (length data - 1)) (drop 1 data)) ∅.

(** [students.forEach(...)]: existing rows are updated in place (the map
    is not updated, so two students of the batch with a new id are both
    queued for appending); the rows to append are collected in order.  A
    [null] element throws, keeping the updates made before it. *)
Fixpoint saveStudentsLoop (classroomId : string) (now : string) (im : gmap string nat)
    (students : list jvalue) (data : list Row) (newRows : list Row)
    : list Row * list Row * option string :=
  match students with
  | [] => (data, newRows, None)
  | JNull :: _ => (data, newRows, Some "TypeError: Cannot read properties of null")
  | student :: rest =>
      let studentId := jsTrim (jsString (jget "id" student)) in
      let json := CJson student in
      match im !! studentId with
      | Some rowIndex =>
          saveStudentsLoop classroomId now im rest
            (setCell rowIndex 3 (CText now) (setCell rowIndex 2 json data)) newRows
      | None =>
          saveStudentsLoop classroomId now im rest data
            (newRows ++ [[CText classroomId; CText studentId; json; CText now]])
      end
  end.

(** [saveStudents(payload, sheetId)] *)
Definition saveStudents (payload : jvalue) (now : string) (ss : Spreadsheet)
    : Spreadsheet * HResult :=
  let ss1 := match shStudents ss with None => setup ss | Some _ => ss end in
  match shStudents ss1 with
  | None => (ss1, HExn "TypeError: Cannot read properties of null")
  | Some data =>
      let classroomId := jsTrim (jsString (jget "classroomId" payload)) in
      match jget "students" payload with
      | Some (JArr students) =>
          let im := indexMap classroomId data in
          match saveStudentsLoop classroomId now im students data [] with
          | (data', _, Some msg) =>
              (mkSpreadsheet (shClassrooms ss1) (Some data') (shSettings ss1), HExn msg)
          | (data', newRows, None) =>
              let data'' := appendRows data' newRows in
              (updateClassroomTimestamp (Some (JStr classroomId)) now
                 (mkSpreadsheet (shClassrooms ss1) (Some data'') (shSettings ss1)),
               HOk (JObj [("status", JStr "success");
                          ("count", JNum (Z.of_nat (length students)))]))
          end
      | _ => (ss1, HExn "TypeError: students.forEach is not a function")
      end
  end.

(** [deleteStudent(classroomId, studentId, sheetId)]: the first matching
    row goes. *)
Definition deleteStudent (classroomId studentId : option jvalue) (now : string)
    (ss : Spreadsheet) : Spreadsheet * HResult :=
  match shStudents ss with
  | None => (ss, HOk (successMsg "Sheet not found, nothing to delete."))
  | Some data =>
      let cid := jsTrim (jsString classroomId) in
      let sid := jsTrim (jsString studentId) in
      match findFrom1 (λ r, keyIs 0 cid r && keyIs 1 sid r) data with
      | Some i =>
          (updateClassroomTimestamp classroomId now
             (mkSpreadsheet (shClassrooms ss) (Some (deleteRowAt i data)) (shSettings ss)),
           HOk successResult)
      | None => (ss, HOk (successMsg "Not found"))
      end
  end.

(** [saveSettings(payload, sheetId)]: one row per (classroom, type). *)
Definition saveSettings (payload : jvalue) (now : string) (ss : Spreadsheet)
    : Spreadsheet * HResult :=
  let ss1 := match shSettings ss with None => setup ss | Some _ => ss end in
  match shSettings ss1 with
  | None => (ss1, HOk (errorResult "Failed to create DB_Settings sheet."))
  | Some data =>
      let classroomId := jsTrim (jsString (jget "classroomId" payload)) in
      let type := jget "type" payload in
      let json := match jget "data" payload with Some v => CJson v | None => emptyCell end in
      let data' :=
        match findFrom1 (λ r, keyIs 0 classroomId r && looseEq (cellAt r 1) type) data with
        | Some i => setCell i 3 (CText now) (setCell i 2 json data)
        | None => appendRow data [CText classroomId; cellOfValue type; json; CText now]
        end in
      (updateClassroomTimestamp (Some (JStr classroomId)) now
         (mkSpreadsheet (shClassrooms ss1) (shStudents ss1) (Some data')),
       HOk successResult)
  end.

(** ** [doGet] / [doPost] / [handleRequest(e)] *)

Record Request := mkRequest {
  paramAction : option string;
  paramSheetId : option string;
  paramClassroomId : option string;
  (** [JSON.parse(e.postData.contents)], [None] when there is no body or
      it does not parse (the body is then [{}]) *)
  postBody : option jvalue
}.

(** JavaScript truthiness of a value ([undefined] is [None]). *)
Definition jsTruthy (v : option jvalue) : bool :=
  match v with
  | None | Some JNull => false
  | Some (JBool b) => b
  | Some (JNum z) => negb (z =? 0)%Z
  | Some (JStr s) => negb (s =s? "")
  | Some (JArr _) | Some (JObj _) => true
  end.

(** [a || b] *)
Definition jsOr (a b : option jvalue) : option jvalue := if jsTruthy a then a else b.

(** Run a handler on the spreadsheet [getDB] selects and store it back. *)
Definition onDB (w : World) (sheetId : option jvalue)
    (h : Spreadsheet → Spreadsheet * HResult) : World * HResult :=
  let t := getDB w sheetId in
  let '(ss', r) := h (readSS w t) in
  (writeSS w t ss', r).

(** The action dispatch of [handleRequest], with the exception handler. *)
Definition dispatch (w : World) (action sheetId : option jvalue) (body : jvalue)
    (e : Request) (now : string) : World * HResult :=
  let ro (f : Spreadsheet → jvalue) := onDB w sheetId (λ ss, (ss, HOk (f ss))) in
  match action with
  | Some (JStr a) =>
      if a =s? "getClassrooms" then ro getClassrooms
      else if a =s? "saveClassroom" then onDB w sheetId (saveClassroom body now)
      else if a =s? "deleteClassroom" then onDB w sheetId (deleteClassroom (jget "id" body))
      else if a =s? "getDashboardData" then
        ro (getDashboardData (jsOr (jget "classroomId" body) (JStr <$> paramClassroomId e)))
      else if a =s? "saveStudent" then onDB w sheetId (saveStudent body now)
      else if a =s? "saveStudents" then onDB w sheetId (saveStudents body now)
      else if a =s? "deleteStudent" then
        onDB w sheetId (deleteStudent (jget "classroomId" body) (jget "studentId" body) now)
      else if a =s? "saveSettings" then onDB w sheetId (saveSettings body now)
      else if a =s? "setup" then
        onDB w sheetId (λ ss, (setup ss, HOk (successMsg "Setup completed successfully")))
      else (w, HOk (errorResult ("Unknown action: " ++ a)%string))
  | _ => (w, HOk (errorResult ("Unknown action: " ++ jsString action)%string))
  end.

Definition responseOf (r : HResult) : jvalue :=
  match r with
  | HOk v => v
  | HExn msg => errorResult msg
  end.

Definition handleRequest (w : World) (e : Request) (now : string) : World * jvalue :=
  let body := default (JObj []) (postBody e) in
  match body with
  | JNull => (w, errorResult "TypeError: Cannot read properties of null")
  | _ =>
      let paramA := JStr <$> paramAction e in
      let action := if jsTruthy paramA then paramA
                    else if jsTruthy (jget "action" body) then jget "action" body else paramA in
      let sheetId := jsOr (jget "sheetId" body) (JStr <$> paramSheetId e) in
      let '(w', r) := dispatch w action sheetId body e now in
      (w', responseOf r)
  end.

(** ** The names [handleRequest] dispatches on *)

Definition actionNames : list string :=
  ["getClassrooms"; "saveClassroom"; "deleteClassroom"; "getDashboardData";
   "saveStudent"; "saveStudents"; "deleteStudent"; "saveSettings"; "setup"].

(** ** Example sheets *)

Definition exEmptySheets : Spreadsheet :=
  mkSpreadsheet (Some [classroomsHeader]) (Some [studentsHeader]) (Some [settingsHeader]).

Definition exStudentObj (sid : string) : jvalue := JObj [("id", JStr sid)].

(** A classroom [C1] with one student [S1] and its [PLANS] setting. *)
Definition exSheets1 : Spreadsheet :=
  mkSpreadsheet
    (Some [classroomsHeader; [CText "C1"; CJson (JObj [("id", JStr "C1")]); CText "t0"; emptyCell]])
    (Some [studentsHeader; [CText "C1"; CText "S1"; CJson (exStudentObj "S1"); CText "t0"]])
    (Some [settingsHeader; [CText "C1"; CText "PLANS"; CJson (JArr []); CText "t0"]]).

(** ** Row lemmas *)

Lemma fmap_alter_inv {A B} (g : A → B) (f : A → A) (i : nat) (l : list A) :
  (∀ x, g (f x) = g x) → g <$> alter f i l = g <$> l.
Proof.
  intros Hg. revert i. induction l as [|x l IH]; intros [|i]; csimpl; [done|done| |].
  - by rewrite Hg.
  - by rewrite IH.
Qed.

Lemma cellAt_pad (r : Row) n k : cellAt (r ++ replicate n emptyCell) k = cellAt r k.
Proof.
  unfold cellAt. destruct (decide (k < length r)).
  - by rewrite lookup_app_l.
  - rewrite lookup_app_r, (lookup_ge_None_2 r k) by lia. simpl.
    destruct (replicate n emptyCell !! (k - length r)) as [c|] eqn:E; [|done].
    by apply lookup_replicate_1 in E as [-> _].
Qed.

Lemma cellAt_setCellRow_ne (r : Row) k k' c : k ≠ k' → cellAt (setCellRow k c r) k' = cellAt r k'.
Proof.
  intros Hk. unfold setCellRow. rewrite <-(cellAt_pad r (S k - length r) k').
  unfold cellAt at 1. by rewrite list_lookup_insert_ne.
Qed.

Lemma cellAt_setCellRow_eq (r : Row) k c : cellAt (setCellRow k c r) k = c.
Proof.
  unfold setCellRow, cellAt. rewrite list_lookup_insert_eq; [done|].
  rewrite length_app, length_replicate. lia.
Qed.

Lemma keyAt_setCellRow_ne (r : Row) k k' c : k ≠ k' → keyAt (setCellRow k c r) k' = keyAt r k'.
Proof. intros Hk. unfold keyAt. by rewrite cellAt_setCellRow_ne. Qed.

Lemma findFrom1_None p rows : findFrom1 p rows = None → ∀ r, r ∈ drop 1 rows → p r = false.
Proof.
  unfold findFrom1. destruct (list_find _ _) eqn:E; [done|]. intros _ r Hr.
  rewrite list_find_None, Forall_forall in E. apply not_true_is_false. by apply E.
Qed.

Lemma findFrom1_Some p rows i :
  findFrom1 p rows = Some i → 1 ≤ i ∧ ∃ r, rows !! i = Some r ∧ p r = true.
Proof.
  unfold findFrom1. destruct (list_find _ _) as [[j r]|] eqn:E; [|done]. intros [= <-].
  apply list_find_Some in E as (Hj & Hp & _). rewrite lookup_drop in Hj.
  split; [simpl; lia|]. by exists r.
Qed.

Lemma drop1_snoc (l : list Row) (x : Row) : l ≠ [] → drop 1 (l ++ [x]) = drop 1 l ++ [x].
Proof. destruct l; [done|]. by intros _. Qed.

Lemma updateClassroomTimestamp_students cid now ss :
  shStudents (updateClassroomTimestamp cid now ss) = shStudents ss.
Proof. unfold updateClassroomTimestamp. by repeat case_match. Qed.

Lemma updateClassroomTimestamp_settings cid now ss :
  shSettings (updateClassroomTimestamp cid now ss) = shSettings ss.
Proof. unfold updateClassroomTimestamp. by repeat case_match. Qed.

#[export] Hint Rewrite updateClassroomTimestamp_students updateClassroomTimestamp_settings : npss_rw.

(** ** The (classroom, student) key of the student rows *)

Definition studentKey (r : Row) : string * string := (keyAt r 0, keyAt r 1).

(** At most one row per (classroom, student). *)
Definition StudentsUnique (ss : Spreadsheet) : Prop :=
  ∀ data, shStudents ss = Some data → NoDup (studentKey <$> drop 1 data).

Lemma setCell_studentKey i k c (data : list Row) :
  2 ≤ k → studentKey <$> drop 1 (setCell i k c data) = studentKey <$> drop 1 data.
Proof.
  intros Hk. unfold setCell. rewrite !fmap_drop, fmap_alter_inv; [done|].
  intros r. unfold studentKey. rewrite !keyAt_setCellRow_ne by lia. done.
Qed.

(** The key of an appended row is the key written, when Sheets keeps
    both ids as text. *)
Lemma studentKey_new cid sid json now :
  sheetsStable cid = true → sheetsStable sid = true →
  studentKey (stored <$> [CText cid; CText sid; json; CText now]) = (jsTrim cid, jsTrim sid).
Proof.
  intros Hc Hs. unfold studentKey, keyAt, cellAt. simpl.
  by rewrite !sheetsStable_value.
Qed.

Lemma studentKey_not_found cid sid (data : list Row) :
  findFrom1 (λ r, keyIs 0 cid r && keyIs 1 sid r) data = None →
  (cid, sid) ∉ studentKey <$> drop 1 data.
Proof.
  intros Hnone (r & Hr & Hin)%list_elem_of_fmap. apply (findFrom1_None _ _ Hnone) in Hin.
  unfold studentKey, keyIs in *. simplify_eq. rewrite !String.eqb_refl in Hin. done.
Qed.

Lemma setup_students_header ss :
  shStudents ss = None → shStudents (setup ss) = Some [studentsHeader].
Proof. unfold setup. simpl. by intros ->. Qed.

Lemma upsertStudentRow_unique cid sid json now (data : list Row) :
  sheetsStable (jsTrim cid) = true → sheetsStable (jsTrim sid) = true →
  NoDup (studentKey <$> drop 1 data) →
  NoDup (studentKey <$> drop 1 (upsertStudentRow (jsTrim cid) (jsTrim sid) json now data)).
Proof.
  intros Hc Hs Hnd. unfold upsertStudentRow, appendRow.
  destruct (findFrom1 _ data) as [i|] eqn:F.
  { by rewrite !setCell_studentKey by lia. }
  destruct (decide (data = [])) as [->|Hne]; [constructor|].
  rewrite drop1_snoc, fmap_app by done. rewrite (fmap_cons studentKey), fmap_nil.
  rewrite studentKey_new, !jsTrim_idem by done.
  apply NoDup_app. split_and!; [done| |by apply NoDup_singleton].
  intros k Hk ->%list_elem_of_singleton. by eapply studentKey_not_found.
Qed.

(** C13: [saveStudent] keeps at most one row per (classroom, student)
    when Sheets stores the two trimmed ids as the text written (not a
    numeral such as ['007'], which becomes [7]): the handler updates the
    row it finds or appends a row whose key no row has. *)
Theorem saveStudent_unique payload now ss :
  sheetsStable (jsTrim (jsString (jget "classroomId" payload))) = true →
  (∀ st, jget "student" payload = Some st → sheetsStable (jsTrim (jsString (jget "id" st))) = true) →
  StudentsUnique ss → StudentsUnique (saveStudent payload now ss).1.
Proof.
  intros Hc Hs Hu. unfold saveStudent.
  destruct (jget "student" payload) as [st|] eqn:Hst; [specialize (Hs st eq_refl)|];
  destruct (shStudents ss) as [data0|] eqn:E; cbn [shStudents setup]; rewrite ?E; simpl;
    try (destruct st); simpl; try exact Hu;
    try (intros d; simpl; rewrite E; intros [= <-]; constructor);
    intros d; rewrite updateClassroomTimestamp_students; simpl; intros [= <-];
    (apply upsertStudentRow_unique; [done|done|]); first [by apply Hu | constructor].
Qed.

(** ** Saving and reading back *)

Lemma getDashboardData_students cidv ss :
  jget "students" (getDashboardData cidv ss) =
  Some (JArr (match shStudents ss with
              | Some d => dashStudents (jsTrim (jsString cidv)) d
              | None => []
              end)).
Proof. reflexivity. Qed.

Lemma upsertStudentRow_dash cid sid st now (data : list Row) :
  sheetsStable (jsTrim cid) = true → data ≠ [] →
  st ∈ dashStudents (jsTrim cid) (upsertStudentRow (jsTrim cid) sid (CJson st) now data).
Proof.
  intros Hc Hne. unfold upsertStudentRow, appendRow, dashStudents. rewrite list_elem_of_omap.
  destruct (findFrom1 _ data) as [i|] eqn:F.
  - apply findFrom1_Some in F as (Hi & r & Hr & Hp). apply andb_prop in Hp as [Hp _].
    exists (setCellRow 3 (stored (CText now)) (setCellRow 2 (CJson st) r)). split.
    + apply list_elem_of_lookup_2 with (i - 1). rewrite lookup_drop.
      replace (1 + (i - 1)) with i by lia. unfold setCell.
      by rewrite !list_lookup_alter_eq, Hr.
    + unfold keyIs, keyAt in *.
      rewrite (cellAt_setCellRow_ne _ 3 0), (cellAt_setCellRow_ne _ 2 0), Hp by lia.
      by rewrite (cellAt_setCellRow_ne _ 3 2), cellAt_setCellRow_eq by lia.
  - exists (stored <$> [CText (jsTrim cid); CText sid; CJson st; CText now]). split.
    + rewrite drop1_snoc by done. apply elem_of_app. right. by apply list_elem_of_singleton.
    + unfold keyIs, keyAt, cellAt. simpl. by rewrite sheetsStable_value, jsTrim_idem, String.eqb_refl.
Qed.

(** A [saveStudent] of a student that is not [null] succeeds and the
    students sheet it leaves lists the student under its classroom. *)
Lemma saveStudent_ok payload now ss st :
  sheetsStable (jsTrim (jsString (jget "classroomId" payload))) = true →
  (∀ data, shStudents ss = Some data → data ≠ []) →
  jget "student" payload = Some st → st ≠ JNull →
  (saveStudent payload now ss).2 = HOk successResult ∧
  st ∈ match shStudents (saveStudent payload now ss).1 with
       | Some d => dashStudents (jsTrim (jsString (jget "classroomId" payload))) d
       | None => []
       end.
Proof.
  intros Hc Hhdr Hst Hnull. unfold saveStudent.
  destruct (shStudents ss) as [data0|] eqn:E; simpl; rewrite ?E; simpl;
    rewrite Hst; destruct st; try congruence; simpl;
    rewrite updateClassroomTimestamp_students; simpl;
    (split; [done|]); (apply upsertStudentRow_dash; [done|]); first [done | by apply Hhdr].
Qed.

(** C14: after [saveStudent], reading the classroom with
    [getDashboardData] returns the saved student, when the sheet had its
    header row, as [setup] writes it, and Sheets stores the trimmed
    classroom id as the text written. *)
Theorem saveStudent_roundtrip payload now ss st :
  sheetsStable (jsTrim (jsString (jget "classroomId" payload))) = true →
  (∀ data, shStudents ss = Some data → data ≠ []) →
  jget "student" payload = Some st → st ≠ JNull →
  ∃ l, jget "students" (getDashboardData (jget "classroomId" payload)
                          (saveStudent payload now ss).1) = Some (JArr l) ∧ st ∈ l.
Proof.
  intros Hc Hhdr Hst Hnull. rewrite getDashboardData_students. eexists. split; [reflexivity|].
  by apply saveStudent_ok.
Qed.

(** ** Deleting *)

Lemma drop1_deleteWhere p (rows : list Row) :
  drop 1 (deleteWhere p rows) = List.filter (λ r, negb (p r)) (drop 1 rows).
Proof. by destruct rows. Qed.

Lemma deleteWhere_gone p (rows : list Row) r : r ∈ drop 1 (deleteWhere p rows) → p r = false.
Proof.
  rewrite drop1_deleteWhere, list_elem_of_In, filter_In. intros [_ H].
  by apply negb_true_iff.
Qed.

(** C15: a successful [deleteClassroom] removes one row of
    [DB_Classrooms] and leaves no student row and no settings row of the
    classroom. *)
Theorem deleteClassroom_cascade idv ss ss' :
  deleteClassroom idv ss = (ss', HOk successResult) →
  (∃ data data', shClassrooms ss = Some data ∧ shClassrooms ss' = Some data' ∧
     length data' = (length data - 1)%nat) ∧
  (∀ d r, shStudents ss' = Some d → r ∈ drop 1 d → keyAt r 0 ≠ jsTrim (jsString idv)) ∧
  (∀ d r, shSettings ss' = Some d → r ∈ drop 1 d → keyAt r 0 ≠ jsTrim (jsString idv)).
Proof.
  unfold deleteClassroom. destruct (shClassrooms ss) as [data|] eqn:Hc; [|done].
  destruct (findLastFrom1 _ data) as [i|] eqn:Hf; [|done].
  intros [= <-]. simpl. split_and!.
  - eexists _, _. split_and!; [done|done|]. unfold deleteRowAt.
    unfold findLastFrom1 in Hf. destruct (list_find _ _) as [[j r]|] eqn:E; [|done].
    simpl in Hf. injection Hf as <-. apply list_find_Some in E as (Hj & _).
    apply lookup_lt_Some in Hj. rewrite length_reverse, length_drop in Hj.
    rewrite length_app, length_take, length_drop. lia.
  - intros d r Hd Hr. destruct (shStudents ss); simplify_eq/=.
    apply deleteWhere_gone in Hr. unfold keyIs in Hr. by apply String.eqb_neq in Hr.
  - intros d r Hd Hr. destruct (shSettings ss); simplify_eq/=.
    apply deleteWhere_gone in Hr. unfold keyIs in Hr. by apply String.eqb_neq in Hr.
Qed.

Lemma drop1_deleteRowAt (rows : list Row) i :
  1 ≤ i → drop 1 (deleteRowAt i rows) = delete (i - 1) (drop 1 rows).
Proof.
  intros Hi. unfold deleteRowAt. rewrite <-delete_take_drop.
  destruct rows as [|r rows]; [done|]. destruct i as [|i]; [lia|]. simpl.
  by rewrite Nat.sub_0_r.
Qed.

(** C17: when the rows of [DB_Students] have distinct (classroom,
    student) keys, [deleteStudent] leaves no row of that student in that
    classroom. *)
Theorem deleteStudent_removes cidv sidv now ss :
  StudentsUnique ss →
  ∀ d, shStudents (deleteStudent cidv sidv now ss).1 = Some d →
  (jsTrim (jsString cidv), jsTrim (jsString sidv)) ∉ studentKey <$> drop 1 d.
Proof.
  intros Hu d. unfold deleteStudent. destruct (shStudents ss) as [data|] eqn:Hs; [|by simpl; rewrite Hs].
  destruct (findFrom1 _ data) as [i|] eqn:F.
  - simpl. rewrite updateClassroomTimestamp_students. simpl. intros [= <-].
    apply findFrom1_Some in F as (Hi & r & Hr & Hp).
    rewrite drop1_deleteRowAt, list_fmap_delete by done.
    assert ((studentKey <$> drop 1 data) !! (i - 1) =
            Some (jsTrim (jsString cidv), jsTrim (jsString sidv))) as Hk.
    { rewrite list_lookup_fmap, lookup_drop. replace (1 + (i - 1)) with i by lia.
      rewrite Hr. simpl. apply andb_prop in Hp as [H0 H1]. unfold keyIs in H0, H1.
      apply String.eqb_eq in H0, H1. unfold studentKey. by rewrite H0, H1. }
    pose proof (Hu data Hs) as Hnd. rewrite (delete_Permutation _ _ _ Hk) in Hnd.
    by apply NoDup_cons in Hnd as [Hnotin _].
  - simpl. rewrite Hs. intros [= <-]. by apply studentKey_not_found.
Qed.

(** ** The bulk save appends duplicates *)

(** [saveStudents] does not keep one row per (classroom, student):
    [indexMap] is built once before the loop and never updated, so a
    batch that holds the same new student twice appends two rows with the
    same key, while [saveStudent] never does (C18). *)
Theorem saveStudents_duplicate_rows :
  StudentsUnique exEmptySheets ∧
  ¬ StudentsUnique
      (saveStudents (JObj [("classroomId", JStr "C1");
                           ("students", JArr [exStudentObj "S1"; exStudentObj "S1"])])
         "2026-01-01T00:00:00.000Z" exEmptySheets).1.
Proof.
  split.
  - intros d [= <-]. constructor.
  - intros Hu. pose proof (Hu _ eq_refl) as Hnd. vm_compute in Hnd.
    apply NoDup_cons in Hnd as [Hnotin _]. apply Hnotin. by left.
Qed.

(** ** Dispatch *)

(** ** Requests *)

(** A request with an [action] parameter and a body that is not [null]
    is dispatched on that action. *)
Lemma handleRequest_dispatch w e now a b :
  paramAction e = Some a → a ≠ "" → postBody e = Some b → b ≠ JNull →
  handleRequest w e now =
  let '(w', r) := dispatch w (Some (JStr a)) (jsOr (jget "sheetId" b) (JStr <$> paramSheetId e))
                    b e now in (w', responseOf r).
Proof.
  intros Ha Hne Hb Hnull. apply String.eqb_neq in Hne.
  unfold handleRequest. rewrite Ha, Hb. cbn [default fmap option_fmap option_map jsTruthy].
  rewrite Hne. cbn [negb]. by destruct b.
Qed.

(** A request whose [action] parameter names no handler changes no
    spreadsheet and is answered with the error object
    [{status: 'error', message: 'Unknown action: ' + action}]. *)
Theorem handleRequest_unknown_action w e now a :
  paramAction e = Some a → a ≠ "" → a ∉ actionNames → postBody e ≠ Some JNull →
  handleRequest w e now = (w, errorResult ("Unknown action: " ++ a)%string).
Proof.
  intros Ha Hne Hnot Hbody.
  assert (∀ b : jvalue, b ≠ JNull →
    (let '(w', r) := dispatch w (Some (JStr a)) (jsOr (jget "sheetId" b) (JStr <$> paramSheetId e))
                       b e now in (w', responseOf r)) =
    (w, errorResult ("Unknown action: " ++ a)%string)) as Hd.
  { intros b _. unfold dispatch.
    case_ifs; lazymatch goal with
    | H : (a =s? _) = true |- _ =>
        exfalso; apply Hnot; apply String.eqb_eq in H; subst; unfold actionNames;
        apply (bool_decide_unpack _); vm_compute; exact I
    | _ => reflexivity
    end. }
  destruct (postBody e) as [b|] eqn:Eb.
  - rewrite (handleRequest_dispatch w e now a b) by (first [done | intros ->; congruence]).
    apply Hd. intros ->. congruence.
  - apply String.eqb_neq in Hne. unfold handleRequest. rewrite Ha, Eb.
    cbn [default fmap option_fmap option_map jsTruthy]. rewrite Hne. cbn [negb]. by apply Hd.
Qed.

(** ** The spreadsheet [getDB] resolves *)

Lemma readSS_writeSS w t ss : readSS (writeSS w t ss) t = ss.
Proof. destruct t; simpl; [done|]. by rewrite lookup_insert_eq. Qed.

(** Writing back the spreadsheet [getDB] chose does not change what
    [getDB] chooses. *)
Lemma getDB_writeSS w sid ss : getDB (writeSS w (getDB w sid) ss) sid = getDB w sid.
Proof.
  unfold getDB. destruct sid as [[]|]; try done. case_ifs; try done;
    simpl in *; rewrite ?lookup_insert_eq in *; congruence.
Qed.

(** Every spreadsheet of the world has its header row in [DB_Students]
    when the sheet exists. *)
Definition StudentsHeaded (ss : Spreadsheet) : Prop :=
  ∀ data, shStudents ss = Some data → data ≠ [].

Definition WorldHeaded (w : World) : Prop :=
  StudentsHeaded (active w) ∧ ∀ k ss, byId w !! k = Some ss → StudentsHeaded ss.

Lemma readSS_headed w t : WorldHeaded w → StudentsHeaded (readSS w t).
Proof.
  intros [Ha Hb]. destruct t as [|sid]; simpl; [done|].
  destruct (byId w !! sid) eqn:E; simpl; [by apply (Hb sid)|done].
Qed.

(** ** A numeric-looking id

    Sheets stores the student id ['007'] as the number [7]; the next
    save of the same student compares ["7"] with ["007"], does not find
    its row and appends a second row with the key ([C1], ["7"]). *)
Lemma saveStudent_007_duplicates :
  let P := JObj [("classroomId", JStr "C1"); ("student", exStudentObj "007")] in
  ∃ d, shStudents (saveStudent P "t2" (saveStudent P "t1" exSheets1).1).1 = Some d ∧
       ¬ NoDup (studentKey <$> drop 1 d).
Proof.
  eexists. split; [vm_compute; reflexivity|].
  apply (bool_decide_unpack _). vm_compute. exact I.
Qed.

(** ** Witnesses *)

Lemma exSheets1_unique : StudentsUnique exSheets1.
Proof. intros d [= <-]. apply (bool_decide_unpack _). vm_compute. exact I. Qed.

Lemma exEmptySheets_unique : StudentsUnique exEmptySheets.
Proof. intros d [= <-]. constructor. Qed.

Lemma saveStudent_unique_witness :
  StudentsUnique (saveStudent (JObj [("classroomId", JStr "C1"); ("student", exStudentObj "S2")])
                    "t1" exSheets1).1.
Proof.
  apply saveStudent_unique; [vm_compute; reflexivity | intros st [= <-]; vm_compute; reflexivity |].
  apply exSheets1_unique.
Defined.

Lemma saveStudent_roundtrip_witness :
  ∃ l, jget "students"
         (getDashboardData (jget "classroomId" (JObj [("classroomId", JStr "C1"); ("student", exStudentObj "S2")]))
            (saveStudent (JObj [("classroomId", JStr "C1"); ("student", exStudentObj "S2")]) "t1" exSheets1).1)
       = Some (JArr l) ∧ exStudentObj "S2" ∈ l.
Proof.
  apply saveStudent_roundtrip; [vm_compute; reflexivity | intros d [= <-]; discriminate | reflexivity | discriminate].
Defined.

Lemma deleteClassroom_cascade_witness :
  ∃ ss', deleteClassroom (Some (JStr "C1")) exSheets1 = (ss', HOk successResult) ∧
  (∃ data data', shClassrooms exSheets1 = Some data ∧ shClassrooms ss' = Some data' ∧
     length data' = (length data - 1)%nat) ∧
  (∀ d r, shStudents ss' = Some d → r ∈ drop 1 d → keyAt r 0 ≠ jsTrim (jsString (Some (JStr "C1")))) ∧
  (∀ d r, shSettings ss' = Some d → r ∈ drop 1 d → keyAt r 0 ≠ jsTrim (jsString (Some (JStr "C1")))).
Proof.
  exists (deleteClassroom (Some (JStr "C1")) exSheets1).1.
  assert (deleteClassroom (Some (JStr "C1")) exSheets1 =
          ((deleteClassroom (Some (JStr "C1")) exSheets1).1, HOk successResult)) as H
    by (vm_compute; reflexivity).
  split; [exact H | exact (deleteClassroom_cascade _ _ _ H)].
Defined.

Lemma deleteStudent_removes_witness :
  ∃ d, shStudents (deleteStudent (Some (JStr "C1")) (Some (JStr "S1")) "t1" exSheets1).1 = Some d ∧
  (jsTrim (jsString (Some (JStr "C1"))), jsTrim (jsString (Some (JStr "S1")))) ∉ studentKey <$> drop 1 d.
Proof.
  exists [studentsHeader]. assert (shStudents (deleteStudent (Some (JStr "C1")) (Some (JStr "S1")) "t1" exSheets1).1
                                   = Some [studentsHeader]) as H by (vm_compute; reflexivity).
  split; [exact H | exact (deleteStudent_removes _ _ _ _ exSheets1_unique _ H)].
Defined.

Lemma handleRequest_unknown_action_witness :
  handleRequest (mkWorld exSheets1 ∅) (mkRequest (Some "frobnicate") None None None) "t1" =
  (mkWorld exSheets1 ∅, errorResult ("Unknown action: " ++ "frobnicate")%string).
Proof.
  apply handleRequest_unknown_action; [reflexivity | discriminate | | discriminate].
  apply (bool_decide_unpack _). vm_compute. exact I.
Defined.
