(* ===== verification/Loops.v ===== *)
(** * The row loops of Code.gs, as written

    The handlers of [Backend] read a sheet with [getDataRange().getValues()]
    and walk the rows with counting loops:
    [for (let i = 1; i < data.length; i++)] to find the first row of a
    key, and [for (let i = data.length - 1; i >= 1; i--)] to delete rows
    from the last one back, so that a deletion does not shift the rows
    still to visit.  [Backend] models each loop by what it computes
    ([findFrom1], [findLastFrom1], [deleteWhere]); this file models the
    loops themselves.  The loop variable is a JavaScript number ([Z]),
    the body returns [Continue] or [Break], and the loop is both a
    function defined by well-founded recursion on its variant ([forUp],
    [forDown]) and a step relation on loop states.  The theorems show
    that every run of a loop is finite, that the function is the final
    state of the run, and that each loop of the source computes what
    [Backend] says it does, so the handlers written with the loops are
    the handlers of [Backend]. *)

From S2P Require Import Prelude Json Backend.
From Equations Require Import Equations.
From Stdlib Require Import Wellfounded.

Module Loops.

(** What the body of a loop does next: go on, or [break]. *)
Inductive Flow := Continue | Break.

(** ** The two loops *)

(** The test of a loop, with its outcome kept for the termination
    argument. *)
Definition inspect {A} (a : A) : {b | a = b} := exist _ a eq_refl.

Section ForLoops.
Context {St : Type}.

(** [for (let i = start; i >= 1; i--) { body }] *)
Equations? forDown (body : Z → St → St * Flow) (i : Z) (s : St) : St by wf (Z.to_nat i) lt :=
  forDown body i s with inspect (1 <=? i)%Z := {
    | exist _ true H with inspect (body i s) := {
        | exist _ (s', Break) _ := s';
        | exist _ (s', Continue) _ := forDown body (i - 1) s' };
    | exist _ false _ := s }.
Proof. apply Z.leb_le in H. lia. Qed.

(** [for (let i = start; i < n; i++) { body }] *)
Equations? forUp (body : Z → St → St * Flow) (n : Z) (i : Z) (s : St) : St by wf (Z.to_nat (n - i)) lt :=
  forUp body n i s with inspect (i <? n)%Z := {
    | exist _ true H with inspect (body i s) := {
        | exist _ (s', Break) _ := s';
        | exist _ (s', Continue) _ := forUp body n (i + 1) s' };
    | exist _ false _ := s }.
Proof. apply Z.ltb_lt in H. lia. Qed.

(** ** The runs of a loop

    A loop state is the value of the loop variable and the state the
    body writes, or the state after the loop. *)
Inductive LoopState := Running (i : Z) (s : St) | Done (s : St).

Section Runs.
Context (body : Z → St → St * Flow).

(** One iteration of [for (...; i >= 1; i--)]: the test, then the body
    and the decrement, or the exit. *)
Inductive downStep : LoopState → LoopState → Prop :=
| downStep_exit i s : (i < 1)%Z → downStep (Running i s) (Done s)
| downStep_break i s s' : (1 ≤ i)%Z → body i s = (s', Break) → downStep (Running i s) (Done s')
| downStep_continue i s s' :
    (1 ≤ i)%Z → body i s = (s', Continue) → downStep (Running i s) (Running (i - 1) s').

(** One iteration of [for (...; i < n; i++)]. *)
Inductive upStep (n : Z) : LoopState → LoopState → Prop :=
| upStep_exit i s : (n ≤ i)%Z → upStep n (Running i s) (Done s)
| upStep_break i s s' : (i < n)%Z → body i s = (s', Break) → upStep n (Running i s) (Done s')
| upStep_continue i s s' :
    (i < n)%Z → body i s = (s', Continue) → upStep n (Running i s) (Running (i + 1) s').

Ltac loop_tests :=
  repeat match goal with H : ?x = _ |- _ => lazymatch x with context [eq_refl] => clear H end end;
  repeat match goal with
  | H : (_ <=? _)%Z = true |- _ => apply Z.leb_le in H
  | H : (_ <=? _)%Z = false |- _ => apply Z.leb_gt in H
  | H : (_ <? _)%Z = true |- _ => apply Z.ltb_lt in H
  | H : (_ <? _)%Z = false |- _ => apply Z.ltb_ge in H
  end.

(** The function is the end of the run of the loop. *)
Lemma forDown_run i s : rtc downStep (Running i s) (Done (forDown body i s)).
Proof.
  funelim (forDown body i s); loop_tests.
  - apply rtc_once. by constructor.
  - eapply rtc_l; [by apply downStep_continue|done].
  - apply rtc_once. by apply downStep_break.
Qed.

Lemma forUp_run n i s : rtc (upStep n) (Running i s) (Done (forUp body n i s)).
Proof.
  funelim (forUp body n i s); loop_tests.
  - apply rtc_once. by constructor.
  - eapply rtc_l; [by apply upStep_continue|done].
  - apply rtc_once. by apply upStep_break.
Qed.

(** The variants: [i] going down to [1], [n - i] going down to [0]. *)
Definition downRank (st : LoopState) : nat :=
  match st with Running i _ => S (Z.to_nat i) | Done _ => 0 end.
Definition upRank (n : Z) (st : LoopState) : nat :=
  match st with Running i _ => S (Z.to_nat (n - i)) | Done _ => 0 end.

Lemma downStep_rank st st' : downStep st st' → downRank st' < downRank st.
Proof. destruct 1; simpl; lia. Qed.

Lemma upStep_rank n st st' : upStep n st st' → upRank n st' < upRank n st.
Proof. destruct 1; simpl; lia. Qed.

Lemma downStep_wf : well_founded (λ st' st, downStep st st').
Proof.
  apply (wf_incl _ _ (λ x y, downRank x < downRank y)); [intros ? ? ?; by apply downStep_rank|].
  apply wf_inverse_image, lt_wf.
Qed.

Lemma upStep_wf n : well_founded (λ st' st, upStep n st st').
Proof.
  apply (wf_incl _ _ (λ x y, upRank n x < upRank n y)); [intros ? ? ?; by apply upStep_rank|].
  apply wf_inverse_image, lt_wf.
Qed.

(** A finished loop takes no further step, and a step is determined by
    the state. *)
Lemma downStep_Done s st : ¬ downStep (Done s) st.
Proof. inversion 1. Qed.

Lemma downStep_det st st1 st2 : downStep st st1 → downStep st st2 → st1 = st2.
Proof. destruct 1; inversion 1; subst; try lia; congruence. Qed.

(** The unfolding equations of [forDown], one per outcome of the test
    and of the body. *)
Lemma forDown_exit i s : (i < 1)%Z → forDown body i s = s.
Proof. funelim (forDown body i s); loop_tests; intros; [done|lia..]. Qed.

Lemma forDown_continue i s s' :
  (1 ≤ i)%Z → body i s = (s', Continue) → forDown body i s = forDown body (i - 1) s'.
Proof. funelim (forDown body i s); loop_tests; intros; [lia|congruence..]. Qed.

Lemma forDown_break i s s' : (1 ≤ i)%Z → body i s = (s', Break) → forDown body i s = s'.
Proof. funelim (forDown body i s); loop_tests; intros; [lia|congruence..]. Qed.

Lemma forUp_exit n i s : (n ≤ i)%Z → forUp body n i s = s.
Proof. funelim (forUp body n i s); loop_tests; intros; [done|lia..]. Qed.

Lemma forUp_continue n i s s' :
  (i < n)%Z → body i s = (s', Continue) → forUp body n i s = forUp body n (i + 1) s'.
Proof. funelim (forUp body n i s); loop_tests; intros; [lia|congruence..]. Qed.

Lemma forUp_break n i s s' : (i < n)%Z → body i s = (s', Break) → forUp body n i s = s'.
Proof. funelim (forUp body n i s); loop_tests; intros; [lia|congruence..]. Qed.

End Runs.

End ForLoops.

(** ** The loops of the handlers *)

(** [data[i]]: the row at a loop index of the snapshot read before the
    loop. *)
Definition rowAt (data : list Row) (i : Z) : Row := default [] (data !! Z.to_nat i).

(** [if (p(data[i])) { act(i); break; }]: the body of the loops that
    stop at the first row found. *)
Definition firstBody {St} (p : Row → bool) (data : list Row) (act : nat → St → St)
    (i : Z) (st : St) : St * Flow :=
  if p (rowAt data i) then (act (Z.to_nat i) st, Break) else (st, Continue).

(** [if (p(data[i])) sheet.deleteRow(i + 1)]: the body of the loops that
    delete every row found. *)
Definition deleteBody (p : Row → bool) (data : list Row) (i : Z) (rows : list Row) : list Row * Flow :=
  (if p (rowAt data i) then deleteRowAt (Z.to_nat i) rows else rows, Continue).

Lemma rowAt_lookup data k r : data !! k = Some r → rowAt data (Z.of_nat k) = r.
Proof. intros H. unfold rowAt. by rewrite Nat2Z.id, H. Qed.

Lemma list_find_cons_eq (p : Row → bool) r l :
  list_find (λ x, p x = true) (r :: l) =
  if p r then Some (0, r) else prod_map S id <$> list_find (λ x, p x = true) l.
Proof. simpl. by destruct (p r). Qed.

(** The loop [for (let i = k; i < data.length; i++)] with [firstBody]
    acts at the first row from [k] on that satisfies [p]. *)
Lemma forUp_firstBody {St} p data (act : nat → St → St) k st :
  forUp (firstBody p data act) (Z.of_nat (length data)) (Z.of_nat k) st =
  match list_find (λ r, p r = true) (drop k data) with
  | Some (j, _) => act (k + j) st
  | None => st
  end.
Proof.
  remember (length data - k) as m eqn:Hm. revert k Hm.
  induction m as [|m IH]; intros k Hm.
  - rewrite forUp_exit by lia. by rewrite drop_ge by lia.
  - destruct (lookup_lt_is_Some_2 data k) as [r Hr]; [lia|].
    rewrite (drop_S _ _ _ Hr), list_find_cons_eq.
    destruct (p r) eqn:Hp.
    + rewrite (forUp_break _ _ _ _ (act k st)); [by rewrite Nat.add_0_r|lia|].
      unfold firstBody. by rewrite (rowAt_lookup _ _ _ Hr), Hp, Nat2Z.id.
    + rewrite (forUp_continue _ _ _ _ st); [|lia|unfold firstBody; by rewrite (rowAt_lookup _ _ _ Hr), Hp].
      replace (Z.of_nat k + 1)%Z with (Z.of_nat (S k)) by lia.
      rewrite (IH (S k)) by lia.
      destruct (list_find _ (drop (S k) data)) as [[j x]|]; simpl; [by rewrite Nat.add_succ_r|done].
Qed.

(** The loop [for (let i = k; i >= 1; i--)] with [firstBody] acts at
    the last row up to [k] that satisfies [p]. *)
Lemma forDown_firstBody {St} p data (act : nat → St → St) k st :
  k < length data →
  forDown (firstBody p data act) (Z.of_nat k) st =
  match list_find (λ r, p r = true) (reverse (take k (drop 1 data))) with
  | Some (j, _) => act (k - j) st
  | None => st
  end.
Proof.
  induction k as [|k IH]; intros Hk.
  - by rewrite forDown_exit by lia.
  - destruct (lookup_lt_is_Some_2 data (S k)) as [r Hr]; [lia|].
    rewrite (take_S_r _ _ r) by (by rewrite lookup_drop).
    rewrite reverse_snoc, list_find_cons_eq. destruct (p r) eqn:Hp.
    + rewrite (forDown_break _ _ _ (act (S k) st)); [done|lia|].
      unfold firstBody. by rewrite (rowAt_lookup _ _ _ Hr), Hp, Nat2Z.id.
    + rewrite (forDown_continue _ _ _ st); [|lia|unfold firstBody; by rewrite (rowAt_lookup _ _ _ Hr), Hp].
      replace (Z.of_nat (S k) - 1)%Z with (Z.of_nat k) by lia.
      rewrite IH by lia. by destruct (list_find _ _) as [[j x]|].
Qed.

(** [for (let i = 1; i < data.length; i++) if (p(data[i])) { act(i); break; }]
    is [findFrom1]. *)
Lemma forUp_findFrom1 {St} p data (act : nat → St → St) st :
  forUp (firstBody p data act) (Z.of_nat (length data)) 1 st =
  match findFrom1 p data with Some i => act i st | None => st end.
Proof.
  rewrite (forUp_firstBody p data act 1). unfold findFrom1.
  by destruct (list_find _ _) as [[j x]|].
Qed.

(** [for (let i = data.length - 1; i >= 1; i--) if (p(data[i])) { act(i); break; }]
    is [findLastFrom1]. *)
Lemma forDown_findLastFrom1 {St} p data (act : nat → St → St) st :
  forDown (firstBody p data act) (Z.of_nat (length data) - 1) st =
  match findLastFrom1 p data with Some i => act i st | None => st end.
Proof.
  unfold findLastFrom1. destruct data as [|h t]; [by rewrite forDown_exit by (simpl; lia)|].
  replace (Z.of_nat (length (h :: t)) - 1)%Z with (Z.of_nat (length t)) by (simpl; lia).
  rewrite forDown_firstBody by (simpl; lia). simpl. rewrite !drop_0, take_ge by lia.
  destruct (list_find _ _) as [[j x]|]; simpl; [f_equal; lia|done].
Qed.

(** The backward deleting loop: when it reaches [k], the rows above [k]
    that satisfy [p] are gone. *)
Lemma forDown_deleteBody p data k :
  k < length data →
  forDown (deleteBody p data) (Z.of_nat k)
    (take (S k) data ++ List.filter (λ r, negb (p r)) (drop (S k) data)) = deleteWhere p data.
Proof.
  induction k as [|k IH]; intros Hk.
  - rewrite forDown_exit by lia. by destruct data.
  - destruct (lookup_lt_is_Some_2 data (S k)) as [r Hr]; [lia|].
    rewrite (forDown_continue _ _ _
               (take (S k) data ++ List.filter (λ r, negb (p r)) (drop (S k) data))); [|lia|].
    { replace (Z.of_nat (S k) - 1)%Z with (Z.of_nat k) by lia. apply IH. lia. }
    unfold deleteBody. rewrite (rowAt_lookup _ _ _ Hr), Nat2Z.id, (drop_S _ _ _ Hr).
    rewrite (take_S_r _ _ r Hr), <-app_assoc. simpl. destruct (p r) eqn:Hp; simpl; [|done].
    unfold deleteRowAt. rewrite take_app_length' by (rewrite length_take; lia).
    rewrite drop_app_ge, length_take by (rewrite length_take; lia).
    by replace (S (S k) - min (S k) (length data)) with 1 by lia.
Qed.

(** [for (let i = data.length - 1; i >= 1; i--) if (p(data[i])) sheet.deleteRow(i + 1)]
    is [deleteWhere]. *)
Lemma forDown_deleteWhere p data :
  forDown (deleteBody p data) (Z.of_nat (length data) - 1) data = deleteWhere p data.
Proof.
  destruct data as [|h t]; [by rewrite forDown_exit by (simpl; lia)|].
  replace (Z.of_nat (length (h :: t)) - 1)%Z with (Z.of_nat (length t)) by (simpl; lia).
  rewrite <-(forDown_deleteBody p (h :: t) (length t)) by (simpl; lia).
  f_equal. rewrite take_ge, drop_ge by (simpl; lia). by rewrite app_nil_r.
Qed.

(** ** The handlers written with their loops *)

(** [updateClassroomTimestamp(classroomId, ss)] (lines 115-128). *)
Definition updateClassroomTimestamp (classroomId : option jvalue) (now : string)
    (ss : Spreadsheet) : Spreadsheet :=
  match shClassrooms ss with
  | None => ss
  | Some data =>
      let id := jsTrim (jsString classroomId) in
      let rows := forUp (firstBody (keyIs 0 id) data (λ i rows, setCell i 2 (CText now) rows))
                    (Z.of_nat (length data)) 1 data in
      mkSpreadsheet (Some rows) (shStudents ss) (shSettings ss)
  end.

(** The two backward loops of [deleteClassroom] that delete the rows of
    the classroom from a sheet. *)
Definition deleteRowsOf (targetId : string) (rows : list Row) : list Row :=
  forDown (deleteBody (keyIs 0 targetId) rows) (Z.of_nat (length rows) - 1) rows.

(** [deleteClassroom(id, sheetId)] (lines 234-281): the loop with
    [deleted = true; break], the early return, then the two loops. *)
Definition deleteClassroom (idv : option jvalue) (ss : Spreadsheet) : Spreadsheet * HResult :=
  match shClassrooms ss with
  | None => (ss, HOk (errorResult "Sheet DB_Classrooms not found"))
  | Some data =>
      let targetId := jsTrim (jsString idv) in
      let '(data', deleted) :=
        forDown (firstBody (keyIs 0 targetId) data (λ i st, (deleteRowAt i st.1, true)))
          (Z.of_nat (length data) - 1) (data, false) in
      if negb deleted then (ss, HOk (errorResult ("Classroom ID not found: " ++ targetId)%string))
      else (mkSpreadsheet (Some data') (deleteRowsOf targetId <$> shStudents ss)
              (deleteRowsOf targetId <$> shSettings ss), HOk successResult)
  end.

(** [deleteStudent(classroomId, studentId, sheetId)] (lines 415-433):
    the [return] inside the loop ends the handler with its result. *)
Definition deleteStudent (classroomId studentId : option jvalue) (now : string)
    (ss : Spreadsheet) : Spreadsheet * HResult :=
  match shStudents ss with
  | None => (ss, HOk (successMsg "Sheet not found, nothing to delete."))
  | Some data =>
      let cid := jsTrim (jsString classroomId) in
      let sid := jsTrim (jsString studentId) in
      let ret := forUp (firstBody (λ r, keyIs 0 cid r && keyIs 1 sid r) data
                          (λ i _, Some (updateClassroomTimestamp classroomId now
                                          (mkSpreadsheet (shClassrooms ss) (Some (deleteRowAt i data))
                                             (shSettings ss)), HOk successResult)))
                   (Z.of_nat (length data)) 1 None in
      match ret with Some r => r | None => (ss, HOk (successMsg "Not found")) end
  end.

Lemma updateClassroomTimestamp_loop classroomId now ss :
  updateClassroomTimestamp classroomId now ss = Backend.updateClassroomTimestamp classroomId now ss.
Proof.
  unfold updateClassroomTimestamp, Backend.updateClassroomTimestamp.
  destruct ss as [[data|] stu set]; [|done]. simpl. rewrite forUp_findFrom1. by case_match.
Qed.

Lemma deleteRowsOf_deleteWhere targetId rows : deleteRowsOf targetId rows = deleteWhere (keyIs 0 targetId) rows.
Proof. apply forDown_deleteWhere. Qed.

(** The two counting loops terminate: no run of
    [for (...; i >= 1; i--)] or of [for (...; i < n; i++)] is infinite,
    whatever the body does, and [forDown] and [forUp] are the states in
    which the runs from a given start end. *)
Theorem loops_terminate {St} (body : Z → St → St * Flow) (n : Z) :
  well_founded (λ st' st, downStep body st st') ∧ well_founded (λ st' st, upStep body n st st') ∧
  (∀ i s, rtc (downStep body) (Running i s) (Done (forDown body i s))) ∧
  (∀ i s, rtc (upStep body n) (Running i s) (Done (forUp body n i s))).
Proof.
  split_and!; [apply downStep_wf|apply upStep_wf|apply forDown_run|apply forUp_run].
Qed.

(** C18: [deleteClassroom] and [deleteStudent] as Code.gs writes them,
    with their counting loops, [break], early [return]s and the
    [updateClassroomTimestamp] loop they call, compute the handlers of
    [Backend]: the last classroom row with the id, every student and
    settings row of the classroom, the first row of the student. *)
Theorem delete_handlers_loops idv cid sid now ss :
  deleteClassroom idv ss = Backend.deleteClassroom idv ss ∧
  deleteStudent cid sid now ss = Backend.deleteStudent cid sid now ss.
Proof.
  split.
  - unfold deleteClassroom, Backend.deleteClassroom. destruct (shClassrooms ss) as [data|]; [|done].
    rewrite forDown_findLastFrom1. destruct (findLastFrom1 _ data); [|done]. simpl.
    by destruct (shStudents ss), (shSettings ss); simpl; rewrite ?deleteRowsOf_deleteWhere.
  - unfold deleteStudent, Backend.deleteStudent. destruct (shStudents ss) as [data|]; [|done].
    rewrite forUp_findFrom1. destruct (findFrom1 _ data); [|done]. by rewrite updateClassroomTimestamp_loop.
Qed.

End Loops.
