(* ===== verification/Concurrency.v ===== *)
(** * Concurrent requests and the script lock (src/unnamed/part_000, 49-110, 335-358, 378-407, 415-433)

    Apps Script runs each [doGet]/[doPost] in its own execution, so two
    requests can run at the same time.  [handleRequest] first calls
    [LockService.getScriptLock().tryLock(30000)], ignores its result and
    runs the handler, then releases the lock in [finally].  This file
    models the accesses of [saveStudent], [saveStudents] and
    [deleteStudent] to the rows of [DB_Students] as separate steps of
    each execution: take the lock (or give up after the timeout), read
    the rows ([getDataRange().getValues()]), perform the writes the loop
    decided on the rows read ([setValue] on a row number, [appendRow],
    the batch [setValues] after [getLastRow()], [deleteRow]), release the
    lock.  An execution is a list of such actions on a
    [CState]; [stepAct] is the step function.

    With the lock taken by every execution, the invariant [LockInv]
    holds in every state reached, so every interleaving in which all
    executions finish has the effect of running the handlers one after
    the other in the order they finished ([locked_runs_serialize]); at
    most [reqSteps] steps per request are ever possible (three plus the
    writes the handler can make), and from every such
    state some schedule lets all executions finish ([locked_runs_finish]).
    When [tryLock] times out and the handler runs anyway, two saves of
    the same new student append two rows, and a save that read its row
    number before a deletion writes into the row of another student.

    The classroom's timestamp ([updateClassroomTimestamp]) touches only
    [DB_Classrooms] and is left out; [releaseLock] by an execution that
    does not hold the lock does nothing.  A write is visible to the
    other executions as soon as it is made.  Apps Script may buffer
    writes until [SpreadsheetApp.flush()], a read or the end of the
    execution, and the code calls no [flush()] before [releaseLock];
    each write of these handlers to [DB_Students] is followed, before
    the release, by the read of [DB_Classrooms] in
    [updateClassroomTimestamp], and the model takes that read to apply
    the pending writes. *)

From S2P Require Import Prelude Json Backend.

Module Concurrency.

(** The two handlers, with the ids already read from the request
    ([String(...).trim()]) and the JSON text and time of a save. *)
Inductive Req :=
| RSave (cid sid : string) (json : cell) (now : string)
| RDelete (cid sid : string)
| RSaveMany (cid : string) (students : list jvalue) (now : string).

(** A write to the sheet. *)
Inductive Op :=
| OSet (i k : nat) (c : cell)      (** [sheet.getRange(i + 1, k + 1).setValue(c)] *)
| OAppend (r : Row)                (** [sheet.appendRow(r)] *)
| ODelete (i : nat)                (** [sheet.deleteRow(i + 1)] *)
| OAppendRows (rs : list Row).     (** [sheet.getRange(sheet.getLastRow() + 1, 1, rs.length, 4).setValues(rs)] *)

Definition applyOp (rows : list Row) (o : Op) : list Row :=
  match o with
  | OSet i k c => setCell i k c rows
  | OAppend r => appendRow rows r
  | ODelete i => deleteRowAt i rows
  | OAppendRows rs => appendRows rows rs
  end.

Definition applyOps (rows : list Row) (os : list Op) : list Row := fold_left applyOp os rows.

(** [String(data[i][0]).trim() == classroomId && String(data[i][1]).trim() == studentId] *)
Definition studentRow (cid sid : string) (r : Row) : bool := keyIs 0 cid r && keyIs 1 sid r.

(** The writes of [students.forEach(...)] in [saveStudents] and of the
    batch append after it, decided on the rows read: an existing row is
    updated in place, a new student is queued; a [null] student throws,
    so nothing more is written. *)
Fixpoint manyOps (cid now : string) (im : gmap string nat) (students : list jvalue)
    (newRows : list Row) : list Op :=
  match students with
  | [] => match newRows with [] => [] | _ => [OAppendRows newRows] end
  | JNull :: _ => []
  | student :: rest =>
      let sid := jsTrim (jsString (jget "id" student)) in
      match im !! sid with
      | Some i => OSet i 2 (CJson student) :: OSet i 3 (CText now) :: manyOps cid now im rest newRows
      | None => manyOps cid now im rest (newRows ++ [[CText cid; CText sid; CJson student; CText now]])
      end
  end.

(** The writes the loop of the handler decides on the rows it read. *)
Definition opsOf (rq : Req) (data : list Row) : list Op :=
  match rq with
  | RSave cid sid json now =>
      match findFrom1 (studentRow cid sid) data with
      | Some i => [OSet i 2 json; OSet i 3 (CText now)]
      | None => [OAppend [CText cid; CText sid; json; CText now]]
      end
  | RDelete cid sid =>
      match findFrom1 (studentRow cid sid) data with
      | Some i => [ODelete i]
      | None => []
      end
  | RSaveMany cid students now => manyOps cid now (indexMap cid data) students []
  end.

(** A handler run alone: read, then write. *)
Definition atomic (data : list Row) (rq : Req) : list Row := applyOps data (opsOf rq data).

(** Where an execution is. *)
Inductive Pc :=
| PStart                                (** before [tryLock] returns *)
| PLocked (held : bool)                 (** [tryLock] returned [held] *)
| PRunning (held : bool) (os : list Op) (** the rows were read; [os] remain to be written *)
| PDone.                                (** [finally] ran *)

Record CState := mkCState {
  rows : list Row;                      (** the rows of [DB_Students] *)
  holder : option nat;                  (** the execution holding the script lock *)
  procs : list (Req * Pc);
  order : list nat                      (** the executions in the order they finished *)
}.

Inductive Act :=
| AAcquire (k : nat)      (** [tryLock] takes the free lock *)
| ATimeout (k : nat)      (** [tryLock] gives up after 30 s: the lock is held by another *)
| ARead (k : nat)         (** [sheet.getDataRange().getValues()] *)
| AWrite (k : nat)        (** the next write of the loop *)
| AFinish (k : nat).      (** [return], then [finally { lock.releaseLock() }] *)

Definition setPc (k : nat) (rq : Req) (pc : Pc) (s : CState) : list (Req * Pc) :=
  <[k := (rq, pc)]> (procs s).

Definition stepAct (a : Act) (s : CState) : option CState :=
  match a with
  | AAcquire k =>
      match procs s !! k, holder s with
      | Some (rq, PStart), None => Some (mkCState (rows s) (Some k) (setPc k rq (PLocked true) s) (order s))
      | _, _ => None
      end
  | ATimeout k =>
      match procs s !! k, holder s with
      | Some (rq, PStart), Some _ => Some (mkCState (rows s) (holder s) (setPc k rq (PLocked false) s) (order s))
      | _, _ => None
      end
  | ARead k =>
      match procs s !! k with
      | Some (rq, PLocked h) =>
          Some (mkCState (rows s) (holder s) (setPc k rq (PRunning h (opsOf rq (rows s))) s) (order s))
      | _ => None
      end
  | AWrite k =>
      match procs s !! k with
      | Some (rq, PRunning h (o :: os)) =>
          Some (mkCState (applyOp (rows s) o) (holder s) (setPc k rq (PRunning h os) s) (order s))
      | _ => None
      end
  | AFinish k =>
      match procs s !! k with
      | Some (rq, PRunning h []) =>
          Some (mkCState (rows s) (if h then None else holder s) (setPc k rq PDone s) (order s ++ [k]))
      | _ => None
      end
  end.

Fixpoint runActs (acts : list Act) (s : CState) : option CState :=
  match acts with
  | [] => Some s
  | a :: acts' => s' ← stepAct a s; runActs acts' s'
  end.

(** The requests arrive together, none has run. *)
Definition initState (reqs : list Req) (rows0 : list Row) : CState :=
  mkCState rows0 None ((λ rq, (rq, PStart)) <$> reqs) [].

(** The handlers run one after the other in the order [ks]. *)
Definition serialRun (reqs : list Req) (ks : list nat) (rows0 : list Row) : list Row :=
  fold_left (λ data k, match reqs !! k with Some rq => atomic data rq | None => data end) ks rows0.

Definition isTimeout (a : Act) : bool := match a with ATimeout _ => true | _ => false end.

(** ** The steps are the handlers *)

Lemma atomic_save cid sid json now data :
  atomic data (RSave cid sid json now) = upsertStudentRow cid sid json now data.
Proof. unfold atomic, opsOf, upsertStudentRow, studentRow. by destruct (findFrom1 _ _). Qed.

(** The rows [saveStudent] leaves are those of the steps of [RSave]. *)
Lemma saveStudent_steps payload now ss data student :
  shStudents ss = Some data → jget "student" payload = Some student → student ≠ JNull →
  shStudents (saveStudent payload now ss).1 =
  Some (atomic data (RSave (jsTrim (jsString (jget "classroomId" payload)))
                           (jsTrim (jsString (jget "id" student))) (CJson student) now)).
Proof.
  intros Hs Hst Hn. unfold saveStudent. rewrite Hs, Hst. simpl. rewrite Hs.
  destruct student; try done; simpl; by rewrite updateClassroomTimestamp_students, atomic_save.
Qed.

Lemma manyOps_apply cid now im students data newRows :
  applyOps data (manyOps cid now im students newRows) =
  match saveStudentsLoop cid now im students data newRows with
  | (data', _, Some _) => data'
  | (data', newRows', None) => appendRows data' newRows'
  end.
Proof.
  revert data newRows. induction students as [|st rest IH]; intros data newRows; simpl.
  - destruct newRows; simpl; unfold appendRows; simpl; by rewrite ?app_nil_r.
  - destruct st; try done;
      destruct (_ !! _) eqn:Hi; simpl; rewrite ?IH; done.
Qed.

(** The rows [saveStudents] leaves are those of the steps of [RSaveMany]. *)
Lemma saveStudents_steps payload now ss data students :
  shStudents ss = Some data → jget "students" payload = Some (JArr students) →
  shStudents (saveStudents payload now ss).1 =
  Some (atomic data (RSaveMany (jsTrim (jsString (jget "classroomId" payload))) students now)).
Proof.
  intros Hs Hst. unfold saveStudents, atomic, opsOf. rewrite Hs. simpl. rewrite Hs, Hst, manyOps_apply.
  destruct (saveStudentsLoop _ _ _ _ _ _) as [[d nr] [msg|]]; simpl; [done|].
  by rewrite updateClassroomTimestamp_students.
Qed.

(** The rows [deleteStudent] leaves are those of the steps of [RDelete]. *)
Lemma deleteStudent_steps cid sid now ss data :
  shStudents ss = Some data →
  shStudents (deleteStudent cid sid now ss).1 =
  Some (atomic data (RDelete (jsTrim (jsString cid)) (jsTrim (jsString sid)))).
Proof.
  intros Hs. unfold deleteStudent, atomic, opsOf, studentRow. rewrite Hs.
  destruct (findFrom1 _ _); simpl; [by rewrite updateClassroomTimestamp_students|done].
Qed.

(** ** Runs under the lock *)

Definition active (pc : Pc) : bool :=
  match pc with PLocked _ | PRunning _ _ => true | _ => false end.

Definition held (pc : Pc) : bool :=
  match pc with PLocked h | PRunning h _ => h | _ => true end.

Section Locked.
Context (reqs : list Req) (rows0 : list Row).

Abbreviation base s := (serialRun reqs (order s) rows0).

(** Every execution that left [tryLock] holds the lock, and it is the
    only one; the rows are those of the finished handlers run one after
    the other, plus the writes the running one has made. *)
Definition LockInv (s : CState) : Prop :=
  fst <$> procs s = reqs ∧
  (∀ k rq pc, procs s !! k = Some (rq, pc) → active pc = true → holder s = Some k ∧ held pc = true) ∧
  (∀ k, holder s = Some k → ∃ rq pc, procs s !! k = Some (rq, pc) ∧ active pc = true) ∧
  NoDup (order s) ∧
  (∀ k, k ∈ order s ↔ ∃ rq, procs s !! k = Some (rq, PDone)) ∧
  (∀ k rq h os, procs s !! k = Some (rq, PRunning h os) →
     ∃ done, done ++ os = opsOf rq (base s) ∧ rows s = applyOps (base s) done) ∧
  ((∀ k rq h os, procs s !! k ≠ Some (rq, PRunning h os)) → rows s = base s).

End Locked.

Lemma lookup_setPc s k rq pc x j :
  procs s !! k = Some x → setPc k rq pc s !! j = if decide (j = k) then Some (rq, pc) else procs s !! j.
Proof.
  intros Hk. unfold setPc. rewrite list_lookup_insert.
  pose proof (lookup_lt_Some _ _ _ Hk). by repeat case_decide; naive_solver.
Qed.

Lemma fst_setPc s k rq pc pc0 :
  procs s !! k = Some (rq, pc0) → fst <$> setPc k rq pc s = fst <$> procs s.
Proof. intros Hk. unfold setPc. rewrite list_fmap_insert. apply list_insert_id. by rewrite list_lookup_fmap, Hk. Qed.

Ltac setpc Hk :=
  repeat match goal with
  | H : context [setPc ?k ?rq ?pc ?s !! ?j] |- _ =>
      rewrite (lookup_setPc s k rq pc _ j Hk) in H; case_decide; simplify_eq/=
  | |- context [setPc ?k ?rq ?pc ?s !! ?j] =>
      rewrite (lookup_setPc s k rq pc _ j Hk); case_decide; simplify_eq/=
  end.

Lemma applyOps_snoc rows0' done o : applyOps rows0' (done ++ [o]) = applyOp (applyOps rows0' done) o.
Proof. unfold applyOps. by rewrite fold_left_app. Qed.

Lemma serialRun_snoc reqs rows0 ks k rq :
  reqs !! k = Some rq → serialRun reqs (ks ++ [k]) rows0 = atomic (serialRun reqs ks rows0) rq.
Proof. intros Hk. unfold serialRun. rewrite fold_left_app. simpl. by rewrite Hk. Qed.

(** Every step but a timeout keeps [LockInv]. *)
Lemma stepAct_LockInv reqs rows0 a s s' :
  LockInv reqs rows0 s → isTimeout a = false → stepAct a s = Some s' → LockInv reqs rows0 s'.
Proof.
  intros (<- & Hact & Hhold & Hnd & Hord & Hrun & Hidle) Ht Hs.
  destruct a as [k|k|k|k|k]; simpl in Hs; try discriminate Ht;
    destruct (procs s !! k) as [[rq pc]|] eqn:Hk; try discriminate Hs.
  - (* tryLock takes the lock *)
    destruct pc; try discriminate Hs. destruct (holder s) eqn:Hh; simplify_eq/=.
    split_and!; simpl.
    + by erewrite fst_setPc.
    + intros j rq' pc' Hj Ha. setpc Hk; [done|]. destruct (Hact _ _ _ Hj Ha); congruence.
    + intros j [= <-]. exists rq, (PLocked true). by setpc Hk.
    + done.
    + intros j. rewrite Hord. setpc Hk; naive_solver.
    + intros j rq' h os Hj. setpc Hk. destruct (Hact _ _ _ Hj eq_refl); congruence.
    + intros _. apply Hidle. intros j rq' h os Hj. destruct (Hact _ _ _ Hj eq_refl); congruence.
  - (* the rows are read *)
    destruct pc as [| h | |]; try discriminate Hs. simplify_eq/=.
    destruct (Hact _ _ _ Hk eq_refl) as [Hh Hheld]. simpl in Hheld; subst h.
    assert (Hrows : rows s = serialRun (fst <$> procs s) (order s) rows0).
    { apply Hidle. intros j rq' h os Hj. destruct (Hact _ _ _ Hj eq_refl) as [Hj' _]. congruence. }
    split_and!; simpl.
    + by erewrite fst_setPc.
    + intros j rq' pc' Hj Ha. setpc Hk; [done|]. by apply (Hact _ _ _ Hj Ha).
    + intros j Hj. rewrite Hh in Hj. simplify_eq. exists rq, (PRunning true (opsOf rq (rows s))). by setpc Hk.
    + done.
    + intros j. rewrite Hord. setpc Hk; naive_solver.
    + intros j rq' h os Hj. setpc Hk.
      * exists []. by rewrite Hrows.
      * destruct (Hact _ _ _ Hj eq_refl); congruence.
    + intros Hno. exfalso. eapply (Hno k). by setpc Hk.
  - (* a write *)
    destruct pc as [| | h [|o os] |]; try discriminate Hs. simplify_eq/=.
    destruct (Hact _ _ _ Hk eq_refl) as [Hh Hheld]. simpl in Hheld; subst h.
    split_and!; simpl.
    + by erewrite fst_setPc.
    + intros j rq' pc' Hj Ha. setpc Hk; [done|]. by apply (Hact _ _ _ Hj Ha).
    + intros j Hj. rewrite Hh in Hj. simplify_eq. exists rq, (PRunning true os). by setpc Hk.
    + done.
    + intros j. rewrite Hord. setpc Hk; naive_solver.
    + intros j rq' h os' Hj. setpc Hk.
      * destruct (Hrun _ _ _ _ Hk) as (done & Hd & Hr). exists (done ++ [o]).
        rewrite <-app_assoc, applyOps_snoc, Hr. done.
      * destruct (Hact _ _ _ Hj eq_refl); congruence.
    + intros Hno. exfalso. eapply (Hno k). by setpc Hk.
  - (* return and [finally] *)
    destruct pc as [| | h [|o os] |]; try discriminate Hs. simplify_eq/=.
    destruct (Hact _ _ _ Hk eq_refl) as [Hh Hheld]. simpl in Hheld; subst h. simpl.
    assert (Hreq : (fst <$> procs s) !! k = Some rq) by (rewrite list_lookup_fmap, Hk; done).
    assert (Hko : k ∉ order s) by (rewrite Hord; naive_solver).
    split_and!; simpl.
    + by erewrite fst_setPc.
    + intros j rq' pc' Hj Ha. setpc Hk. destruct (Hact _ _ _ Hj Ha); congruence.
    + done.
    + apply NoDup_app. split_and!; [done| |apply NoDup_singleton]. intros x Hx ->%list_elem_of_singleton. done.
    + intros j. rewrite elem_of_app, list_elem_of_singleton, Hord. setpc Hk; naive_solver.
    + intros j rq' h os Hj. setpc Hk. destruct (Hact _ _ _ Hj eq_refl); congruence.
    + intros _. rewrite (serialRun_snoc _ _ _ _ rq Hreq).
      destruct (Hrun _ _ _ _ Hk) as (done & Hd & Hr). rewrite app_nil_r in Hd.
      unfold atomic. by rewrite <-Hd.
Qed.

Lemma LockInv_init reqs rows0 : LockInv reqs rows0 (initState reqs rows0).
Proof.
  split_and!; simpl.
  - rewrite <-list_fmap_compose. apply list_fmap_id.
  - intros k rq pc Hk. rewrite list_lookup_fmap in Hk. destruct (reqs !! k); simplify_eq/=. done.
  - done.
  - constructor.
  - intros k. rewrite list_lookup_fmap, elem_of_nil. split; [done|]. intros [rq Hk].
    destruct (reqs !! k); simplify_eq/=.
  - intros k rq h os Hk. rewrite list_lookup_fmap in Hk. destruct (reqs !! k); simplify_eq/=.
  - done.
Qed.

Lemma runActs_LockInv reqs rows0 acts s s' :
  LockInv reqs rows0 s → Forall (λ a, isTimeout a = false) acts → runActs acts s = Some s' →
  LockInv reqs rows0 s'.
Proof.
  intros Hinv Hacts. revert s Hinv.
  induction Hacts as [|a acts Ha _ IH]; intros s Hinv Hrun; simpl in Hrun; [by simplify_eq|].
  destruct (stepAct a s) as [s1|] eqn:Hs; [|done]. eapply IH; [|done]. by eapply stepAct_LockInv.
Qed.

(** With the lock released, the rows are those of the finished handlers
    run one after the other in the order they finished. *)
Lemma LockInv_idle reqs rows0 s :
  LockInv reqs rows0 s → holder s = None → rows s = serialRun reqs (order s) rows0.
Proof.
  intros (_ & Hact & _ & _ & _ & _ & Hidle) Hh. apply Hidle. intros k rq h os Hk.
  destruct (Hact _ _ _ Hk eq_refl) as [Hk' _]. congruence.
Qed.

Definition isDone (pc : Pc) : bool := match pc with PDone => true | _ => false end.

Definition allDone (s : CState) : bool := forallb (λ p, isDone p.2) (procs s).

Lemma allDone_lookup s k rq pc : allDone s = true → procs s !! k = Some (rq, pc) → pc = PDone.
Proof.
  unfold allDone. rewrite forallb_forall. intros Hall Hk.
  apply list_elem_of_lookup_2, list_elem_of_In, Hall in Hk. by destruct pc.
Qed.

Lemma LockInv_order_perm reqs rows0 s :
  LockInv reqs rows0 s → allDone s = true → order s ≡ₚ seq 0 (length reqs).
Proof.
  intros (Hfst & _ & _ & Hnd & Hord & _) Hall. apply NoDup_Permutation; [done|apply NoDup_seq|].
  intros k. rewrite Hord, elem_of_seq, <-Hfst, length_fmap. split.
  - intros [rq Hk]. apply lookup_lt_Some in Hk. lia.
  - intros Hk. destruct (lookup_lt_is_Some_2 (procs s) k) as [[rq pc] Hp]; [lia|].
    exists rq. by rewrite Hp, (allDone_lookup s k rq pc Hall Hp).
Qed.

Lemma LockInv_allDone_idle reqs rows0 s : LockInv reqs rows0 s → allDone s = true → holder s = None.
Proof.
  intros (_ & _ & Hhold & _) Hall. destruct (holder s) as [k|] eqn:Hh; [|done].
  destruct (Hhold k eq_refl) as (rq & pc & Hk & Ha). by rewrite (allDone_lookup s k rq pc Hall Hk) in Ha.
Qed.

(** C16: When every execution takes the script lock, any interleaving of
    the steps of [saveStudent] and [deleteStudent] that lets all of them
    finish leaves the rows the handlers would leave run one after the
    other, in the order they finished, each exactly once. *)
Theorem locked_runs_serialize reqs rows0 acts s :
  Forall (λ a, isTimeout a = false) acts →
  runActs acts (initState reqs rows0) = Some s →
  allDone s = true →
  rows s = serialRun reqs (order s) rows0 ∧ order s ≡ₚ seq 0 (length reqs).
Proof.
  intros Hacts Hrun Hall.
  pose proof (runActs_LockInv _ _ _ _ _ (LockInv_init reqs rows0) Hacts Hrun) as Hinv.
  split; [|by eapply LockInv_order_perm].
  apply (LockInv_idle _ _ _ Hinv). by eapply LockInv_allDone_idle.
Qed.

(** The most writes a handler makes, whatever rows it reads. *)
Definition maxWrites (rq : Req) : nat :=
  match rq with
  | RSave _ _ _ _ => 2
  | RDelete _ _ => 1
  | RSaveMany _ students _ => 2 * length students + 1
  end.

(** The steps of an execution: [tryLock], the read, the writes, the release. *)
Definition reqSteps (rq : Req) : nat := 3 + maxWrites rq.

(** The steps still possible for an execution. *)
Definition weight (rq : Req) (pc : Pc) : nat :=
  match pc with
  | PStart => reqSteps rq
  | PLocked _ => 2 + maxWrites rq
  | PRunning _ os => S (length os)
  | PDone => 0
  end.

Definition measure (s : CState) : nat := sum_list_with (λ p, weight p.1 p.2) (procs s).

Lemma manyOps_length cid now im students newRows :
  length (manyOps cid now im students newRows) ≤ 2 * length students + 1.
Proof.
  revert newRows. induction students as [|st rest IH]; intros newRows; simpl.
  - destruct newRows; simpl; lia.
  - destruct st; try (simpl; lia); destruct (_ !! _); simpl;
      match goal with |- context [manyOps _ _ _ rest ?nr] => specialize (IH nr) end; lia.
Qed.

Lemma opsOf_length rq data : length (opsOf rq data) ≤ maxWrites rq.
Proof. destruct rq; simpl; [destruct (findFrom1 _ _)..|apply manyOps_length]; simpl; lia. Qed.

Lemma measure_setPc s k rq pc x :
  procs s !! k = Some x →
  sum_list_with (λ p, weight p.1 p.2) (setPc k rq pc s) + weight x.1 x.2 = measure s + weight rq pc.
Proof. apply (sum_list_with_insert (λ p, weight p.1 p.2)). Qed.

Lemma stepAct_measure a s s' : stepAct a s = Some s' → measure s' < measure s.
Proof.
  destruct a as [k|k|k|k|k]; simpl; destruct (procs s !! k) as [[rq pc]|] eqn:Hk; try done;
    pose proof (λ pc', measure_setPc s k rq pc' _ Hk) as Hm;
    destruct pc as [|h|h [|o os]|]; try done; repeat case_match; intros; simplify_eq/=;
    unfold measure; simpl;
    match goal with |- sum_list_with _ (setPc k rq ?pc s) < _ => specialize (Hm pc) end;
    pose proof (opsOf_length rq (rows s)); unfold measure, reqSteps in *; simpl in *; lia.
Qed.

Lemma runActs_measure acts s s' : runActs acts s = Some s' → length acts + measure s' ≤ measure s.
Proof.
  revert s. induction acts as [|a acts IH]; intros s Hrun; simpl in Hrun; [simplify_eq/=; lia|].
  destruct (stepAct a s) as [s1|] eqn:Hs; [|done].
  pose proof (stepAct_measure _ _ _ Hs). specialize (IH _ Hrun). simpl. lia.
Qed.

Lemma measure_init reqs rows0 : measure (initState reqs rows0) = sum_list_with reqSteps reqs.
Proof.
  unfold measure, initState; simpl. induction reqs as [|rq reqs IH]; [done|].
  rewrite fmap_cons. simpl. by rewrite IH.
Qed.

(** Some step other than a timeout is always possible while an execution
    has not finished: the holder of the lock reads, writes or releases;
    with the lock free, a waiting execution takes it. *)
Lemma LockInv_progress reqs rows0 s :
  LockInv reqs rows0 s → allDone s = false → ∃ a, isTimeout a = false ∧ is_Some (stepAct a s).
Proof.
  intros (_ & Hact & Hhold & _) Hall. destruct (holder s) as [k|] eqn:Hh.
  - destruct (Hhold k eq_refl) as (rq & pc & Hk & Ha).
    destruct pc as [|h|h [|o os]|]; try done;
      [exists (ARead k) | exists (AFinish k) | exists (AWrite k)]; simpl; by rewrite Hk.
  - destruct (list_find (λ p, isDone p.2 = false) (procs s)) as [[j [rq pc]]|] eqn:Hf.
    + apply list_find_Some in Hf as (Hj & Hd & _).
      destruct pc; try done; try (destruct (Hact _ _ _ Hj eq_refl); congruence).
      exists (AAcquire j). simpl. by rewrite Hj, Hh.
    + apply list_find_None in Hf. unfold allDone in Hall.
      rewrite <-not_true_iff_false, forallb_forall in Hall. destruct Hall.
      intros x Hx%list_elem_of_In. rewrite Forall_forall in Hf. apply not_false_is_true, Hf, Hx.
Qed.

Lemma LockInv_can_finish reqs rows0 s :
  LockInv reqs rows0 s →
  ∃ acts s', Forall (λ a, isTimeout a = false) acts ∧ runActs acts s = Some s' ∧ allDone s' = true.
Proof.
  intros Hinv. remember (measure s) as n eqn:Hn. revert s Hn Hinv.
  induction n as [n IH] using lt_wf_ind. intros s -> Hinv.
  destruct (allDone s) eqn:Ha; [by exists [], s|].
  destruct (LockInv_progress _ _ _ Hinv Ha) as (a & Ht & [s1 Hs1]).
  destruct (IH (measure s1) (stepAct_measure _ _ _ Hs1) s1 eq_refl (stepAct_LockInv _ _ _ _ _ Hinv Ht Hs1))
    as (acts & s' & Hacts & Hrun & Hdone).
  exists (a :: acts), s'. split_and!; [by constructor| |done]. simpl. by rewrite Hs1.
Qed.

(** Every run of the executions has at most [reqSteps] steps per
    request (five for [saveStudent], four for [deleteStudent]),
    and from every state the locked executions reach, some schedule of
    further steps lets all of them finish: nothing deadlocks. *)
Theorem locked_runs_finish reqs rows0 acts s :
  Forall (λ a, isTimeout a = false) acts →
  runActs acts (initState reqs rows0) = Some s →
  length acts ≤ sum_list_with reqSteps reqs ∧
  ∃ acts' s', Forall (λ a, isTimeout a = false) acts' ∧ runActs acts' s = Some s' ∧ allDone s' = true.
Proof.
  intros Hacts Hrun. split.
  - pose proof (runActs_measure _ _ _ Hrun) as Hm. rewrite measure_init in Hm. lia.
  - apply (LockInv_can_finish reqs rows0). exact (runActs_LockInv _ _ _ _ _ (LockInv_init reqs rows0) Hacts Hrun).
Qed.

(** ** When [tryLock] times out *)

Local Abbreviation hdr := [CText "classroomId"; CText "studentId"; CText "data"; CText "updatedAt"].
Local Abbreviation srow sid js := [CText "c1"; CText sid; CText js; CText "t0"].

Lemma perm_seq2 (ks : list nat) : ks ≡ₚ seq 0 2 → ks = [0; 1] ∨ ks = [1; 0].
Proof. intros Hp. symmetry in Hp. apply Permutation_length_2_inv in Hp as [-> | ->]; auto. Qed.

(** Two saves of the same new student: the second execution times out
    on the lock, both read the sheet before either appends, and the
    student ends up with two rows, which no order of the two handlers
    run one after the other gives. *)
Lemma timeout_duplicates_student :
  let reqs := [RSave "c1" "s1" (CText "A") "t1"; RSave "c1" "s1" (CText "B") "t2"] in
  ∃ s, runActs [AAcquire 0; ATimeout 1; ARead 0; ARead 1; AWrite 0; AFinish 0; AWrite 1; AFinish 1]
         (initState reqs [hdr]) = Some s ∧
       allDone s = true ∧ countIf (studentRow "c1" "s1") (rows s) = 2 ∧
       ∀ ks, ks ≡ₚ seq 0 2 → countIf (studentRow "c1" "s1") (serialRun reqs ks [hdr]) = 1.
Proof.
  eexists. split_and!; [vm_compute; reflexivity..|].
  intros ks [-> | ->]%perm_seq2; vm_compute; reflexivity.
Qed.

(** A save that read its row number before a deletion of an earlier row
    writes the saved data into the next student's row: [s3]'s row ends
    up holding [s2]'s new data, and [s2]'s row keeps its old data. *)
Lemma timeout_save_overwrites_other :
  let reqs := [RSave "c1" "s2" (CText "B2") "t1"; RDelete "c1" "s1"] in
  let rows0 := [hdr; srow "s1" "A"; srow "s2" "B"; srow "s3" "C"] in
  ∃ s, runActs [AAcquire 1; ATimeout 0; ARead 0; ARead 1; AWrite 1; AFinish 1; AWrite 0; AWrite 0; AFinish 0]
         (initState reqs rows0) = Some s ∧
       allDone s = true ∧
       rows s = [hdr; srow "s2" "B"; [CText "c1"; CText "s3"; CText "B2"; CText "t1"]] ∧
       ∀ ks, ks ≡ₚ seq 0 2 → serialRun reqs ks rows0 = [hdr; [CText "c1"; CText "s2"; CText "B2"; CText "t1"]; srow "s3" "C"].
Proof.
  eexists. split_and!; [vm_compute; reflexivity..|].
  intros ks [-> | ->]%perm_seq2; vm_compute; reflexivity.
Qed.

(** ** Witnesses *)

Lemma locked_runs_serialize_witness :
  let reqs := [RSave "c1" "s1" (CText "A") "t1"; RDelete "c1" "s2"] in
  let rows0 := [hdr; srow "s2" "B"] in
  let acts := [AAcquire 1; ARead 1; AWrite 1; AFinish 1; AAcquire 0; ARead 0; AWrite 0; AFinish 0] in
  Forall (λ a, isTimeout a = false) acts ∧
  ∃ s, runActs acts (initState reqs rows0) = Some s ∧ allDone s = true ∧
       rows s = serialRun reqs (order s) rows0 ∧ order s ≡ₚ seq 0 (length reqs).
Proof.
  intros reqs rows0 acts. split; [vm_compute; repeat constructor|].
  eexists. split; [vm_compute; reflexivity|]. split; [vm_compute; reflexivity|].
  apply (locked_runs_serialize reqs rows0 acts); [vm_compute; repeat constructor|vm_compute; reflexivity..].
Defined.

Lemma locked_runs_finish_witness :
  let reqs := [RSave "c1" "s1" (CText "A") "t1"; RSave "c1" "s1" (CText "B") "t2"] in
  let acts := [AAcquire 0; ARead 0] in
  Forall (λ a, isTimeout a = false) acts ∧
  ∃ s, runActs acts (initState reqs [hdr]) = Some s ∧
       length acts ≤ sum_list_with reqSteps reqs ∧
       ∃ acts' s', Forall (λ a, isTimeout a = false) acts' ∧ runActs acts' s = Some s' ∧ allDone s' = true.
Proof.
  intros reqs acts. split; [vm_compute; repeat constructor|].
  eexists. split; [vm_compute; reflexivity|].
  apply (locked_runs_finish reqs [hdr] acts); [vm_compute; repeat constructor|vm_compute; reflexivity].
Defined.

End Concurrency.
