(* ===== verification/Storage.v ===== *)
(** * The browser storage service (services/storage.ts)

    src/unnamed/part_000, lines 473-600.  [storage] keeps four items of
    [localStorage], each the [JSON.stringify] text of a value: the admin
    users, the system configuration, the activity log and the active
    session.  The four keys are distinct, so the store is a record with
    one slot per key ([None] when the item is absent); an item holds what
    this service wrote, so it is kept as the typed value it encodes.

    The methods read and write the slots and throw [Error]s; they are
    written in a state-and-exception monad [M] (stdpp's [mret]/[mbind],
    so [x ← m; k] reads like the source).  A write made before a throw
    is kept, as [localStorage.setItem] is immediate.  The log id
    ([Date.now()] and [Math.random()]) and the timestamp are inputs.

    The callers of [storage] outside src/ (the login and the admin
    pages) are not known, so the machine of the methods ([reachable])
    lets any exported method run at any time, [saveUsers] included.  The
    log stays bounded in every reachable store; the super admin account
    is kept by every method but [saveUsers], which replaces the list as
    given. *)

From S2P Require Import Prelude.

Module Storage.

Record AdminUser := mkAdminUser {
  id : string;
  username : string;
  password : string;
  name : string;
  role : string
}.

Record SystemConfig := mkSystemConfig {
  scriptUrl : string;
  sheetId : string;
  driveId : string
}.

Record ActivityLog := mkActivityLog {
  logId : string;
  userId : string;
  userName : string;
  userRole : string;
  action : string;
  details : string;
  timestamp : string
}.

(** [localStorage]: [APP_ADMIN_USERS], [APP_SYSTEM_CONFIG],
    [APP_ACTIVITY_LOGS] and [APP_ACTIVE_SESSION]. *)
Record Store := mkStore {
  sUsers : option (list AdminUser);
  sConfig : option SystemConfig;
  sLogs : option (list ActivityLog);
  sSession : option AdminUser
}.

Definition emptyStore : Store := mkStore None None None None.

Definition DEFAULT_ADMIN : AdminUser :=
  mkAdminUser "admin-001" "Admin" "@Np123456" "ผู้ดูแลระบบหลัก" "SUPER_ADMIN".

Definition DEFAULT_CONFIG : SystemConfig :=
  mkSystemConfig "" "1ge8sumS3qX7lsw29cIoBQrsW5vNYI5yfr_BPveAiLmc"
    "142UYdJGFhP3TtJ_fSJA2WUW3E8iHTIWW".

Definition msgDuplicateUser : string := "ชื่อผู้ใช้งานนี้มีอยู่ในระบบแล้ว".
Definition msgSuperAdmin : string := "ไม่สามารถลบผู้ดูแลระบบหลัก (Super Admin) ได้".

(** ** The state-and-exception monad *)

Definition M (A : Type) : Type := Store → Store * (string + A).

#[export] Instance M_ret : MRet M := λ A x st, (st, inr x).
#[export] Instance M_bind : MBind M := λ A B f m st,
  match m st with
  | (st', inl msg) => (st', inl msg)
  | (st', inr x) => f x st'
  end.

(** [throw new Error(msg)] *)
Definition throw {A} (msg : string) : M A := λ st, (st, inl msg).

(** ** Session *)

Definition saveSession (user : AdminUser) : M unit :=
  λ st, (mkStore (sUsers st) (sConfig st) (sLogs st) (Some user), inr ()).

Definition getSession : M (option AdminUser) := λ st, (st, inr (sSession st)).

Definition clearSession : M unit :=
  λ st, (mkStore (sUsers st) (sConfig st) (sLogs st) None, inr ()).

(** ** Users *)

Definition saveUsers (users : list AdminUser) : M unit :=
  λ st, (mkStore (Some users) (sConfig st) (sLogs st) (sSession st), inr ()).

(** [localStorage.getItem(STORAGE_KEYS.USERS)], parsed. *)
Definition getStoredUsers : M (option (list AdminUser)) := λ st, (st, inr (sUsers st)).

(** An absent item is initialised with the default admin. *)
Definition getUsers : M (list AdminUser) :=
  stored ← getStoredUsers;
  match stored with
  | None => saveUsers [DEFAULT_ADMIN];; mret [DEFAULT_ADMIN]
  | Some users => mret users
  end.

Definition addUser (user : AdminUser) : M unit :=
  users ← getUsers;
  if existsb (λ u, username u =s? username user) users then throw msgDuplicateUser
  else saveUsers (users ++ [user]).

Definition updateUser (updatedUser : AdminUser) : M unit :=
  users ← getUsers;
  match list_find (λ u, id u = id updatedUser) users with
  | Some (index, _) => saveUsers (<[index := updatedUser]> users)
  | None => mret ()
  end.

(** [target?.username === 'Admin' || target?.id === 'admin-001'] *)
Definition isProtected (target : option AdminUser) : bool :=
  match target with
  | Some t => (username t =s? "Admin") || (id t =s? "admin-001")
  | None => false
  end.

Definition deleteUser (userId : string) : M unit :=
  users ← getUsers;
  let target := snd <$> list_find (λ u, id u = userId) users in
  if isProtected target then throw msgSuperAdmin
  else saveUsers (List.filter (λ u, negb (id u =s? userId)) users).

Definition validateUser (un pw : string) : M (option AdminUser) :=
  users ← getUsers;
  mret (snd <$> list_find (λ u, username u = un ∧ password u = pw) users).

(** ** Configuration *)

Definition getConfig : M SystemConfig := λ st, (st, inr (default DEFAULT_CONFIG (sConfig st))).

Definition saveConfig (config : SystemConfig) : M unit :=
  λ st, (mkStore (sUsers st) (Some config) (sLogs st) (sSession st), inr ()).

(** ** Activity log *)

Definition getLogs : M (list ActivityLog) := λ st, (st, inr (default [] (sLogs st))).

Definition setLogs (logs : list ActivityLog) : M unit :=
  λ st, (mkStore (sUsers st) (sConfig st) (Some logs) (sSession st), inr ()).

(** The newest entry first, at most 100 entries. *)
Definition addLog (user : option AdminUser) (act det newId now : string) : M unit :=
  match user with
  | None => mret ()
  | Some u =>
      logs ← getLogs;
      let newLog := mkActivityLog newId (id u) (name u) (role u) act det now in
      setLogs (take 100 (newLog :: logs))
  end.

(** ** Running the methods *)

(** The user list [getUsers] returns. *)
Definition usersOf (st : Store) : list AdminUser := default [DEFAULT_ADMIN] (sUsers st).

(** The store after [getUsers]: the item is written when it was absent. *)
Definition withUsers (st : Store) : Store :=
  mkStore (Some (usersOf st)) (sConfig st) (sLogs st) (sSession st).

Lemma getUsers_run st : getUsers st = (withUsers st, inr (usersOf st)).
Proof. by destruct st as [[]]. Qed.

Lemma withUsers_same st us : sUsers st = Some us → withUsers st = st.
Proof. destruct st; simpl. unfold withUsers, usersOf. simpl. by intros ->. Qed.

Lemma bind_run {A B} (m : M A) (f : A → M B) st st' x :
  m st = (st', inr x) → (m ≫= f) st = f x st'.
Proof. intros H. unfold mbind, M_bind. by rewrite H. Qed.

Ltac run_users := unfold addUser, updateUser, deleteUser, validateUser;
  erewrite bind_run by apply getUsers_run.

(** Usernames are unique. *)
Definition UsernamesUnique (st : Store) : Prop :=
  ∀ us, sUsers st = Some us → NoDup (username <$> us).

Lemma usersOf_unique st : UsernamesUnique st → NoDup (username <$> usersOf st).
Proof.
  unfold usersOf. destruct (sUsers st) eqn:E; intros Hu; [by apply Hu|].
  simpl. apply NoDup_singleton.
Qed.

(** [addUser] keeps usernames unique: it throws on a taken username
    and otherwise appends a user whose username no user has. *)
Theorem addUser_unique user st :
  UsernamesUnique st → UsernamesUnique (addUser user st).1.
Proof.
  intros Hu. pose proof (usersOf_unique _ Hu) as Hnd. run_users.
  destruct (existsb _ _) eqn:E; simpl.
  - intros us [= <-]. done.
  - intros us [= <-]. rewrite fmap_app. apply NoDup_app. split_and!; [done| |apply NoDup_singleton].
    intros n Hn ->%list_elem_of_singleton. apply list_elem_of_fmap in Hn as (u & Hu' & Hin).
    apply not_true_iff_false in E. apply E, existsb_exists. exists u.
    split; [by apply list_elem_of_In|]. by rewrite Hu', String.eqb_refl.
Qed.

(** ** The methods as the steps of a machine *)

Inductive Op :=
| OpSaveSession (u : AdminUser)
| OpClearSession
| OpGetUsers
| OpSaveUsers (us : list AdminUser)
| OpAddUser (u : AdminUser)
| OpUpdateUser (u : AdminUser)
| OpDeleteUser (userId : string)
| OpValidateUser (un pw : string)
| OpSaveConfig (c : SystemConfig)
| OpAddLog (u : option AdminUser) (act det newId now : string).

Definition runOp (o : Op) (st : Store) : Store :=
  match o with
  | OpSaveSession u => (saveSession u st).1
  | OpClearSession => (clearSession st).1
  | OpGetUsers => (getUsers st).1
  | OpSaveUsers us => (saveUsers us st).1
  | OpAddUser u => (addUser u st).1
  | OpUpdateUser u => (updateUser u st).1
  | OpDeleteUser i => (deleteUser i st).1
  | OpValidateUser un pw => (validateUser un pw st).1
  | OpSaveConfig c => (saveConfig c st).1
  | OpAddLog u a d i t => (addLog u a d i t st).1
  end.

(** The stores a browser reaches from an empty [localStorage] through
    the exported methods of [storage], [saveUsers] included. *)
Inductive reachable : Store → Prop :=
| reachable_init : reachable emptyStore
| reachable_step o st : reachable st → reachable (runOp o st).

(** The super admin account (id [admin-001]) is in the user list. *)
Definition AdminPresent (st : Store) : Prop :=
  ∀ us, sUsers st = Some us → ∃ u, u ∈ us ∧ id u = "admin-001".

Definition LogsBounded (st : Store) : Prop :=
  ∀ logs, sLogs st = Some logs → length logs ≤ 100.

Lemma usersOf_admin st : AdminPresent st → ∃ u, u ∈ usersOf st ∧ id u = "admin-001".
Proof.
  unfold usersOf. destruct (sUsers st) eqn:E; intros Ha; [by apply Ha|].
  exists DEFAULT_ADMIN. split; [by left|done].
Qed.

Lemma addUser_admin u st : AdminPresent st → AdminPresent (addUser u st).1.
Proof.
  intros Ha. destruct (usersOf_admin _ Ha) as (a & Hin & Hid). run_users.
  destruct (existsb _ _); intros us [= <-]; exists a; split; try done.
  apply elem_of_app. by left.
Qed.

Lemma updateUser_admin u st : AdminPresent st → AdminPresent (updateUser u st).1.
Proof.
  intros Ha. destruct (usersOf_admin _ Ha) as (a & Hin & Hid). run_users.
  destruct (list_find _ _) as [[i x]|] eqn:F; intros us [= <-]; [|by exists a].
  apply list_find_Some in F as (Hx & Hxid & _).
  apply list_elem_of_lookup in Hin as [j Hj].
  destruct (decide (i = j)) as [<-|Hij].
  - exists u. split; [|congruence]. apply list_elem_of_lookup_2 with i.
    apply list_lookup_insert_eq. by eapply lookup_lt_Some.
  - exists a. split; [|done]. apply list_elem_of_lookup_2 with j.
    by rewrite list_lookup_insert_ne.
Qed.

Lemma deleteUser_admin i st : AdminPresent st → AdminPresent (deleteUser i st).1.
Proof.
  intros Ha. destruct (usersOf_admin _ Ha) as (a & Hin & Hid). run_users.
  destruct (isProtected _) eqn:P; intros us [= <-]; [by exists a|].
  exists a. split; [|done]. apply list_elem_of_In, filter_In. split; [by apply list_elem_of_In|].
  destruct (String.eqb_spec (id a) i) as [Heq|]; [|done]. exfalso.
  destruct (list_find (λ u, id u = i) (usersOf st)) as [[k x]|] eqn:F; simpl in P.
  - apply list_find_Some in F as (_ & Hx & _). rewrite Hx, <-Heq, Hid in P.
    by rewrite orb_true_r in P.
  - apply list_find_None in F. rewrite Forall_forall in F. by apply (F a).
Qed.

Definition isSaveUsers (o : Op) : bool := match o with OpSaveUsers _ => true | _ => false end.

(** Every method but [saveUsers] keeps the super admin account. *)
Lemma runOp_admin o st : isSaveUsers o = false → AdminPresent st → AdminPresent (runOp o st).
Proof.
  intros Ho Ha. destruct o; simpl in *; try done.
  - rewrite getUsers_run. intros us [= <-]. by apply usersOf_admin.
  - by apply addUser_admin.
  - by apply updateUser_admin.
  - by apply deleteUser_admin.
  - run_users. intros us [= <-]; by apply usersOf_admin.
  - by destruct u.
Qed.

Lemma runOp_logs o st : LogsBounded st → LogsBounded (runOp o st).
Proof.
  intros Hl. destruct o; simpl; try exact Hl.
  - by rewrite getUsers_run.
  - run_users. by destruct (existsb _ _).
  - run_users. by destruct (list_find _ _) as [[]|].
  - run_users. by destruct (isProtected _).
  - by run_users.
  - destruct u; simpl; [|exact Hl]. intros logs [= <-]. simpl. rewrite length_take. lia.
Qed.

Lemma reachable_inv st : reachable st → LogsBounded st.
Proof.
  induction 1 as [|o st _ IH]; [discriminate|]. by apply runOp_logs.
Qed.

(** ** Properties of the service *)

(** C22: In every store reachable through the methods of [storage],
    [saveUsers] included, the activity log holds at most 100 entries:
    [addLog] keeps the newest 100 ([logs.slice(0, 100)]). *)
Theorem reachable_logs_bounded st :
  reachable st → ∀ logs, sLogs st = Some logs → length logs ≤ 100.
Proof. intros Hr. by apply reachable_inv. Qed.

(** Along calls of the methods other than [saveUsers], a user list that
    exists keeps the super admin account (id [admin-001]). *)
Lemma runOps_admin os st :
  forallb (λ o, negb (isSaveUsers o)) os = true → AdminPresent st →
  AdminPresent (fold_left (λ st o, runOp o st) os st).
Proof.
  revert st. induction os as [|o os IH]; intros st Hos Ha; simpl in *; [done|].
  apply andb_prop in Hos as [Ho Hos]. apply IH; [done|]. apply runOp_admin; [|done].
  by destruct (isSaveUsers o).
Qed.

(** The exported [saveUsers] replaces the list as given: one call after
    [getUsers] leaves a user list without the super admin. *)
Lemma saveUsers_drops_admin :
  let st := runOp (OpSaveUsers []) (runOp OpGetUsers emptyStore) in
  reachable st ∧ sUsers st = Some [] ∧ ¬ AdminPresent st.
Proof.
  split_and!; [apply reachable_step, reachable_step, reachable_init|reflexivity|].
  intros Ha. destruct (Ha [] eq_refl) as (u & Hu & _). inversion Hu.
Qed.

(** [deleteUser("admin-001")] throws the Super Admin error and
    leaves the user list as [getUsers] left it. *)
Theorem deleteUser_super_admin st :
  AdminPresent st → deleteUser "admin-001" st = (withUsers st, inl msgSuperAdmin).
Proof.
  intros Ha. destruct (usersOf_admin _ Ha) as (a & Hin & Hid). run_users.
  destruct (list_find (λ u, id u = "admin-001") (usersOf st)) as [[k x]|] eqn:F.
  - apply list_find_Some in F as (_ & Hx & _). simpl. rewrite Hx. simpl.
    by rewrite orb_true_r.
  - apply list_find_None in F. rewrite Forall_forall in F. by destruct (F a Hin).
Qed.

(** After a successful [addUser], [validateUser] with the new
    user's username and password returns that user. *)
Theorem addUser_validate user st st' :
  addUser user st = (st', inr ()) →
  validateUser (username user) (password user) st' = (st', inr (Some user)).
Proof.
  run_users. destruct (existsb _ _) eqn:E; [done|]. intros [= <-].
  unfold validateUser. erewrite bind_run by reflexivity. do 2 f_equal.
  rewrite list_find_app_r; [simpl; by rewrite decide_True|].
  apply list_find_None. rewrite Forall_forall. intros u Hu [Hn _]. apply not_true_iff_false in E. apply E.
  apply existsb_exists. exists u. split; [by apply list_elem_of_In|]. by rewrite Hn, String.eqb_refl.
Qed.

Definition exUser (i un : string) : AdminUser := mkAdminUser i un "pw" "User" "ADMIN".

(** [updateUser] does not check usernames: it can rename a user to
    a username another account has (here the super admin's), which
    [addUser] refuses. *)
Theorem updateUser_breaks_unique :
  let st := (addUser (exUser "u-2" "somchai") emptyStore).1 in
  UsernamesUnique st ∧
  ¬ UsernamesUnique (updateUser (exUser "u-2" "Admin") st).1.
Proof.
  split.
  - intros us [= <-]. apply (bool_decide_unpack _). vm_compute. exact I.
  - intros Hu. specialize (Hu _ eq_refl). apply (bool_decide_pack _) in Hu. vm_compute in Hu. exact Hu.
Qed.

(** ** Witnesses *)

Definition exStore1 : Store := (addUser (exUser "u-2" "somchai") emptyStore).1.

Lemma reachable_exStore1 : reachable exStore1.
Proof. apply (reachable_step (OpAddUser (exUser "u-2" "somchai"))), reachable_init. Qed.

Lemma exStore1_admin : AdminPresent exStore1.
Proof. intros us H. vm_compute in H. injection H as <-. exists DEFAULT_ADMIN. split; [left|reflexivity]. Qed.

Lemma reachable_logs_bounded_witness :
  length (take 100 [mkActivityLog "l1" "u-2" "User" "ADMIN" "LOGIN" "" "t0"]) ≤ 100.
Proof.
  apply (reachable_logs_bounded (runOp (OpAddLog (Some (exUser "u-2" "somchai")) "LOGIN" "" "l1" "t0") exStore1)).
  - apply reachable_step, reachable_exStore1.
  - vm_compute. reflexivity.
Defined.

Lemma deleteUser_super_admin_witness :
  deleteUser "admin-001" exStore1 = (withUsers exStore1, inl msgSuperAdmin).
Proof. apply deleteUser_super_admin, exStore1_admin. Defined.

Lemma addUser_unique_witness : UsernamesUnique exStore1.
Proof. apply addUser_unique. intros us H. discriminate. Defined.

Lemma addUser_validate_witness :
  validateUser "somchai" "pw" exStore1 = (exStore1, inr (Some (exUser "u-2" "somchai"))).
Proof. apply (addUser_validate (exUser "u-2" "somchai") emptyStore). vm_compute. reflexivity. Defined.

End Storage.
