(* ===== verification/Api.v ===== *)
(** * The HTTP client (services/api.ts) and the round trip to the backend

    src/unnamed/part_000, lines 602-728.  [sendPostRequest] reads the
    configuration from [storage], refuses a missing Web App URL, builds
    the URL [API_URL?action=<action>] and the body
    [{...data, action, sheetId}], posts it and turns a response whose
    [status] is ['error'] into an exception.  The methods of [api] wrap
    it.

    The transport is the Apps Script web app of [Backend]: the request
    reaches [handleRequest] with [e.parameter] read from the query of the
    URL (the first value of each name, as Apps Script does) and
    [e.postData.contents] the [JSON.stringify] text of the body; the
    response is the JSON object [handleRequest] returns ([response.ok]
    holds: [ContentService] answers with status 200).  A call is a
    function of the backend [World] that returns the new world and the
    result or the message of the error it throws. *)

From S2P Require Import Prelude Json Backend Storage.
From Stdlib Require Import Ascii.

Module Api.

(** ** Strings of the URL *)

(** [hay.includes(needle)] *)
Fixpoint includes (needle hay : string) : bool :=
  String.prefix needle hay ||
  match hay with
  | EmptyString => false
  | String _ hay' => includes needle hay'
  end.

(** The text after the first [c], if any. *)
Fixpoint afterFirst (c : ascii) (s : string) : option string :=
  match s with
  | EmptyString => None
  | String a s' => if Ascii.eqb a c then Some s' else afterFirst c s'
  end.

(** The text before the first [c] (all of it if there is none). *)
Fixpoint beforeFirst (c : ascii) (s : string) : string :=
  match s with
  | EmptyString => EmptyString
  | String a s' => if Ascii.eqb a c then EmptyString else String a (beforeFirst c s')
  end.

(** [s.split(c)] *)
Fixpoint splitOn (c : ascii) (s : string) : list string :=
  match s with
  | EmptyString => [EmptyString]
  | String a s' =>
      if Ascii.eqb a c then EmptyString :: splitOn c s'
      else match splitOn c s' with
           | [] => [String a EmptyString]
           | w :: ws => String a w :: ws
           end
  end.

Definition qmark : ascii := "?".
Definition amp : ascii := "&".
Definition eqsign : ascii := "=".

(** [e.parameter[k]]: the first value of [k] in the query of [url]. *)
Definition paramOf (k url : string) : option string :=
  match afterFirst qmark url with
  | None => None
  | Some q =>
      (λ kv, default EmptyString (afterFirst eqsign kv)) <$>
        List.find (λ kv, beforeFirst eqsign kv =s? k) (splitOn amp q)
  end.

(** ** [sendPostRequest] *)

Record HttpRequest := mkHttpRequest {
  reqUrl : string;
  reqBody : jvalue
}.

Definition msgNoUrl : string := "ไม่พบ Web App URL กรุณาตั้งค่าในเมนู System Admin".

(** [{...data}]: the own fields of an object. *)
Definition spread (data : jvalue) : list (string * jvalue) :=
  match data with JObj fs => fs | _ => [] end.

(** [config.x ? config.x.trim() : ''] *)
Definition trimOrEmpty (s : string) : string := if s =s? "" then "" else jsTrim s.

(** The request [sendPostRequest] sends, or the error it throws first. *)
Definition buildRequest (config : Storage.SystemConfig) (action : string) (data : jvalue)
    : string + HttpRequest :=
  let API_URL := trimOrEmpty (Storage.scriptUrl config) in
  if (API_URL =s? "") || includes "วาง_URL" API_URL || (API_URL =s? "") then inl msgNoUrl
  else
    let separator := if includes "?" API_URL then "&" else "?" in
    let url := (API_URL ++ separator ++ "action=" ++ action)%string in
    let payload := jset "sheetId" (JStr (trimOrEmpty (Storage.sheetId config)))
                     (jset "action" (JStr action) (JObj (spread data))) in
    inr (mkHttpRequest url payload).

(** What [handleRequest(e)] receives for a request. *)
Definition toEvent (r : HttpRequest) : Request :=
  mkRequest (paramOf "action" (reqUrl r)) (paramOf "sheetId" (reqUrl r))
    (paramOf "classroomId" (reqUrl r)) (Some (reqBody r)).

(** [jsonResponse.status === 'error'] *)
Definition isErrorResponse (resp : jvalue) : bool :=
  match jget "status" resp with Some (JStr s) => s =s? "error" | _ => false end.

(** [new Error(jsonResponse.message || 'Unknown server error').message] *)
Definition errorMessage (resp : jvalue) : string :=
  jsString (jsOr (jget "message" resp) (Some (JStr "Unknown server error"))).

Definition sendPostRequest (st : Storage.Store) (action : string) (data : jvalue)
    (now : string) (w : World) : World * (string + jvalue) :=
  let config := default Storage.DEFAULT_CONFIG (Storage.sConfig st) in
  match buildRequest config action data with
  | inl msg => (w, inl msg)
  | inr req =>
      let '(w', jsonResponse) := handleRequest w (toEvent req) now in
      if isErrorResponse jsonResponse then (w', inl (errorMessage jsonResponse))
      else (w', inr jsonResponse)
  end.

(** ** The methods of [api] *)

(** [await p] in an [async] method: the error propagates. *)
Definition mapOk {A B} (f : A → B) (r : string + A) : string + B :=
  match r with inl e => inl e | inr x => inr (f x) end.

Definition isArray (v : option jvalue) : option (list jvalue) :=
  match v with Some (JArr xs) => Some xs | _ => None end.

Definition getClassrooms (st : Storage.Store) now w : World * (string + list jvalue) :=
  let '(w', r) := sendPostRequest st "getClassrooms" (JObj []) now w in
  (w', mapOk (λ result, default [] (isArray (jget "data" result))) r).

Definition saveClassroom (st : Storage.Store) (classroom : jvalue) now w : World * (string + unit) :=
  let '(w', r) := sendPostRequest st "saveClassroom" classroom now w in (w', mapOk (λ _, ()) r).

Definition deleteClassroom (st : Storage.Store) (cid : string) now w : World * (string + unit) :=
  let '(w', r) := sendPostRequest st "deleteClassroom" (JObj [("id", JStr cid)]) now w in
  (w', mapOk (λ _, ()) r).

Record DashboardData := mkDashboardData {
  students : list jvalue;
  plans : option (list jvalue);
  subjects : option (list jvalue)
}.

(** An error is caught and read as an empty classroom. *)
Definition getDashboardData (st : Storage.Store) (classroomId : string) now w
    : World * DashboardData :=
  let '(w', r) := sendPostRequest st "getDashboardData" (JObj [("classroomId", JStr classroomId)]) now w in
  match r with
  | inl _ => (w', mkDashboardData [] None None)
  | inr result =>
      (w', mkDashboardData (default [] (isArray (jget "students" result)))
             (isArray (jget "plans" result)) (isArray (jget "subjects" result)))
  end.

Definition saveStudent (st : Storage.Store) (classroomId : string) (student : jvalue) now w
    : World * (string + unit) :=
  let '(w', r) := sendPostRequest st "saveStudent"
                    (JObj [("classroomId", JStr classroomId); ("student", student)]) now w in
  (w', mapOk (λ _, ()) r).

Definition saveStudents (st : Storage.Store) (classroomId : string) (sts : list jvalue) now w
    : World * (string + unit) :=
  let '(w', r) := sendPostRequest st "saveStudents"
                    (JObj [("classroomId", JStr classroomId); ("students", JArr sts)]) now w in
  (w', mapOk (λ _, ()) r).

Definition deleteStudent (st : Storage.Store) (classroomId studentId : string) now w
    : World * (string + unit) :=
  let '(w', r) := sendPostRequest st "deleteStudent"
                    (JObj [("classroomId", JStr classroomId); ("studentId", JStr studentId)]) now w in
  (w', mapOk (λ _, ()) r).

Definition saveSettings (st : Storage.Store) (classroomId type : string) (data : list jvalue) now w
    : World * (string + unit) :=
  let '(w', r) := sendPostRequest st "saveSettings"
                    (JObj [("classroomId", JStr classroomId); ("type", JStr type); ("data", JArr data)]) now w in
  (w', mapOk (λ _, ()) r).

Definition setupDatabase (st : Storage.Store) now w : World * (string + unit) :=
  let '(w', r) := sendPostRequest st "setup" (JObj []) now w in (w', mapOk (λ _, ()) r).

(** ** Lemmas on URLs *)

Lemma afterFirst_app c u t :
  includes (String c EmptyString) u = false → afterFirst c (u ++ String c t) = Some t.
Proof.
  induction u as [|a u IH]; simpl; [by rewrite Ascii.eqb_refl|]. intros H.
  destruct (ascii_dec c a) as [->|Hne]; simpl in H; [by destruct u|].
  destruct (Ascii.eqb_spec a c); [congruence|]. by apply IH.
Qed.

(** The Web App URL is set, is not the placeholder, and has no query. *)
Definition urlReady (config : Storage.SystemConfig) : Prop :=
  let API_URL := trimOrEmpty (Storage.scriptUrl config) in
  API_URL ≠ "" ∧ includes "วาง_URL" API_URL = false ∧ includes "?" API_URL = false.

Lemma buildRequest_ok config action data :
  urlReady config →
  buildRequest config action data =
  inr (mkHttpRequest (trimOrEmpty (Storage.scriptUrl config) ++ "?" ++ "action=" ++ action)%string
         (jset "sheetId" (JStr (trimOrEmpty (Storage.sheetId config)))
            (jset "action" (JStr action) (JObj (spread data))))).
Proof.
  intros (Hne & Hph & Hq). unfold buildRequest.
  apply String.eqb_neq in Hne. by rewrite Hne, Hph, Hq.
Qed.

Lemma paramOf_query k u q :
  includes "?" u = false →
  paramOf k (u ++ "?" ++ q)%string =
  (λ kv, default EmptyString (afterFirst eqsign kv)) <$>
    List.find (λ kv, beforeFirst eqsign kv =s? k) (splitOn amp q).
Proof.
  intros Hq. unfold paramOf. change ("?" ++ q)%string with (String qmark q).
  by rewrite afterFirst_app.
Qed.

Lemma splitOn_none c s : includes (String c EmptyString) s = false → splitOn c s = [s].
Proof.
  induction s as [|a s IH]; [done|]. simpl. intros H.
  destruct (ascii_dec c a) as [->|Hne]; simpl in H; [by destruct s|].
  destruct (Ascii.eqb_spec a c); [congruence|]. by rewrite IH.
Qed.

(** The event of a request to [API_URL?action=a]. *)
Lemma toEvent_url u a payload :
  includes "?" u = false → includes "&" a = false →
  toEvent (mkHttpRequest (u ++ "?" ++ "action=" ++ a)%string payload) =
  mkRequest (Some a) None None (Some payload).
Proof.
  intros Hq Ha. unfold toEvent. cbn [reqUrl reqBody]. rewrite !paramOf_query by done.
  change ("action=" ++ a)%string with (String "a" (String "c" (String "t" (String "i"
    (String "o" (String "n" (String "=" a))))))).
  rewrite splitOn_none; [done|]. simpl. by destruct a.
Qed.

Lemma dispatch_saveStudent w sid b e now :
  dispatch w (Some (JStr "saveStudent")) sid b e now = onDB w sid (Backend.saveStudent b now).
Proof. reflexivity. Qed.

Lemma dispatch_getDashboardData w sid b e now :
  dispatch w (Some (JStr "getDashboardData")) sid b e now =
  onDB w sid (λ ss, (ss, HOk (Backend.getDashboardData
                                (jsOr (jget "classroomId" b) (JStr <$> paramClassroomId e)) ss))).
Proof. reflexivity. Qed.

(** The save-then-load round trip through the Web App. *)
Lemma saveStudent_getDashboardData_ok st cid student now1 now2 w :
  urlReady (default Storage.DEFAULT_CONFIG (Storage.sConfig st)) →
  WorldHeaded w → cid ≠ "" → sheetsStable (jsTrim cid) = true → student ≠ JNull →
  (saveStudent st cid student now1 w).2 = inr () ∧
  student ∈ students (getDashboardData st cid now2 (saveStudent st cid student now1 w).1).2.
Proof.
  intros Hready Hw Hcid Hstable Hnull. pose proof Hready as (_ & _ & Hq).
  unfold saveStudent, getDashboardData, sendPostRequest. rewrite !buildRequest_ok by done.
  rewrite !toEvent_url by done.
  set (s := trimOrEmpty (Storage.sheetId (default Storage.DEFAULT_CONFIG (Storage.sConfig st)))).
  set (P1 := jset "sheetId" (JStr s) _).
  set (P2 := jset "sheetId" (JStr s) _).
  rewrite (handleRequest_dispatch _ _ _ "saveStudent" P1) by (done || discriminate).
  rewrite (handleRequest_dispatch _ _ _ "getDashboardData" P2) by (done || discriminate).
  rewrite dispatch_saveStudent, dispatch_getDashboardData.
  assert (jget "sheetId" P1 = Some (JStr s)) as ->  by reflexivity.
  assert (jget "sheetId" P2 = Some (JStr s)) as ->  by reflexivity.
  assert (jget "classroomId" P2 = Some (JStr cid)) as ->  by reflexivity.
  cbn [paramSheetId paramClassroomId fmap option_fmap option_map].
  unfold onDB. set (t := getDB w (jsOr (Some (JStr s)) None)).
  assert (jget "classroomId" P1 = Some (JStr cid)) as Ec by reflexivity.
  destruct (saveStudent_ok P1 now1 (readSS w t) student) as [Hr Hin];
    [by rewrite Ec | by apply readSS_headed | reflexivity | done |].
  destruct (Backend.saveStudent P1 now1 (readSS w t)) as [ss' r] eqn:Es. simpl in Hr. subst r.
  cbn -[getDB writeSS readSS Backend.getDashboardData jsOr].
  assert (isErrorResponse successResult = false) as -> by reflexivity.
  cbn -[getDB writeSS readSS Backend.getDashboardData jsOr]. split; [done|].
  subst t. rewrite getDB_writeSS, readSS_writeSS.
  assert (jsOr (Some (JStr cid)) None = Some (JStr cid)) as ->.
  { unfold jsOr. cbn. apply String.eqb_neq in Hcid. by rewrite Hcid. }
  assert (∀ c ss, isErrorResponse (Backend.getDashboardData c ss) = false) as -> by reflexivity.
  cbn [students]. rewrite getDashboardData_students. exact Hin.
Qed.

(** C24: end to end, through the Web App: when the URL is configured
    and every spreadsheet that [getDB] can reach has its header row,
    [api.saveStudent(classroomId, student)] succeeds and a later
    [api.getDashboardData(classroomId)] lists the student, for a
    classroom id that is not empty and that Sheets stores, once trimmed,
    as the text written (not a numeral such as ['007']). *)
Theorem saveStudent_getDashboardData st cid student now1 now2 w :
  urlReady (default Storage.DEFAULT_CONFIG (Storage.sConfig st)) →
  WorldHeaded w → cid ≠ "" → sheetsStable (jsTrim cid) = true → student ≠ JNull →
  (saveStudent st cid student now1 w).2 = inr () ∧
  student ∈ students (getDashboardData st cid now2 (saveStudent st cid student now1 w).1).2.
Proof. apply saveStudent_getDashboardData_ok. Qed.

(** With no Web App URL configured (a fresh browser: the default
    configuration has [scriptUrl = '']), every request throws the
    configuration error before anything is sent, so the backend is not
    touched, and [api.getDashboardData] reads an empty classroom. *)
Theorem api_unconfigured action data now w cid :
  sendPostRequest Storage.emptyStore action data now w = (w, inl msgNoUrl) ∧
  getDashboardData Storage.emptyStore cid now w = (w, mkDashboardData [] None None).
Proof. split; reflexivity. Qed.

(** ** Witnesses *)

Definition exConfig : Storage.SystemConfig :=
  Storage.mkSystemConfig "https://script.google.com/macros/s/AKfy/exec" "1ge8sumS3qX7lsw29cIoBQrsW5vNYI5yfr" "".

Definition exBrowser : Storage.Store := Storage.mkStore None (Some exConfig) None None.

Lemma saveStudent_getDashboardData_witness :
  (saveStudent exBrowser "C1" (exStudentObj "S2") "t1" (mkWorld exSheets1 ∅)).2 = inr () ∧
  exStudentObj "S2" ∈ students (getDashboardData exBrowser "C1" "t2"
                          (saveStudent exBrowser "C1" (exStudentObj "S2") "t1" (mkWorld exSheets1 ∅)).1).2.
Proof.
  apply saveStudent_getDashboardData; [| |discriminate|vm_compute; reflexivity|discriminate].
  - split; [discriminate|split; reflexivity].
  - split; [intros d [= <-]; discriminate|intros k ss Hk; discriminate].
Defined.

(** A student saved under the classroom id [''] is not read back:
    [saveStudent] files it under [String('').trim()], while
    [getDashboardData] replaces the falsy id by the absent URL parameter
    ([body.classroomId || e.parameter.classroomId]) and reads the
    classroom ['undefined']. *)
Theorem empty_classroom_not_read_back :
  (saveStudent exBrowser "" (exStudentObj "S2") "t1" (mkWorld exSheets1 ∅)).2 = inr () ∧
  students (getDashboardData exBrowser "" "t2"
              (saveStudent exBrowser "" (exStudentObj "S2") "t1" (mkWorld exSheets1 ∅)).1).2 = [].
Proof. split; vm_compute; reflexivity. Qed.

End Api.
