(* ===== verification/Dashboard.v ===== *)
(** * The Dashboard of a classroom (components/SettingsPage.tsx, 486-660)

    [Dashboard] holds the classroom's students, study plans and exam
    subjects in React state, loads them with [api.getDashboardData],
    updates them through its handlers, which change the React state
    first and then call [api] and [storage.addLog], and ranks the
    students with [rankStudents] on every render.

    The whole system a handler acts on is [Sys]: the backend [World],
    the browser's [localStorage] ([Storage.Store]), the Dashboard's state
    and the [alert]s shown.  An [await] runs the request to completion
    (the Web App of [Api]); an exception caught by a handler becomes an
    alert.  The clock ([new Date()]) and the log ids are inputs. *)

From S2P Require Import Prelude Types Comparator StableSort Allocation Ranking Json Backend Storage Api.
From stdpp Require Import pretty.

Module Dashboard.

(** ** The JSON text of the records the Dashboard sends *)

Definition scoresJson (sc : Scores) : jvalue :=
  JObj [("math", JNum (math sc)); ("science", JNum (science sc)); ("thai", JNum (thai sc));
        ("english", JNum (english sc)); ("social", JNum (social sc))].

Definition studentJson (s : Student) : jvalue :=
  JObj [("id", JStr (id s)); ("title", JStr (title s)); ("firstName", JStr (firstName s));
        ("lastName", JStr (lastName s)); ("preferredStreams", JArr (JStr <$> preferredStreams s));
        ("scores", scoresJson (scores s))].

Definition planJson (p : StudyPlan) : jvalue :=
  JObj [("id", JStr (plan_id p)); ("name", JStr (name p)); ("quota", JNum (quota p))].

Definition subjectJson (s : ExamSubject) : jvalue :=
  JObj [("id", JStr (subject_id s)); ("name", JStr (subject_name s)); ("maxScore", JNum (maxScore s))].

(** The fields the components read from a parsed record. *)
Definition strField (k : string) (v : jvalue) : option string :=
  match jget k v with Some (JStr s) => Some s | _ => None end.

Definition numField (k : string) (v : jvalue) : option Z :=
  match jget k v with Some (JNum z) => Some z | _ => None end.

Definition strList (v : option jvalue) : option (list string) :=
  match v with
  | Some (JArr xs) => mapM (λ x, match x with JStr s => Some s | _ => None end) xs
  | _ => None
  end.

Definition scoresOfJson (v : jvalue) : option Scores :=
  m ← numField "math" v; sc ← numField "science" v; t ← numField "thai" v;
  e ← numField "english" v; so ← numField "social" v;
  Some (mkScores m sc t e so).

Definition studentOfJson (v : jvalue) : option Student :=
  i ← strField "id" v; ti ← strField "title" v; f ← strField "firstName" v;
  l ← strField "lastName" v; ps ← strList (jget "preferredStreams" v);
  sv ← jget "scores" v; sc ← scoresOfJson sv;
  Some (mkStudent i ti f l ps sc).

Definition planOfJson (v : jvalue) : option StudyPlan :=
  i ← strField "id" v; n ← strField "name" v; q ← numField "quota" v;
  Some (mkStudyPlan i n q).

Definition subjectOfJson (v : jvalue) : option ExamSubject :=
  i ← strField "id" v; n ← strField "name" v; m ← numField "maxScore" v;
  Some (mkExamSubject i n m).

(** ** State *)

(** [DEFAULT_PLANS]: the names stand for the constants [StreamType.SCI_MATH],
    ... of types.ts, which is not part of src/; no theorem depends on
    their text. *)
Definition DEFAULT_PLANS : list StudyPlan :=
  [mkStudyPlan "1" "SCI_MATH" 10; mkStudyPlan "2" "ARTS_MATH" 10; mkStudyPlan "3" "ARTS_LANG" 10;
   mkStudyPlan "4" "ARTS_SOC" 10; mkStudyPlan "5" "SPECIAL" 10].

Definition DEFAULT_SUBJECTS : list ExamSubject :=
  [mkExamSubject "math" "คณิต" 100; mkExamSubject "science" "วิทย์" 100;
   mkExamSubject "thai" "ไทย" 100; mkExamSubject "english" "อังกฤษ" 100;
   mkExamSubject "social" "สังคม" 100].

(** The props of [Dashboard] that the handlers read. *)
Record Props := mkProps {
  classroomId : string;
  classroomName : string;
  currentUser : option Storage.AdminUser
}.

Record DashState := mkDashState {
  students : list Student;
  studyPlans : list StudyPlan;
  examSubjects : list ExamSubject;
  currentUpdatedAt : option string
}.

Definition initialState (classroomUpdatedAt : option string) : DashState :=
  mkDashState [] DEFAULT_PLANS DEFAULT_SUBJECTS classroomUpdatedAt.

Record Sys := mkSys {
  world : World;
  browser : Storage.Store;
  dash : DashState;
  alerts : list string
}.

Definition setStudents (l : list Student) (d : DashState) : DashState :=
  mkDashState l (studyPlans d) (examSubjects d) (currentUpdatedAt d).
Definition setStudyPlans (l : list StudyPlan) (d : DashState) : DashState :=
  mkDashState (students d) l (examSubjects d) (currentUpdatedAt d).
Definition setExamSubjects (l : list ExamSubject) (d : DashState) : DashState :=
  mkDashState (students d) (studyPlans d) l (currentUpdatedAt d).
Definition refreshTimestamp (now : string) (d : DashState) : DashState :=
  mkDashState (students d) (studyPlans d) (examSubjects d) (Some now).

Definition withDash (f : DashState → DashState) (s : Sys) : Sys :=
  mkSys (world s) (browser s) (f (dash s)) (alerts s).
Definition withWorld (w : World) (s : Sys) : Sys :=
  mkSys w (browser s) (dash s) (alerts s).
Definition alert (msg : string) (s : Sys) : Sys :=
  mkSys (world s) (browser s) (dash s) (alerts s ++ [msg]).

(** [storage.addLog(currentUser, action, details)] *)
Definition addLog (props : Props) (act det logId now : string) (s : Sys) : Sys :=
  mkSys (world s) ((Storage.addLog (currentUser props) act det logId now (browser s)).1)
    (dash s) (alerts s).

(** [currentUser?.role === 'VIEWER'] *)
Definition isViewer (props : Props) : bool :=
  match currentUser props with Some u => Storage.role u =s? "VIEWER" | None => false end.

(** ** Loading *)

(** [loadData]: [api.getDashboardData] never throws (it answers an
    error with an empty classroom); [result.students] is an array, so
    it always replaces the list; plans and subjects replace the current
    ones when the settings exist.  The parsed records are read as
    [Student], [StudyPlan] and [ExamSubject]: TypeScript does not check
    them at run time, and a record of another shape (which only data not
    written by this application can be) is outside the model and is
    left out of the list ([omap]).  What the application saves reads
    back ([studentJson] and [studentOfJson]). *)
Definition loadData (props : Props) (now : string) (s : Sys) : Sys :=
  let '(w', result) := Api.getDashboardData (browser s) (classroomId props) now (world s) in
  let d1 := setStudents (omap studentOfJson (Api.students result)) (dash s) in
  let d2 := match Api.plans result with Some ps => setStudyPlans (omap planOfJson ps) d1 | None => d1 end in
  let d3 := match Api.subjects result with
            | Some xs => setExamSubjects (omap subjectOfJson xs) d2
            | None => d2
            end in
  mkSys w' (browser s) d3 (alerts s).

(** ** Handlers *)

(** The merge of [handleAddStudents]: a student whose id is in the list
    replaces the first one with that id, the others are appended. *)
Definition mergeById (students newStudents : list Student) : list Student :=
  fold_left (λ updatedList newStu,
      match list_find (λ s, id s = id newStu) updatedList with
      | Some (index, _) => <[index := newStu]> updatedList
      | None => updatedList ++ [newStu]
      end) newStudents students.

Definition msgSaveFailed : string := "บันทึกข้อมูลไม่สำเร็จ".
Definition msgEditFailed : string := "บันทึกการแก้ไขไม่สำเร็จ".
Definition msgDeleteFailed : string := "ลบข้อมูลไม่สำเร็จ".
Definition msgReset : string :=
  "ข้อมูลนักเรียนถูกล้าง (ในหน้าจอ) - กรุณาตรวจสอบการลบในฐานข้อมูลจริงหากจำเป็น".

Definition handleAddStudents (props : Props) (newStudents : list Student) (logId now : string)
    (s : Sys) : Sys :=
  if isViewer props then s else
  let s1 := withDash (setStudents (mergeById (students (dash s)) newStudents)) s in
  match Api.saveStudents (browser s1) (classroomId props) (studentJson <$> newStudents) now (world s1) with
  | (w', inl _) => alert msgSaveFailed (withWorld w' s1)
  | (w', inr _) =>
      withDash (refreshTimestamp now)
        (addLog props "ADD_STUDENTS"
           ("Added " ++ pretty (length newStudents) ++ " students to " ++ classroomName props)%string
           logId now (withWorld w' s1))
  end.

(** [originalId || updatedStudent.id] *)
Definition editKey (updatedStudent : Student) (originalId : option string) : string :=
  match originalId with
  | Some o => if o =s? "" then id updatedStudent else o
  | None => id updatedStudent
  end.

Definition handleEditStudent (props : Props) (updatedStudent : Student) (originalId : option string)
    (logId now : string) (s : Sys) : Sys :=
  if isViewer props then s else
  let key := editKey updatedStudent originalId in
  let s1 := withDash (setStudents ((λ x, if id x =s? key then updatedStudent else x) <$> students (dash s))) s in
  let deleted :=
    match originalId with
    | Some o =>
        if negb (o =s? "") && negb (o =s? id updatedStudent)
        then Api.deleteStudent (browser s1) (classroomId props) o now (world s1)
        else (world s1, inr ())
    | None => (world s1, inr ())
    end in
  match deleted with
  | (w1, inl _) => alert msgEditFailed (withWorld w1 s1)
  | (w1, inr _) =>
      match Api.saveStudent (browser s1) (classroomId props) (studentJson updatedStudent) now w1 with
      | (w2, inl _) => alert msgEditFailed (withWorld w2 s1)
      | (w2, inr _) =>
          withDash (refreshTimestamp now)
            (addLog props "EDIT_STUDENT" ("Edited student: " ++ id updatedStudent)%string
               logId now (withWorld w2 s1))
      end
  end.

Definition handleDeleteStudent (props : Props) (sid : string) (logId now : string) (s : Sys) : Sys :=
  if isViewer props then s else
  let target := snd <$> list_find (λ x, id x = sid) (students (dash s)) in
  let s1 := withDash (setStudents (List.filter (λ x, negb (id x =s? sid)) (students (dash s)))) s in
  match Api.deleteStudent (browser s1) (classroomId props) sid now (world s1) with
  | (w', inl _) => alert msgDeleteFailed (withWorld w' s1)
  | (w', inr _) =>
      let fn := match target with Some t => firstName t | None => "undefined" end in
      withDash (refreshTimestamp now)
        (addLog props "DELETE_STUDENT" ("Deleted student: " ++ sid ++ " (" ++ fn ++ ")")%string
           logId now (withWorld w' s1))
  end.

(** [handleUpdatePlans] does not catch: the error of [api.saveSettings]
    reaches its caller, after the plans were set. *)
Definition handleUpdatePlans (props : Props) (newPlans : list StudyPlan) (logId now : string)
    (s : Sys) : Sys * (string + unit) :=
  if isViewer props then (s, inr ()) else
  let s1 := withDash (setStudyPlans newPlans) s in
  match Api.saveSettings (browser s1) (classroomId props) "PLANS" (planJson <$> newPlans) now (world s1) with
  | (w', inl msg) => (withWorld w' s1, inl msg)
  | (w', inr _) =>
      (withDash (refreshTimestamp now)
         (addLog props "UPDATE_PLANS" ("Updated study plans for " ++ classroomName props)%string
            logId now (withWorld w' s1)), inr ())
  end.

Definition handleUpdateSubjects (props : Props) (newSubjects : list ExamSubject) (logId now : string)
    (s : Sys) : Sys * (string + unit) :=
  if isViewer props then (s, inr ()) else
  let s1 := withDash (setExamSubjects newSubjects) s in
  match Api.saveSettings (browser s1) (classroomId props) "SUBJECTS" (subjectJson <$> newSubjects) now (world s1) with
  | (w', inl msg) => (withWorld w' s1, inl msg)
  | (w', inr _) =>
      (withDash (refreshTimestamp now)
         (addLog props "UPDATE_SUBJECTS" ("Updated exam subjects for " ++ classroomName props)%string
            logId now (withWorld w' s1)), inr ())
  end.

(** [handleResetData] empties the list on screen only: no request is
    sent. *)
Definition handleResetData (props : Props) (logId now : string) (s : Sys) : Sys :=
  if isViewer props then s else
  let s1 := withDash (setStudents []) s in
  alert msgReset
    (withDash (refreshTimestamp now)
       (addLog props "RESET_DATA" ("Reset all student data for " ++ classroomName props)%string
          logId now s1)).

(** [rankedStudents], recomputed on every render. *)
Definition rankedStudents (d : DashState) : list RankedStudent :=
  rankStudents (students d) (studyPlans d).

(** ** Examples *)

Definition exProps : Props := mkProps "C1" "M4/1" (Some Storage.DEFAULT_ADMIN).
Definition exViewerProps : Props :=
  mkProps "C1" "M4/1" (Some (Storage.mkAdminUser "u-3" "guest" "pw" "Guest" "VIEWER")).
Definition exStudent (i f : string) : Student :=
  mkStudent i "Mr" f "Test" ["SCI_MATH"] (mkScores 80 70 60 50 40).
Definition exSys0 : Sys := mkSys (mkWorld exSheets1 ∅) Api.exBrowser (initialState None) [].

(** ** JSON round trips *)

Lemma mapM_JStr (l : list string) :
  mapM (λ x, match x with JStr s => Some s | _ => None end) (JStr <$> l) = Some l.
Proof. by apply mapM_fmap_Some. Qed.

Lemma studentOfJson_studentJson s : studentOfJson (studentJson s) = Some s.
Proof.
  destruct s as [i ti f l ps [m sc t e so]]. unfold studentOfJson. simpl.
  by rewrite mapM_JStr.
Qed.

Lemma planOfJson_planJson p : planOfJson (planJson p) = Some p.
Proof. by destruct p. Qed.

Lemma subjectOfJson_subjectJson x : subjectOfJson (subjectJson x) = Some x.
Proof. by destruct x. Qed.

#[export] Hint Rewrite studentOfJson_studentJson planOfJson_planJson subjectOfJson_subjectJson : npss_rw.

(** ** The merge by id *)

Lemma ids_insert_same (l : list Student) i x n :
  l !! i = Some x → id x = id n → id <$> <[i := n]> l = id <$> l.
Proof.
  intros Hx Hid. rewrite list_fmap_insert. apply list_insert_id.
  by rewrite list_lookup_fmap, Hx, <-Hid.
Qed.

Lemma mergeById_NoDup l newStudents :
  NoDup (id <$> l) → NoDup (id <$> mergeById l newStudents).
Proof.
  unfold mergeById. revert l. induction newStudents as [|n ns IH]; intros l Hl; [done|].
  simpl. apply IH. destruct (list_find _ l) as [[i x]|] eqn:F.
  - apply list_find_Some in F as (Hx & Hid & _). by rewrite (ids_insert_same _ _ _ _ Hx Hid).
  - rewrite fmap_app. apply NoDup_app. split_and!; [done| |apply NoDup_singleton].
    intros k Hk ->%list_elem_of_singleton. apply list_elem_of_fmap in Hk as (y & Hy & Hin).
    apply list_find_None in F. rewrite Forall_forall in F. by apply (F y).
Qed.

Lemma mergeById_ids_mono l newStudents k :
  k ∈ id <$> l → k ∈ id <$> mergeById l newStudents.
Proof.
  unfold mergeById. revert l. induction newStudents as [|n ns IH]; intros l Hk; [done|].
  simpl. apply IH. destruct (list_find _ l) as [[i x]|] eqn:F.
  - apply list_find_Some in F as (Hx & Hid & _). by rewrite (ids_insert_same _ _ _ _ Hx Hid).
  - rewrite fmap_app. apply elem_of_app. by left.
Qed.

Lemma mergeById_ids l newStudents n :
  n ∈ newStudents → id n ∈ id <$> mergeById l newStudents.
Proof.
  unfold mergeById. revert l. induction newStudents as [|m ns IH]; intros l Hn;
    [by apply not_elem_of_nil in Hn|].
  simpl. apply elem_of_cons in Hn as [->|Hn]; [|by apply IH].
  apply mergeById_ids_mono. destruct (list_find _ l) as [[i x]|] eqn:F.
  - apply list_find_Some in F as (Hx & Hid & _). rewrite (ids_insert_same _ _ _ _ Hx Hid).
    rewrite <-Hid. apply list_elem_of_fmap_2. by eapply list_elem_of_lookup_2.
  - rewrite fmap_app. apply elem_of_app. right. by left.
Qed.

(** ** What the handlers change *)

Lemma handleAddStudents_students props newStudents logId now s :
  isViewer props = false →
  students (dash (handleAddStudents props newStudents logId now s)) =
  mergeById (students (dash s)) newStudents.
Proof.
  intros Hv. unfold handleAddStudents. rewrite Hv.
  by destruct (Api.saveStudents _ _ _ _ _) as [? []].
Qed.

Lemma handleEditStudent_students props u o logId now s :
  isViewer props = false →
  students (dash (handleEditStudent props u o logId now s)) =
  (λ x, if id x =s? editKey u o then u else x) <$> students (dash s).
Proof. intros Hv. unfold handleEditStudent. rewrite Hv. by repeat case_match. Qed.

Lemma handleDeleteStudent_students props sid logId now s :
  isViewer props = false →
  students (dash (handleDeleteStudent props sid logId now s)) =
  List.filter (λ x, negb (id x =s? sid)) (students (dash s)).
Proof. intros Hv. unfold handleDeleteStudent. rewrite Hv. by repeat case_match. Qed.

Lemma addLog_config props act det logId now s :
  Storage.sConfig (browser (addLog props act det logId now s)) = Storage.sConfig (browser s).
Proof. unfold addLog. simpl. by destruct (currentUser props). Qed.

Lemma addLog_world props act det logId now s : world (addLog props act det logId now s) = world s.
Proof. done. Qed.

(** A request depends on the browser only through the configuration. *)
Lemma sendPostRequest_config st1 st2 action data now w :
  Storage.sConfig st1 = Storage.sConfig st2 →
  Api.sendPostRequest st1 action data now w = Api.sendPostRequest st2 action data now w.
Proof. intros H. unfold Api.sendPostRequest. by rewrite H. Qed.

Lemma getDashboardData_config st1 st2 cid now w :
  Storage.sConfig st1 = Storage.sConfig st2 →
  Api.getDashboardData st1 cid now w = Api.getDashboardData st2 cid now w.
Proof. intros H. unfold Api.getDashboardData. by rewrite (sendPostRequest_config st1 st2). Qed.

Lemma loadData_students_mem props now s x :
  studentJson x ∈ Api.students (Api.getDashboardData (browser s) (classroomId props) now (world s)).2 →
  x ∈ students (dash (loadData props now s)).
Proof.
  intros Hin. unfold loadData.
  destruct (Api.getDashboardData _ _ _ _) as [w' r]. simpl in *.
  destruct (Api.plans r), (Api.subjects r); simpl;
    apply list_elem_of_omap; exists (studentJson x); by rewrite studentOfJson_studentJson.
Qed.

(** ** Properties of the handlers *)

(** C26: [handleAddStudents] keeps the ids of the list on screen
    distinct, whatever the batch holds, and every student of the batch
    is on screen afterwards (whether the request succeeds or not). *)
Theorem handleAddStudents_merge props newStudents logId now s :
  isViewer props = false → NoDup (id <$> students (dash s)) →
  NoDup (id <$> students (dash (handleAddStudents props newStudents logId now s))) ∧
  ∀ n, n ∈ newStudents →
       id n ∈ id <$> students (dash (handleAddStudents props newStudents logId now s)).
Proof.
  intros Hv Hnd. rewrite handleAddStudents_students by done. split.
  - by apply mergeById_NoDup.
  - intros n Hn. by apply mergeById_ids.
Qed.

(** C27: an edit that keeps the student's id is persisted: the list
    calls [onEditStudent(updatedStudent, editingStudent.id)]
    (StudentList.tsx:672), so the original id is the student's own.
    When the Web App is configured, the spreadsheets have their header
    rows and Sheets stores the trimmed classroom id as the text written,
    [handleEditStudent] deletes nothing, shows no alert, and a reload
    ([loadData]) lists the edited student. *)
Theorem handleEditStudent_reload props st logId now now' s :
  isViewer props = false →
  Api.urlReady (default Storage.DEFAULT_CONFIG (Storage.sConfig (browser s))) →
  WorldHeaded (world s) → classroomId props ≠ "" → sheetsStable (jsTrim (classroomId props)) = true →
  alerts (handleEditStudent props st (Some (id st)) logId now s) = alerts s ∧
  st ∈ students (dash (loadData props now' (handleEditStudent props st (Some (id st)) logId now s))).
Proof.
  intros Hv Hready Hw Hcid Hst.
  destruct (Api.saveStudent_getDashboardData_ok (browser s) (classroomId props) (studentJson st)
              now now' (world s) Hready Hw Hcid Hst ltac:(discriminate)) as [Hok Hin].
  unfold handleEditStudent. rewrite Hv, String.eqb_refl, andb_false_r. cbn [world browser withDash].
  destruct (Api.saveStudent (browser s) (classroomId props) (studentJson st) now (world s))
    as [w2 r] eqn:E. simpl in Hok. subst r. split; [done|].
  apply loadData_students_mem. cbn [world browser dash withDash refreshTimestamp].
  rewrite (getDashboardData_config _ (browser s)) by (rewrite addLog_config; reflexivity).
  exact Hin.
Qed.

(** [handleResetData] clears the list on screen only: the backend
    is not touched, and a reload brings every student back. *)
Theorem handleResetData_not_persisted props logId now now' s :
  isViewer props = false →
  world (handleResetData props logId now s) = world s ∧
  students (dash (loadData props now' (handleResetData props logId now s))) =
  students (dash (loadData props now' s)).
Proof.
  intros Hv. unfold handleResetData. rewrite Hv. split; [done|].
  unfold loadData. cbn [world browser alert withDash].
  rewrite (getDashboardData_config _ (browser s)) by (rewrite addLog_config; reflexivity).
  destruct (Api.getDashboardData _ _ _ _) as [w' r]. simpl.
  by destruct (Api.plans r), (Api.subjects r).
Qed.

(** For a [VIEWER] every handler returns at once: nothing on
    screen, in the browser or in the backend changes. *)
Theorem viewer_readonly props s ns u o i ps xs logId now :
  isViewer props = true →
  handleAddStudents props ns logId now s = s ∧
  handleEditStudent props u o logId now s = s ∧
  handleDeleteStudent props i logId now s = s ∧
  handleUpdatePlans props ps logId now s = (s, inr ()) ∧
  handleUpdateSubjects props xs logId now s = (s, inr ()) ∧
  handleResetData props logId now s = s.
Proof.
  intros Hv. unfold handleAddStudents, handleEditStudent, handleDeleteStudent,
    handleUpdatePlans, handleUpdateSubjects, handleResetData.
  by rewrite Hv.
Qed.

(** The merge on screen and the bulk save disagree on a batch that
    names a new id twice: the screen shows one student, the backend
    appends two rows (C19), and a reload shows both. *)
Theorem add_duplicate_batch_reload :
  students (dash (handleAddStudents exProps [exStudent "S9" "A"; exStudent "S9" "B"] "log1" "t1" exSys0))
    = [exStudent "S9" "B"] ∧
  students (dash (loadData exProps "t2"
    (handleAddStudents exProps [exStudent "S9" "A"; exStudent "S9" "B"] "log1" "t1" exSys0)))
    = [exStudent "S9" "A"; exStudent "S9" "B"].
Proof. split; vm_compute; reflexivity. Qed.

(** ** Witnesses *)

Lemma handleAddStudents_merge_witness :
  NoDup (id <$> students (dash (handleAddStudents exProps [exStudent "S9" "A"; exStudent "S9" "B"] "log1" "t1" exSys0))) ∧
  ∀ n, n ∈ [exStudent "S9" "A"; exStudent "S9" "B"] →
       id n ∈ id <$> students (dash (handleAddStudents exProps [exStudent "S9" "A"; exStudent "S9" "B"] "log1" "t1" exSys0)).
Proof. apply handleAddStudents_merge; [reflexivity | constructor]. Defined.

Lemma handleEditStudent_reload_witness :
  alerts (handleEditStudent exProps (exStudent "S9" "A") (Some "S9") "log1" "t1" exSys0) = alerts exSys0 ∧
  exStudent "S9" "A" ∈ students (dash (loadData exProps "t2" (handleEditStudent exProps (exStudent "S9" "A") (Some "S9") "log1" "t1" exSys0))).
Proof.
  apply (handleEditStudent_reload exProps (exStudent "S9" "A")); [reflexivity | | |discriminate|vm_compute; reflexivity].
  - split; [discriminate|split; reflexivity].
  - split; [intros d [= <-]; discriminate|intros k ss Hk; discriminate].
Defined.

Lemma handleResetData_not_persisted_witness :
  world (handleResetData exProps "log1" "t1" exSys0) = world exSys0 ∧
  students (dash (loadData exProps "t2" (handleResetData exProps "log1" "t1" exSys0))) =
  students (dash (loadData exProps "t2" exSys0)).
Proof. apply handleResetData_not_persisted. reflexivity. Defined.

Lemma viewer_readonly_witness :
  handleAddStudents exViewerProps [exStudent "S9" "A"] "log1" "t1" exSys0 = exSys0 ∧
  handleEditStudent exViewerProps (exStudent "S9" "A") None "log1" "t1" exSys0 = exSys0 ∧
  handleDeleteStudent exViewerProps "S1" "log1" "t1" exSys0 = exSys0 ∧
  handleUpdatePlans exViewerProps DEFAULT_PLANS "log1" "t1" exSys0 = (exSys0, inr ()) ∧
  handleUpdateSubjects exViewerProps DEFAULT_SUBJECTS "log1" "t1" exSys0 = (exSys0, inr ()) ∧
  handleResetData exViewerProps "log1" "t1" exSys0 = exSys0.
Proof. apply viewer_readonly. reflexivity. Defined.

End Dashboard.
