(* ===== verification/Settings.v ===== *)
(** * The settings editor (components/SettingsPage.tsx, 1-160)

    [SettingsPage] edits copies of the study plans, the exam subjects
    and the selection rules in a modal; a save of plans or subjects
    must be confirmed by typing [delete], and then calls the parent's
    [onUpdatePlans] or [onUpdateSubjects] and [onResetData].

    The component talks to its parent only through its props: they are
    the record [SettingsProps] of values and callbacks over the parent's
    state [S], and the theorems of the editor hold for any parent.  The
    Dashboard's handlers are one instance ([dashboardProps]).  The
    editor's own state is [Editor]; [localStorage['APP_SELECTION_RULES']]
    is its field [storedRules].  [handleConfirmSave] is [async]: it is
    cut at its [await] into the click ([handleConfirmSave], which runs
    the parent's callback as one request and leaves its outcome in
    [pendingSave] with [isSaving] set) and the resumption
    ([resumeConfirmSave]), between which the page takes other events. *)

From S2P Require Import Prelude Types Json Backend Storage Api Dashboard.
From stdpp Require Import pretty.

Module Settings.

Inductive EditMode := NONE | PLANS | SUBJECTS | RULES.

#[export] Instance EditMode_eq_dec : EqDecision EditMode.
Proof. solve_decision. Defined.

Record Editor := mkEditor {
  editMode : EditMode;
  tempPlans : list StudyPlan;
  tempSubjects : list ExamSubject;
  tempRules : list string;
  rules : list string;
  showConfirm : bool;
  deleteConfirmation : string;
  isSaving : bool;
  storedRules : option (list string);
  editorAlerts : list string;
  pendingSave : option (string + unit)   (** the outcome of the awaited callback, before [handleConfirmSave] resumes *)
}.

(** The props: the parent's plans and subjects and its callbacks, each
    a step of the parent's state (an [async] callback may throw). *)
Record SettingsProps (S : Type) := mkSettingsProps {
  plans : list StudyPlan;
  subjects : list ExamSubject;
  onUpdatePlans : list StudyPlan → S → S * (string + unit);
  onUpdateSubjects : list ExamSubject → S → S * (string + unit);
  onResetData : S → S
}.
Arguments plans {S}.
Arguments subjects {S}.
Arguments onUpdatePlans {S}.
Arguments onUpdateSubjects {S}.
Arguments onResetData {S}.

(** [subjects.reduce((sum, s) => sum + s.maxScore, 0)] *)
Definition totalMaxScore (xs : list ExamSubject) : Z :=
  fold_left (λ sum s, (sum + maxScore s)%Z) xs 0%Z.

Definition msgSaveError : string := "เกิดข้อผิดพลาดในการบันทึก".
Definition newPlanName : string := "แผนการเรียนใหม่".
Definition newSubjectName : string := "วิชาใหม่".
Definition newRule : string := "ข้อกำหนดใหม่...".

Section Editor.

Context {S : Type} (props : SettingsProps S).

Definition setMode (m : EditMode) (e : Editor) : Editor :=
  mkEditor m (tempPlans e) (tempSubjects e) (tempRules e) (rules e) (showConfirm e)
    (deleteConfirmation e) (isSaving e) (storedRules e) (editorAlerts e) (pendingSave e).

(** [JSON.parse(JSON.stringify(plans))]: a deep copy, equal as a value. *)
Definition handleOpenEditPlans (e : Editor) : Editor :=
  setMode PLANS (mkEditor (editMode e) (plans props) (tempSubjects e) (tempRules e) (rules e)
    (showConfirm e) (deleteConfirmation e) (isSaving e) (storedRules e) (editorAlerts e) (pendingSave e)).

Definition handleOpenEditSubjects (e : Editor) : Editor :=
  setMode SUBJECTS (mkEditor (editMode e) (tempPlans e) (subjects props) (tempRules e) (rules e)
    (showConfirm e) (deleteConfirmation e) (isSaving e) (storedRules e) (editorAlerts e) (pendingSave e)).

Definition handleOpenEditRules (e : Editor) : Editor :=
  setMode RULES (mkEditor (editMode e) (tempPlans e) (tempSubjects e) (rules e) (rules e)
    (showConfirm e) (deleteConfirmation e) (isSaving e) (storedRules e) (editorAlerts e) (pendingSave e)).

Definition handleClose (e : Editor) : Editor :=
  mkEditor NONE (tempPlans e) (tempSubjects e) (tempRules e) (rules e) false ""
    (isSaving e) (storedRules e) (editorAlerts e) (pendingSave e).

Definition handleSaveRules (e : Editor) : Editor :=
  handleClose (mkEditor (editMode e) (tempPlans e) (tempSubjects e) (tempRules e) (tempRules e)
    (showConfirm e) (deleteConfirmation e) (isSaving e) (Some (tempRules e)) (editorAlerts e) (pendingSave e)).

Definition handleRequestSave (e : Editor) : Editor :=
  if decide (editMode e = RULES) then handleSaveRules e
  else mkEditor (editMode e) (tempPlans e) (tempSubjects e) (tempRules e) (rules e) true
         (deleteConfirmation e) (isSaving e) (storedRules e) (editorAlerts e) (pendingSave e).

Definition setSaving (b : bool) (e : Editor) : Editor :=
  mkEditor (editMode e) (tempPlans e) (tempSubjects e) (tempRules e) (rules e) (showConfirm e)
    (deleteConfirmation e) b (storedRules e) (editorAlerts e) (pendingSave e).

Definition editorAlert (msg : string) (e : Editor) : Editor :=
  mkEditor (editMode e) (tempPlans e) (tempSubjects e) (tempRules e) (rules e) (showConfirm e)
    (deleteConfirmation e) (isSaving e) (storedRules e) (editorAlerts e ++ [msg]) (pendingSave e).

Definition setPending (p : option (string + unit)) (e : Editor) : Editor :=
  mkEditor (editMode e) (tempPlans e) (tempSubjects e) (tempRules e) (rules e) (showConfirm e)
    (deleteConfirmation e) (isSaving e) (storedRules e) (editorAlerts e) p.

(** The part of [handleConfirmSave] after its [await] (106-114): an
    error skips [onResetData] and [handleClose] and shows the alert;
    [finally] clears [isSaving]. *)
Definition finishConfirmSave (r : string + unit) (st : S) (e : Editor) : S * Editor :=
  match r with
  | inl _ => (st, setSaving false (editorAlert msgSaveError e))
  | inr _ => (onResetData props st, setSaving false (handleClose e))
  end.

(** [handleConfirmSave] up to its [await] (93-105): the typed
    confirmation guards the save; [setIsSaving(true)], then the parent's
    callback for the plans or the subjects runs (a whole request, as
    every [await] of the model) and the function is suspended with its
    outcome in [pendingSave]; the page stays interactive until it
    resumes ([resumeConfirmSave]).  In another mode nothing is awaited
    and the function runs to its end at once. *)
Definition handleConfirmSave (st : S) (e : Editor) : S * Editor :=
  if negb (deleteConfirmation e =s? "delete") then (st, e) else
  let e1 := setSaving true e in
  match editMode e1 with
  | PLANS => let '(st1, r) := onUpdatePlans props (tempPlans e1) st in (st1, setPending (Some r) e1)
  | SUBJECTS => let '(st1, r) := onUpdateSubjects props (tempSubjects e1) st in (st1, setPending (Some r) e1)
  | _ => finishConfirmSave (inr ()) st e1
  end.

(** The awaited callback settles and [handleConfirmSave] resumes on the
    editor as it is then (the user may have closed the dialog). *)
Definition resumeConfirmSave (st : S) (e : Editor) : S * Editor :=
  match pendingSave e with
  | Some r => finishConfirmSave r st (setPending None e)
  | None => (st, e)
  end.

(** Without the typed confirmation [delete], confirming does
    nothing: the parent's state and the editor are unchanged. *)
Theorem handleConfirmSave_guard st e :
  deleteConfirmation e ≠ "delete" → handleConfirmSave st e = (st, e).
Proof. intros H. unfold handleConfirmSave. apply String.eqb_neq in H. by rewrite H. Qed.

(** A confirmed save of the plans calls [onUpdatePlans] with the
    edited plans and waits with [isSaving] set; when it resumes on the
    unchanged editor, after a success [onResetData] runs and the editor
    closes; after an error [onResetData] is skipped, an alert is shown
    and the editor stays open on the plans.  [isSaving] is false after
    both. *)
Theorem handleConfirmSave_plans st e st1 r :
  deleteConfirmation e = "delete" → editMode e = PLANS →
  onUpdatePlans props (tempPlans e) st = (st1, r) →
  let '(st2, e2) := handleConfirmSave st e in
  st2 = st1 ∧ isSaving e2 = true ∧ pendingSave e2 = Some r ∧
  let '(st3, e3) := resumeConfirmSave st2 e2 in
  isSaving e3 = false ∧ pendingSave e3 = None ∧
  match r with
  | inr _ => st3 = onResetData props st1 ∧ editMode e3 = NONE ∧ showConfirm e3 = false ∧
             deleteConfirmation e3 = ""
  | inl _ => st3 = st1 ∧ editMode e3 = PLANS ∧ editorAlerts e3 = editorAlerts e ++ [msgSaveError]
  end.
Proof.
  intros Hd Hm Hu. unfold handleConfirmSave. rewrite Hd. simpl. rewrite Hm, Hu. simpl.
  split_and!; [done..|]. destruct r; simpl; [by rewrite Hm|done].
Qed.

End Editor.

(** ** The temporary lists *)

Definition setTempPlans (l : list StudyPlan) (e : Editor) : Editor :=
  mkEditor (editMode e) l (tempSubjects e) (tempRules e) (rules e) (showConfirm e)
    (deleteConfirmation e) (isSaving e) (storedRules e) (editorAlerts e) (pendingSave e).
Definition setTempSubjects (l : list ExamSubject) (e : Editor) : Editor :=
  mkEditor (editMode e) (tempPlans e) l (tempRules e) (rules e) (showConfirm e)
    (deleteConfirmation e) (isSaving e) (storedRules e) (editorAlerts e) (pendingSave e).
Definition setTempRules (l : list string) (e : Editor) : Editor :=
  mkEditor (editMode e) (tempPlans e) (tempSubjects e) l (rules e) (showConfirm e)
    (deleteConfirmation e) (isSaving e) (storedRules e) (editorAlerts e) (pendingSave e).

(** [`PLAN-${Date.now()}`], with the clock reading as input. *)
Definition handleAddTempPlan (now : string) (e : Editor) : Editor :=
  setTempPlans (tempPlans e ++ [mkStudyPlan ("PLAN-" ++ now)%string newPlanName 10]) e.

(** The field of [keyof StudyPlan] and the value written into it. *)
Inductive PlanField := PlanId (s : string) | PlanName (s : string) | PlanQuota (q : Z).

Definition setPlanField (f : PlanField) (p : StudyPlan) : StudyPlan :=
  match f with
  | PlanId s => mkStudyPlan s (name p) (quota p)
  | PlanName s => mkStudyPlan (plan_id p) s (quota p)
  | PlanQuota q => mkStudyPlan (plan_id p) (name p) q
  end.

Definition handleChangeTempPlan (pid : string) (f : PlanField) (e : Editor) : Editor :=
  setTempPlans ((λ p, if plan_id p =s? pid then setPlanField f p else p) <$> tempPlans e) e.

Definition handleDeleteTempPlan (pid : string) (e : Editor) : Editor :=
  setTempPlans (List.filter (λ p, negb (plan_id p =s? pid)) (tempPlans e)) e.

Definition handleAddTempSubject (now : string) (e : Editor) : Editor :=
  setTempSubjects (tempSubjects e ++ [mkExamSubject ("SUBJ-" ++ now)%string newSubjectName 100]) e.

Inductive SubjectField := SubjectId (s : string) | SubjectName (s : string) | SubjectMax (m : Z).

Definition setSubjectField (f : SubjectField) (x : ExamSubject) : ExamSubject :=
  match f with
  | SubjectId s => mkExamSubject s (subject_name x) (maxScore x)
  | SubjectName s => mkExamSubject (subject_id x) s (maxScore x)
  | SubjectMax m => mkExamSubject (subject_id x) (subject_name x) m
  end.

Definition handleChangeTempSubject (sid : string) (f : SubjectField) (e : Editor) : Editor :=
  setTempSubjects ((λ x, if subject_id x =s? sid then setSubjectField f x else x) <$> tempSubjects e) e.

Definition handleDeleteTempSubject (sid : string) (e : Editor) : Editor :=
  setTempSubjects (List.filter (λ x, negb (subject_id x =s? sid)) (tempSubjects e)) e.

Definition handleAddTempRule (e : Editor) : Editor := setTempRules (tempRules e ++ [newRule]) e.

(** [updated[index] = value]: the index comes from [tempRules.map], so
    it is below the length. *)
Definition handleChangeTempRule (index : nat) (value : string) (e : Editor) : Editor :=
  setTempRules (<[index := value]> (tempRules e)) e.

(** [updated.splice(index, 1)] *)
Definition handleDeleteTempRule (index : nat) (e : Editor) : Editor :=
  setTempRules (delete index (tempRules e)) e.

(** ** The selection rules shown ([useEffect], lines 39-53) *)

Definition setRules (l : list string) (e : Editor) : Editor :=
  mkEditor (editMode e) (tempPlans e) (tempSubjects e) (tempRules e) l (showConfirm e)
    (deleteConfirmation e) (isSaving e) (storedRules e) (editorAlerts e) (pendingSave e).

(** [xs.join(', ')] *)
Fixpoint joinComma (xs : list string) : string :=
  match xs with
  | [] => ""
  | [x] => x
  | x :: xs' => x +:+ ", " +:+ joinComma xs'
  end.

Definition defaultRules (subjects : list ExamSubject) : list string :=
  [("สอบ " +:+ pretty (length subjects) +:+ " วิชา: " +:+ joinComma (subject_name <$> subjects) +:+
    " (รวม " +:+ pretty (totalMaxScore subjects) +:+ " คะแนน)")%string;
   "จัดอันดับตามคะแนนรวม (มาก → น้อย)"; "ถ้าคะแนนรวมเท่ากัน → ใช้คะแนนรายวิชาตาม “สายอันดับ 1”"; "ถ้ายังเท่ากันมาก ๆ → ใช้เวลาเพิ่มข้อมูล/รหัส (เพื่อให้เรียงได้เสถียร)"; "ระบบไล่จากอันดับ 1 ลงมา → ลองลงสายตัวเลือก 1 → ถ้าเต็ม ลองตัวเลือก 2 (ถ้ามี) → ถ้าเต็ม ลองตัวเลือก 3 ถ้าเต็มอีก ก็ ก็ไล่ไปตัวเลือกถัดไป ไปจนตัวเลือกสุดท้าย"].

(** The effect body: the saved rules, or the default ones. *)
Definition initRules (subjects : list ExamSubject) (e : Editor) : Editor :=
  match storedRules e with
  | Some saved => setRules saved e
  | None => setRules (defaultRules subjects) e
  end.

(** The dependencies of the effect: [subjects.length] and
    [viewTotalMaxScore]. *)
Definition rulesDeps (subjects : list ExamSubject) : nat * Z := (length subjects, totalMaxScore subjects).

(** A render with new [subjects]: the effect runs when a dependency
    changed. *)
Definition onSubjectsProp (old new : list ExamSubject) (e : Editor) : Editor :=
  if bool_decide (rulesDeps old = rulesDeps new) then e else initRules new e.

(** ** The Dashboard as the parent *)

Definition dashboardProps (dp : Dashboard.Props) (logId now : string) (d : Dashboard.DashState)
    : SettingsProps Dashboard.Sys :=
  mkSettingsProps Dashboard.Sys (Dashboard.studyPlans d) (Dashboard.examSubjects d)
    (λ ps, Dashboard.handleUpdatePlans dp ps logId now)
    (λ xs, Dashboard.handleUpdateSubjects dp xs logId now)
    (Dashboard.handleResetData dp logId now).

(** ** Examples *)

Definition exEditor (tps : list StudyPlan) : Editor :=
  mkEditor PLANS tps [] [] [] true "delete" false None [] None.

Definition exOffline : Dashboard.Sys :=
  Dashboard.mkSys (mkWorld exSheets1 ∅) Storage.emptyStore (Dashboard.initialState None) [].

(** A confirmed plan change whose request fails (here: no Web App
    URL) still shows the new plans on screen, and the ranking uses
    them, although the backend is unchanged and the editor reports the
    error: [handleUpdatePlans] sets the plans before it awaits the
    request. *)
Theorem failed_plan_save_shown :
  let props := dashboardProps Dashboard.exProps "log1" "t1" (Dashboard.dash exOffline) in
  let '(s', e') := let '(s1, e1) := handleConfirmSave props exOffline (exEditor [mkStudyPlan "9" "NEW" 5]) in
                   resumeConfirmSave props s1 e1 in
  Dashboard.studyPlans (Dashboard.dash s') = [mkStudyPlan "9" "NEW" 5] ∧
  Dashboard.world s' = Dashboard.world exOffline ∧
  editorAlerts e' = [msgSaveError].
Proof. vm_compute. split; [reflexivity|split; reflexivity]. Qed.

(** ** Witnesses *)

Lemma handleConfirmSave_guard_witness :
  handleConfirmSave (dashboardProps Dashboard.exProps "log1" "t1" (Dashboard.dash exOffline)) exOffline
    (mkEditor PLANS [] [] [] [] true "Delete" false None [] None) =
  (exOffline, mkEditor PLANS [] [] [] [] true "Delete" false None [] None).
Proof. apply handleConfirmSave_guard. discriminate. Defined.

Lemma handleConfirmSave_plans_witness :
  let props := dashboardProps Dashboard.exProps "log1" "t1" (Dashboard.dash exOffline) in
  let u := Dashboard.handleUpdatePlans Dashboard.exProps [mkStudyPlan "9" "NEW" 5] "log1" "t1" exOffline in
  let '(st2, e2) := handleConfirmSave props exOffline (exEditor [mkStudyPlan "9" "NEW" 5]) in
  st2 = u.1 ∧ isSaving e2 = true ∧ pendingSave e2 = Some u.2 ∧
  let '(st3, e3) := resumeConfirmSave props st2 e2 in
  isSaving e3 = false ∧ pendingSave e3 = None ∧
  match u.2 with
  | inr _ => st3 = Dashboard.handleResetData Dashboard.exProps "log1" "t1" u.1 ∧
             editMode e3 = NONE ∧ showConfirm e3 = false ∧ deleteConfirmation e3 = ""
  | inl _ => st3 = u.1 ∧
             editMode e3 = PLANS ∧ editorAlerts e3 = editorAlerts (exEditor [mkStudyPlan "9" "NEW" 5]) ++ [msgSaveError]
  end.
Proof.
  intros props u.
  apply (handleConfirmSave_plans (dashboardProps Dashboard.exProps "log1" "t1" (Dashboard.dash exOffline))).
  - reflexivity.
  - reflexivity.
  - apply surjective_pairing.
Defined.

(** The default rules name the subjects, but the effect depends only on
    their number and total: after a subject is renamed, the first rule
    still shows the old name. *)
Lemma stale_rule_after_rename :
  let old := [mkExamSubject "math" "คณิต" 100] in
  let new := [mkExamSubject "math" "คณิตศาสตร์" 100] in
  head (rules (onSubjectsProp old new (initRules old (exEditor [])))) =
    Some "สอบ 1 วิชา: คณิต (รวม 100 คะแนน)" ∧
  head (defaultRules new) = Some "สอบ 1 วิชา: คณิตศาสตร์ (รวม 100 คะแนน)".
Proof. split; reflexivity. Qed.

End Settings.
