(* ===== verification/App.v ===== *)
(** * The view state of the application (src/App.tsx)

    [App] keeps the signed-in user, the current view, the selected
    classroom and the logout dialog in React state, initialises them
    from the session of [storage], and renders one page per view.  Each
    handler is an event of the page that is on screen; [fire] gives its
    effect, or [None] when the page that raises it is not rendered.
    While the logout dialog is open its full-screen overlay takes every
    click, so only its two buttons (and the overlay itself) act.

    The reachable states are those [fire] reaches from the initial
    state of any browser; the invariant ties the view to the signed-in
    user and to the selected classroom. *)

From S2P Require Import Prelude Storage.

Module App.

Inductive ViewState := LANDING | CLASSROOMS | SYSTEM_ADMIN | DASHBOARD.

#[export] Instance ViewState_eq_dec : EqDecision ViewState.
Proof. solve_decision. Defined.

(** A classroom is identified by its id; the other fields are only
    passed on to [Dashboard]. *)
Record Classroom := mkClassroom { classroom_id : string; classroom_name : string }.

Record AppState := mkAppState {
  currentUser : option Storage.AdminUser;
  view : ViewState;
  selectedClassroom : option Classroom;
  showLogoutConfirm : bool;
  browser : Storage.Store
}.

(** The lazy initialisers of [useState]. *)
Definition init (st : Storage.Store) : AppState :=
  let session := Storage.sSession st in
  mkAppState session (match session with Some _ => CLASSROOMS | None => LANDING end) None false st.

Definition handleLoginSuccess (user : Storage.AdminUser) (a : AppState) : AppState :=
  mkAppState (Some user) CLASSROOMS (selectedClassroom a) (showLogoutConfirm a) (browser a).

Definition handleSelectClassroom (c : Classroom) (a : AppState) : AppState :=
  mkAppState (currentUser a) DASHBOARD (Some c) (showLogoutConfirm a) (browser a).

Definition handleBackToClassrooms (a : AppState) : AppState :=
  mkAppState (currentUser a) CLASSROOMS None (showLogoutConfirm a) (browser a).

Definition setView (v : ViewState) (a : AppState) : AppState :=
  mkAppState (currentUser a) v (selectedClassroom a) (showLogoutConfirm a) (browser a).

Definition setShowLogoutConfirm (b : bool) (a : AppState) : AppState :=
  mkAppState (currentUser a) (view a) (selectedClassroom a) b (browser a).

Definition handleLogoutRequest (a : AppState) : AppState := setShowLogoutConfirm true a.

Definition handleConfirmLogout (a : AppState) : AppState :=
  mkAppState None LANDING None false ((Storage.clearSession (browser a)).1).

(** ** Events and the pages that raise them *)

Inductive Event :=
| EvLoginSuccess (u : Storage.AdminUser)   (** LandingPage *)
| EvSelectClassroom (c : Classroom)        (** ClassroomSelection *)
| EvOpenSystemAdmin                        (** ClassroomSelection *)
| EvAdminBack                              (** SystemAdmin *)
| EvDashboardBack                          (** Dashboard *)
| EvLogoutRequest                          (** ClassroomSelection or Dashboard *)
| EvCancelLogout                           (** the dialog: overlay or cancel button *)
| EvConfirmLogout.                         (** the dialog *)

(** [view === 'DASHBOARD' && selectedClassroom]: the Dashboard is on
    screen. *)
Definition dashboardShown (a : AppState) : bool :=
  bool_decide (view a = DASHBOARD) && bool_decide (selectedClassroom a ≠ None).

Definition fire (ev : Event) (a : AppState) : option AppState :=
  if showLogoutConfirm a then
    match ev with
    | EvCancelLogout => Some (setShowLogoutConfirm false a)
    | EvConfirmLogout => Some (handleConfirmLogout a)
    | _ => None
    end
  else
    match ev with
    | EvLoginSuccess u => if bool_decide (view a = LANDING) then Some (handleLoginSuccess u a) else None
    | EvSelectClassroom c =>
        if bool_decide (view a = CLASSROOMS) then Some (handleSelectClassroom c a) else None
    | EvOpenSystemAdmin =>
        if bool_decide (view a = CLASSROOMS) then Some (setView SYSTEM_ADMIN a) else None
    | EvAdminBack => if bool_decide (view a = SYSTEM_ADMIN) then Some (setView CLASSROOMS a) else None
    | EvDashboardBack => if dashboardShown a then Some (handleBackToClassrooms a) else None
    | EvLogoutRequest =>
        if bool_decide (view a = CLASSROOMS) || dashboardShown a
        then Some (handleLogoutRequest a) else None
    | EvCancelLogout | EvConfirmLogout => None
    end.

Inductive reachable : AppState → Prop :=
| reachable_init st : reachable (init st)
| reachable_fire ev a a' : reachable a → fire ev a = Some a' → reachable a'.

(** A sequence of events, stopping at the first that cannot fire. *)
Fixpoint fireAll (evs : list Event) (a : AppState) : option AppState :=
  match evs with
  | [] => Some a
  | ev :: evs' => a' ← fire ev a; fireAll evs' a'
  end.

(** The invariant: the landing page is shown exactly when nobody is
    signed in, and then no session is stored; the Dashboard view has a
    classroom; the logout dialog opens only over a page with a logout
    button. *)
Definition Inv (a : AppState) : Prop :=
  (view a = LANDING ↔ currentUser a = None) ∧
  (view a = LANDING → Storage.sSession (browser a) = None) ∧
  (view a = DASHBOARD → selectedClassroom a ≠ None) ∧
  (showLogoutConfirm a = true → view a = CLASSROOMS ∨ view a = DASHBOARD).

Lemma init_Inv st : Inv (init st).
Proof.
  unfold init, Inv. simpl. destruct (Storage.sSession st); simpl; split_and!; naive_solver.
Qed.

Lemma fire_Inv ev a a' : Inv a → fire ev a = Some a' → Inv a'.
Proof.
  intros HI Hf. unfold fire, dashboardShown in Hf.
  destruct (showLogoutConfirm a) eqn:Eshow.
  - destruct ev; try discriminate; injection Hf as <-; unfold Inv in *; simpl; naive_solver.
  - revert Hf. destruct ev; repeat case_bool_decide; simpl; intros Hf; try discriminate.
    all: injection Hf as <-; destruct HI as (Hl & Hs & Hd & Hc); unfold Inv; simpl.
    all: repeat split; intros; simplify_eq; try tauto; try congruence.
    all: match goal with H : currentUser _ = None |- _ => apply Hl in H; congruence end.
Qed.

Lemma reachable_Inv a : reachable a → Inv a.
Proof. induction 1; [apply init_Inv|by eapply fire_Inv]. Qed.

(** C25: in every state the application reaches, the landing page is
    shown exactly when nobody is signed in, and then no session is
    stored, and the Dashboard view always has a selected classroom. *)
Theorem app_reachable_consistent a :
  reachable a →
  (view a = LANDING ↔ currentUser a = None) ∧
  (view a = LANDING → Storage.sSession (browser a) = None) ∧
  (view a = DASHBOARD → selectedClassroom a ≠ None).
Proof. intros Hr. destruct (reachable_Inv a Hr) as (H1 & H2 & H3 & _). done. Qed.

(** From every reachable state at most three clicks (back from
    the admin page, logout, confirm) sign the user out and clear the
    session. *)
Lemma logout_reachable a :
  reachable a →
  ∃ evs a', length evs ≤ 3 ∧ fireAll evs a = Some a' ∧
    view a' = LANDING ∧ currentUser a' = None ∧ Storage.sSession (browser a') = None.
Proof.
  intros Hr. destruct (reachable_Inv a Hr) as (Hl & Hs & Hd & _).
  destruct (showLogoutConfirm a) eqn:Eshow.
  { exists [EvConfirmLogout]. eexists. split; [simpl; lia|].
    unfold fireAll, fire. rewrite Eshow. simpl. by split. }
  destruct (view a) eqn:Ev.
  - exists [], a. split; [simpl; lia|]. split; [done|]. split; [done|].
    split; [by apply Hl|by apply Hs].
  - exists [EvLogoutRequest; EvConfirmLogout]. eexists. split; [simpl; lia|].
    unfold fireAll, fire. rewrite Eshow, Ev. simpl. by split.
  - exists [EvAdminBack; EvLogoutRequest; EvConfirmLogout]. eexists. split; [simpl; lia|].
    unfold fireAll, fire. rewrite Eshow, Ev. simpl. rewrite Eshow. simpl. by split.
  - exists [EvLogoutRequest; EvConfirmLogout]. eexists. split; [simpl; lia|].
    unfold fireAll, fire, dashboardShown. rewrite Eshow, Ev.
    destruct (selectedClassroom a) eqn:Es; [|by destruct (Hd eq_refl)]. simpl. by split.
Qed.

(** ** Witnesses *)

Lemma app_reachable_consistent_witness :
  let a := handleSelectClassroom (mkClassroom "C1" "M4/1")
             (handleLoginSuccess Storage.DEFAULT_ADMIN (init Storage.emptyStore)) in
  (view a = LANDING ↔ currentUser a = None) ∧
  (view a = LANDING → Storage.sSession (browser a) = None) ∧
  (view a = DASHBOARD → selectedClassroom a ≠ None).
Proof.
  apply app_reachable_consistent.
  apply (reachable_fire (EvSelectClassroom (mkClassroom "C1" "M4/1"))
           (handleLoginSuccess Storage.DEFAULT_ADMIN (init Storage.emptyStore))); [|reflexivity].
  apply (reachable_fire (EvLoginSuccess Storage.DEFAULT_ADMIN) (init Storage.emptyStore));
    [apply reachable_init|reflexivity].
Defined.

Lemma logout_reachable_witness :
  ∃ evs a', length evs ≤ 3 ∧
    fireAll evs (handleLoginSuccess Storage.DEFAULT_ADMIN (init Storage.emptyStore)) = Some a' ∧
    view a' = LANDING ∧ currentUser a' = None ∧ Storage.sSession (browser a') = None.
Proof.
  apply logout_reachable.
  apply (reachable_fire (EvLoginSuccess Storage.DEFAULT_ADMIN) (init Storage.emptyStore));
    [apply reachable_init|reflexivity].
Defined.

End App.
