(* ===== verification/StudentList.v ===== *)
(** * The student list: filters, sorting and pages
    (components/StudentList.tsx, 23-155)

    [StudentList] shows the ranked students of the Dashboard through
    three filters (the assigned stream, the first preference and a text
    search), a sort by rank or by one subject in either direction, and
    pages of [ITEMS_PER_PAGE] rows.  The sort is [Array.prototype.sort],
    stable, so it is [StableSort.sortBy] with the callback of the
    source.  The React effect that resets the page when a filter or the
    sort changes is part of each setter.  [String.prototype.toLowerCase]
    is modelled on ASCII letters; the Thai text of the names has no case. *)

From S2P Require Import Prelude Types StableSort Comparator Allocation Ranking Storage Api.
From Stdlib Require Import Ascii.
From stdpp Require Import pretty.

Module StudentList.

Definition ITEMS_PER_PAGE : nat := 100.

Inductive SortDirection := DESC | ASC.

Record ListState := mkListState {
  filterStream : string;
  filterPreferred : string;
  searchTerm : string;
  sortSubject : string;
  sortDirection : SortDirection;
  currentPage : nat;
  deletingId : option string
}.

Definition initialList : ListState := mkListState "ALL" "ALL" "" "TOTAL" DESC 1 None.

(** ** Filters *)

(** [toLowerCase] on one character: [A]-[Z] become [a]-[z]. *)
Definition lowerAscii (c : ascii) : ascii :=
  let n := nat_of_ascii c in
  if (65 <=? n)%nat && (n <=? 90)%nat then ascii_of_nat (n + 32) else c.

Fixpoint jsLower (s : string) : string :=
  match s with
  | EmptyString => EmptyString
  | String c s' => String (lowerAscii c) (jsLower s')
  end.

(** [filterStream === 'ALL' || s.qualifiedStream === filterStream] *)
Definition matchesQualified (st : ListState) (s : RankedStudent) : bool :=
  (filterStream st =s? "ALL") ||
  match qualifiedStream s with Some q => q =s? filterStream st | None => false end.

(** [s.preferredStreams && s.preferredStreams[0] === filterPreferred] *)
Definition matchesPreferred (st : ListState) (s : RankedStudent) : bool :=
  (filterPreferred st =s? "ALL") ||
  match head (preferredStreams (student s)) with
  | Some p => p =s? filterPreferred st
  | None => false
  end.

Definition matchesSearch (st : ListState) (s : RankedStudent) : bool :=
  let searchLower := jsLower (searchTerm st) in
  Api.includes searchLower (jsLower (firstName (student s))) ||
  Api.includes searchLower (jsLower (lastName (student s))) ||
  Api.includes searchLower (jsLower (id (student s))).

(** [a.scores[sortSubject] || 0] *)
Definition scoreOf (subject : string) (s : RankedStudent) : Z :=
  let sc := scores (student s) in
  if subject =s? "math" then math sc
  else if subject =s? "science" then science sc
  else if subject =s? "thai" then thai sc
  else if subject =s? "english" then english sc
  else if subject =s? "social" then social sc
  else 0%Z.

Definition rankZ (s : RankedStudent) : Z := Z.of_nat (rank s).

(** [filteredStudents] *)
Definition filteredStudents (st : ListState) (students : list RankedStudent) : list RankedStudent :=
  let result := List.filter (λ s, matchesQualified st s && matchesPreferred st s && matchesSearch st s)
                  students in
  let isDesc := match sortDirection st with DESC => true | ASC => false end in
  if negb (sortSubject st =s? "TOTAL") then
    if isDesc then sortBy (λ a b, scoreOf (sortSubject st) b - scoreOf (sortSubject st) a)%Z result
    else sortBy (λ a b, scoreOf (sortSubject st) a - scoreOf (sortSubject st) b)%Z result
  else if isDesc then sortBy (λ a b, rankZ a - rankZ b)%Z result
  else sortBy (λ a b, rankZ b - rankZ a)%Z result.

(** ** Pages *)

(** [Math.ceil(length / ITEMS_PER_PAGE)] *)
Definition totalPages (len : nat) : nat := (len + ITEMS_PER_PAGE - 1) / ITEMS_PER_PAGE.

(** [filteredStudents.slice(startIndex, startIndex + ITEMS_PER_PAGE)] *)
Definition paginated {A} (page : nat) (l : list A) : list A :=
  let startIndex := ((page - 1) * ITEMS_PER_PAGE)%nat in
  take ITEMS_PER_PAGE (drop startIndex l).

Definition setPage (p : nat) (st : ListState) : ListState :=
  mkListState (filterStream st) (filterPreferred st) (searchTerm st) (sortSubject st)
    (sortDirection st) p (deletingId st).

Definition goToPage (len : nat) (page : nat) (st : ListState) : ListState :=
  if (1 <=? page)%nat && (page <=? totalPages len)%nat then setPage page st else st.

(** The setters of the filters and the sort, followed by the effect
    [setCurrentPage(1)]. *)
Definition setFilterStream (v : string) (st : ListState) : ListState :=
  mkListState v (filterPreferred st) (searchTerm st) (sortSubject st) (sortDirection st) 1 (deletingId st).
Definition setFilterPreferred (v : string) (st : ListState) : ListState :=
  mkListState (filterStream st) v (searchTerm st) (sortSubject st) (sortDirection st) 1 (deletingId st).
Definition setSearchTerm (v : string) (st : ListState) : ListState :=
  mkListState (filterStream st) (filterPreferred st) v (sortSubject st) (sortDirection st) 1 (deletingId st).
Definition setSort (subject : string) (d : SortDirection) (st : ListState) : ListState :=
  mkListState (filterStream st) (filterPreferred st) (searchTerm st) subject d 1 (deletingId st).

(** ** Deleting *)

Definition setDeletingId (v : option string) (st : ListState) : ListState :=
  mkListState (filterStream st) (filterPreferred st) (searchTerm st) (sortSubject st)
    (sortDirection st) (currentPage st) v.

Definition handleDeleteClick (readOnly : bool) (sid : string) (st : ListState) : ListState :=
  if readOnly then st else setDeletingId (Some sid) st.

(** [handleConfirmDelete], with the parent's [onDeleteStudent]. *)
Definition handleConfirmDelete {S} (onDeleteStudent : string → S → S) (p : S) (st : ListState)
    : S * ListState :=
  match deletingId st with
  | Some sid => if sid =s? "" then (p, st) else (onDeleteStudent sid p, setDeletingId None st)
  | None => (p, st)
  end.

(** [maleCount] / [femaleCount] *)
Definition maleCount (students : list RankedStudent) : nat :=
  countIf (λ s, (title (student s) =s? "เด็กชาย") || (title (student s) =s? "นาย")) students.
Definition femaleCount (students : list RankedStudent) : nat :=
  countIf (λ s, (title (student s) =s? "เด็กหญิง") || (title (student s) =s? "นางสาว")) students.

(** ** Pages partition the list *)

Lemma pages_concat {A} (l : list A) m k :
  mjoin ((λ p, paginated p l) <$> seq (S k) m) = take (m * ITEMS_PER_PAGE) (drop (k * ITEMS_PER_PAGE) l).
Proof.
  revert k. induction m as [|m IH]; intros k; [done|].
  rewrite <-cons_seq, fmap_cons. cbn [mjoin list_join]. rewrite IH. unfold paginated.
  replace (S k - 1) with k by lia.
  replace (S k * ITEMS_PER_PAGE) with (k * ITEMS_PER_PAGE + ITEMS_PER_PAGE) by lia.
  rewrite <-drop_drop, take_take_drop. f_equal; lia.
Qed.

Lemma totalPages_cover len : len ≤ totalPages len * ITEMS_PER_PAGE.
Proof.
  unfold totalPages, ITEMS_PER_PAGE.
  pose proof (Nat.div_mod_eq (len + 100 - 1) 100). pose proof (Nat.mod_upper_bound (len + 100 - 1) 100).
  lia.
Qed.

(** ** The default view *)

Lemma filter_all {A} (f : A → bool) (l : list A) : (∀ x, x ∈ l → f x = true) → List.filter f l = l.
Proof.
  induction l as [|x l IH]; intros Hf; [done|]. simpl.
  rewrite Hf by (left; done). f_equal. apply IH. intros y Hy. apply Hf. by right.
Qed.

Lemma includes_empty s : Api.includes "" s = true.
Proof. by destruct s. Qed.

Lemma seq_sorted k n : StronglySorted lt (seq k n).
Proof.
  revert k. induction n as [|n IH]; intros k; [constructor|].
  simpl. constructor; [apply IH|]. apply Forall_forall. intros x Hx%elem_of_seq. lia.
Qed.

Lemma rank_sorted (l : list RankedStudent) k :
  rank <$> l = seq k (length l) → StronglySorted (λ a b, rankZ a - rankZ b ≤ 0)%Z l.
Proof.
  intros Hr. apply (StronglySorted_fmap_inv rank lt). { intros x y H. unfold rankZ. lia. }
  rewrite Hr. apply seq_sorted.
Qed.

(** ** Properties of the list view *)

(** C11: the pages [1 .. totalPages] cut the filtered list into
    consecutive slices of at most [ITEMS_PER_PAGE] rows: read in order
    they give back the whole list, each row once. *)
Theorem pages_partition {A} (l : list A) :
  mjoin ((λ p, paginated p l) <$> seq 1 (totalPages (length l))) = l ∧
  ∀ p, length (paginated p l) ≤ ITEMS_PER_PAGE.
Proof.
  split.
  - rewrite (pages_concat l _ 0), drop_0. apply take_ge. apply totalPages_cover.
  - intros p. unfold paginated. rewrite length_take. lia.
Qed.

(** With the filters and the sort as the list opens (all streams,
    no search, by total, descending), the list shows the students
    exactly as [rankStudents] ranked them. *)
Theorem default_view_rank_order students plans :
  filteredStudents initialList (rankStudents students plans) = rankStudents students plans.
Proof.
  unfold filteredStudents. rewrite filter_all.
  2:{ intros x _. unfold matchesQualified, matchesPreferred, matchesSearch. simpl.
      by rewrite includes_empty. }
  cbn -[sortBy rankStudents]. apply sortBy_id. apply (rank_sorted _ 1).
  by rewrite rankStudents_rank_seq, rankStudents_length.
Qed.

(** ** A stale page *)

Definition exRanked (n : nat) : list RankedStudent :=
  imap (λ i _, mkRanked (mkStudent (pretty i) "Mr" "A" "B" [] (mkScores 0 0 0 0 0)) 0 (S i) None)
    (replicate n ()).

(** The page is reset when a filter or the sort changes, not when the
    list itself shrinks: after the one student of page 2 is deleted,
    page 2 of a one-page list is shown, and it is empty. *)
Lemma stale_page_after_delete :
  let st := goToPage 101 2 initialList in
  currentPage st = 2 ∧ totalPages 100 = 1 ∧
  paginated (currentPage st) (filteredStudents st (take 100 (exRanked 101))) = [].
Proof. vm_compute. split; [reflexivity|split; reflexivity]. Qed.

End StudentList.
