(* ===== verification/Entry.v ===== *)
(** * The entry forms: adding, importing and editing students
    (src/unnamed/part_002)

    [DataEntry] adds students one at a time through a form ([MANUAL]) or
    a whole sheet at a time from an Excel file ([BULK]); [EditStudentForm]
    edits one student.  Both forms keep the scores as the text of their
    number inputs and turn it into numbers with [Number(text)] when the
    user confirms; the import reads the cells of the first worksheet.

    - [Number(text)] is [numberOfString]: the text trimmed, the empty
      text [0], the [0x]/[0o]/[0b] literals, [Infinity] with a sign, and
      decimal literals with a sign, a fraction and an exponent ([NInt]
      for an integer value, [NFrac] for another finite value, [NInf],
      [NNaN]).  A decimal literal is read exactly: the rounding to a
      double is not modelled, so ['1e400'] reads as a finite integer
      (JavaScript gives [Infinity]), ['1e-400'] as a fraction (JavaScript
      gives [0]) and a literal with more than 17 significant digits keeps
      its exact value.  On the integers below 2^53, which scores are, the
      two readings agree.
    - A [Student] object of the forms is a [RawStudent]: its [scores]
      object holds one [JsNum] per subject id, in insertion order.
      [toStudent] reads the five fields the ranking reads and gives the
      [Student] of [Types] when each is an integer.
    - The form state is a record per component; each handler is a
      function on it, the parent's callback ([onAddStudents], [onSave])
      is a variable of the section. *)

From S2P Require Import Prelude Types Json Dashboard.
From stdpp Require Import pretty.
From Stdlib Require Import Ascii.

Module Entry.

(** ** [Number(text)] *)

Inductive JsNum :=
| NInt (z : Z)   (** a finite integer value *)
| NFrac          (** a finite value that is not an integer *)
| NInf           (** [Infinity] or [-Infinity] *)
| NNaN.

#[export] Instance JsNum_eq_dec : EqDecision JsNum.
Proof. solve_decision. Defined.

Definition isDigit (c : ascii) : bool :=
  (48 <=? nat_of_ascii c)%nat && (nat_of_ascii c <=? 57)%nat.

Definition digitVal (c : ascii) : Z := Z.of_nat (nat_of_ascii c - 48).

Fixpoint spanDigits (l : list ascii) : list ascii * list ascii :=
  match l with
  | c :: l' => if isDigit c then let '(ds, r) := spanDigits l' in (c :: ds, r) else ([], l)
  | [] => ([], [])
  end.

Definition digitsFrom (acc : Z) (ds : list ascii) : Z :=
  fold_left (λ a c, a * 10 + digitVal c)%Z ds acc.

(** [m * 10^e], exactly. *)
Definition scaled (m e : Z) : JsNum :=
  if (0 <=? e)%Z then NInt (m * 10 ^ e)
  else if (m mod 10 ^ (- e) =? 0)%Z then NInt (m / 10 ^ (- e)) else NFrac.

Definition isChar (a : ascii) (c : ascii) : bool := Ascii.eqb c a.

(** An optional sign: [+] or [-]. *)
Definition splitSign (l : list ascii) : Z * list ascii :=
  match l with
  | c :: r => if isChar "-" c then (-1, r)%Z else if isChar "+" c then (1, r)%Z else (1, l)%Z
  | [] => (1, [])%Z
  end.

(** The exponent part: nothing, or [e] / [E], a sign and digits. *)
Definition parseExponent (l : list ascii) : option Z :=
  match l with
  | [] => Some 0%Z
  | c :: r =>
      if isChar "e" c || isChar "E" c then
        let '(sg, r') := splitSign r in
        let '(ds, rest) := spanDigits r' in
        match ds, rest with
        | _ :: _, [] => Some (sg * digitsFrom 0 ds)%Z
        | _, _ => None
        end
      else None
  end.

(** Digits, an optional fraction, an optional exponent; at least one
    digit before or after the point. *)
Definition parseUnsigned (l : list ascii) : JsNum :=
  let '(d1, r1) := spanDigits l in
  let '(d2, r2) := match r1 with
                   | c :: r => if isChar "." c then spanDigits r else ([], r1)
                   | [] => ([], [])
                   end in
  match d1 ++ d2 with
  | [] => NNaN
  | ds =>
      match parseExponent r2 with
      | Some e => scaled (digitsFrom 0 ds) (e - Z.of_nat (length d2))
      | None => NNaN
      end
  end.

(** A digit of radix 16 or less. *)
Definition hexVal (c : ascii) : option Z :=
  let n := nat_of_ascii c in
  if (48 <=? n)%nat && (n <=? 57)%nat then Some (Z.of_nat n - 48)%Z
  else if (97 <=? n)%nat && (n <=? 102)%nat then Some (Z.of_nat n - 87)%Z
  else if (65 <=? n)%nat && (n <=? 70)%nat then Some (Z.of_nat n - 55)%Z
  else None.

Fixpoint radixValue (base acc : Z) (l : list ascii) : option Z :=
  match l with
  | [] => Some acc
  | c :: l' =>
      match hexVal c with
      | Some d => if (d <? base)%Z then radixValue base (acc * base + d)%Z l' else None
      | None => None
      end
  end.

Definition radixBase (c : ascii) : option Z :=
  if isChar "x" c || isChar "X" c then Some 16%Z
  else if isChar "o" c || isChar "O" c then Some 8%Z
  else if isChar "b" c || isChar "B" c then Some 2%Z
  else None.

(** [0x..], [0o..], [0b..]: the literals of another radix, without a sign. *)
Definition radixNumber (l : list ascii) : option JsNum :=
  match l with
  | c0 :: c1 :: ds =>
      if isChar "0" c0 then
        match radixBase c1 with
        | Some b =>
            Some (match ds with
                  | [] => NNaN
                  | _ => match radixValue b 0 ds with Some v => NInt v | None => NNaN end
                  end)
        | None => None
        end
      else None
  | _ => None
  end.

Definition numberOfList (l : list ascii) : JsNum :=
  match l with
  | [] => NInt 0
  | _ =>
      match radixNumber l with
      | Some n => n
      | None =>
          let '(sg, r) := splitSign l in
          if bool_decide (r = String.list_ascii_of_string "Infinity") then NInf else
          match parseUnsigned r with NInt z => NInt (sg * z) | n => n end
      end
  end.

(** [Number(text)]: the text is trimmed, the empty text is [0]. *)
Definition numberOfString (s : string) : JsNum :=
  numberOfList (String.list_ascii_of_string (jsTrim s)).

(** [x || 0] on a number: [0] and [NaN] are falsy. *)
Definition orZero (n : JsNum) : JsNum :=
  match n with NInt 0 | NNaN => NInt 0 | _ => n end.

(** ** The student object of the forms *)

(** A [Student] as the forms build it: [scores] is the plain object
    [Record<string, number>] the form fills. *)
Record RawStudent := mkRaw {
  rawId : string;
  rawTitle : string;
  rawFirstName : string;
  rawLastName : string;
  rawPreferredStreams : list string;
  rawScores : gmap string JsNum
}.

(** [obj[k] = v] on a plain object: the [__proto__] setter ignores a
    string or a number. *)
Definition objSet {V} (k : string) (v : V) (o : gmap string V) : gmap string V :=
  if k =s? "__proto__" then o else <[k := v]> o.

Definition scoreInt (o : gmap string JsNum) (k : string) : option Z :=
  match o !! k with Some (NInt z) => Some z | _ => None end.

(** The five fields [calculateTotal] and [tieBreaker] read: the object
    is a [Student] of the ranking when each is an integer. *)
Definition toStudent (r : RawStudent) : option Student :=
  m ← scoreInt (rawScores r) "math"; sc ← scoreInt (rawScores r) "science";
  t ← scoreInt (rawScores r) "thai"; e ← scoreInt (rawScores r) "english";
  so ← scoreInt (rawScores r) "social";
  Some (mkStudent (rawId r) (rawTitle r) (rawFirstName r) (rawLastName r)
          (rawPreferredStreams r) (mkScores m sc t e so)).

(** ** The form shared by [DataEntry] and [EditStudentForm]

    Both components hold the same fields ([id], [title], [firstName],
    [lastName], [selectedStreams], and [scores] as the text of the score
    inputs) and build the student the same way (lines 177-184 and
    405-418). *)

Record Form := mkForm {
  formId : string;
  formTitle : string;
  formFirstName : string;
  formLastName : string;
  selectedStreams : list string;
  scoreText : gmap string string
}.

Definition setId (v : string) (f : Form) : Form :=
  mkForm v (formTitle f) (formFirstName f) (formLastName f) (selectedStreams f) (scoreText f).
Definition setTitle (v : string) (f : Form) : Form :=
  mkForm (formId f) v (formFirstName f) (formLastName f) (selectedStreams f) (scoreText f).
Definition setFirstName (v : string) (f : Form) : Form :=
  mkForm (formId f) (formTitle f) v (formLastName f) (selectedStreams f) (scoreText f).
Definition setLastName (v : string) (f : Form) : Form :=
  mkForm (formId f) (formTitle f) (formFirstName f) v (selectedStreams f) (scoreText f).
Definition setSelectedStreams (v : list string) (f : Form) : Form :=
  mkForm (formId f) (formTitle f) (formFirstName f) (formLastName f) v (scoreText f).
Definition setScores (v : gmap string string) (f : Form) : Form :=
  mkForm (formId f) (formTitle f) (formFirstName f) (formLastName f) (selectedStreams f) v.

(** [scores[subj.id] || '']: the text of a score input. *)
Definition textOf (o : gmap string string) (k : string) : string := default "" (o !! k).

(** [newStreams[index] = value] on a copy of the array.  Past the end
    the array grows; the holes it leaves are read as [''] by every use
    the forms make of them ([|| ''], [filter], [some]). *)
Definition setIndex (l : list string) (i : nat) (v : string) : list string :=
  if decide (i < length l) then <[i := v]> l else l ++ replicate (i - length l) "" ++ [v].

(** [handleManualStreamChange] / [handleStreamChange] *)
Definition handleStreamChange (index : nat) (value : string) (f : Form) : Form :=
  setSelectedStreams (setIndex (selectedStreams f) index value) f.

(** [handleManualScoreChange] / [handleScoreChange] *)
Definition handleScoreChange (subjId value : string) (f : Form) : Form :=
  setScores (objSet subjId value (scoreText f)) f.

(** The reset button: [setSelectedStreams(new Array(studyPlans.length).fill(''))]. *)
Definition resetStreams (studyPlans : list StudyPlan) (f : Form) : Form :=
  setSelectedStreams (replicate (length studyPlans) "") f.

(** [selectedStreams.some((s, i) => s === option.name && i !== index)]:
    such an option is [disabled]. *)
Definition isSelectedElsewhere (streams : list string) (index : nat) (optName : string) : bool :=
  existsb (λ p, (p.2 =s? optName) && negb (p.1 =? index)%nat) (imap pair streams).

(** The values the [select] of preference [index] lets the user pick:
    the empty placeholder and every plan not selected elsewhere. *)
Definition optionEnabled (studyPlans : list StudyPlan) (streams : list string) (index : nat)
    (value : string) : bool :=
  (value =s? "") ||
  existsb (λ p, (name p =s? value) && negb (isSelectedElsewhere streams index (name p))) studyPlans.

(** [Number(scores[subj.id] || 0)] *)
Definition scoreNumber (text : string) : JsNum :=
  if text =s? "" then NInt 0 else numberOfString text.

(** [selectedStreams.filter(s => s !== '')] *)
Definition finalStreams (f : Form) : list string :=
  filter (λ s, negb (s =s? "")) (selectedStreams f).

(** [subjects.forEach(subj => { finalScores[subj.id] = ... })] *)
Definition finalScores (subjects : list ExamSubject) (f : Form) : gmap string JsNum :=
  fold_left (λ o subj, objSet (subject_id subj) (scoreNumber (textOf (scoreText f) (subject_id subj))) o)
    subjects ∅.

(** The student [handleConfirm] passes on. *)
Definition formStudent (subjects : list ExamSubject) (f : Form) : RawStudent :=
  mkRaw (formId f) (formTitle f) (formFirstName f) (formLastName f) (finalStreams f)
    (finalScores subjects f).

(** The constraint validation the browser runs before [onSubmit]: the
    [required] text inputs are not empty, and each score input
    ([type="number" min="0" max={subj.maxScore}], step 1) holds an
    integer between [0] and [maxScore]. *)
Definition scoreValid (subj : ExamSubject) (text : string) : bool :=
  negb (text =s? "") &&
  match numberOfString text with
  | NInt z => (0 <=? z)%Z && (z <=? maxScore subj)%Z
  | _ => false
  end.

Definition formValid (subjects : list ExamSubject) (f : Form) : bool :=
  negb (formId f =s? "") && negb (formFirstName f =s? "") && negb (formLastName f =s? "") &&
  forallb (λ subj, scoreValid subj (textOf (scoreText f) (subject_id subj))) subjects.

(** The options of the title [select]. *)
Definition titleOptions : list string := ["เด็กชาย"; "นาย"; "เด็กหญิง"; "นางสาว"].

(** ** Reading an Excel file ([handleFileUpload], lines 126-172) *)

(** The [value] of an ExcelJS cell. *)
Inductive XCell :=
| XNull                     (** an empty cell *)
| XNum (z : Z)              (** a whole number *)
| XFracNum (text : string)  (** another finite number, with the text [String] gives it *)
| XStr (s : string)
| XBool (b : bool)
| XObject.                  (** rich text, a hyperlink or a formula: an object *)

(** [val ? ... : ...] *)
Definition truthy (v : XCell) : bool :=
  match v with
  | XNull => false
  | XNum z => negb (z =? 0)%Z
  | XFracNum _ => true
  | XStr s => negb (s =s? "")
  | XBool b => b
  | XObject => true
  end.

(** [String(val)] *)
Definition cellText (v : XCell) : string :=
  match v with
  | XNull => "null"
  | XNum z => pretty z
  | XFracNum t => t
  | XStr s => s
  | XBool b => boolText b
  | XObject => "[object Object]"
  end.

(** [Number(val)] *)
Definition cellNumber (v : XCell) : JsNum :=
  match v with
  | XNull => NInt 0
  | XNum z => NInt z
  | XFracNum _ => NFrac
  | XStr s => numberOfString s
  | XBool b => NInt (if b then 1 else 0)
  | XObject => NNaN
  end.

(** [row.getCell(idx).value]: columns are numbered from 1, a cell past
    the row's last one is empty. *)
Definition getCell (row : list XCell) (idx : nat) : XCell := nth (idx - 1) row XNull.

(** [getVal] *)
Definition getVal (row : list XCell) (idx : nat) : string :=
  let val := getCell row idx in
  if truthy val then jsTrim (cellText val) else "".

Definition planStartCol : nat := 5.

(** The preference loop: the non-empty cells of the plan columns. *)
Definition rowPreferences (studyPlans : list StudyPlan) (row : list XCell) : list string :=
  filter (λ v, negb (v =s? "")) ((λ i, getVal row (planStartCol + i)) <$> seq 0 (length studyPlans)).

(** [extractedScores[subj.id] = Number(val) || 0] *)
Definition rowScores (studyPlans : list StudyPlan) (subjects : list ExamSubject) (row : list XCell)
    : gmap string JsNum :=
  let scoreStartCol := (planStartCol + length studyPlans)%nat in
  fold_left (λ o p, objSet (subject_id p.2) (orZero (cellNumber (getCell row (scoreStartCol + p.1)))) o)
    (imap pair subjects) ∅.

(** The body of [worksheet.eachRow] for a row after the first: no
    student when the id cell is empty. *)
Definition parseRow (studyPlans : list StudyPlan) (subjects : list ExamSubject) (row : list XCell)
    : option RawStudent :=
  let id := getVal row 1 in
  if id =s? "" then None else
  Some (mkRaw id (getVal row 2) (getVal row 3) (getVal row 4) (rowPreferences studyPlans row)
          (rowScores studyPlans subjects row)).

(** A worksheet as [eachRow] visits it: the rows that hold a value, with
    their row numbers. *)
Definition Worksheet := list (nat * list XCell).

Definition parseSheet (studyPlans : list StudyPlan) (subjects : list ExamSubject) (ws : Worksheet)
    : list RawStudent :=
  omap (λ '(rowNumber, row), if (rowNumber =? 1)%nat then None else parseRow studyPlans subjects row) ws.

(** The chosen file: one that [xlsx.load] rejects, or a workbook with its
    worksheets in order. *)
Inductive XFile :=
| XUnreadable
| XWorkbook (sheets : list Worksheet).

Definition msgNoData : string := "ไม่พบข้อมูลในไฟล์ หรือรูปแบบไฟล์ไม่ถูกต้อง".
Definition msgReadError : string := "เกิดข้อผิดพลาดในการอ่านไฟล์".

(** What the [try] block ends with: the students, or the message of the
    [catch] (a missing worksheet throws, and the [catch] replaces its
    message). *)
Definition readFile (studyPlans : list StudyPlan) (subjects : list ExamSubject) (file : XFile)
    : string + list RawStudent :=
  match file with
  | XUnreadable => inl msgReadError
  | XWorkbook sheets =>
      match head sheets with
      | None => inl msgReadError
      | Some ws =>
          match parseSheet studyPlans subjects ws with
          | [] => inl msgNoData
          | parsed => inr parsed
          end
      end
  end.

(** The template of [handleDownloadTemplate]: the header row and the
    example row (the styling and the download are not modelled). *)
Definition templateHeaders (studyPlans : list StudyPlan) (subjects : list ExamSubject) : list XCell :=
  XStr <$> (["ID (รหัสผู้สมัคร)"; "Title (คำนำหน้า)"; "FirstName (ชื่อ)"; "LastName (นามสกุล)"] ++
            imap (λ i _, "Preference " +:+ pretty (S i) +:+ " (อันดับ " +:+ pretty (S i) +:+ ")") studyPlans ++
            ((λ s, "Score: " +:+ subject_name s) <$> subjects)).

Definition templateExample (studyPlans : list StudyPlan) (subjects : list ExamSubject) : list XCell :=
  [XStr "STU001"; XStr "เด็กชาย"; XStr "ตัวอย่าง"; XStr "รักเรียน"] ++
  ((λ p, XStr (name p)) <$> studyPlans) ++ ((λ _, XNum 80) <$> subjects).

Definition template (studyPlans : list StudyPlan) (subjects : list ExamSubject) : Worksheet :=
  [(1%nat, templateHeaders studyPlans subjects); (2%nat, templateExample studyPlans subjects)].

(** ** [DataEntry] (lines 32-189) *)

Inductive EntryMode := MANUAL | BULK.

Record DataEntryState := mkDataEntry {
  mode : EntryMode;
  form : Form;
  importData : list RawStudent;
  importError : option string;
  isProcessingFile : bool;
  isConfirming : bool
}.

Definition setMode (m : EntryMode) (st : DataEntryState) : DataEntryState :=
  mkDataEntry m (form st) (importData st) (importError st) (isProcessingFile st) (isConfirming st).
Definition setForm (f : Form) (st : DataEntryState) : DataEntryState :=
  mkDataEntry (mode st) f (importData st) (importError st) (isProcessingFile st) (isConfirming st).
Definition setImportData (d : list RawStudent) (st : DataEntryState) : DataEntryState :=
  mkDataEntry (mode st) (form st) d (importError st) (isProcessingFile st) (isConfirming st).
Definition setImportError (e : option string) (st : DataEntryState) : DataEntryState :=
  mkDataEntry (mode st) (form st) (importData st) e (isProcessingFile st) (isConfirming st).
Definition setIsProcessingFile (b : bool) (st : DataEntryState) : DataEntryState :=
  mkDataEntry (mode st) (form st) (importData st) (importError st) b (isConfirming st).
Definition setIsConfirming (b : bool) (st : DataEntryState) : DataEntryState :=
  mkDataEntry (mode st) (form st) (importData st) (importError st) (isProcessingFile st) b.

Section DataEntry.
Context (studyPlans : list StudyPlan) (subjects : list ExamSubject).

(** The initial values of [useState]. *)
Definition initialDataEntry : DataEntryState :=
  mkDataEntry MANUAL (mkForm "" "เด็กชาย" "" "" [] ∅) [] None false false.

(** The effect on [subjects]: one text per subject, kept when it was there. *)
Definition initScores (prev : gmap string string) : gmap string string :=
  fold_left (λ o subj, objSet (subject_id subj) (textOf prev (subject_id subj)) o) subjects ∅.

(** The effect on [studyPlans]: one empty preference per plan. *)
Definition initStreams (f : Form) : Form :=
  if bool_decide (0 < length studyPlans)%nat && bool_decide (selectedStreams f = [])
  then setSelectedStreams (replicate (length studyPlans) "") f else f.

(** The state after the first render: both effects have run. *)
Definition mountDataEntry : DataEntryState :=
  let f := form initialDataEntry in
  setForm (initStreams (setScores (initScores (scoreText f)) f)) initialDataEntry.

(** [handleFileUpload], run to its end ([finally]). *)
Definition handleFileUpload (file : option XFile) (st : DataEntryState) : DataEntryState :=
  match file with
  | None => st
  | Some fl =>
      let st1 := setImportData [] (setImportError None (setIsProcessingFile true st)) in
      let st2 := match readFile studyPlans subjects fl with
                 | inl msg => setImportError (Some msg) st1
                 | inr parsed => setImportData parsed st1
                 end in
      setIsProcessingFile false st2
  end.

(** The events of the screen, each enabled only when the element that
    raises it is rendered and enabled. *)
Inductive DataEntryEvent :=
| DEModeManual                        (** the MANUAL tab: also clears [importData] *)
| DEModeBulk                          (** the BULK tab *)
| DEId (v : string)
| DETitle (v : string)
| DEFirstName (v : string)
| DELastName (v : string)
| DEStream (index : nat) (v : string)
| DEScore (subjId v : string)
| DEResetStreams
| DESubmit                            (** [handlePreSubmitManual], after validation *)
| DEUpload (file : option XFile)
| DECancelImport                      (** the cancel button of the preview *)
| DEStartImport                       (** the import button of the preview *)
| DEBack.                             (** back from the confirmation screen *)

Definition fireDataEntry (ev : DataEntryEvent) (st : DataEntryState) : option DataEntryState :=
  if isConfirming st then
    match ev with DEBack => Some (setIsConfirming false st) | _ => None end
  else
    let manual := match mode st with MANUAL => true | BULK => false end in
    let withForm (g : Form → Form) := if manual then Some (setForm (g (form st)) st) else None in
    match ev with
    | DEModeManual => Some (setImportData [] (setMode MANUAL st))
    | DEModeBulk => Some (setMode BULK st)
    | DEId v => withForm (setId v)
    | DETitle v => if bool_decide (v ∈ titleOptions) then withForm (setTitle v) else None
    | DEFirstName v => withForm (setFirstName v)
    | DELastName v => withForm (setLastName v)
    | DEStream i v =>
        if bool_decide (i < length studyPlans)%nat && optionEnabled studyPlans (selectedStreams (form st)) i v
        then withForm (handleStreamChange i v) else None
    | DEScore k v => if bool_decide (k ∈ subject_id <$> subjects) then withForm (handleScoreChange k v) else None
    | DEResetStreams => withForm (resetStreams studyPlans)
    | DESubmit => if manual && formValid subjects (form st) then Some (setIsConfirming true st) else None
    | DEUpload fl => if manual then None else Some (handleFileUpload fl st)
    | DECancelImport =>
        if negb manual && bool_decide (importData st ≠ []) then Some (setImportData [] st) else None
    | DEStartImport =>
        if negb manual && bool_decide (importData st ≠ []) then Some (setIsConfirming true st) else None
    | DEBack => None
    end.

Inductive deReachable : DataEntryState → Prop :=
| deReachable_mount : deReachable mountDataEntry
| deReachable_fire ev st st' : deReachable st → fireDataEntry ev st = Some st' → deReachable st'.

(** [handleConfirm]: the students the confirmation button passes to
    [onAddStudents]. *)
Definition confirmedStudents (st : DataEntryState) : list RawStudent :=
  match mode st with
  | MANUAL => [formStudent subjects (form st)]
  | BULK => importData st
  end.

End DataEntry.

(** ** [EditStudentForm] (lines 358-420) *)

Record EditState := mkEditState { editForm : Form; editConfirming : bool }.

Section EditStudentForm.
Context (studyPlans : list StudyPlan) (subjects : list ExamSubject).

(** [student.scores[k]] of a [Student]: the five fields, [undefined]
    for another key. *)
Definition scoreField (sc : Scores) (k : string) : option Z :=
  if k =s? "math" then Some (math sc)
  else if k =s? "science" then Some (science sc)
  else if k =s? "thai" then Some (thai sc)
  else if k =s? "english" then Some (english sc)
  else if k =s? "social" then Some (social sc)
  else None.

(** [String(student.scores[subj.id] || '')]: [0] and [undefined] give
    the empty text. *)
Definition scoreTextOf (sc : Scores) (k : string) : string :=
  match scoreField sc k with
  | Some z => if (z =? 0)%Z then "" else pretty z
  | None => ""
  end.

Definition editScores (sc : Scores) : gmap string string :=
  fold_left (λ o subj, objSet (subject_id subj) (scoreTextOf sc (subject_id subj)) o) subjects ∅.

(** [fullStreams]: one entry per plan, the student's preferences first;
    the ones past the number of plans are dropped. *)
Definition fullStreams (loadedStreams : list string) : list string :=
  fold_left (λ acc '(i, s), if decide (i < length acc)%nat then <[i := s]> acc else acc)
    (imap pair loadedStreams) (replicate (length studyPlans) "").

(** The state after the first render: [useState] and the effect. *)
Definition initEditForm (student : Student) : Form :=
  mkForm (id student) (title student) (firstName student) (lastName student)
    (fullStreams (preferredStreams student)) (editScores (scores student)).

Definition mountEdit (student : Student) : EditState := mkEditState (initEditForm student) false.

Inductive EditEvent :=
| EdId (v : string)
| EdTitle (v : string)
| EdFirstName (v : string)
| EdLastName (v : string)
| EdStream (index : nat) (v : string)
| EdScore (subjId v : string)
| EdResetStreams
| EdSubmit
| EdBack.

Definition fireEdit (ev : EditEvent) (st : EditState) : option EditState :=
  let f := editForm st in
  if editConfirming st then
    match ev with EdBack => Some (mkEditState f false) | _ => None end
  else
    match ev with
    | EdId v => Some (mkEditState (setId v f) false)
    | EdTitle v => if bool_decide (v ∈ titleOptions) then Some (mkEditState (setTitle v f) false) else None
    | EdFirstName v => Some (mkEditState (setFirstName v f) false)
    | EdLastName v => Some (mkEditState (setLastName v f) false)
    | EdStream i v =>
        if bool_decide (i < length studyPlans)%nat && optionEnabled studyPlans (selectedStreams f) i v
        then Some (mkEditState (handleStreamChange i v f) false) else None
    | EdScore k v =>
        if bool_decide (k ∈ subject_id <$> subjects) then Some (mkEditState (handleScoreChange k v f) false)
        else None
    | EdResetStreams => Some (mkEditState (resetStreams studyPlans f) false)
    | EdSubmit => if formValid subjects f then Some (mkEditState f true) else None
    | EdBack => None
    end.

(** [handleConfirm]: the student passed to [onSave]. *)
Definition editedStudent (st : EditState) : RawStudent := formStudent subjects (editForm st).

End EditStudentForm.

(** ** What an imported student looks like

    A student read from a file has a trimmed, non-empty id; trimmed,
    non-empty preferences, no more than there are plans; a number other
    than [NaN] for each configured subject and for nothing else. *)
Definition ImportedWellFormed (studyPlans : list StudyPlan) (subjects : list ExamSubject)
    (r : RawStudent) : Prop :=
  rawId r ≠ "" ∧ jsTrim (rawId r) = rawId r ∧
  Forall (λ p, p ≠ "" ∧ jsTrim p = p) (rawPreferredStreams r) ∧
  length (rawPreferredStreams r) ≤ length studyPlans ∧
  (∀ k n, rawScores r !! k = Some n → k ∈ subject_id <$> subjects ∧ n ≠ NNaN) ∧
  (∀ subj, subj ∈ subjects → subject_id subj ≠ "__proto__" → is_Some (rawScores r !! subject_id subj)).

(** ** The invariant of the manual form *)

(** No plan is chosen at two positions. *)
Definition DistinctChoices (l : list string) : Prop :=
  ∀ j1 j2 s, l !! j1 = Some s → l !! j2 = Some s → s ≠ "" → j1 = j2.

Definition DataEntryInv (studyPlans : list StudyPlan) (subjects : list ExamSubject)
    (st : DataEntryState) : Prop :=
  DistinctChoices (selectedStreams (form st)) ∧
  Forall (λ s, s = "" ∨ s ∈ name <$> studyPlans) (selectedStreams (form st)) ∧
  scoreText (form st) !! "__proto__" = None ∧
  (isConfirming st = true → mode st = MANUAL → formValid subjects (form st) = true).

(** A sequence of events, stopping at the first that cannot happen. *)
Fixpoint fireAllDataEntry (studyPlans : list StudyPlan) (subjects : list ExamSubject)
    (evs : list DataEntryEvent) (st : DataEntryState) : option DataEntryState :=
  match evs with
  | [] => Some st
  | ev :: evs' => st' ← fireDataEntry studyPlans subjects ev st; fireAllDataEntry studyPlans subjects evs' st'
  end.

(** ** [Number(String(n))] gives back [n] *)

Lemma digit_char_facts c :
  isDigit c = true →
  isWs c = false ∧ radixBase c = None ∧ isChar "-" c = false ∧ isChar "+" c = false.
Proof.
  destruct c as [[] [] [] [] [] [] [] []]; vm_compute; intros H; try discriminate H;
    split_and!; reflexivity.
Qed.

Lemma pretty_N_char_digit (d : N) :
  (d < 10)%N → isDigit (pretty_N_char d) = true ∧ digitVal (pretty_N_char d) = Z.of_N d.
Proof.
  intros Hd. assert (d = 0 ∨ d = 1 ∨ d = 2 ∨ d = 3 ∨ d = 4 ∨ d = 5 ∨ d = 6 ∨ d = 7 ∨ d = 8 ∨ d = 9)%N
    as Hc by lia.
  destruct_or! Hc; subst d; split; reflexivity.
Qed.

Lemma digitsFrom_snoc acc ds c : digitsFrom acc (ds ++ [c]) = (digitsFrom acc ds * 10 + digitVal c)%Z.
Proof. unfold digitsFrom. by rewrite fold_left_app. Qed.

(** The digits [pretty_N_go x] puts in front of [s] spell [x]. *)
Lemma pretty_N_go_digits x s :
  ∃ ds, String.list_ascii_of_string (pretty_N_go x s) = ds ++ String.list_ascii_of_string s ∧
        Forall (λ c, isDigit c = true) ds ∧
        (∀ acc, digitsFrom acc ds = acc * 10 ^ Z.of_nat (length ds) + Z.of_N x)%Z ∧
        (ds = [] ↔ x = 0%N).
Proof.
  revert s. induction x as [x IH] using (well_founded_induction N.lt_wf_0). intros s.
  destruct (decide (x = 0%N)) as [->|Hx].
  { exists []. rewrite pretty_N_go_0. split_and!; [done|constructor| |done].
    intros acc. simpl. lia. }
  rewrite pretty_N_go_step by lia.
  destruct (IH (x `div` 10)%N ltac:(apply N.div_lt; lia) (String (pretty_N_char (x `mod` 10)) s))
    as (ds & Heq & Hd & Hv & _).
  destruct (pretty_N_char_digit (x `mod` 10)) as [Hc1 Hc2]; [apply N.mod_lt; lia|].
  exists (ds ++ [pretty_N_char (x `mod` 10)]). rewrite Heq. split_and!.
  - simpl. by rewrite <-app_assoc.
  - apply Forall_app; auto.
  - intros acc. rewrite digitsFrom_snoc, Hv, Hc2, length_app. simpl length.
    rewrite Nat2Z.inj_add, Z.pow_add_r by lia.
    pose proof (N.div_mod x 10 ltac:(lia)). lia.
  - split; [intros H; by destruct ds|lia].
Qed.

Lemma spanDigits_all ds : Forall (λ c, isDigit c = true) ds → spanDigits ds = (ds, []).
Proof. induction 1 as [|c ds Hc _ IH]; [done|]. simpl. by rewrite Hc, IH. Qed.

Lemma parseUnsigned_digits ds :
  ds ≠ [] → Forall (λ c, isDigit c = true) ds → parseUnsigned ds = NInt (digitsFrom 0 ds).
Proof.
  intros Hne Hd. unfold parseUnsigned. rewrite spanDigits_all by done. rewrite app_nil_r.
  destruct ds as [|c ds']; [done|]. unfold scaled. simpl. f_equal. lia.
Qed.

Lemma trimList_nonWs l : Forall (λ c, isWs c = false) l → trimList l = l.
Proof.
  intros Hl. unfold trimList.
  assert (∀ l', Forall (λ c, isWs c = false) l' → dropWs l' = l') as Hd.
  { intros [|c l'] Hc; [done|]. inv Hc. simpl. by rewrite H1. }
  rewrite (Hd l), (Hd (reverse l)) by (rewrite ?Forall_reverse; done).
  apply reverse_involutive.
Qed.

(** The digits of a natural number, read back by [numberOfList], with
    a minus sign in front when [neg] holds. *)
Lemma numberOfList_digits (neg : bool) (ds : list ascii) :
  ds ≠ [] → Forall (λ c, isDigit c = true) ds →
  numberOfList ((if neg then ["-"%char] else @nil ascii) ++ ds) =
  NInt ((if neg then -1 else 1) * digitsFrom 0 ds)%Z.
Proof.
  intros Hne Hd. destruct ds as [|c ds']; [done|].
  pose proof Hd as Hd'. inv Hd'.
  destruct (digit_char_facts c) as (_ & Hr & Hm & Hp); [done|].
  assert (bool_decide (c :: ds' = String.list_ascii_of_string "Infinity") = false) as Hinf.
  { apply bool_decide_eq_false. intros [= -> _]. discriminate. }
  destruct neg; cbn -[parseUnsigned digitsFrom bool_decide String.list_ascii_of_string radixBase].
  - by rewrite Hinf, parseUnsigned_digits.
  - rewrite Hm, Hp. destruct ds' as [|c' ds''].
    + by rewrite Hinf, parseUnsigned_digits, Z.mul_1_l.
    + inv H2. rewrite (proj1 (proj2 (digit_char_facts c' H3))).
      destruct (isChar "0" c); by rewrite Hinf, parseUnsigned_digits, Z.mul_1_l.
Qed.

Lemma numberOfString_pretty (z : Z) : numberOfString (pretty z) = NInt z.
Proof.
  assert (∀ p : positive, ∃ ds, String.list_ascii_of_string (pretty (Npos p)) = ds ∧ ds ≠ [] ∧
            Forall (λ c, isDigit c = true) ds ∧ digitsFrom 0 ds = Zpos p) as Hp.
  { intros p. unfold pretty, pretty_N. rewrite decide_False by done.
    destruct (pretty_N_go_digits (Npos p) "") as (ds & Heq & Hd & Hv & Hz).
    exists ds. rewrite Heq, app_nil_r. split_and!; [done| |done|].
    - intros ->. by assert (N.pos p = 0%N) by (by apply Hz).
    - rewrite Hv. lia. }
  assert (∀ ds, Forall (λ c, isDigit c = true) ds → Forall (λ c, isWs c = false) ds) as Hws.
  { intros ds Hd. eapply Forall_impl; [exact Hd|]. intros c Hc. apply (digit_char_facts c Hc). }
  unfold numberOfString, jsTrim. destruct z as [|p|p]; [reflexivity| |].
  - change (pretty (Z.pos p)) with (pretty (N.pos p)).
    destruct (Hp p) as (ds & Heq & Hne & Hd & Hv). rewrite Heq.
    change (reverse (dropWs (reverse (dropWs ds)))) with (trimList ds).
    rewrite trimList_nonWs, String.list_ascii_of_string_of_list_ascii by auto.
    pose proof (numberOfList_digits false ds Hne Hd) as E. cbn [app] in E. by rewrite E, Hv.
  - change (pretty (Z.neg p)) with ("-" +:+ pretty (N.pos p)).
    destruct (Hp p) as (ds & Heq & Hne & Hd & Hv).
    change (String.list_ascii_of_string ("-" +:+ pretty (N.pos p)))
      with ("-"%char :: String.list_ascii_of_string (pretty (N.pos p))). rewrite Heq.
    change (reverse (dropWs (reverse (dropWs ("-"%char :: ds))))) with (trimList ("-"%char :: ds)).
    rewrite trimList_nonWs, String.list_ascii_of_string_of_list_ascii by (constructor; auto).
    pose proof (numberOfList_digits true ds Hne Hd) as E. cbn [app] in E. by rewrite E, Hv.
Qed.

(** ** Objects built by a [forEach] of assignments *)

Lemma lookup_objSet {V} k v (o : gmap string V) k' :
  objSet k v o !! k' = if bool_decide (k = k') && negb (k =s? "__proto__") then Some v else o !! k'.
Proof.
  unfold objSet. destruct (String.eqb_spec k "__proto__") as [->|Hp].
  - by rewrite andb_false_r.
  - rewrite andb_true_r. case_bool_decide as Hk; [subst; apply lookup_insert_eq|].
    by apply lookup_insert_ne.
Qed.

(** When the value stored under a key depends on the key alone, the
    last assignment of a key gives its value. *)
Lemma fold_objSet_lookup {A V} (key : A → string) (f : string → V) (xs : list A) o k :
  fold_left (λ o x, objSet (key x) (f (key x)) o) xs o !! k =
  if bool_decide (k ∈ key <$> xs) && negb (k =s? "__proto__") then Some (f k) else o !! k.
Proof.
  revert o. induction xs as [|x xs IH]; intros o; simpl.
  { done. }
  rewrite IH, lookup_objSet. destruct (decide (key x = k)) as [<-|Hne].
  - rewrite (bool_decide_true (key x = key x)) by done.
    rewrite (bool_decide_true (key x ∈ key x :: _)) by constructor.
    destruct (key x =s? "__proto__"); simpl; rewrite ?andb_false_r; [done|].
    by destruct (bool_decide _).
  - rewrite (bool_decide_false (key x = k)) by done. simpl.
    assert (k ∈ key x :: (key <$> xs) ↔ k ∈ key <$> xs) as Hiff.
    { rewrite elem_of_cons. naive_solver. }
    by rewrite (bool_decide_ext _ _ Hiff).
Qed.

Lemma fold_objSet_inv {A V} (key : A → string) (val : A → V) (xs : list A) o k v :
  fold_left (λ o x, objSet (key x) (val x) o) xs o !! k = Some v →
  o !! k = Some v ∨ ∃ x, x ∈ xs ∧ key x = k ∧ val x = v.
Proof.
  revert o. induction xs as [|x xs IH]; intros o; simpl; [by left|].
  intros [Ho|(y & Hy & Hk & Hv)]%IH.
  2:{ right. exists y. split_and!; [apply elem_of_cons; by right|done|done]. }
  rewrite lookup_objSet in Ho. case_bool_decide as Hkx; simpl in Ho; [|by left].
  destruct (key x =s? "__proto__"); simpl in Ho; [by left|].
  right. exists x. split_and!; [apply elem_of_cons; by left|done|congruence].
Qed.

Lemma fold_objSet_is_Some {A V} (key : A → string) (val : A → V) (xs : list A) o k :
  k ≠ "__proto__" → (is_Some (o !! k) ∨ k ∈ key <$> xs) →
  is_Some (fold_left (λ o x, objSet (key x) (val x) o) xs o !! k).
Proof.
  intros Hp. revert o. induction xs as [|x xs IH]; intros o; simpl; [set_solver|].
  intros Hk. apply IH. rewrite lookup_objSet.
  destruct (decide (key x = k)) as [<-|Hne].
  - left. rewrite bool_decide_true by done. apply String.eqb_neq in Hp. rewrite Hp. by eexists.
  - rewrite bool_decide_false by done. set_solver.
Qed.

(** ** The preferences the edit form loads *)

Lemma fullStreams_go (ps : list string) k (acc : list string) i :
  fold_left (λ acc '(i, s), if decide (i < length acc)%nat then <[i := s]> acc else acc)
    (imap (λ j x, (k + j, x)) ps) acc !! i =
  if decide (k ≤ i < k + length ps ∧ i < length acc)%nat then ps !! (i - k) else acc !! i.
Proof.
  revert k acc. induction ps as [|x ps IH]; intros k acc; simpl.
  { case_decide; [lia|done]. }
  rewrite (imap_ext _ (λ j x, (S k + j, x))) by (intros; cbn; f_equal; lia).
  rewrite IH, Nat.add_0_r. destruct (decide (k < length acc)%nat) as [Hk|Hk].
  - rewrite length_insert. repeat case_decide; try lia.
    all: first [ by replace (i - k) with (S (i - S k)) by lia
               | replace i with k by lia; rewrite Nat.sub_diag; by apply list_lookup_insert_eq
               | rewrite list_lookup_insert_ne by lia; done ].
  - repeat case_decide; try lia; done.
Qed.

Lemma fullStreams_fit studyPlans ps :
  length ps ≤ length studyPlans →
  fullStreams studyPlans ps = ps ++ replicate (length studyPlans - length ps) "".
Proof.
  intros Hl. apply list_eq. intros i. unfold fullStreams.
  change (imap pair ps) with (imap (λ j x, (0 + j, x)) ps). rewrite fullStreams_go, length_replicate.
  rewrite Nat.sub_0_r. destruct (decide (i < length ps)) as [Hi|Hi].
  - rewrite decide_True by lia. by rewrite lookup_app_l.
  - rewrite decide_False by lia. rewrite lookup_app_r by lia.
    destruct (decide (i < length studyPlans)).
    + rewrite !lookup_replicate_2 by lia. done.
    + rewrite (lookup_ge_None_2 (replicate (length studyPlans) "") i) by (rewrite length_replicate; lia).
      rewrite lookup_ge_None_2 by (rewrite length_replicate; lia). done.
Qed.

Lemma filter_nonEmpty_id (ps : list string) : "" ∉ ps → filter (λ s, negb (s =s? "")) ps = ps.
Proof.
  induction ps as [|x ps IH]; intros Hne; [done|].
  assert (x ≠ "") as Hx by set_solver. apply String.eqb_neq in Hx.
  rewrite filter_cons_True by (by rewrite Hx). rewrite IH by set_solver. done.
Qed.

Lemma filter_nonEmpty_replicate n : filter (λ s, negb (s =s? "")) (replicate n "") = [].
Proof. induction n as [|n IHn]; [done|]. simpl. by rewrite filter_cons_False by (simpl; tauto). Qed.

(** ** The edit form gives back the student it was opened on *)

Lemma scoreNumber_scoreTextOf sc k z : scoreField sc k = Some z → scoreNumber (scoreTextOf sc k) = NInt z.
Proof.
  unfold scoreTextOf. intros ->. destruct (Z.eqb_spec z 0) as [->|Hz]; [reflexivity|].
  pose proof (numberOfString_pretty z) as Hp. unfold scoreNumber.
  destruct (String.eqb_spec (pretty z) "") as [He|_]; [|done].
  rewrite He in Hp. vm_compute in Hp. congruence.
Qed.

Lemma editScores_lookup subjects sc k :
  k ∈ subject_id <$> subjects → k ≠ "__proto__" →
  editScores subjects sc !! k = Some (scoreTextOf sc k).
Proof.
  intros Hin Hp. unfold editScores. rewrite (fold_objSet_lookup subject_id (scoreTextOf sc)).
  rewrite bool_decide_true by done. apply String.eqb_neq in Hp. by rewrite Hp.
Qed.

Lemma finalScores_lookup subjects f k :
  k ∈ subject_id <$> subjects → k ≠ "__proto__" →
  finalScores subjects f !! k = Some (scoreNumber (textOf (scoreText f) k)).
Proof.
  intros Hin Hp. unfold finalScores.
  rewrite (fold_objSet_lookup subject_id (λ k, scoreNumber (textOf (scoreText f) k))).
  rewrite bool_decide_true by done. apply String.eqb_neq in Hp. by rewrite Hp.
Qed.

Lemma edit_score_roundtrip studyPlans subjects s k z :
  k ∈ subject_id <$> subjects → k ≠ "__proto__" → scoreField (scores s) k = Some z →
  scoreInt (finalScores subjects (initEditForm studyPlans subjects s)) k = Some z.
Proof.
  intros Hin Hp Hf. unfold scoreInt. rewrite finalScores_lookup by done. simpl.
  unfold textOf. rewrite editScores_lookup by done. simpl. by rewrite (scoreNumber_scoreTextOf _ _ z).
Qed.

(** The form the edit form opens with builds the student back. *)
Lemma initEditForm_student studyPlans subjects s :
  length (preferredStreams s) ≤ length studyPlans → "" ∉ preferredStreams s →
  Forall (λ k, k ∈ subject_id <$> subjects) ["math"; "science"; "thai"; "english"; "social"] →
  toStudent (formStudent subjects (initEditForm studyPlans subjects s)) = Some s.
Proof.
  intros Hl Hne Hk. repeat match goal with H : Forall _ (_ :: _) |- _ => inv H end.
  unfold toStudent, formStudent. simpl.
  rewrite !(edit_score_roundtrip studyPlans subjects s _ _) by done. simpl.
  unfold finalStreams. simpl.
  rewrite fullStreams_fit, filter_app, filter_nonEmpty_id, filter_nonEmpty_replicate, app_nil_r by done.
  by destruct s as [? ? ? ? ? []].
Qed.

(** Opening the edit form on a student and confirming without a
    change passes the same student to [onSave], when the student has no
    more preferences than there are plans and no empty one, and the
    five subjects of the ranking are configured. *)
Theorem edit_unchanged_roundtrip studyPlans subjects s :
  length (preferredStreams s) ≤ length studyPlans → "" ∉ preferredStreams s →
  Forall (λ k, k ∈ subject_id <$> subjects) ["math"; "science"; "thai"; "english"; "social"] →
  toStudent (editedStudent subjects (mountEdit studyPlans subjects s)) = Some s.
Proof. apply initEditForm_student. Qed.

(** ** Reading a file *)

Lemma getVal_trim row idx : jsTrim (getVal row idx) = getVal row idx.
Proof. unfold getVal. destruct (truthy _); [apply jsTrim_idem|reflexivity]. Qed.

Lemma orZero_not_NaN n : orZero n ≠ NNaN.
Proof. destruct n as [[]| | |]; discriminate. Qed.

Lemma elem_of_imap_pair {A} (l : list A) x : x ∈ l ↔ ∃ i, (i, x) ∈ imap pair l.
Proof.
  split.
  - intros (i & Hi)%list_elem_of_lookup. exists i. apply list_elem_of_lookup. exists i.
    by rewrite list_lookup_imap, Hi.
  - intros (i & (j & Hj)%list_elem_of_lookup). rewrite list_lookup_imap in Hj.
    apply fmap_Some in Hj as (y & Hy & Hxy). injection Hxy as -> ->. by eapply list_elem_of_lookup_2.
Qed.

Lemma parseRow_wf studyPlans subjects row r :
  parseRow studyPlans subjects row = Some r → ImportedWellFormed studyPlans subjects r.
Proof.
  unfold parseRow. destruct (String.eqb_spec (getVal row 1) "") as [|Hid]; [done|].
  intros [= <-]. unfold ImportedWellFormed; simpl. split_and!.
  - done.
  - apply getVal_trim.
  - unfold rowPreferences. apply Forall_forall. intros p (Hp & Hin)%list_elem_of_filter.
    apply list_elem_of_fmap in Hin as (i & -> & _). split; [|apply getVal_trim].
    intros He. rewrite He in Hp. exact Hp.
  - unfold rowPreferences. etrans; [apply length_filter|]. by rewrite length_fmap, length_seq.
  - intros k n Hk. unfold rowScores in Hk.
    apply (fold_objSet_inv (λ p, subject_id p.2)) in Hk as [Hk|(x & Hx & <- & <-)]; [done|].
    split; [|apply orZero_not_NaN]. apply list_elem_of_fmap. exists x.2. split; [done|].
    destruct x as [i subj]. apply elem_of_imap_pair. by exists i.
  - intros subj Hs Hp. unfold rowScores. apply fold_objSet_is_Some; [done|right].
    apply elem_of_imap_pair in Hs as [i Hi]. apply list_elem_of_fmap. by exists (i, subj).
Qed.

(** C29: every student an Excel file yields is well formed: a trimmed,
    non-empty id, trimmed non-empty preferences (at most one per plan),
    and a number other than [NaN] for each configured subject only. *)
Theorem readFile_well_formed studyPlans subjects file rs :
  readFile studyPlans subjects file = inr rs → Forall (ImportedWellFormed studyPlans subjects) rs.
Proof.
  unfold readFile. destruct file as [|sheets]; [done|]. destruct (head sheets) as [ws|]; [|done].
  destruct (parseSheet _ _ ws) as [|r rs'] eqn:E; [done|]. intros [= <-]. rewrite <-E.
  apply Forall_forall. intros r' (x & _ & Hx)%list_elem_of_omap. destruct x as [n row].
  destruct (n =? 1)%nat; [done|]. by apply parseRow_wf in Hx.
Qed.

(** A chosen file always settles the import: the spinner stops, and
    either the preview holds the students read and no error is shown, or
    the preview is empty and one of the two error messages is shown. *)
Theorem handleFileUpload_settles studyPlans subjects file st :
  let st' := handleFileUpload studyPlans subjects (Some file) st in
  isProcessingFile st' = false ∧
  ((importError st' = None ∧ importData st' = match readFile studyPlans subjects file with
                                              | inr rs => rs | inl _ => [] end ∧ importData st' ≠ []) ∨
   (importData st' = [] ∧ (importError st' = Some msgNoData ∨ importError st' = Some msgReadError))).
Proof.
  simpl. destruct (readFile studyPlans subjects file) as [msg|rs] eqn:E; simpl.
  - split; [done|right]. split; [done|]. revert E. unfold readFile.
    destruct file as [|sheets]; [intros [= <-]; by right|].
    destruct (head sheets); [|intros [= <-]; by right].
    destruct (parseSheet _ _ _); intros [= <-]; by left.
  - split; [done|left]. split_and!; [done|done|]. revert E. unfold readFile.
    destruct file as [|sheets]; [done|]. destruct (head sheets); [|done].
    destruct (parseSheet _ _ _); [done|]. by intros [= <-].
Qed.

(** ** The manual form keeps its invariant *)

Lemma lookup_setIndex l i v j :
  setIndex l i v !! j =
  if decide (j = i) then Some v else if decide (j < length l) then l !! j
  else if decide (j < i) then Some "" else None.
Proof.
  unfold setIndex. case_decide as Hi.
  - destruct (decide (j = i)) as [->|Hne]; [by apply list_lookup_insert_eq|].
    rewrite list_lookup_insert_ne by done. case_decide; [done|].
    rewrite lookup_ge_None_2 by lia. repeat case_decide; try lia; done.
  - destruct (decide (j < length l)) as [Hj|Hj].
    { rewrite lookup_app_l by done. rewrite decide_False by lia. done. }
    rewrite lookup_app_r by lia. destruct (decide (j - length l < i - length l)) as [Hk|Hk].
    + rewrite lookup_app_l by (rewrite length_replicate; lia).
      rewrite lookup_replicate_2 by lia. repeat case_decide; try lia; done.
    + rewrite lookup_app_r by (rewrite length_replicate; lia). rewrite length_replicate.
      destruct (decide (j = i)) as [->|Hne].
      * by replace (i - length l - (i - length l)) with 0 by lia.
      * rewrite lookup_ge_None_2 by (simpl; lia). repeat case_decide; try lia; done.
Qed.

Lemma isSelectedElsewhere_false l i v j :
  isSelectedElsewhere l i v = false → l !! j = Some v → j = i.
Proof.
  unfold isSelectedElsewhere. intros Hf Hj. destruct (decide (j = i)) as [|Hne]; [done|].
  exfalso. apply Bool.not_true_iff_false in Hf. apply Hf, existsb_exists.
  exists (j, v). split.
  - apply list_elem_of_In, list_elem_of_lookup. exists j. by rewrite list_lookup_imap, Hj.
  - simpl. rewrite String.eqb_refl. simpl. apply negb_true_iff, Nat.eqb_neq. done.
Qed.

Lemma optionEnabled_spec studyPlans l i v :
  optionEnabled studyPlans l i v = true →
  v = "" ∨ (v ∈ name <$> studyPlans ∧ ∀ j, l !! j = Some v → j = i).
Proof.
  unfold optionEnabled. intros [Hv|Hex]%orb_true_iff.
  - left. by apply String.eqb_eq.
  - right. apply existsb_exists in Hex as (p & Hp%list_elem_of_In & Hn).
    apply andb_true_iff in Hn as [Hn%String.eqb_eq Hs]. subst v. apply negb_true_iff in Hs.
    split; [by apply list_elem_of_fmap_2|]. intros j. by apply isSelectedElsewhere_false.
Qed.

Lemma setIndex_distinct l i v :
  DistinctChoices l → (v = "" ∨ ∀ j, l !! j = Some v → j = i) → DistinctChoices (setIndex l i v).
Proof.
  intros Hd Hv j1 j2 s. rewrite !lookup_setIndex.
  repeat case_decide; intros E1 E2 Hs; simplify_eq; try done; try lia.
  all: first [ by eapply Hd | destruct Hv as [->|Hv]; [done|] ].
  all: first [ symmetry; by apply Hv | by apply Hv ].
Qed.

Lemma setIndex_forall (P : string → Prop) l i v : Forall P l → P v → P "" → Forall P (setIndex l i v).
Proof.
  intros Hl Hv He. apply Forall_lookup. intros j x. rewrite lookup_setIndex.
  repeat case_decide; intros Hx; simplify_eq; try done. by eapply Forall_lookup_1.
Qed.

Lemma replicate_distinct n : DistinctChoices (replicate n "").
Proof. intros j1 j2 s H1%lookup_replicate H2 Hs. naive_solver. Qed.

Lemma DistinctChoices_NoDup l : DistinctChoices l → NoDup (filter (λ s, negb (s =s? "")) l).
Proof.
  induction l as [|x l IH]; intros Hd; [constructor|].
  assert (DistinctChoices l) as Hl.
  { intros j1 j2 s H1 H2 Hs. assert (S j1 = S j2) by (by eapply (Hd (S j1) (S j2))). lia. }
  destruct (String.eqb_spec x "") as [->|Hx].
  - rewrite filter_cons_False by (simpl; tauto). by apply IH.
  - apply String.eqb_neq in Hx as Hx'. rewrite filter_cons_True by (by rewrite Hx').
    constructor; [|by apply IH].
    intros (_ & Hin)%list_elem_of_filter. apply list_elem_of_lookup in Hin as [j Hj].
    by assert (0 = S j) by (by eapply (Hd 0 (S j) x)).
Qed.

Lemma lookup_objSet_proto {V} k (v : V) o : objSet k v o !! "__proto__" = o !! "__proto__".
Proof.
  rewrite lookup_objSet. case_bool_decide as Hk; [|done]. subst. by rewrite String.eqb_refl.
Qed.

Lemma fold_objSet_proto {A V} (key : A → string) (val : A → V) xs o :
  fold_left (λ o x, objSet (key x) (val x) o) xs o !! "__proto__" = o !! "__proto__".
Proof.
  revert o. induction xs as [|x xs IH]; intros o; [done|]. simpl. by rewrite IH, lookup_objSet_proto.
Qed.

Lemma handleFileUpload_form studyPlans subjects file st :
  let st' := handleFileUpload studyPlans subjects file st in
  form st' = form st ∧ mode st' = mode st ∧ isConfirming st' = isConfirming st.
Proof.
  destruct file as [fl|]; [|done]. simpl. by destruct (readFile _ _ fl).
Qed.

Lemma mount_Inv studyPlans subjects : DataEntryInv studyPlans subjects (mountDataEntry studyPlans subjects).
Proof.
  assert (initScores subjects ∅ !! "__proto__" = None) as Hp.
  { unfold initScores. by rewrite fold_objSet_proto. }
  unfold mountDataEntry, initStreams. case_match; unfold DataEntryInv; simpl; split_and!; try done.
  - apply replicate_distinct.
  - apply Forall_replicate. by left.
Qed.

Lemma fireDataEntry_Inv studyPlans subjects ev st st' :
  DataEntryInv studyPlans subjects st → fireDataEntry studyPlans subjects ev st = Some st' →
  DataEntryInv studyPlans subjects st'.
Proof.
  intros (Hd & Hc & Hp & Hv) Hf. unfold fireDataEntry in Hf.
  destruct (isConfirming st) eqn:Ec.
  { destruct ev; try discriminate. injection Hf as <-. by split_and!. }
  destruct ev; simpl in Hf; repeat (case_match || case_bool_decide); simplify_eq;
    unfold DataEntryInv; simpl; rewrite ?Ec.
  all: try (split_and!; first [done | intros Hx; discriminate Hx]).
  - match goal with H : _ && optionEnabled _ _ _ _ = true |- _ =>
      apply andb_true_iff in H as [_ Hen%optionEnabled_spec] end.
    split_and!; [apply setIndex_distinct| apply setIndex_forall| |intros Hx; discriminate Hx]; try done.
    + destruct Hen as [->|[_ Hj]]; [by left|by right].
    + destruct Hen as [->|[Hn _]]; [by left|by right].
    + by left.
  - split_and!; [done|done| |intros Hx; discriminate Hx]. by rewrite lookup_objSet_proto.
  - split_and!; [apply replicate_distinct|apply Forall_replicate; by left|done|intros Hx; discriminate Hx].
  - destruct (handleFileUpload_form studyPlans subjects file st) as (-> & -> & ->).
    rewrite Ec. split_and!; [done|done|done|intros Hx; discriminate Hx].
  - split_and!; [done|done|done|]. intros _ Hm. congruence.
Qed.

Lemma deReachable_Inv studyPlans subjects st :
  deReachable studyPlans subjects st → DataEntryInv studyPlans subjects st.
Proof. induction 1; [apply mount_Inv|by eapply fireDataEntry_Inv]. Qed.

(** A validated form gives an integer score within bounds to every
    configured subject. *)
Lemma formValid_scores subjects f subj :
  formValid subjects f = true → scoreText f !! "__proto__" = None → subj ∈ subjects →
  ∃ z, finalScores subjects f !! subject_id subj = Some (NInt z) ∧ (0 ≤ z ≤ maxScore subj)%Z.
Proof.
  intros Hv Hp Hs. unfold formValid in Hv. apply andb_true_iff in Hv as [_ Hv].
  rewrite forallb_forall in Hv. specialize (Hv subj (proj1 (list_elem_of_In _ _) Hs)).
  unfold scoreValid in Hv. destruct (String.eqb_spec (subject_id subj) "__proto__") as [Ep|Ep].
  { rewrite Ep in Hv. unfold textOf in Hv. by rewrite Hp in Hv. }
  rewrite finalScores_lookup by (by apply list_elem_of_fmap_2 || done).
  destruct (String.eqb_spec (textOf (scoreText f) (subject_id subj)) "") as [|Hne]; [done|].
  simpl in Hv. unfold scoreNumber. apply String.eqb_neq in Hne. rewrite Hne.
  destruct (numberOfString _) as [z| | |]; try discriminate. exists z. split; [done|lia].
Qed.

Lemma fireAllDataEntry_reachable studyPlans subjects evs st st' :
  deReachable studyPlans subjects st → fireAllDataEntry studyPlans subjects evs st = Some st' →
  deReachable studyPlans subjects st'.
Proof.
  revert st. induction evs as [|ev evs IH]; intros st Hr Hf; simpl in Hf; [by simplify_eq|].
  destruct (fireDataEntry _ _ ev st) as [st1|] eqn:E; [|done].
  apply (IH st1); [by eapply deReachable_fire|done].
Qed.

(** C30: a student confirmed on the manual form has distinct
    preferences, each the name of a configured plan. *)
Theorem manual_entry_preferences studyPlans subjects st r :
  deReachable studyPlans subjects st → isConfirming st = true → mode st = MANUAL →
  r ∈ confirmedStudents subjects st →
  NoDup (rawPreferredStreams r) ∧ rawPreferredStreams r ⊆ name <$> studyPlans.
Proof.
  intros Hr _ Hm Hin. destruct (deReachable_Inv _ _ _ Hr) as (Hd & Hc & _).
  unfold confirmedStudents in Hin. rewrite Hm in Hin. apply list_elem_of_singleton in Hin as ->.
  simpl. unfold finalStreams. split; [by apply DistinctChoices_NoDup|].
  intros x (Hx & Hin)%list_elem_of_filter. rewrite Forall_forall in Hc.
  destruct (Hc x Hin) as [->|]; [|done]. by rewrite String.eqb_refl in Hx.
Qed.

(** A validated form whose subjects include the five fields of the
    ranking gives a [Student]. *)
Lemma formStudent_toStudent subjects f :
  formValid subjects f = true → scoreText f !! "__proto__" = None →
  Forall (λ k, k ∈ subject_id <$> subjects) ["math"; "science"; "thai"; "english"; "social"] →
  is_Some (toStudent (formStudent subjects f)).
Proof.
  intros Hv Hp Hk.
  assert (∀ k, k ∈ subject_id <$> subjects → ∃ z, finalScores subjects f !! k = Some (NInt z)) as Hz.
  { intros k (subj & -> & Hs)%list_elem_of_fmap.
    destruct (formValid_scores _ _ _ Hv Hp Hs) as (z & ? & _). eauto. }
  repeat match goal with H : Forall _ (_ :: _) |- _ => inv H end.
  unfold toStudent, scoreInt. simpl.
  repeat match goal with H : _ ∈ subject_id <$> _ |- _ => destruct (Hz _ H) as [? ->]; clear H end.
  simpl. eauto.
Qed.

(** C31: a student confirmed on the manual form has, for every
    configured subject, an integer score between [0] and the subject's
    [maxScore]. *)
Theorem manual_entry_scores_bounded studyPlans subjects st r subj :
  deReachable studyPlans subjects st → isConfirming st = true → mode st = MANUAL →
  r ∈ confirmedStudents subjects st → subj ∈ subjects →
  ∃ z, rawScores r !! subject_id subj = Some (NInt z) ∧ (0 ≤ z ≤ maxScore subj)%Z.
Proof.
  intros Hr Hcf Hm Hin Hs. destruct (deReachable_Inv _ _ _ Hr) as (_ & _ & Hp & Hv).
  unfold confirmedStudents in Hin. rewrite Hm in Hin. apply list_elem_of_singleton in Hin as ->.
  apply formValid_scores; [by apply Hv|done|done].
Qed.


(** ** The template reads back as its example student *)

Lemma fold_objSet_notin {A V} (key : A → string) (val : A → V) xs o k :
  k ∉ key <$> xs → fold_left (λ o x, objSet (key x) (val x) o) xs o !! k = o !! k.
Proof.
  revert o. induction xs as [|x xs IH]; intros o Hk; [done|]. simpl.
  rewrite IH by set_solver. rewrite lookup_objSet, bool_decide_false by set_solver. done.
Qed.

Lemma fold_objSet_const {A V} (key : A → string) (val : A → V) xs o k c :
  (∀ x, x ∈ xs → val x = c) → k ∈ key <$> xs → k ≠ "__proto__" →
  fold_left (λ o x, objSet (key x) (val x) o) xs o !! k = Some c.
Proof.
  revert o. induction xs as [|x xs IH]; intros o Hc Hk Hp; [set_solver|]. simpl.
  destruct (decide (k ∈ key <$> xs)) as [Hin|Hnin]; [apply IH; set_solver|].
  rewrite fold_objSet_notin by done. rewrite lookup_objSet.
  assert (key x = k) as <- by set_solver. rewrite bool_decide_true by done.
  apply String.eqb_neq in Hp. rewrite Hp. simpl. f_equal. apply Hc. set_solver.
Qed.

Lemma fmap_seq_lookup {A B} (f : nat → B) (g : A → B) (l : list A) :
  (∀ i x, l !! i = Some x → f i = g x) → f <$> seq 0 (length l) = g <$> l.
Proof.
  intros Hfg. apply list_eq. intros i. rewrite !list_lookup_fmap.
  destruct (l !! i) as [x|] eqn:E.
  - rewrite lookup_seq_lt by (by eapply lookup_lt_Some). simpl. f_equal. by apply Hfg.
  - rewrite lookup_ge_None_2; [done|]. rewrite length_seq. by apply lookup_ge_None.
Qed.

Lemma template_pref_cell studyPlans subjects i p :
  studyPlans !! i = Some p →
  getCell (templateExample studyPlans subjects) (planStartCol + i) = XStr (name p).
Proof.
  intros Hp. unfold getCell, templateExample, planStartCol.
  rewrite nth_lookup. replace (5 + i - 1) with (4 + i) by lia.
  rewrite lookup_app_r by (simpl; lia). replace (4 + i - length _) with i by (simpl; lia).
  rewrite lookup_app_l by (rewrite length_fmap; by eapply lookup_lt_Some).
  by rewrite list_lookup_fmap, Hp.
Qed.

Lemma template_score_cell studyPlans subjects i s :
  subjects !! i = Some s →
  getCell (templateExample studyPlans subjects) (planStartCol + length studyPlans + i) = XNum 80.
Proof.
  intros Hs. unfold getCell, templateExample, planStartCol.
  rewrite nth_lookup. replace (5 + length studyPlans + i - 1) with (4 + length studyPlans + i) by lia.
  rewrite lookup_app_r by (simpl; lia). replace (4 + length studyPlans + i - length _) with
    (length studyPlans + i) by (simpl; lia).
  rewrite lookup_app_r by (rewrite length_fmap; lia). rewrite length_fmap.
  replace (length studyPlans + i - length studyPlans) with i by lia.
  by rewrite list_lookup_fmap, Hs.
Qed.

(** The example row of the downloaded template reads back as one
    student: id [STU001], the plans in their order as preferences, and
    [80] for each subject, when the plan names are non-empty and
    trimmed. *)
Theorem template_roundtrip studyPlans subjects :
  Forall (λ p, name p ≠ "" ∧ jsTrim (name p) = name p) studyPlans →
  ∃ r, parseSheet studyPlans subjects (template studyPlans subjects) = [r] ∧
       rawId r = "STU001" ∧ rawPreferredStreams r = name <$> studyPlans ∧
       ∀ subj, subj ∈ subjects → subject_id subj ≠ "__proto__" →
               rawScores r !! subject_id subj = Some (NInt 80).
Proof.
  intros Hn. unfold parseSheet, template. simpl. unfold parseRow.
  assert (getVal (templateExample studyPlans subjects) 1 = "STU001") as -> by reflexivity.
  simpl. eexists. split; [reflexivity|]. split; [done|]. split.
  - simpl. unfold rowPreferences. rewrite (fmap_seq_lookup _ name).
    + apply filter_nonEmpty_id. intros (p & Hp & Hin)%list_elem_of_fmap.
      rewrite Forall_forall in Hn. by destruct (Hn p Hin) as [[] _].
    + intros i p Hp. unfold getVal. rewrite template_pref_cell with (p := p) by done.
      rewrite Forall_lookup in Hn. destruct (Hn i p Hp) as [Hne Htr]. simpl.
      apply String.eqb_neq in Hne. by rewrite Hne.
  - intros subj Hs Hp. simpl. unfold rowScores.
    apply (fold_objSet_const (λ p, subject_id p.2)); [|by apply elem_of_imap_pair in Hs as [i Hi];
      apply list_elem_of_fmap; exists (i, subj)|done].
    intros [i s] (j & Hj)%list_elem_of_lookup. rewrite list_lookup_imap in Hj.
    apply fmap_Some in Hj as (s' & Hs' & Hx). injection Hx as <- <-. simpl.
    pose proof (template_score_cell studyPlans _ _ _ Hs') as Hc. unfold planStartCol in Hc. simpl in Hc. by rewrite Hc.
Qed.

(** ** Witnesses *)

Definition exStudent : Student :=
  mkStudent "S1" "นาย" "สมชาย" "ใจดี" ["ARTS_MATH"; "SCI_MATH"] (mkScores 80 0 75 (-1) 60).

Lemma edit_unchanged_roundtrip_witness :
  toStudent (editedStudent Dashboard.DEFAULT_SUBJECTS
               (mountEdit Dashboard.DEFAULT_PLANS Dashboard.DEFAULT_SUBJECTS exStudent)) = Some exStudent.
Proof.
  apply edit_unchanged_roundtrip.
  - simpl. lia.
  - apply (bool_decide_unpack _). vm_compute. exact I.
  - apply (bool_decide_unpack _). vm_compute. exact I.
Defined.

(** A sheet with a header, a student whose name is rich text and whose
    score cells hold text, a row whose id is the number [0] (skipped),
    and a student with an integer id. *)
Definition exSheet : Worksheet :=
  [(1%nat, [XStr "ID"; XStr "Title"; XStr "FirstName"; XStr "LastName"]);
   (2%nat, [XStr " S1 "; XStr "นาย"; XObject; XStr "ใจดี"; XStr "SCI_MATH"; XNull; XStr "";
            XStr "ARTS_LANG "; XNull; XStr "80"; XStr "abc"; XNum 70; XFracNum "65.5"; XBool true]);
   (3%nat, [XNum 0; XStr "นาย"; XStr "ก"; XStr "ข"]);
   (5%nat, [XNum 1002; XStr "นางสาว"; XStr "ค"; XStr "ง"; XStr "SPECIAL"])].

Definition exFile : XFile := XWorkbook [exSheet].

Lemma readFile_well_formed_witness :
  ∃ rs, readFile Dashboard.DEFAULT_PLANS Dashboard.DEFAULT_SUBJECTS exFile = inr rs ∧
        Forall (ImportedWellFormed Dashboard.DEFAULT_PLANS Dashboard.DEFAULT_SUBJECTS) rs.
Proof.
  exists (parseSheet Dashboard.DEFAULT_PLANS Dashboard.DEFAULT_SUBJECTS exSheet).
  split; [vm_compute; reflexivity|].
  apply (readFile_well_formed _ _ exFile). vm_compute. reflexivity.
Defined.

Definition exManualEvents : list DataEntryEvent :=
  [DEId "S9"; DEFirstName "ก"; DELastName "ข"; DEStream 0 "ARTS_MATH"; DEStream 1 "SCI_MATH";
   DEScore "math" "90"; DEScore "science" "75"; DEScore "thai" "60"; DEScore "english" "0";
   DEScore "social" "100"; DESubmit].

Definition exManualState : DataEntryState :=
  default (mountDataEntry Dashboard.DEFAULT_PLANS Dashboard.DEFAULT_SUBJECTS)
    (fireAllDataEntry Dashboard.DEFAULT_PLANS Dashboard.DEFAULT_SUBJECTS exManualEvents
       (mountDataEntry Dashboard.DEFAULT_PLANS Dashboard.DEFAULT_SUBJECTS)).

Lemma exManualState_reachable :
  deReachable Dashboard.DEFAULT_PLANS Dashboard.DEFAULT_SUBJECTS exManualState.
Proof.
  apply (fireAllDataEntry_reachable _ _ exManualEvents
           (mountDataEntry Dashboard.DEFAULT_PLANS Dashboard.DEFAULT_SUBJECTS)).
  - constructor.
  - vm_compute. reflexivity.
Defined.

Lemma manual_entry_preferences_witness :
  let r := formStudent Dashboard.DEFAULT_SUBJECTS (form exManualState) in
  NoDup (rawPreferredStreams r) ∧ rawPreferredStreams r ⊆ name <$> Dashboard.DEFAULT_PLANS.
Proof.
  apply (manual_entry_preferences Dashboard.DEFAULT_PLANS Dashboard.DEFAULT_SUBJECTS exManualState).
  - apply exManualState_reachable.
  - vm_compute. reflexivity.
  - vm_compute. reflexivity.
  - apply list_elem_of_singleton. vm_compute. reflexivity.
Defined.

Lemma manual_entry_scores_bounded_witness :
  ∃ z, rawScores (formStudent Dashboard.DEFAULT_SUBJECTS (form exManualState)) !! "math" = Some (NInt z) ∧
       (0 ≤ z ≤ 100)%Z.
Proof.
  apply (manual_entry_scores_bounded Dashboard.DEFAULT_PLANS Dashboard.DEFAULT_SUBJECTS exManualState _
           (mkExamSubject "math" "คณิต" 100)).
  - apply exManualState_reachable.
  - vm_compute. reflexivity.
  - vm_compute. reflexivity.
  - apply list_elem_of_singleton. vm_compute. reflexivity.
  - constructor.
Defined.

Lemma template_roundtrip_witness :
  ∃ r, parseSheet Dashboard.DEFAULT_PLANS Dashboard.DEFAULT_SUBJECTS
         (template Dashboard.DEFAULT_PLANS Dashboard.DEFAULT_SUBJECTS) = [r] ∧
       rawId r = "STU001" ∧ rawPreferredStreams r = name <$> Dashboard.DEFAULT_PLANS ∧
       ∀ subj, subj ∈ Dashboard.DEFAULT_SUBJECTS → subject_id subj ≠ "__proto__" →
               rawScores r !! subject_id subj = Some (NInt 80).
Proof.
  apply template_roundtrip. apply (bool_decide_unpack _). vm_compute. exact I.
Defined.

(** ** What the import and the edit form do with unexpected input *)

(** A cell of rich text (text with formatting) holds an object, and
    [String(val)] turns it into ["[object Object]"]. *)
Lemma rich_text_name_imported :
  option_map rawFirstName (parseRow Dashboard.DEFAULT_PLANS Dashboard.DEFAULT_SUBJECTS
                             [XStr "S1"; XStr "นาย"; XObject; XStr "ใจดี"]) = Some "[object Object]".
Proof. vm_compute. reflexivity. Qed.

(** An id cell holding the number [0] is falsy: the row is skipped
    without a message. *)
Lemma zero_id_row_skipped :
  parseRow Dashboard.DEFAULT_PLANS Dashboard.DEFAULT_SUBJECTS [XNum 0; XStr "นาย"; XStr "ก"; XStr "ข"] = None.
Proof. vm_compute. reflexivity. Qed.

(** The import checks no score: text that is not a number becomes [0],
    [TRUE] becomes [1], and [150] stays [150] although the subject's
    [maxScore] is [100]; the manual form refuses all three. *)
Lemma import_scores_unchecked :
  let r := parseRow Dashboard.DEFAULT_PLANS Dashboard.DEFAULT_SUBJECTS
             [XStr "S1"; XStr "นาย"; XStr "ก"; XStr "ข"; XNull; XNull; XNull; XNull; XNull;
              XStr "abc"; XBool true; XNum 150] in
  option_map (λ r, (rawScores r !! "math", rawScores r !! "science", rawScores r !! "thai")) r =
  Some (Some (NInt 0), Some (NInt 1), Some (NInt 150)).
Proof. vm_compute. reflexivity. Qed.

(** The edit form keeps one preference per plan: a student with more
    preferences than there are plans loses the last ones when saved. *)
Lemma edit_drops_extra_preferences :
  let s := mkStudent "S1" "นาย" "ก" "ข" ["SCI_MATH"; "ARTS_MATH"; "SPECIAL"] (mkScores 1 1 1 1 1) in
  rawPreferredStreams (editedStudent Dashboard.DEFAULT_SUBJECTS
                         (mountEdit (take 2 Dashboard.DEFAULT_PLANS) Dashboard.DEFAULT_SUBJECTS s)) =
  ["SCI_MATH"; "ARTS_MATH"].
Proof. vm_compute. reflexivity. Qed.

(** The manual form disables a plan chosen at another position, the
    import takes the plan columns as they are: the same plan can be a
    student's first and second preference. *)
Lemma import_duplicate_preferences :
  option_map rawPreferredStreams
    (parseRow Dashboard.DEFAULT_PLANS Dashboard.DEFAULT_SUBJECTS
       [XStr "S1"; XStr "นาย"; XStr "ก"; XStr "ข"; XStr "SCI_MATH"; XStr "SCI_MATH"]) =
  Some ["SCI_MATH"; "SCI_MATH"].
Proof. vm_compute. reflexivity. Qed.

(** A score of [0] is shown as an empty input ([scores[subj.id] || ''])
    and the input is [required]: the edit form of a student who scored
    [0] cannot be submitted until the [0] is typed again. *)
Lemma zero_score_blocks_edit :
  let s := mkStudent "S1" "นาย" "ก" "ข" ["SCI_MATH"] (mkScores 0 50 50 50 50) in
  let st := mountEdit Dashboard.DEFAULT_PLANS Dashboard.DEFAULT_SUBJECTS s in
  fireEdit Dashboard.DEFAULT_PLANS Dashboard.DEFAULT_SUBJECTS EdSubmit st = None ∧
  is_Some (st' ← fireEdit Dashboard.DEFAULT_PLANS Dashboard.DEFAULT_SUBJECTS (EdScore "math" "0") st;
           fireEdit Dashboard.DEFAULT_PLANS Dashboard.DEFAULT_SUBJECTS EdSubmit st').
Proof. vm_compute. split; [reflexivity|eexists; reflexivity]. Qed.

End Entry.
