(* ===== verification/ExcelExport.v ===== *)
(** * The Excel export of the student list
    (components/StudentList.tsx, 157-307)

    [handleExport] writes a workbook with a worksheet of every ranked
    student, one worksheet per study plan with the students placed in
    it, and one of the students still waiting when there are any.  Each
    worksheet has a title row, a header row and a row per student;
    [generateSheet] builds them.  [getStreamBadgeStyle] picks the colour
    of a plan's badge from a hash of its name.

    JavaScript strings are sequences of UTF-16 code units: [substring]
    and [charCodeAt] count units, while a Rocq [string] holds the UTF-8
    bytes of the text, so [utf16] decodes them.  The hash is computed on
    doubles with 32-bit shifts; it is modelled on [Z] with [toInt32]
    written out, and its bound shows that the doubles stay exact.
    ExcelJS fills a row object's value into the last column registered
    under its key ([rowCells]) and refuses an empty or an already used
    sheet name; [exportWorkbook] is the outcome of the export, the
    error of the first refused sheet or the sheets downloaded.  Fonts,
    borders, cell colours, column widths and the download of the file
    are presentation and are not modelled. *)

From S2P Require Import Prelude Types Json Allocation Ranking Api Entry.
From stdpp Require Import pretty.
From Stdlib Require Import Ascii.

Module ExcelExport.

Import Entry.

(** ** JavaScript strings as UTF-16 code units *)

Definition byteVal (a : ascii) : Z := Z.of_nat (nat_of_ascii a).
Definition isCont (a : ascii) : bool := (128 <=? byteVal a)%Z && (byteVal a <? 192)%Z.
Definition contVal (a : ascii) : Z := (byteVal a - 128)%Z.

(** The code points of UTF-8 text; a byte that does not start a
    sequence of the right length decodes as U+FFFD. *)
Fixpoint codePoints (l : list ascii) : list Z :=
  match l with
  | [] => []
  | a :: r =>
      let b := byteVal a in
      if (b <? 128)%Z then b :: codePoints r
      else if (194 <=? b)%Z && (b <? 224)%Z then
        match r with
        | c1 :: r1 =>
            if isCont c1 then ((b - 192) * 64 + contVal c1)%Z :: codePoints r1
            else 65533%Z :: codePoints r
        | [] => [65533%Z]
        end
      else if (224 <=? b)%Z && (b <? 240)%Z then
        match r with
        | c1 :: c2 :: r2 =>
            if isCont c1 && isCont c2 then ((b - 224) * 4096 + contVal c1 * 64 + contVal c2)%Z :: codePoints r2
            else 65533%Z :: codePoints r
        | _ => 65533%Z :: codePoints r
        end
      else if (240 <=? b)%Z && (b <? 245)%Z then
        match r with
        | c1 :: c2 :: c3 :: r3 =>
            if isCont c1 && isCont c2 && isCont c3 then
              ((b - 240) * 262144 + contVal c1 * 4096 + contVal c2 * 64 + contVal c3)%Z :: codePoints r3
            else 65533%Z :: codePoints r
        | _ => 65533%Z :: codePoints r
        end
      else 65533%Z :: codePoints r
  end.

(** One code point as UTF-16: itself, or a surrogate pair. *)
Definition utf16Units (cp : Z) : list Z :=
  if (cp <? 65536)%Z then [cp]
  else [(55296 + Z.shiftr (cp - 65536) 10)%Z; (56320 + Z.land (cp - 65536) 1023)%Z].

Definition utf16 (s : string) : list Z := mjoin (utf16Units <$> codePoints (String.list_ascii_of_string s)).

(** ** The colour of a plan's badge ([getStreamBadgeStyle], 290-307) *)

(** [ToInt32]: the signed 32-bit integer with the same value modulo 2^32. *)
Definition toInt32 (z : Z) : Z :=
  let m := (z mod 2 ^ 32)%Z in if (m <? 2 ^ 31)%Z then m else (m - 2 ^ 32)%Z.

(** [hash = streamName.charCodeAt(i) + ((hash << 5) - hash)]: the shift
    works on [ToInt32(hash)] and wraps; the rest is double arithmetic. *)
Definition hashStep (hash c : Z) : Z := (c + (toInt32 (Z.shiftl (toInt32 hash) 5) - hash))%Z.

Definition streamHash (units : list Z) : Z := fold_left hashStep units 0%Z.

Definition badgeColors : list string :=
  ["bg-blue-50 text-blue-700 border-blue-100"; "bg-orange-50 text-orange-700 border-orange-100";
   "bg-pink-50 text-pink-700 border-pink-100"; "bg-teal-50 text-teal-700 border-teal-100";
   "bg-purple-50 text-purple-700 border-purple-100"; "bg-indigo-50 text-indigo-700 border-indigo-100"].

(** [colors[Math.abs(hash) % colors.length]]: [None] is [undefined]. *)
Definition getStreamBadgeStyle (streamName : string) : option string :=
  let hash := if streamName =s? "" then 0%Z else streamHash (utf16 streamName) in
  badgeColors !! Z.to_nat (Z.abs hash mod Z.of_nat (length badgeColors)).

(** ** The worksheets ([handleExport], 157-288) *)

(** [getStreamColor]: the font colour of the cell of the plan obtained. *)
Definition getStreamColor (streamName : string) : string :=
  if streamName =s? "" then "FF000000"
  else if Api.includes "วิทย์-คณิต" streamName then "FF0000FF"
  else if Api.includes "ศิลป์-คำนวณ" streamName then "FF008000"
  else if Api.includes "ศิลป์-ภาษา" streamName then "FFC05000"
  else if Api.includes "ศิลป์-สังคม" streamName then "FF800080"
  else if Api.includes "พิเศษ" streamName then "FFFFD700"
  else "FF000000".

(** [subjects.reduce((acc, s) => acc + s.maxScore, 0)] (line 61) *)
Definition totalMaxScore (subjects : list ExamSubject) : Z :=
  fold_left (λ acc s, acc + maxScore s)%Z subjects 0%Z.

(** [x.toFixed(4)] as the integer [x * 10^4], for [x = num / den] with
    [den > 0]: the nearest integer, the larger one on a tie, on the
    magnitude. *)
Definition roundFixed4 (num den : Z) : Z :=
  let a := (Z.abs num * 10000)%Z in
  (Z.sgn num * ((2 * a + den) / (2 * den)))%Z.

(** The text [String(parseFloat(...))] gives [n / 10^4]: no trailing
    zeros in the fraction, no point for an integer. *)
Fixpoint dropTrailingZeros (l : list ascii) : list ascii :=
  match l with
  | [] => []
  | c :: l' =>
      let r := dropTrailingZeros l' in
      match r with [] => if Ascii.eqb c "0" then [] else [c] | _ => c :: r end
  end.

Definition fixed4Text (n : Z) : string :=
  let sign := if (n <? 0)%Z then "-" else "" in
  let a := Z.abs n in
  let ip := (a / 10000)%Z in
  let fp := (a mod 10000)%Z in
  if (fp =? 0)%Z then sign +:+ pretty ip
  else
    let digits := String.list_ascii_of_string (pretty fp) in
    let padded := replicate (4 - length digits) "0"%char ++ digits in
    sign +:+ pretty ip +:+ "." +:+ String.string_of_list_ascii (dropTrailingZeros padded).

(** [`${percentage}%`] *)
Definition percentText (total maxTotal : Z) : string :=
  let n := if (0 <? maxTotal)%Z then roundFixed4 (total * 100) maxTotal else 0%Z in
  fixed4Text n +:+ "%".

(** The [key]s of [worksheet.columns]. *)
Definition columnKeys (subjects : list ExamSubject) : list string :=
  ["rank"; "id"; "title"; "firstName"; "lastName"; "preferred"; "qualified"; "totalScore";
   "percentage"] ++ (subject_id <$> subjects).

(** The object passed to [worksheet.addRow]; [...student.scores] comes
    last. *)
Definition rowObject (maxTotal : Z) (s : RankedStudent) : gmap string XCell :=
  let st := student s in
  let sc := scores st in
  fold_left (λ o kv, <[kv.1 := kv.2]> o)
    [("rank", XNum (Z.of_nat (rank s))); ("id", XStr (id st)); ("title", XStr (title st));
     ("firstName", XStr (firstName st)); ("lastName", XStr (lastName st));
     ("preferred", match preferredStreams st with p :: _ => XStr p | [] => XNull end);
     ("qualified", XStr (match qualifiedStream s with
                         | Some q => if q =s? "" then "รอเรียก" else q
                         | None => "รอเรียก"
                         end));
     ("totalScore", XNum (totalScore s)); ("percentage", XStr (percentText (totalScore s) maxTotal));
     ("math", XNum (math sc)); ("science", XNum (science sc)); ("thai", XNum (thai sc));
     ("english", XNum (english sc)); ("social", XNum (social sc))] ∅.

(** The cells of the row written by [worksheet.addRow(obj)]: ExcelJS
    writes [obj[key]] into the column registered last under [key], so a
    column whose key comes again later (a subject id such as [rank], or
    two subjects of one id) stays empty, as does a column whose key the
    object lacks. *)
Definition rowCells (subjects : list ExamSubject) (s : RankedStudent) : list XCell :=
  let keys := columnKeys subjects in
  let obj := rowObject (totalMaxScore subjects) s in
  imap (λ j k, if bool_decide (k ∈ drop (S j) keys) then XNull else default XNull (obj !! k)) keys.

Definition titleText (level academicYear : string) : string :=
  "ข้อมูลการคัดเลือกนักเรียน ชั้นมัธยมศึกษาปีที่ " +:+ (if level =s? "M.1" then "1" else "4") +:+
  " ปีการศึกษา " +:+ academicYear.

Definition headerValues (subjects : list ExamSubject) : list XCell :=
  XStr <$> (["อันดับที่"; "เลขที่ผู้สมัคร"; "คำนำหน้า"; "ชื่อ"; "นามสกุล";
             "แผนฯ ที่เลือก (อันดับ 1)"; "แผนฯ ที่ได้"; "คะแนนรวม"; "คิดเป็น %"] ++
            (subject_name <$> subjects)).

Record Sheet := mkSheet { sheetName : list Z; sheetRows : list (list XCell) }.

(** [generateSheet]: the title row, the header row, a row per student. *)
Definition generateSheet (level academicYear : string) (subjects : list ExamSubject)
    (name : list Z) (data : list RankedStudent) : Sheet :=
  mkSheet name ([XStr (titleText level academicYear)] :: headerValues subjects :: (rowCells subjects <$> data)).

(** [.replace(/[*?:\\/[\]]/g, ' ')] *)
Definition invalidSheetChar (a : ascii) : bool :=
  existsb (Ascii.eqb a) ["*"; "?"; ":"; "\"; "/"; "["; "]"]%char.

Definition replaceInvalid (s : string) : string :=
  String.string_of_list_ascii
    ((λ a, if invalidSheetChar a then " "%char else a) <$> String.list_ascii_of_string s).

(** [safeSheetName]: replaced, trimmed, cut to 30 UTF-16 units. *)
Definition safeSheetName (planName : string) : list Z := take 30 (utf16 (jsTrim (replaceInvalid planName))).

(** [s.qualifiedStream === planName] *)
Definition placedIn (planName : string) (s : RankedStudent) : bool :=
  match qualifiedStream s with Some q => q =s? planName | None => false end.

(** [!s.qualifiedStream] *)
Definition isWaiting (s : RankedStudent) : bool :=
  match qualifiedStream s with Some q => q =s? "" | None => true end.

Definition planStudents (plan : StudyPlan) (students : list RankedStudent) : list RankedStudent :=
  filter (placedIn (name plan)) students.

Definition waitingStudents (students : list RankedStudent) : list RankedStudent :=
  filter isWaiting students.

Definition handleExport (level academicYear : string) (studyPlans : list StudyPlan)
    (subjects : list ExamSubject) (students : list RankedStudent) : list Sheet :=
  let gen := generateSheet level academicYear subjects in
  gen (utf16 "รวมทั้งหมด") students ::
  ((λ plan, gen (safeSheetName (name plan)) (planStudents plan students)) <$> studyPlans) ++
  (match waitingStudents students with
   | [] => []
   | waiting => [gen (utf16 "รอเรียก (Waiting)") waiting]
   end).

(** [workbook.addWorksheet(name)] refuses an empty name and a name that
    a sheet of the workbook already has, letters compared without case
    (ASCII letters here); the error rejects [handleExport] before the
    file is written, so nothing is downloaded. *)
Definition lowerUnit (c : Z) : Z := if (65 <=? c)%Z && (c <=? 90)%Z then (c + 32)%Z else c.

Fixpoint addWorksheets (seen : list (list Z)) (sheets : list Sheet) : option string :=
  match sheets with
  | [] => None
  | sh :: rest =>
      let key := lowerUnit <$> sheetName sh in
      if bool_decide (sheetName sh = []) then Some "The name can't be empty."
      else if bool_decide (key ∈ seen) then Some "Worksheet name already exists"
      else addWorksheets (key :: seen) rest
  end.

(** The outcome of the export: the error of the first sheet ExcelJS
    refuses, or the sheets of the downloaded workbook. *)
Definition exportWorkbook (level academicYear : string) (studyPlans : list StudyPlan)
    (subjects : list ExamSubject) (students : list RankedStudent) : string + list Sheet :=
  let sheets := handleExport level academicYear studyPlans subjects students in
  match addWorksheets [] sheets with
  | Some msg => inl msg
  | None => inr sheets
  end.

(** A plan obtained is empty (no plan) or one of [names]. *)
Definition qualifiedOK (names : list string) (s : RankedStudent) : Prop :=
  match qualifiedStream s with Some q => q = "" ∨ q ∈ names | None => True end.

(** ** The hash stays a safe integer *)

Lemma toInt32_range z : (- 2 ^ 31 ≤ toInt32 z < 2 ^ 31)%Z.
Proof.
  unfold toInt32. pose proof (Z.mod_pos_bound z (2 ^ 32) ltac:(lia)).
  destruct (Z.ltb_spec (z mod 2 ^ 32) (2 ^ 31)); lia.
Qed.

Lemma hashStep_bound h c :
  (0 ≤ c < 2 ^ 16)%Z → (Z.abs (hashStep h c) ≤ Z.abs h + (2 ^ 31 + 2 ^ 16))%Z.
Proof.
  intros Hc. unfold hashStep. pose proof (toInt32_range (Z.shiftl (toInt32 h) 5)). lia.
Qed.

Lemma streamHash_go_bound units h :
  Forall (λ c, 0 ≤ c < 2 ^ 16)%Z units →
  (Z.abs (fold_left hashStep units h) ≤ Z.abs h + Z.of_nat (length units) * (2 ^ 31 + 2 ^ 16))%Z.
Proof.
  revert h. induction units as [|c units IH]; intros h Hu; simpl; [lia|].
  inv Hu. specialize (IH (hashStep h c) H2). pose proof (hashStep_bound h c H1). lia.
Qed.

Lemma utf16Units_range cp : (0 ≤ cp < 2 ^ 21)%Z → Forall (λ c, 0 ≤ c < 2 ^ 16)%Z (utf16Units cp).
Proof.
  intros Hcp. unfold utf16Units. destruct (Z.ltb_spec cp 65536).
  - constructor; [lia|constructor].
  - assert (Z.land (cp - 65536) 1023 = (cp - 65536) mod 2 ^ 10)%Z as Hl.
    { change 1023%Z with (Z.ones 10). apply Z.land_ones. lia. }
    rewrite Z.shiftr_div_pow2, Hl by lia.
    pose proof (Z.mod_pos_bound (cp - 65536) (2 ^ 10) ltac:(lia)).
    assert (0 ≤ (cp - 65536) / 2 ^ 10 < 2 ^ 11)%Z.
    { split; [apply Z.div_pos|apply Z.div_lt_upper_bound]; lia. }
    repeat constructor; lia.
Qed.

Lemma byteVal_range a : (0 ≤ byteVal a < 256)%Z.
Proof. unfold byteVal. pose proof (nat_ascii_bounded a). lia. Qed.

Lemma codePoints_range l : Forall (λ cp, 0 ≤ cp < 2 ^ 21)%Z (codePoints l).
Proof.
  induction l as [l IH] using (induction_ltof1 _ (@length _)); unfold ltof in IH.
  destruct l as [|a r]; [constructor|]. simpl.
  pose proof (byteVal_range a) as Ha.
  assert (∀ c, isCont c = true → (0 ≤ contVal c < 64)%Z) as Hc.
  { intros c. unfold isCont, contVal. intros [?%Z.leb_le ?%Z.ltb_lt]%andb_true_iff. lia. }
  destruct (Z.ltb_spec (byteVal a) 128).
  { constructor; [lia|apply IH; simpl; lia]. }
  destruct ((194 <=? byteVal a) && (byteVal a <? 224))%Z eqn:E2.
  { apply andb_true_iff in E2 as [?%Z.leb_le ?%Z.ltb_lt].
    destruct r as [|c1 r1]; [repeat constructor; lia|].
    destruct (isCont c1) eqn:Ec; (constructor; [|apply IH; simpl; lia]); [apply Hc in Ec|]; lia. }
  destruct ((224 <=? byteVal a) && (byteVal a <? 240))%Z eqn:E3.
  { apply andb_true_iff in E3 as [?%Z.leb_le ?%Z.ltb_lt].
    destruct r as [|c1 [|c2 r2]]; [constructor; [lia|apply IH; simpl; lia]..|].
    destruct (isCont c1 && isCont c2) eqn:Ec; (constructor; [|apply IH; simpl; lia]);
      [apply andb_true_iff in Ec as [Ec1%Hc Ec2%Hc]|]; lia. }
  destruct ((240 <=? byteVal a) && (byteVal a <? 245))%Z eqn:E4.
  { apply andb_true_iff in E4 as [?%Z.leb_le ?%Z.ltb_lt].
    destruct r as [|c1 [|c2 [|c3 r3]]]; [constructor; [lia|apply IH; simpl; lia]..|].
    destruct (isCont c1 && isCont c2 && isCont c3) eqn:Ec; (constructor; [|apply IH; simpl; lia]);
      [apply andb_true_iff in Ec as [[Ec1%Hc Ec2%Hc]%andb_true_iff Ec3%Hc]|]; lia. }
  constructor; [lia|apply IH; simpl; lia].
Qed.

Lemma utf16_range str : Forall (λ c, 0 ≤ c < 2 ^ 16)%Z (utf16 str).
Proof.
  unfold utf16. apply Forall_join, Forall_fmap. eapply Forall_impl; [apply codePoints_range|].
  intros cp Hcp. by apply utf16Units_range.
Qed.

(** The hash of [getStreamBadgeStyle] stays a safe integer: after
    [k] code units its magnitude is at most [k * (2^31 + 2^16)], so for
    a name of at most 2^21 units every intermediate value is below 2^53
    and the double arithmetic of the source is exact; and the style is
    always one of the six colours. *)
Theorem badge_hash_exact streamName :
  (Z.of_nat (length (utf16 streamName)) ≤ 2 ^ 21)%Z →
  (∀ k, Z.abs (streamHash (take k (utf16 streamName))) < 2 ^ 53)%Z ∧
  is_Some (getStreamBadgeStyle streamName).
Proof.
  intros Hl. split.
  - intros k. unfold streamHash.
    pose proof (streamHash_go_bound (take k (utf16 streamName)) 0 (Forall_take _ _ _ (utf16_range streamName))).
    rewrite length_take in H.
    assert (Z.of_nat (k `min` length (utf16 streamName)) ≤ 2 ^ 21)%Z by (rewrite Nat2Z.inj_min; lia).
    assert (Z.of_nat (k `min` length (utf16 streamName)) * (2 ^ 31 + 2 ^ 16) ≤ 2 ^ 21 * (2 ^ 31 + 2 ^ 16))%Z
      by (apply Z.mul_le_mono_nonneg_r; lia).
    lia.
  - unfold getStreamBadgeStyle. apply lookup_lt_is_Some_2.
    set (h := if streamName =s? "" then 0%Z else _).
    pose proof (Z.mod_pos_bound (Z.abs h) (Z.of_nat (length badgeColors)) ltac:(simpl; lia)). lia.
Qed.

(** ** The plan sheets and the waiting sheet partition the students *)

Lemma filter_Forall_id {A} (P : A → Prop) `{∀ x, Decision (P x)} (l : list A) :
  Forall P l → filter P l = l.
Proof. induction 1; [done|]. rewrite filter_cons_True by done. by f_equal. Qed.

Lemma plan_sheets_partition (names : list string) (l : list RankedStudent) :
  NoDup names → "" ∉ names → Forall (qualifiedOK names) l →
  mjoin ((λ n, filter (placedIn n) l) <$> names) ++ filter isWaiting l ≡ₚ l.
Proof.
  revert l. induction names as [|n names IH]; intros l Hnd Hne Hq; simpl.
  - rewrite filter_Forall_id; [done|]. eapply Forall_impl; [exact Hq|]. intros s.
    unfold qualifiedOK, isWaiting. destruct (qualifiedStream s) as [q|]; [|done].
    intros [->|[]%not_elem_of_nil]. done.
  - apply NoDup_cons in Hnd as [Hn Hnd].
    set (l' := filter (λ s, ¬ placedIn n s) l).
    assert (Forall (λ n', filter (placedIn n') l = filter (placedIn n') l') names) as Hf.
    { apply Forall_forall. intros n' Hn'. unfold l'. rewrite list_filter_filter. apply list_filter_iff.
      intros s. unfold placedIn. destruct (qualifiedStream s) as [q|]; [|naive_solver].
      destruct (String.eqb_spec q n'), (String.eqb_spec q n); subst; naive_solver. }
    assert (filter isWaiting l = filter isWaiting l') as Hw.
    { unfold l'. rewrite list_filter_filter. apply list_filter_iff. intros s. unfold placedIn, isWaiting.
      destruct (qualifiedStream s) as [q|]; [|naive_solver].
      destruct (String.eqb_spec q ""), (String.eqb_spec q n); subst; set_solver. }
    assert (((λ n0, filter (placedIn n0) l) <$> names) = ((λ n0, filter (placedIn n0) l') <$> names)) as Hf'.
    { apply Forall_fmap_ext_1. exact Hf. }
    change (list_fmap string (list RankedStudent) ?f names) with (f <$> names).
    rewrite Hf', Hw, <-app_assoc.
    rewrite IH; [apply filter_app_complement|done|set_solver|].
    apply Forall_forall. intros s (Hs & Hin)%list_elem_of_filter. rewrite Forall_forall in Hq.
    specialize (Hq s Hin). unfold qualifiedOK, placedIn in *. destruct (qualifiedStream s) as [q|]; [|done].
    destruct (String.eqb_spec q n); [done|]. set_solver.
Qed.

Lemma join_fmap_fmap {A B C} (f : B → C) (g : A → list B) (l : list A) :
  mjoin ((λ x, f <$> g x) <$> l) = f <$> mjoin (g <$> l).
Proof.
  induction l as [|x l IH]; [done|]. rewrite !fmap_cons.
  change (mjoin (?a :: ?b)) with (a ++ mjoin b). by rewrite IH, fmap_app.
Qed.

Lemma handleExport_partition level academicYear studyPlans subjects students :
  NoDup (name <$> studyPlans) → "" ∉ name <$> studyPlans →
  Forall (qualifiedOK (name <$> studyPlans)) students →
  ∃ all rest, handleExport level academicYear studyPlans subjects students = all :: rest ∧
    mjoin ((λ sh, drop 2 (sheetRows sh)) <$> rest) ≡ₚ drop 2 (sheetRows all).
Proof.
  intros Hnd Hne Hq. eexists _, _. split; [reflexivity|]. simpl.
  assert (mjoin ((λ sh, drop 2 (sheetRows sh)) <$>
            match waitingStudents students with
            | [] => [] | w => [generateSheet level academicYear subjects (utf16 "รอเรียก (Waiting)") w]
            end) = rowCells subjects <$> waitingStudents students) as Hw.
  { by destruct (waitingStudents students); simpl; rewrite ?app_nil_r. }
  rewrite fmap_app, join_app, Hw, <-list_fmap_compose.
  change ((λ sh, drop 2 (sheetRows sh)) ∘ _) with
    (λ plan, rowCells subjects <$> planStudents plan students).
  rewrite join_fmap_fmap, <-fmap_app. apply Permutation_map.
  unfold planStudents, waitingStudents.
  pose proof (plan_sheets_partition (name <$> studyPlans) students Hnd Hne Hq) as Hp.
  by rewrite <-list_fmap_compose in Hp.
Qed.

(** ** The export of a ranked list *)

Lemma initQuotas_names studyPlans p : is_Some (initQuotas studyPlans !! p) → p ∈ name <$> studyPlans.
Proof.
  unfold initQuotas.
  cut (∀ o, is_Some (fold_left (λ o pl, JsObj.set (name pl) (quota pl) o) studyPlans o !! p) →
            is_Some (o !! p) ∨ p ∈ name <$> studyPlans).
  { intros H Hs. destruct (H ∅ Hs) as [[? Ho]|]; [|done]. by rewrite lookup_empty in Ho. }
  induction studyPlans as [|pl plans IH]; intros o Hs; simpl in *; [by left|].
  destruct (IH _ Hs) as [Ho|Hin]; [|right; by apply elem_of_cons; right].
  rewrite JsObj.lookup_set in Ho. case_decide as Hd; [|by left].
  right. apply elem_of_cons. left. by destruct Hd.
Qed.

Lemma rankStudents_qualifiedOK students studyPlans :
  Forall (qualifiedOK (name <$> studyPlans)) (rankStudents students studyPlans).
Proof.
  apply Forall_forall. intros s Hs. unfold qualifiedOK.
  destruct (qualifiedStream s) as [q|] eqn:Eq; [|done]. right.
  unfold rankStudents, allocatePlans in Hs.
  destruct (allocate_stream_elem _ _ _ _ _ Hs Eq) as [_ Hq]. by apply initQuotas_names.
Qed.

(** C36: exporting the ranked list: when the plan names are distinct and
    none is empty, the student rows of the plan sheets and of the waiting
    sheet, read in order, are a permutation of the student rows of the
    sheet of all students, so each student is in exactly one of them. *)
Theorem export_partitions_ranking level academicYear studyPlans subjects students :
  NoDup (name <$> studyPlans) → "" ∉ name <$> studyPlans →
  ∃ all rest, handleExport level academicYear studyPlans subjects (rankStudents students studyPlans) = all :: rest ∧
    mjoin ((λ sh, drop 2 (sheetRows sh)) <$> rest) ≡ₚ drop 2 (sheetRows all).
Proof. intros Hnd Hne. apply handleExport_partition; [done|done|apply rankStudents_qualifiedOK]. Qed.

(** ** Witnesses *)

Lemma badge_hash_exact_witness :
  (∀ k, Z.abs (streamHash (take k (utf16 "วิทย์-คณิต"))) < 2 ^ 53)%Z ∧
  is_Some (getStreamBadgeStyle "วิทย์-คณิต").
Proof. apply badge_hash_exact. vm_compute. discriminate. Defined.

Definition exPlans : list StudyPlan := [mkStudyPlan "1" "SCI_MATH" 1; mkStudyPlan "2" "ARTS_LANG" 1].

Definition exStudents : list Student :=
  [mkStudent "S1" "นาย" "ก" "ข" ["SCI_MATH"] (mkScores 90 90 90 90 90);
   mkStudent "S2" "นาย" "ค" "ง" ["SCI_MATH"; "ARTS_LANG"] (mkScores 80 80 80 80 80);
   mkStudent "S3" "นาย" "จ" "ฉ" ["SCI_MATH"] (mkScores 70 70 70 70 70)].

Lemma export_partitions_ranking_witness :
  ∃ all rest, handleExport "M.4" "2568" exPlans [] (rankStudents exStudents exPlans) = all :: rest ∧
    mjoin ((λ sh, drop 2 (sheetRows sh)) <$> rest) ≡ₚ drop 2 (sheetRows all).
Proof.
  apply export_partitions_ranking.
  - apply (bool_decide_unpack _). vm_compute. exact I.
  - apply (bool_decide_unpack _). vm_compute. exact I.
Defined.

(** With column keys that are all different, every column receives the
    value of its key. *)
Lemma rowCells_NoDup subjects s :
  NoDup (columnKeys subjects) →
  rowCells subjects s = (λ k, default XNull (rowObject (totalMaxScore subjects) s !! k)) <$> columnKeys subjects.
Proof.
  intros Hnd. unfold rowCells. apply list_eq. intros j.
  rewrite list_lookup_imap, list_lookup_fmap.
  destruct (columnKeys subjects !! j) as [k|] eqn:Hk; [|done]. cbn [fmap option_fmap option_map].
  rewrite bool_decide_false; [done|]. intros (i & Hi)%list_elem_of_lookup.
  rewrite lookup_drop in Hi. pose proof (NoDup_lookup _ _ _ _ Hnd Hk Hi). lia.
Qed.

(** ** What the export does with unusual plans and students *)

(** Two plan names that differ only in a character Excel forbids, or
    after the 30th unit, give the same sheet name, and a plan whose name
    is made of such characters gives the empty name: the export stops
    with the error of [addWorksheet] and nothing is downloaded. *)
Lemma sheet_name_collision :
  safeSheetName "ศิลป์/ภาษา" = safeSheetName "ศิลป์:ภาษา" ∧
  safeSheetName "แผนการเรียนวิทยาศาสตร์และคณิตศาสตร์ 1" =
  safeSheetName "แผนการเรียนวิทยาศาสตร์และคณิตศาสตร์ 2" ∧
  exportWorkbook "M.4" "2568" [mkStudyPlan "1" "ศิลป์/ภาษา" 5; mkStudyPlan "2" "ศิลป์:ภาษา" 5] [] [] =
    inl "Worksheet name already exists" ∧
  exportWorkbook "M.4" "2568" [mkStudyPlan "1" "*?" 5] [] [] = inl "The name can't be empty.".
Proof. vm_compute. split_and!; reflexivity. Qed.

(** The export of a ranked list under two ordinary plan names goes
    through: every sheet is added. *)
Lemma export_ordinary_names_ok :
  exportWorkbook "M.4" "2568" [mkStudyPlan "1" "SCI_MATH" 5; mkStudyPlan "2" "ARTS_LANG" 5] [] [] =
  inr (handleExport "M.4" "2568" [mkStudyPlan "1" "SCI_MATH" 5; mkStudyPlan "2" "ARTS_LANG" 5] [] []).
Proof. vm_compute. reflexivity. Qed.

(** A subject whose id is one of the fixed column keys, here [rank],
    takes the key over: ExcelJS writes the value of [obj.rank] (the
    rank, since [...student.scores] has no [rank] field) into the
    subject's column only, and the rank column stays empty. *)
Lemma subject_key_empties_rank :
  let s := mkRanked (mkStudent "S1" "นาย" "ก" "ข" ["X"] (mkScores 1 1 1 1 1)) 5 3 None in
  rowCells [mkExamSubject "rank" "Rank" 100] s !! 0 = Some XNull ∧
  rowCells [mkExamSubject "rank" "Rank" 100] s !! 9 = Some (XNum 3).
Proof. vm_compute. split; reflexivity. Qed.

(** An empty preference list is truthy, so [preferredStreams[0]] is
    [undefined] and the cell stays empty: the ['-'] is never written. *)
Lemma empty_preference_cell :
  let s := mkRanked (mkStudent "S1" "นาย" "ก" "ข" [] (mkScores 1 1 1 1 1)) 5 1 None in
  rowCells [] s !! 5 = Some XNull.
Proof. vm_compute. reflexivity. Qed.

End ExcelExport.
