(* ===== verification/StudentTable.v ===== *)
(** * The student table and its pagination (components/StudentList.tsx, 472-633)

    What the table of [StudentList] shows for each student of the
    current page: the rank badge, id, name, the first preference with
    its badge colour and the count of the others, the plan obtained or
    the waiting label, the total, the percentage of the maximum and one
    score per configured subject, with the edit and delete buttons
    unless the list is read only; the row that replaces the rows when
    the page is empty; the header; and the pagination controls with the
    page each button asks [goToPage] for.  The table shows what the
    Excel export writes for a student, and the controls never ask for a
    page [goToPage] refuses while the current page exists; after a
    deletion that empties the last page they are gone with the rows.
    The detail modal of a student lists its preferences and marks with
    a trophy the plan it obtained: exactly that plan when the
    preferences are distinct. *)

From S2P Require Import Prelude Types Allocation Ranking Dashboard Entry StudentList ExcelExport.

Module StudentTable.

Import Entry.

(** [rankStyle] (497-500): the later tests override the earlier ones. *)
Inductive RankStyle := RankFirst | RankSecond | RankThird | RankOther.

Definition rankStyle (r : nat) : RankStyle :=
  let st := RankOther in
  let st := if (r =? 1)%nat then RankFirst else st in
  let st := if (r =? 2)%nat then RankSecond else st in
  if (r =? 3)%nat then RankThird else st.

(** The preference cell (517-529): the first preference with its badge
    and [+ n ตัวเลือก] for the others, or [-]. *)
Inductive PrefCell :=
| PrefNone
| PrefBadge (first : string) (style : option string) (more : option nat).

Definition prefCell (prefs : list string) : PrefCell :=
  match prefs with
  | [] => PrefNone
  | p :: _ =>
      PrefBadge p (ExcelExport.getStreamBadgeStyle p)
        (if (1 <? length prefs)%nat then Some (length prefs - 1)%nat else None)
  end.

(** The plan cell (531-541): [student.qualifiedStream ? ... : รอเรียก];
    the empty name is falsy. *)
Inductive StatusCell := Placed (plan : string) | Waiting.

Definition statusCell (q : option string) : StatusCell :=
  match q with
  | Some p => if p =s? "" then Waiting else Placed p
  | None => Waiting
  end.

(** One [<tr>] of the body (503-584). *)
Record RowView := mkRowView {
  rankCell : nat;
  rankCellStyle : RankStyle;
  idCell : string;
  titleCell : string;
  firstNameCell : string;
  lastNameCell : string;
  prefCellOf : PrefCell;
  statusCellOf : StatusCell;
  totalCell : Z;
  percentCell : string;
  scoreCells : list (Z * bool);      (** [student.scores[subj.id] || 0], highlighted when sorted by it *)
  actionsShown : bool                (** [!readOnly]: the edit and delete buttons *)
}.

Definition rowView (readOnly : bool) (sortSubject : string) (subjects : list ExamSubject)
    (s : RankedStudent) : RowView :=
  let st := student s in
  mkRowView (rank s) (rankStyle (rank s)) (id st) (title st) (firstName st) (lastName st)
    (prefCell (preferredStreams st)) (statusCell (qualifiedStream s)) (totalScore s)
    (ExcelExport.percentText (totalScore s) (ExcelExport.totalMaxScore subjects))
    ((λ subj, (StudentList.scoreOf (subject_id subj) s, bool_decide (sortSubject = subject_id subj)))
       <$> subjects)
    (negb readOnly).

(** The header (474-494): the total column reads [คะแนนรวม] when the
    list is sorted by the total; a subject's name is highlighted when
    it is the sort key. *)
Record HeaderView := mkHeaderView {
  totalHeader : string;
  subjectHeaders : list (string * bool);
  headerCells : nat
}.

Definition headerView (sortSubject : string) (subjects : list ExamSubject) : HeaderView :=
  mkHeaderView (if sortSubject =s? "TOTAL" then "คะแนนรวม" else "รวม")
    ((λ subj, (subject_name subj, bool_decide (sortSubject = subject_id subj))) <$> subjects)
    (7 + length subjects + 1)%nat.

(** The body (496-593): the rows of the page, or one cell spanning
    [7 + subjects.length + 1] columns. *)
Inductive Body := Rows (rows : list RowView) | NoStudents (colSpan : nat).

Definition tableBody (readOnly : bool) (st : StudentList.ListState) (subjects : list ExamSubject)
    (filtered : list RankedStudent) : Body :=
  let page := StudentList.paginated (StudentList.currentPage st) filtered in
  if (0 <? length page)%nat then Rows (rowView readOnly (StudentList.sortSubject st) subjects <$> page)
  else NoStudents (7 + length subjects + 1)%nat.

(** The pagination controls (600-633), rendered when
    [totalPages > 1]: the previous button (disabled on page 1), one
    button per page [Array.from({ length: totalPages }, (_, i) => i + 1)]
    and the next button (disabled on the last page); each calls
    [goToPage] with its target.  The current page is at least 1 in the
    source, so [currentPage - 1] does not go below 0. *)
Record Pager := mkPager {
  prevTarget : nat;
  prevDisabled : bool;
  pageButtons : list (nat * bool);   (** the page and whether it is the current one *)
  nextTarget : nat;
  nextDisabled : bool
}.

Definition pager (len currentPage : nat) : option Pager :=
  let tp := StudentList.totalPages len in
  if (1 <? tp)%nat then
    Some (mkPager (currentPage - 1) (currentPage =? 1)%nat
            ((λ p, (p, (currentPage =? p)%nat)) <$> seq 1 tp)
            (currentPage + 1) (currentPage =? tp)%nat)
  else None.

(** The pages the enabled buttons ask for. *)
Definition pagerTargets (p : Pager) : list nat :=
  (if prevDisabled p then [] else [prevTarget p]) ++ (fst <$> pageButtons p) ++
  (if nextDisabled p then [] else [nextTarget p]).

(** ** The header of the list (308-391) *)

Section Header.
(** [new Date(dateStr).toLocaleString('th-TH', ...)]: the browser's
    formatting, a parameter of the model.  It returns [Invalid Date] on
    a text it cannot parse and does not throw, so the [catch] of
    [formatUpdateDate] is never taken. *)
Variable localeDate : string → string.

(** [formatUpdateDate]: [-] for a missing or empty date. *)
Definition formatUpdateDate (dateStr : option string) : string :=
  match dateStr with
  | Some d => if d =s? "" then "-" else localeDate d
  | None => "-"
  end.

Record SummaryView := mkSummaryView {
  levelLabel : string;
  yearShown : string;
  totalShown : nat;                 (** [students.length] *)
  maleShown : nat;
  femaleShown : nat;
  editorPanel : option string       (** the last update and the add button, unless read only *)
}.

Definition summaryView (level academicYear : string) (updatedAt : option string) (readOnly : bool)
    (students : list RankedStudent) : SummaryView :=
  mkSummaryView (if level =s? "M.1" then "มัธยมศึกษาปีที่ 1" else "มัธยมศึกษาปีที่ 4") academicYear
    (length students) (StudentList.maleCount students) (StudentList.femaleCount students)
    (if readOnly then None else Some (formatUpdateDate updatedAt)).

(** The two counts never exceed the number of students: no title is
    counted twice. *)
Lemma gender_counts_le_total level year upd ro students :
  let v := summaryView level year upd ro students in
  (maleShown v + femaleShown v ≤ totalShown v)%nat.
Proof.
  simpl. unfold StudentList.maleCount, StudentList.femaleCount.
  induction students as [|s l IH]; [done|]. rewrite !countIf_cons. simpl.
  destruct (title (student s) =s? "เด็กชาย") eqn:E1, (title (student s) =s? "นาย") eqn:E2,
    (title (student s) =s? "เด็กหญิง") eqn:E3, (title (student s) =s? "นางสาว") eqn:E4;
    simpl; rewrite ?String.eqb_eq in *; try congruence; lia.
Qed.
End Header.

(** ** The student detail (727-797) *)

(** [selectedStudentDetail.scores[subj.id]], without [|| 0]: a subject
    that is not one of the five fields reads [undefined] and shows
    nothing. *)
Definition scoreField (k : string) (sc : Scores) : option Z :=
  if k =s? "math" then Some (math sc)
  else if k =s? "science" then Some (science sc)
  else if k =s? "thai" then Some (thai sc)
  else if k =s? "english" then Some (english sc)
  else if k =s? "social" then Some (social sc)
  else None.

(** One row of the preference list: [#idx + 1], the plan, and the
    trophy when [plan === selectedStudentDetail.qualifiedStream]. *)
Definition trophy (q : option string) (plan : string) : bool :=
  match q with Some p => bool_decide (plan = p) | None => false end.

Definition prefRow (q : option string) (idx : nat) (plan : string) : nat * string * bool :=
  (S idx, plan, trophy q plan).

Record DetailView := mkDetailView {
  detailRank : nat;
  detailName : string;                          (** [{title}{firstName} {lastName}] *)
  detailId : string;
  detailResult : string;                        (** [qualifiedStream || "ยังไม่ผ่านเกณฑ์"] *)
  detailPrefs : option (list (nat * string * bool));  (** [None]: [ไม่มีข้อมูลแผนการเรียน] *)
  detailTotal : Z;
  detailScores : list (string * option Z)
}.

Definition detailView (subjects : list ExamSubject) (r : RankedStudent) : DetailView :=
  let st := student r in
  mkDetailView (rank r) (title st +:+ firstName st +:+ " " +:+ lastName st) (id st)
    (match qualifiedStream r with Some p => if p =s? "" then "ยังไม่ผ่านเกณฑ์" else p | None => "ยังไม่ผ่านเกณฑ์" end)
    (match preferredStreams st with
     | [] => None
     | prefs => Some (imap (prefRow (qualifiedStream r)) prefs)
     end)
    (totalScore r)
    ((λ subj, (subject_name subj, scoreField (subject_id subj) (scores st))) <$> subjects).

(** The plans of the preference list that carry the trophy. *)
Definition trophies (v : DetailView) : list string :=
  match detailPrefs v with
  | Some rows => (λ row, row.1.2) <$> filter (λ row, row.2 = true) rows
  | None => []
  end.

Lemma trophy_rows q (prefs : list string) (f : nat → string → nat * string * bool) :
  (∀ i p, (f i p).1.2 = p ∧ (f i p).2 = trophy q p) →
  (λ row : nat * string * bool, row.1.2) <$> filter (λ row, row.2 = true) (imap f prefs) =
  filter (λ p, trophy q p = true) prefs.
Proof.
  revert f. induction prefs as [|p prefs IH]; intros f Hf; [done|].
  rewrite imap_cons, !filter_cons. destruct (Hf 0%nat p) as [H1 H2]. rewrite H2.
  case_decide; [rewrite fmap_cons, H1|]; (rewrite IH; [done|intros; apply Hf]).
Qed.

Lemma filter_none {A} (P : A → Prop) `{!∀ x, Decision (P x)} (l : list A) :
  (∀ x, x ∈ l → ¬ P x) → filter P l = [].
Proof.
  induction l as [|x l IH]; intros Hl; [done|]. rewrite filter_cons_False by set_solver.
  apply IH. set_solver.
Qed.

Lemma filter_eq_NoDup (l : list string) p : NoDup l → p ∈ l → filter (λ x, x = p) l = [p].
Proof.
  induction 1 as [|x l Hx Hl IH]; [by intros ?%elem_of_nil|].
  intros [->|Hp]%elem_of_cons; rewrite filter_cons; case_decide; try done.
  - rewrite filter_none; [done|]. by intros y Hy ->.
  - subst. contradiction.
  - by apply IH.
Qed.

(** A ranked student's plan is one of its preferences, so with distinct
    preferences the detail marks exactly the plan obtained, and nothing
    for a waiting student. *)
Lemma detail_trophy_is_plan subjects students plans r :
  r ∈ rankStudents students plans → NoDup (preferredStreams (student r)) →
  trophies (detailView subjects r) = match qualifiedStream r with Some q => [q] | None => [] end.
Proof.
  intros Hr Hnd. unfold trophies, detailView. cbn -[imap].
  assert (∀ q, qualifiedStream r = Some q → q ∈ preferredStreams (student r)) as Hin.
  { intros q Hq. by apply (allocate_stream_elem _ _ _ r q Hr Hq). }
  destruct (preferredStreams (student r)) as [|p0 ps] eqn:E.
  - destruct (qualifiedStream r) as [q|]; [|done]. by pose proof (Hin q eq_refl) as ?%elem_of_nil.
  - rewrite (trophy_rows (qualifiedStream r)) by done.
    destruct (qualifiedStream r) as [q|] eqn:Hq.
    + rewrite <-(filter_eq_NoDup (p0 :: ps) q Hnd (Hin q eq_refl)).
      apply list_filter_iff. intros x. unfold trophy. by rewrite bool_decide_eq_true.
    + rewrite filter_none; [done|]. by intros x _.
Qed.

(** A student of an import that lists a plan twice: the detail marks
    both rows. *)
Lemma duplicate_preference_two_trophies :
  trophies (detailView [] (mkRanked (mkStudent "S1" "Mr" "A" "B" ["X"; "X"] (mkScores 0 0 0 0 0))
                          0 1 (Some "X"))) = ["X"; "X"].
Proof. vm_compute. reflexivity. Qed.

(** ** The table and the Excel export *)

(** The five fields of [scores] that [student.scores[k]] reads. *)
Definition scoreKeys : list string := ["math"; "science"; "thai"; "english"; "social"].

(** What a row shows, read as the cells of a worksheet row. *)
Definition viewCells (v : RowView) : list XCell :=
  [XNum (Z.of_nat (rankCell v)); XStr (idCell v); XStr (titleCell v); XStr (firstNameCell v);
   XStr (lastNameCell v);
   match prefCellOf v with PrefBadge p _ _ => XStr p | PrefNone => XStr "-" end;
   XStr (match statusCellOf v with Placed q => q | Waiting => "รอเรียก" end);
   XNum (totalCell v); XStr (percentCell v)] ++ ((λ c, XNum c.1) <$> scoreCells v).

Lemma rowObject_score m s k :
  k ∈ scoreKeys → ExcelExport.rowObject m s !! k = Some (XNum (StudentList.scoreOf k s)).
Proof. unfold scoreKeys. intros Hk. repeat (apply elem_of_cons in Hk as [->|Hk]; [reflexivity|]). set_solver. Qed.

Lemma rowCells_scores m ss subjects s :
  Forall (λ subj, subject_id subj ∈ scoreKeys) subjects →
  (λ k, default XNull (ExcelExport.rowObject m s !! k)) <$> (subject_id <$> subjects) =
  (λ c : Z * bool, XNum c.1) <$>
    ((λ subj, (StudentList.scoreOf (subject_id subj) s, bool_decide (ss = subject_id subj))) <$> subjects).
Proof. induction 1; [done|]. by rewrite !fmap_cons, rowObject_score, IHForall. Qed.

(** The row the table shows for a student, read through [viewCells]
    (which writes the table's waiting label as the export's [รอเรียก]),
    holds what the sheet of all students of the Excel export writes for
    it, column by column, when the student has a preference and the
    subjects are distinct fields among the five score fields. *)
Theorem table_row_matches_export ro ss subjects s :
  preferredStreams (student s) ≠ [] →
  Forall (λ subj, subject_id subj ∈ scoreKeys) subjects →
  NoDup (ExcelExport.columnKeys subjects) →
  ExcelExport.rowCells subjects s = viewCells (rowView ro ss subjects s).
Proof.
  intros Hp Hs Hnd. rewrite ExcelExport.rowCells_NoDup by done. unfold ExcelExport.columnKeys.
  rewrite fmap_app, (rowCells_scores _ ss) by done. unfold viewCells, rowView. f_equal.
  unfold ExcelExport.rowObject, prefCell, statusCell.
  destruct (preferredStreams (student s)) as [|p ps]; [done|].
  destruct (qualifiedStream s) as [q|]; [destruct (q =s? "")|]; reflexivity.
Qed.

(** A student without preferences: the export writes an empty cell
    where the table shows [-]. *)
Lemma empty_preference_differs ro ss subjects s :
  preferredStreams (student s) = [] →
  ExcelExport.rowCells subjects s !! 5%nat = Some XNull ∧
  viewCells (rowView ro ss subjects s) !! 5%nat = Some (XStr "-").
Proof.
  intros Hp. unfold ExcelExport.rowCells. rewrite list_lookup_imap. simpl.
  unfold ExcelExport.rowObject, viewCells, rowView, prefCell. rewrite Hp.
  split; [by case_bool_decide|reflexivity].
Qed.

(** ** The pagination controls *)

(** While the current page exists, every enabled button asks for a page
    [goToPage] accepts, so the click moves to that page. *)
Lemma pager_targets_accepted len cp p t st :
  pager len cp = Some p → 1 ≤ cp ≤ StudentList.totalPages len → t ∈ pagerTargets p →
  StudentList.goToPage len t st = StudentList.setPage t st.
Proof.
  unfold pager, pagerTargets. intros Hp Hcp Ht. cbv zeta in Hp.
  destruct (1 <? _)%nat; [|discriminate]. injection Hp as <-. simpl in Ht.
  assert (1 ≤ t ≤ StudentList.totalPages len) as Hr.
  { rewrite !elem_of_app in Ht. destruct Ht as [Ht|[Ht|Ht]].
    - destruct (cp =? 1) eqn:E; [by apply elem_of_nil in Ht|]. apply list_elem_of_singleton in Ht.
      apply Nat.eqb_neq in E. lia.
    - rewrite <-list_fmap_compose, list_elem_of_fmap in Ht. destruct Ht as (y & Hy & Hs). simpl in Hy. subst.
      apply elem_of_seq in Hs. simpl. lia.
    - destruct (cp =? _) eqn:E; [by apply elem_of_nil in Ht|]. apply list_elem_of_singleton in Ht.
      apply Nat.eqb_neq in E. lia. }
  unfold StudentList.goToPage. by rewrite (proj2 (Nat.leb_le 1 t)), (proj2 (Nat.leb_le t _)) by lia.
Qed.

(** On a page past the last one the body is the empty row, and when
    the list fits on one page the controls are not rendered: nothing on
    screen leads back to a page with rows. *)
Lemma stale_page_no_controls ro st subjects filtered :
  StudentList.totalPages (length filtered) < StudentList.currentPage st →
  tableBody ro st subjects filtered = NoStudents (7 + length subjects + 1) ∧
  (StudentList.totalPages (length filtered) ≤ 1 → pager (length filtered) (StudentList.currentPage st) = None).
Proof.
  intros Hc. pose proof (StudentList.totalPages_cover (length filtered)). split.
  - unfold tableBody, StudentList.paginated. rewrite drop_ge by nia. done.
  - intros H1. unfold pager. by rewrite (proj2 (Nat.ltb_ge _ _)) by lia.
Qed.

(** ** Examples *)

(** The one student of a classroom, ranked with the default plans. *)
Definition exRow : RankedStudent :=
  List.hd (initRanked (Dashboard.exStudent "S1" "A"))
    (rankStudents [Dashboard.exStudent "S1" "A"] Dashboard.DEFAULT_PLANS).

Lemma table_row_matches_export_witness :
  preferredStreams (student exRow) ≠ [] ∧
  Forall (λ subj, subject_id subj ∈ scoreKeys) Dashboard.DEFAULT_SUBJECTS ∧
  ExcelExport.rowCells Dashboard.DEFAULT_SUBJECTS exRow =
    viewCells (rowView false "TOTAL" Dashboard.DEFAULT_SUBJECTS exRow).
Proof.
  assert (Hp : preferredStreams (student exRow) ≠ []) by (vm_compute; discriminate).
  assert (Hs : Forall (λ subj, subject_id subj ∈ scoreKeys) Dashboard.DEFAULT_SUBJECTS)
    by (apply (bool_decide_unpack _); vm_compute; reflexivity).
  split; [exact Hp|split; [exact Hs|]].
  apply (table_row_matches_export false "TOTAL" Dashboard.DEFAULT_SUBJECTS exRow Hp Hs).
  apply (bool_decide_unpack _). vm_compute. reflexivity.
Defined.

(** The row of that student: first rank, placed in its plan, 300 of
    500 points. *)
Lemma exRow_view :
  viewCells (rowView false "TOTAL" Dashboard.DEFAULT_SUBJECTS exRow) =
  [XNum 1; XStr "S1"; XStr "Mr"; XStr "A"; XStr "Test"; XStr "SCI_MATH"; XStr "SCI_MATH";
   XNum 300; XStr "60%"; XNum 80; XNum 70; XNum 60; XNum 50; XNum 40].
Proof. vm_compute. reflexivity. Qed.

End StudentTable.
