(* ===== verification/ListScreen.v ===== *)
(** * The student list screen with its modals
    (components/StudentList.tsx, 36-155 and 378-797)

    [StudentList] shows the ranked students of the Dashboard and opens
    over them one of three modals: the entry modal, which holds
    [DataEntry] to add students or [EditStudentForm] to edit one, the
    confirmation of a deletion, and the details of a student.  The forms
    call back [onAddStudents] and [onEditStudent], which are the
    Dashboard's [handleAddStudents] and [handleEditStudent]
    (SettingsPage.tsx, 792-803), and then close the modal.

    The state of the screen is [Screen]: the list state of [StudentList],
    the three modal fields of the source, and the state of the form the
    entry modal holds ([child]); React mounts the form when the modal
    opens and drops it when it closes, which [render] does after each
    event.  The whole system is the Dashboard's [Sys] with the [Screen];
    a click is an event of the screen, enabled when its element is on
    screen; while a modal is open its overlay takes every click.  The
    forms build [Entry.RawStudent]s and the Dashboard handlers are
    modelled on [Student], so a batch reaches them through
    [Entry.toStudent]; a batch with a score the ranking cannot hold (not
    an integer, or a ranking subject missing) is outside the model. *)

From S2P Require Import Prelude Types StableSort Allocation Ranking Dashboard StudentList Entry.

Module ListScreen.

Import Entry.

(** The form inside the entry modal. *)
Inductive Child :=
| NoChild
| AddChild (st : DataEntryState)
| EditChild (st : EditState).

Record Screen := mkScreen {
  listState : StudentList.ListState;
  showEntryModal : bool;
  editingStudent : option Student;
  selectedStudentDetail : option RankedStudent;
  child : Child
}.

Definition initialScreen : Screen := mkScreen StudentList.initialList false None None NoChild.

Definition setListState (f : StudentList.ListState → StudentList.ListState) (sc : Screen) : Screen :=
  mkScreen (f (listState sc)) (showEntryModal sc) (editingStudent sc) (selectedStudentDetail sc) (child sc).
Definition setShowEntryModal (b : bool) (sc : Screen) : Screen :=
  mkScreen (listState sc) b (editingStudent sc) (selectedStudentDetail sc) (child sc).
Definition setSelectedStudentDetail (d : option RankedStudent) (sc : Screen) : Screen :=
  mkScreen (listState sc) (showEntryModal sc) (editingStudent sc) d (child sc).
Definition setChild (c : Child) (sc : Screen) : Screen :=
  mkScreen (listState sc) (showEntryModal sc) (editingStudent sc) (selectedStudentDetail sc) c.

(** [handleEditClick]: the modal opens on the student. *)
Definition handleEditClick (readOnly : bool) (s : Student) (sc : Screen) : Screen :=
  if readOnly then sc
  else mkScreen (listState sc) true (Some s) (selectedStudentDetail sc) (child sc).

(** [handleRowClick] *)
Definition handleRowClick (s : RankedStudent) (sc : Screen) : Screen := setSelectedStudentDetail (Some s) sc.

(** [handleCloseModal] *)
Definition handleCloseModal (sc : Screen) : Screen :=
  mkScreen (listState sc) false None (selectedStudentDetail sc) (child sc).

(** [{showEntryModal && !readOnly && ...}]: the form is mounted when the
    modal is rendered and dropped when it is not. *)
Definition render (readOnly : bool) (studyPlans : list StudyPlan) (subjects : list ExamSubject)
    (sc : Screen) : Screen :=
  if showEntryModal sc && negb readOnly then
    match child sc with
    | NoChild =>
        setChild (match editingStudent sc with
                  | Some s => EditChild (mountEdit studyPlans subjects s)
                  | None => AddChild (mountDataEntry studyPlans subjects)
                  end) sc
    | _ => sc
    end
  else setChild NoChild sc.

(** [onAddStudents] of the Dashboard: [handleAddStudents]. *)
Definition onAddStudents (props : Dashboard.Props) (logId now : string) (batch : list RawStudent)
    (sys : Dashboard.Sys) : option Dashboard.Sys :=
  ss ← mapM toStudent batch; Some (Dashboard.handleAddStudents props ss logId now sys).

(** [onEditStudent(updatedStudent, editingStudent.id)]: [handleEditStudent]. *)
Definition onEditStudent (props : Dashboard.Props) (logId now : string) (updated : RawStudent)
    (originalId : string) (sys : Dashboard.Sys) : option Dashboard.Sys :=
  s ← toStudent updated; Some (Dashboard.handleEditStudent props s (Some originalId) logId now sys).

(** The clicks and inputs of the screen. *)
Inductive ScreenEvent :=
| LAddButton                               (** the add button (hidden for a viewer) *)
| LEditClick (s : RankedStudent)           (** the edit button of a row *)
| LDeleteClick (s : RankedStudent)         (** the delete button of a row *)
| LRowClick (s : RankedStudent)            (** a row *)
| LGoToPage (page : nat)                   (** the page buttons *)
| LSearch (v : string)
| LFilterPreferred (v : string)
| LFilterStream (v : string)
| LSortSubject (v : string)
| LSortDirection (d : StudentList.SortDirection)
| LCloseModal                              (** the overlay or the close button of the entry modal *)
| LAddForm (ev : DataEntryEvent)           (** an event of [DataEntry] *)
| LAddConfirm (logId now : string)         (** the confirm button of [DataEntry] *)
| LEditForm (ev : EditEvent)               (** an event of [EditStudentForm] *)
| LEditConfirm (logId now : string)        (** the confirm button of [EditStudentForm] *)
| LCancelDelete                            (** the overlay or the cancel button *)
| LConfirmDelete (logId now : string)
| LCloseDetail.                            (** the overlay, the close buttons *)

(** The value of an option of a plan filter: [ALL] or a plan's name. *)
Definition planOption (studyPlans : list StudyPlan) (v : string) : bool :=
  (v =s? "ALL") || existsb (λ p, name p =s? v) studyPlans.

(** The three modals and the conditions they are rendered under. *)
Definition entryOpen (readOnly : bool) (sc : Screen) : bool := showEntryModal sc && negb readOnly.
Definition deleteOpen (readOnly : bool) (sc : Screen) : bool :=
  match StudentList.deletingId (listState sc) with
  | Some i => negb (i =s? "") && negb readOnly
  | None => false
  end.
Definition detailOpen (sc : Screen) : bool :=
  match selectedStudentDetail sc with Some _ => true | None => false end.

Section Screen.
Context (props : Dashboard.Props).

(** The entry modal: the overlay and the close button, the form inside
    and the two callbacks it is given. *)
Definition entryStep (ev : ScreenEvent) (sys : Dashboard.Sys) (sc : Screen) : option (Dashboard.Sys * Screen) :=
  let studyPlans := Dashboard.studyPlans (Dashboard.dash sys) in
  let subjects := Dashboard.examSubjects (Dashboard.dash sys) in
  match ev, child sc with
  | LCloseModal, _ => Some (sys, handleCloseModal sc)
  | LAddForm e, AddChild st =>
      st' ← fireDataEntry studyPlans subjects e st; Some (sys, setChild (AddChild st') sc)
  | LAddConfirm logId now, AddChild st =>
      if isConfirming st then
        sys' ← onAddStudents props logId now (confirmedStudents subjects st) sys;
        Some (sys', handleCloseModal sc)
      else None
  | LEditForm e, EditChild st =>
      st' ← fireEdit studyPlans subjects e st; Some (sys, setChild (EditChild st') sc)
  | LEditConfirm logId now, EditChild st =>
      match editingStudent sc with
      | Some orig =>
          if editConfirming st then
            sys' ← onEditStudent props logId now (editedStudent subjects st) (id orig) sys;
            Some (sys', handleCloseModal sc)
          else None
      | None => None
      end
  | _, _ => None
  end.

(** The confirmation of a deletion. *)
Definition deleteStep (ev : ScreenEvent) (sys : Dashboard.Sys) (sc : Screen) : option (Dashboard.Sys * Screen) :=
  match ev with
  | LCancelDelete => Some (sys, setListState (StudentList.setDeletingId None) sc)
  | LConfirmDelete logId now =>
      let '(sys', ls') :=
        StudentList.handleConfirmDelete (λ sid, Dashboard.handleDeleteStudent props sid logId now)
          sys (listState sc) in
      Some (sys', setListState (λ _, ls') sc)
  | _ => None
  end.

(** The details of a student. *)
Definition detailStep (ev : ScreenEvent) (sys : Dashboard.Sys) (sc : Screen) : option (Dashboard.Sys * Screen) :=
  match ev with LCloseDetail => Some (sys, setSelectedStudentDetail None sc) | _ => None end.

(** The page itself: the add button, the filter bar, the rows of the
    current page and their buttons, the page buttons. *)
Definition pageStep (ev : ScreenEvent) (sys : Dashboard.Sys) (sc : Screen) : option (Dashboard.Sys * Screen) :=
  let studyPlans := Dashboard.studyPlans (Dashboard.dash sys) in
  let subjects := Dashboard.examSubjects (Dashboard.dash sys) in
  let ls := listState sc in
  let filtered := StudentList.filteredStudents ls (Dashboard.rankedStudents (Dashboard.dash sys)) in
  let rows := StudentList.paginated (StudentList.currentPage ls) filtered in
  match ev with
  | LAddButton => if Dashboard.isViewer props then None else Some (sys, setShowEntryModal true sc)
  | LEditClick s =>
      if bool_decide (s ∈ rows) && negb (Dashboard.isViewer props) then Some (sys, handleEditClick (Dashboard.isViewer props) (student s) sc)
      else None
  | LDeleteClick s =>
      if bool_decide (s ∈ rows) && negb (Dashboard.isViewer props)
      then Some (sys, setListState (StudentList.handleDeleteClick (Dashboard.isViewer props) (id (student s))) sc)
      else None
  | LRowClick s => if bool_decide (s ∈ rows) then Some (sys, handleRowClick s sc) else None
  | LGoToPage p => Some (sys, setListState (StudentList.goToPage (length filtered) p) sc)
  | LSearch v => Some (sys, setListState (StudentList.setSearchTerm v) sc)
  | LFilterPreferred v =>
      if planOption studyPlans v then Some (sys, setListState (StudentList.setFilterPreferred v) sc) else None
  | LFilterStream v =>
      if planOption studyPlans v then Some (sys, setListState (StudentList.setFilterStream v) sc) else None
  | LSortSubject v =>
      if (v =s? "TOTAL") || existsb (λ x, subject_id x =s? v) subjects
      then Some (sys, setListState (λ l, StudentList.setSort v (StudentList.sortDirection l) l) sc)
      else None
  | LSortDirection d =>
      Some (sys, setListState (λ l, StudentList.setSort (StudentList.sortSubject l) d l) sc)
  | _ => None
  end.

(** An event goes to the topmost layer on screen; React then renders
    the new state, mounting or dropping the form of the entry modal. *)
Definition screenStep (ev : ScreenEvent) (w : Dashboard.Sys * Screen) : option (Dashboard.Sys * Screen) :=
  let '(sys, sc) := w in
  if entryOpen (Dashboard.isViewer props) sc then entryStep ev sys sc
  else if deleteOpen (Dashboard.isViewer props) sc then deleteStep ev sys sc
  else if detailOpen sc then detailStep ev sys sc
  else pageStep ev sys sc.

Definition renderSys (w : Dashboard.Sys * Screen) : Dashboard.Sys * Screen :=
  (w.1, render (Dashboard.isViewer props) (Dashboard.studyPlans (Dashboard.dash w.1)) (Dashboard.examSubjects (Dashboard.dash w.1)) w.2).

Definition fireScreen (ev : ScreenEvent) (w : Dashboard.Sys * Screen) : option (Dashboard.Sys * Screen) :=
  renderSys <$> screenStep ev w.

Inductive screenReachable : Dashboard.Sys * Screen → Prop :=
| screenReachable_init sys : screenReachable (sys, initialScreen)
| screenReachable_fire ev w w' :
    screenReachable w → fireScreen ev w = Some w' → screenReachable w'
(** the Dashboard's state changes outside the list (a settings save in
    flight settles), keeping the plans and the subjects *)
| screenReachable_parent sys' w :
    screenReachable w →
    Dashboard.studyPlans (Dashboard.dash sys') = Dashboard.studyPlans (Dashboard.dash w.1) →
    Dashboard.examSubjects (Dashboard.dash sys') = Dashboard.examSubjects (Dashboard.dash w.1) →
    screenReachable (sys', w.2).

End Screen.

(** ** The invariant of the screen

    At most one modal is open, since each one covers the page with its
    overlay; the entry modal holds a form exactly when it is rendered,
    the add form when no student is being edited, and that add form is
    a state [DataEntry] can reach. *)

Definition modals (readOnly : bool) (sc : Screen) : nat :=
  Nat.b2n (entryOpen readOnly sc) + Nat.b2n (deleteOpen readOnly sc) + Nat.b2n (detailOpen sc).

Definition ChildOK (readOnly : bool) (studyPlans : list StudyPlan) (subjects : list ExamSubject)
    (sc : Screen) : Prop :=
  match child sc with
  | NoChild => entryOpen readOnly sc = false
  | AddChild st =>
      entryOpen readOnly sc = true ∧ editingStudent sc = None ∧ deReachable studyPlans subjects st
  | EditChild _ => entryOpen readOnly sc = true ∧ is_Some (editingStudent sc)
  end.

Definition ScreenInv (props : Dashboard.Props) (w : Dashboard.Sys * Screen) : Prop :=
  ChildOK (Dashboard.isViewer props) (Dashboard.studyPlans (Dashboard.dash w.1))
    (Dashboard.examSubjects (Dashboard.dash w.1)) w.2 ∧
  (modals (Dashboard.isViewer props) w.2 ≤ 1)%nat.

(** What [render] needs to restore [ChildOK]: the form of an open modal
    is the right one. *)
Definition PreOK (readOnly : bool) (studyPlans : list StudyPlan) (subjects : list ExamSubject)
    (sc : Screen) : Prop :=
  entryOpen readOnly sc = true →
  match child sc with
  | NoChild => True
  | AddChild st => editingStudent sc = None ∧ deReachable studyPlans subjects st
  | EditChild _ => is_Some (editingStudent sc)
  end.

Lemma render_modals ro pl su sc : modals ro (render ro pl su sc) = modals ro sc.
Proof.
  unfold render. destruct (_ && _); [destruct (child sc); [destruct (editingStudent sc)| |]|]; reflexivity.
Qed.

Lemma render_ChildOK ro pl su sc : PreOK ro pl su sc → ChildOK ro pl su (render ro pl su sc).
Proof.
  unfold PreOK, ChildOK, render, entryOpen. destruct (showEntryModal sc && negb ro) eqn:E; simpl.
  - intros H. specialize (H eq_refl). destruct (child sc) eqn:Hc; simpl; rewrite ?Hc, ?E; [|naive_solver..].
    destruct (editingStudent sc) eqn:He; simpl; rewrite ?E, ?He; eauto using deReachable_mount.
  - by rewrite E.
Qed.

Lemma ChildOK_closed ro pl su sc : ChildOK ro pl su sc → entryOpen ro sc = false → child sc = NoChild.
Proof. unfold ChildOK. intros H E. destruct (child sc); [done|destruct H; congruence..]. Qed.

(** ** The rows on screen and the list of the Dashboard *)

Lemma paginated_elem {A} page (l : list A) x : x ∈ StudentList.paginated page l → x ∈ l.
Proof.
  unfold StudentList.paginated. intros H.
  eapply elem_of_sublist; [|apply sublist_drop]. eapply elem_of_sublist; [exact H|apply sublist_take].
Qed.

Lemma filteredStudents_elem st l x : x ∈ StudentList.filteredStudents st l → x ∈ l.
Proof.
  unfold StudentList.filteredStudents. cbv zeta. intros H.
  repeat case_match; rewrite sortBy_perm in H; apply list_elem_of_In, filter_In in H as [? _];
    by apply list_elem_of_In.
Qed.

Lemma rankedStudents_elem d r : r ∈ Dashboard.rankedStudents d → student r ∈ Dashboard.students d.
Proof.
  unfold Dashboard.rankedStudents. intros H. apply (list_elem_of_fmap_2 eraseAll) in H.
  rewrite rankStudents_eraseAll, sortBy_perm in H. apply list_elem_of_fmap in H as (s & Hs & Hin).
  change (student r) with (student (eraseAll r)). by rewrite Hs.
Qed.

(** A row of the current page is a student of the Dashboard. *)
Lemma row_student ls d r :
  r ∈ StudentList.paginated (StudentList.currentPage ls) (StudentList.filteredStudents ls (Dashboard.rankedStudents d)) →
  student r ∈ Dashboard.students d.
Proof. intros H. by apply rankedStudents_elem, (filteredStudents_elem ls), (paginated_elem (StudentList.currentPage ls)). Qed.

(** Replacing every student with the id of [s] by [s] changes nothing
    when [s] is in the list and the ids are distinct. *)
Lemma replace_same_id l s :
  NoDup (id <$> l) → s ∈ l → (λ x, if id x =s? id s then s else x) <$> l = l.
Proof.
  intros Hnd Hs. apply fmap_id_on. intros x Hx.
  destruct (String.eqb_spec (id x) (id s)) as [E|]; [|done].
  apply list_elem_of_lookup_1 in Hx as [i Hi]. apply list_elem_of_lookup_1 in Hs as [j Hj].
  assert (i = j) as ->.
  { eapply NoDup_lookup; [exact Hnd|by rewrite list_lookup_fmap, Hi|rewrite list_lookup_fmap, Hj; simpl; by rewrite E]. }
  congruence.
Qed.

Lemma mergeById_single l s : s ∈ Dashboard.mergeById l [s].
Proof.
  unfold Dashboard.mergeById. simpl. destruct (list_find _ l) as [[i y]|] eqn:Hf.
  - apply list_find_Some in Hf as (Hi & _ & _). eapply list_elem_of_lookup_2.
    apply list_lookup_insert_eq. by eapply lookup_lt_Some.
  - apply elem_of_app. right. by left.
Qed.

Ltac screen_flags := unfold PreOK, ChildOK, modals, entryOpen, deleteOpen, detailOpen in *; simpl in *.

(** Closes [PreOK sc' ∧ modals sc' ≤ 1] once the flags are computed. *)
Ltac modal_count :=
  split; [intros; first [discriminate|done]
         |repeat match goal with
                 | |- context [Nat.b2n ?b] =>
                     lazymatch b with true => fail | false => fail | _ => destruct b end
                 end; simpl; lia].

Section Steps.
Context (props : Dashboard.Props).

Local Abbreviation plansOf sys := (Dashboard.studyPlans (Dashboard.dash sys)).
Local Abbreviation subjectsOf sys := (Dashboard.examSubjects (Dashboard.dash sys)).

Lemma entryStep_ok ev sys sc sys' sc' :
  ChildOK (Dashboard.isViewer props) (plansOf sys) (subjectsOf sys) sc →
  entryOpen (Dashboard.isViewer props) sc = true →
  entryStep props ev sys sc = Some (sys', sc') →
  PreOK (Dashboard.isViewer props) (plansOf sys') (subjectsOf sys') sc' ∧
  (modals (Dashboard.isViewer props) sc' ≤ modals (Dashboard.isViewer props) sc)%nat.
Proof.
  intros Hc Ho Hs. unfold entryStep in Hs. unfold ChildOK in Hc.
  destruct ev; destruct (child sc) eqn:Hch; simplify_option_eq;
    repeat (case_match; simplify_option_eq); screen_flags; rewrite ?Hch, ?Ho; simpl.
  all: split; [intros; try discriminate|lia].
  all: naive_solver eauto using deReachable_fire.
Qed.

Lemma deleteStep_ok ev sys sc sys' sc' :
  entryOpen (Dashboard.isViewer props) sc = false → detailOpen sc = false →
  deleteStep props ev sys sc = Some (sys', sc') →
  PreOK (Dashboard.isViewer props) (plansOf sys') (subjectsOf sys') sc' ∧
  (modals (Dashboard.isViewer props) sc' ≤ 1)%nat.
Proof.
  intros He Hd Hs. unfold deleteStep, StudentList.handleConfirmDelete in Hs.
  destruct ev; simplify_option_eq; repeat (case_match; simplify_option_eq); screen_flags;
    rewrite ?He, ?Hd; simpl; modal_count.
Qed.

Lemma detailStep_ok ev sys sc sys' sc' :
  entryOpen (Dashboard.isViewer props) sc = false → deleteOpen (Dashboard.isViewer props) sc = false →
  detailStep ev sys sc = Some (sys', sc') →
  PreOK (Dashboard.isViewer props) (plansOf sys') (subjectsOf sys') sc' ∧
  (modals (Dashboard.isViewer props) sc' ≤ 1)%nat.
Proof.
  intros He Hd Hs. unfold detailStep in Hs.
  destruct ev; simplify_option_eq; screen_flags; rewrite ?He, ?Hd; simpl; modal_count.
Qed.

Lemma pageStep_ok ev sys sc sys' sc' :
  child sc = NoChild →
  entryOpen (Dashboard.isViewer props) sc = false → deleteOpen (Dashboard.isViewer props) sc = false →
  detailOpen sc = false →
  pageStep props ev sys sc = Some (sys', sc') →
  PreOK (Dashboard.isViewer props) (plansOf sys') (subjectsOf sys') sc' ∧
  (modals (Dashboard.isViewer props) sc' ≤ 1)%nat.
Proof.
  intros Hch He Hd Ht Hs. unfold pageStep, handleEditClick, StudentList.handleDeleteClick,
    StudentList.goToPage in Hs.
  destruct ev; simplify_option_eq; repeat (case_match; simplify_option_eq); screen_flags;
    rewrite ?Hch, ?He, ?Hd, ?Ht; simpl; modal_count.
Qed.

Lemma modals_entry ro sc : (modals ro sc ≤ 1)%nat → entryOpen ro sc = true →
  deleteOpen ro sc = false ∧ detailOpen sc = false.
Proof. unfold modals. destruct (entryOpen _ _), (deleteOpen _ _), (detailOpen _); simpl; lia. Qed.

Lemma modals_delete ro sc : (modals ro sc ≤ 1)%nat → deleteOpen ro sc = true → detailOpen sc = false.
Proof. unfold modals. destruct (entryOpen _ _), (deleteOpen _ _), (detailOpen _); simpl; lia. Qed.

Lemma screenStep_ok ev sys sc sys' sc' :
  ScreenInv props (sys, sc) → screenStep props ev (sys, sc) = Some (sys', sc') →
  PreOK (Dashboard.isViewer props) (plansOf sys') (subjectsOf sys') sc' ∧
  (modals (Dashboard.isViewer props) sc' ≤ 1)%nat.
Proof.
  intros [Hc Hm] Hs. simpl in *. unfold screenStep in Hs.
  destruct (entryOpen _ sc) eqn:He.
  { destruct (entryStep_ok ev sys sc sys' sc') as [? ?]; [done..|]. split; [done|lia]. }
  destruct (deleteOpen _ sc) eqn:Hd.
  { eapply deleteStep_ok; [done|by eapply modals_delete|done]. }
  destruct (detailOpen sc) eqn:Ht; [by eapply detailStep_ok|].
  eapply pageStep_ok; [by eapply ChildOK_closed|done..].
Qed.

Lemma fireScreen_ScreenInv ev w w' :
  ScreenInv props w → fireScreen props ev w = Some w' → ScreenInv props w'.
Proof.
  intros Hi Hf. unfold fireScreen in Hf. destruct w as [sys sc].
  destruct (screenStep props ev (sys, sc)) as [[sys' sc']|] eqn:Hs; [|done].
  simpl in Hf. injection Hf as <-.
  destruct (screenStep_ok ev sys sc sys' sc') as [Hp Hm]; [done..|].
  unfold renderSys, ScreenInv. cbn [fst snd]. split; [by apply render_ChildOK|by rewrite render_modals].
Qed.

Lemma screenReachable_ScreenInv w : screenReachable props w → ScreenInv props w.
Proof.
  induction 1 as [sys|ev w w' _ IH Hf|sys' w _ [Hc Hm] Hp Hs]; [|by eapply fireScreen_ScreenInv|].
  - split; [reflexivity|unfold modals, entryOpen, deleteOpen, detailOpen; simpl; lia].
  - split; [|done]. unfold ScreenInv in *. simpl. by rewrite Hp, Hs.
Qed.

(** With no modal open an event reaches the page. *)
Lemma screenStep_page ev sys sc :
  modals (Dashboard.isViewer props) sc = 0%nat → screenStep props ev (sys, sc) = pageStep props ev sys sc.
Proof.
  unfold modals, screenStep. destruct (entryOpen _ _), (deleteOpen _ _), (detailOpen _); simpl; lia || done.
Qed.

(** For a viewer the entry and delete modals are never on screen and
    the page has no add, edit or delete button: no event changes the
    Dashboard's system state. *)
Lemma fireScreen_viewer_sys ev sys sc sys' sc' :
  Dashboard.isViewer props = true → fireScreen props ev (sys, sc) = Some (sys', sc') → sys' = sys.
Proof.
  intros Hv. unfold fireScreen, renderSys, screenStep, entryOpen, deleteOpen. rewrite Hv, andb_false_r.
  destruct (StudentList.deletingId (listState sc)); rewrite ?andb_false_r; simpl.
  all: destruct (detailOpen sc); [unfold detailStep|unfold pageStep; rewrite Hv];
    destruct ev; simpl; repeat case_match; intros; simplify_eq/=; done.
Qed.

Lemma modals_zero sc : modals false sc = 0%nat →
  showEntryModal sc = false ∧ selectedStudentDetail sc = None ∧ deleteOpen false sc = false.
Proof.
  unfold modals, entryOpen, detailOpen.
  destruct (showEntryModal sc), (selectedStudentDetail sc), (deleteOpen false sc); simpl; intros; done || lia.
Qed.

Local Abbreviation rowsOf sys sc :=
  (StudentList.paginated (StudentList.currentPage (listState sc))
     (StudentList.filteredStudents (listState sc) (Dashboard.rankedStudents (Dashboard.dash sys)))).

(** C35: deleting from the list: with no modal open, a click on the
    delete button of a row of the current page, then on the confirm
    button, removes from the Dashboard's list exactly the students with
    that row's id (a student that was on the list) and closes the
    confirmation, when the id is not empty. *)
Theorem delete_row_removes sys sc r logId now :
  Dashboard.isViewer props = false → modals (Dashboard.isViewer props) sc = 0%nat →
  r ∈ rowsOf sys sc → id (student r) ≠ "" →
  ∃ w1 sys' sc',
    fireScreen props (LDeleteClick r) (sys, sc) = Some w1 ∧
    fireScreen props (LConfirmDelete logId now) w1 = Some (sys', sc') ∧
    student r ∈ Dashboard.students (Dashboard.dash sys) ∧
    Dashboard.students (Dashboard.dash sys') =
      List.filter (λ x, negb (id x =s? id (student r))) (Dashboard.students (Dashboard.dash sys)) ∧
    modals (Dashboard.isViewer props) sc' = 0%nat.
Proof.
  intros Hv Hm Hr Hid. pose proof Hm as Hm'. rewrite Hv in Hm'.
  destruct (modals_zero sc Hm') as (Hs0 & Hd0 & _).
  unfold fireScreen. rewrite screenStep_page by done. unfold pageStep. cbv zeta.
  rewrite bool_decide_eq_true_2 by done. rewrite Hv. simpl.
  eexists _, _, _. split; [reflexivity|]. apply String.eqb_neq in Hid.
  unfold screenStep, renderSys, render, entryOpen, deleteOpen, detailOpen, deleteStep,
    StudentList.handleConfirmDelete. rewrite Hv. simpl. repeat progress (rewrite ?Hs0, ?Hd0, ?Hid; simpl).
  split; [reflexivity|]. split; [by eapply row_student|].
  split; [by apply Dashboard.handleDeleteStudent_students|].
  unfold modals, entryOpen, deleteOpen, detailOpen. simpl. by rewrite Hs0, Hd0.
Qed.

Lemma onEditStudent_unchanged sys logId now s :
  length (preferredStreams s) ≤ length (plansOf sys) → "" ∉ preferredStreams s →
  Forall (λ k, k ∈ subject_id <$> subjectsOf sys) ["math"; "science"; "thai"; "english"; "social"] →
  onEditStudent props logId now
    (editedStudent (subjectsOf sys) (mkEditState (initEditForm (plansOf sys) (subjectsOf sys) s) true))
    (id s) sys = Some (Dashboard.handleEditStudent props s (Some (id s)) logId now sys).
Proof.
  intros Hl Hne Hk. unfold onEditStudent, editedStudent. simpl.
  by rewrite (initEditForm_student (plansOf sys) (subjectsOf sys) s).
Qed.

Lemma fireEdit_submit pl su f :
  formValid su f = true → fireEdit pl su EdSubmit (mkEditState f false) = Some (mkEditState f true).
Proof. intros Hv. unfold fireEdit. simpl. by rewrite Hv. Qed.

(** C34: editing without a change: from a reachable state with no modal
    open, the edit button of a row, the submit button of the form and
    the confirm button leave the Dashboard's student list as it was, and
    close the modal; when the ids on the list are distinct, the row's id
    is not empty and the student fits the edit form (no more preferences
    than plans, no empty one, the five ranking subjects configured, a
    form the browser accepts). *)
Theorem edit_unchanged_keeps_list sys sc r logId now :
  screenReachable props (sys, sc) → Dashboard.isViewer props = false →
  modals (Dashboard.isViewer props) sc = 0%nat → r ∈ rowsOf sys sc →
  NoDup (id <$> Dashboard.students (Dashboard.dash sys)) → id (student r) ≠ "" →
  length (preferredStreams (student r)) ≤ length (plansOf sys) → "" ∉ preferredStreams (student r) →
  Forall (λ k, k ∈ subject_id <$> subjectsOf sys) ["math"; "science"; "thai"; "english"; "social"] →
  formValid (subjectsOf sys) (initEditForm (plansOf sys) (subjectsOf sys) (student r)) = true →
  ∃ w1 w2 sys' sc',
    fireScreen props (LEditClick r) (sys, sc) = Some w1 ∧
    fireScreen props (LEditForm EdSubmit) w1 = Some w2 ∧
    fireScreen props (LEditConfirm logId now) w2 = Some (sys', sc') ∧
    Dashboard.students (Dashboard.dash sys') = Dashboard.students (Dashboard.dash sys) ∧
    showEntryModal sc' = false ∧ child sc' = NoChild.
Proof.
  intros Hreach Hv Hm Hr Hnd Hid Hl Hne Hk Hfv.
  destruct (screenReachable_ScreenInv _ Hreach) as [Hc _]. pose proof Hm as Hm'. rewrite Hv in Hm'.
  destruct (modals_zero sc Hm') as (Hs0 & Hd0 & _).
  assert (child sc = NoChild) as Hch.
  { eapply ChildOK_closed; [exact Hc|]. unfold entryOpen. by rewrite Hs0. }
  unfold fireScreen. rewrite screenStep_page by done. unfold pageStep. cbv zeta.
  rewrite bool_decide_eq_true_2 by done. rewrite Hv.
  eexists _, _, _, _. split; [reflexivity|].
  unfold screenStep, renderSys, render, entryOpen, entryStep, handleEditClick. rewrite Hv.
  cbn -[onEditStudent fireEdit Dashboard.handleEditStudent mountEdit]. rewrite Hch.
  cbn -[onEditStudent fireEdit Dashboard.handleEditStudent mountEdit].
  unfold mountEdit. rewrite fireEdit_submit by done.
  cbn -[onEditStudent fireEdit Dashboard.handleEditStudent]. split; [reflexivity|].
  cbn -[onEditStudent fireEdit Dashboard.handleEditStudent].
  rewrite onEditStudent_unchanged by done. split; [reflexivity|].
  split; [|done].
  cbn [fst snd]. rewrite Dashboard.handleEditStudent_students by done. unfold Dashboard.editKey.
  apply String.eqb_neq in Hid. rewrite Hid. apply replace_same_id; [done|by eapply row_student].
Qed.

(** C33: adding a student: in a reachable state whose entry modal holds
    the manual form at its confirmation step, with the five ranking
    subjects configured, the confirm button is always enabled; the
    entered student converts to a [Student], is on the Dashboard's list
    afterwards, and the modal closes and drops its form. *)
Theorem add_confirm_lists_student sys sc st logId now :
  screenReachable props (sys, sc) → Dashboard.isViewer props = false →
  child sc = AddChild st → isConfirming st = true → mode st = MANUAL →
  Forall (λ k, k ∈ subject_id <$> subjectsOf sys) ["math"; "science"; "thai"; "english"; "social"] →
  ∃ s sys' sc',
    toStudent (formStudent (subjectsOf sys) (form st)) = Some s ∧
    fireScreen props (LAddConfirm logId now) (sys, sc) = Some (sys', sc') ∧
    s ∈ Dashboard.students (Dashboard.dash sys') ∧ showEntryModal sc' = false ∧ child sc' = NoChild.
Proof.
  intros Hreach Hv Hch Hcf Hm Hk.
  destruct (screenReachable_ScreenInv _ Hreach) as [Hc _]. unfold ChildOK in Hc. simpl in Hc.
  rewrite Hch in Hc. destruct Hc as (He & _ & Hde).
  destruct (deReachable_Inv _ _ _ Hde) as (_ & _ & Hp & Hfv).
  destruct (formStudent_toStudent _ _ (Hfv Hcf Hm) Hp Hk) as [s Hs].
  exists s. eexists _, _. split; [done|].
  unfold fireScreen, screenStep. rewrite He. unfold entryStep. rewrite Hch, Hcf.
  unfold onAddStudents, confirmedStudents. rewrite Hm. cbn [mapM]. rewrite Hs.
  split; [reflexivity|]. cbn [fst snd].
  split; [rewrite Dashboard.handleAddStudents_students by done; apply mergeById_single|].
  unfold render, entryOpen. rewrite Hv. split; reflexivity.
Qed.

(** C32: in every reachable state of the screen at most one modal is
    open; the entry modal holds a form exactly when it is on screen; and
    when it holds the add form, no student is being edited and the form
    is in a state [DataEntry] reaches from its mount, so every property
    of [DataEntry] holds of it. *)
Theorem screen_one_modal w :
  screenReachable props w →
  (modals (Dashboard.isViewer props) w.2 ≤ 1)%nat ∧
  (child w.2 = NoChild ↔ entryOpen (Dashboard.isViewer props) w.2 = false) ∧
  ∀ st, child w.2 = AddChild st → editingStudent w.2 = None ∧ deReachable (plansOf w.1) (subjectsOf w.1) st.
Proof.
  intros Hr. destruct (screenReachable_ScreenInv w Hr) as [Hc Hm]. unfold ChildOK in Hc.
  split; [done|]. destruct (child w.2) as [|st|st].
  - split; [done|discriminate].
  - destruct Hc as (He & Hn & Hd). split; [split; congruence|by intros ? [= <-]].
  - destruct Hc as [He _]. split; [split; congruence|discriminate].
Qed.

End Steps.

(** ** Examples *)

(** A sequence of events, stopping at the first that cannot happen. *)
Fixpoint fireAllScreen (props : Dashboard.Props) (evs : list ScreenEvent) (w : Dashboard.Sys * Screen)
    : option (Dashboard.Sys * Screen) :=
  match evs with
  | [] => Some w
  | ev :: evs' => w' ← fireScreen props ev w; fireAllScreen props evs' w'
  end.

Lemma fireAllScreen_reachable props evs w w' :
  screenReachable props w → fireAllScreen props evs w = Some w' → screenReachable props w'.
Proof.
  revert w. induction evs as [|ev evs IH]; intros w Hr Hf; simpl in Hf; [by simplify_eq|].
  destruct (fireScreen props ev w) as [w1|] eqn:E; [|done]. eapply IH; [|exact Hf].
  by eapply screenReachable_fire.
Qed.

Ltac forall_decide :=
  repeat apply Forall_cons_2; [apply (bool_decide_unpack _); vm_compute; reflexivity..|constructor].

(** A classroom with two students. *)
Definition exSys : Dashboard.Sys :=
  Dashboard.mkSys (Dashboard.world Dashboard.exSys0) (Dashboard.browser Dashboard.exSys0)
    (Dashboard.mkDashState [Dashboard.exStudent "S1" "A"; Dashboard.exStudent "S2" "B"]
       Dashboard.DEFAULT_PLANS Dashboard.DEFAULT_SUBJECTS None) [].

Definition exRow : RankedStudent :=
  List.hd (initRanked (Dashboard.exStudent "S1" "A")) (Dashboard.rankedStudents (Dashboard.dash exSys)).

(** The add button, then the manual form filled in and submitted. *)
Definition exAddEvents : list ScreenEvent := LAddButton :: (LAddForm <$> exManualEvents).

Definition exAddWorld : Dashboard.Sys * Screen :=
  default (exSys, initialScreen) (fireAllScreen Dashboard.exProps exAddEvents (exSys, initialScreen)).

Definition exAddForm : DataEntryState :=
  match child exAddWorld.2 with AddChild st => st | _ => mountDataEntry [] [] end.

Lemma exAddWorld_reachable : screenReachable Dashboard.exProps exAddWorld.
Proof.
  apply (fireAllScreen_reachable _ exAddEvents (exSys, initialScreen)); [constructor|].
  vm_compute. reflexivity.
Qed.

Lemma screen_one_modal_witness :
  (modals false exAddWorld.2 ≤ 1)%nat ∧
  (child exAddWorld.2 = NoChild ↔ entryOpen false exAddWorld.2 = false) ∧
  ∀ st, child exAddWorld.2 = AddChild st →
        editingStudent exAddWorld.2 = None ∧ deReachable Dashboard.DEFAULT_PLANS Dashboard.DEFAULT_SUBJECTS st.
Proof. apply (screen_one_modal Dashboard.exProps exAddWorld). apply exAddWorld_reachable. Defined.

Lemma add_confirm_lists_student_witness :
  ∃ s sys' sc',
    toStudent (formStudent (Dashboard.examSubjects (Dashboard.dash exAddWorld.1)) (form exAddForm)) = Some s ∧
    fireScreen Dashboard.exProps (LAddConfirm "log1" "t1") (exAddWorld.1, exAddWorld.2) = Some (sys', sc') ∧
    s ∈ Dashboard.students (Dashboard.dash sys') ∧ showEntryModal sc' = false ∧ child sc' = NoChild.
Proof.
  apply (add_confirm_lists_student Dashboard.exProps exAddWorld.1 exAddWorld.2 exAddForm).
  - rewrite <-surjective_pairing. apply exAddWorld_reachable.
  - reflexivity.
  - vm_compute. reflexivity.
  - vm_compute. reflexivity.
  - vm_compute. reflexivity.
  - forall_decide.
Defined.

Lemma edit_unchanged_keeps_list_witness :
  ∃ w1 w2 sys' sc',
    fireScreen Dashboard.exProps (LEditClick exRow) (exSys, initialScreen) = Some w1 ∧
    fireScreen Dashboard.exProps (LEditForm EdSubmit) w1 = Some w2 ∧
    fireScreen Dashboard.exProps (LEditConfirm "log1" "t1") w2 = Some (sys', sc') ∧
    Dashboard.students (Dashboard.dash sys') = Dashboard.students (Dashboard.dash exSys) ∧
    showEntryModal sc' = false ∧ child sc' = NoChild.
Proof.
  apply edit_unchanged_keeps_list.
  - constructor.
  - reflexivity.
  - vm_compute. reflexivity.
  - apply (bool_decide_unpack _). vm_compute. reflexivity.
  - apply (bool_decide_unpack _). vm_compute. reflexivity.
  - vm_compute. discriminate.
  - vm_compute. lia.
  - apply (bool_decide_unpack _). vm_compute. reflexivity.
  - forall_decide.
  - vm_compute. reflexivity.
Defined.

Lemma delete_row_removes_witness :
  ∃ w1 sys' sc',
    fireScreen Dashboard.exProps (LDeleteClick exRow) (exSys, initialScreen) = Some w1 ∧
    fireScreen Dashboard.exProps (LConfirmDelete "log1" "t1") w1 = Some (sys', sc') ∧
    student exRow ∈ Dashboard.students (Dashboard.dash exSys) ∧
    Dashboard.students (Dashboard.dash sys') =
      List.filter (λ x, negb (id x =s? id (student exRow))) (Dashboard.students (Dashboard.dash exSys)) ∧
    modals false sc' = 0%nat.
Proof.
  apply delete_row_removes.
  - reflexivity.
  - vm_compute. reflexivity.
  - apply (bool_decide_unpack _). vm_compute. reflexivity.
  - vm_compute. discriminate.
Defined.

(** A student whose id is empty cannot be deleted from the list: the
    click sets [deletingId] to [''], which is falsy, so the confirmation
    ([{deletingId && ...}]) is not rendered and its button cannot be
    pressed. *)
Lemma empty_id_not_deletable :
  let sys := Dashboard.mkSys (Dashboard.world exSys) (Dashboard.browser exSys)
               (Dashboard.mkDashState [Dashboard.exStudent "" "A"] Dashboard.DEFAULT_PLANS
                  Dashboard.DEFAULT_SUBJECTS None) [] in
  let r := List.hd exRow (Dashboard.rankedStudents (Dashboard.dash sys)) in
  let w1 := fireScreen Dashboard.exProps (LDeleteClick r) (sys, initialScreen) in
  is_Some w1 ∧ modals false (default (sys, initialScreen) w1).2 = 0%nat ∧
  fireScreen Dashboard.exProps (LConfirmDelete "log1" "t1") (default (sys, initialScreen) w1) = None.
Proof. vm_compute. split; [eexists; reflexivity|split; reflexivity]. Qed.

End ListScreen.
