(* ===== verification/SettingsScreen.v ===== *)
(** * The rendered settings editor (components/SettingsPage.tsx, 161-495)

    [Settings] models the handlers of [SettingsPage]; this file models
    what the rendered page lets a user do with them.  The page shows the
    plans, the subjects and the rules with one edit button each; the
    edit modal (a portal over the whole screen) shows the inputs of the
    list being edited, a cancel and a save button; a save of plans or
    subjects opens the confirmation overlay, which covers the dialog but
    not the backdrop around it, and whose confirm button is disabled
    until [delete] is typed.  [fireEditor] is one click or input on an
    element that is on screen and enabled; the value of a number input
    is read with [Number(e.target.value)] ([Entry.numberOfString]).  A
    number input whose value is not an integer is outside the model
    (plans and subjects hold [Z]).  [settleEditor] is the resumption
    of a confirmed save whose callback has settled; it is not a click
    and can come between any two events while the save is in flight
    (the confirmation, its input and the backdrop stay usable).

    The state of the parent is the type [S] of [Settings.SettingsProps],
    as in [Settings]: the theorems hold for any parent, and the
    Dashboard is one ([Settings.dashboardProps]). *)

From S2P Require Import Prelude Types Dashboard Settings Entry.

Module SettingsScreen.

Import Settings.

(** What a number input passes to its handler. *)
Definition numberInput (text : string) : option Z :=
  match Entry.numberOfString text with Entry.NInt z => Some z | _ => None end.

Definition setShowConfirm (b : bool) (e : Editor) : Editor :=
  mkEditor (editMode e) (tempPlans e) (tempSubjects e) (tempRules e) (rules e) b
    (deleteConfirmation e) (isSaving e) (storedRules e) (editorAlerts e) (pendingSave e).

Definition setDeleteConfirmation (t : string) (e : Editor) : Editor :=
  mkEditor (editMode e) (tempPlans e) (tempSubjects e) (tempRules e) (rules e) (showConfirm e)
    t (isSaving e) (storedRules e) (editorAlerts e) (pendingSave e).

(** The state after the first render: the [useState] values, then the
    rules effect, which reads [localStorage] ([stored]). *)
Definition mountEditor (subjects : list ExamSubject) (stored : option (list string)) : Editor :=
  initRules subjects (mkEditor NONE [] [] [] [] false "" false stored [] None).

(** The elements of the page and of the modal. *)
Inductive EditorEvent :=
| EOpenPlans | EOpenSubjects | EOpenRules          (** the three edit buttons of the page *)
| EBackdrop                                      (** the backdrop around the dialog *)
| ECloseButton                                   (** the X of the dialog's header *)
| ECancel                                        (** the cancel button of the footer *)
| EPlanName (pid text : string)
| EPlanQuota (pid text : string)
| EDeletePlan (pid : string)
| EAddPlan (now : string)
| ESubjectName (sid text : string)
| ESubjectMax (sid text : string)
| EDeleteSubject (sid : string)
| EAddSubject (now : string)
| ERuleText (idx : nat) (text : string)
| EDeleteRule (idx : nat)
| EAddRule
| ERequestSave                                   (** the save button of the footer *)
| EConfirmText (text : string)                   (** the input of the confirmation *)
| ECancelConfirm
| EConfirmSave.

Section Screen.
Context {S : Type} (props : SettingsProps S).

(** The body of the modal: the inputs of the list being edited, one
    row per element ([tempPlans.map], [tempSubjects.map],
    [tempRules.map]). *)
Definition bodyStep (ev : EditorEvent) (e : Editor) : option Editor :=
  let plansOpen := bool_decide (editMode e = PLANS) in
  let subjectsOpen := bool_decide (editMode e = SUBJECTS) in
  let rulesOpen := bool_decide (editMode e = RULES) in
  let planRow pid := plansOpen && bool_decide (pid ∈ plan_id <$> tempPlans e) in
  let subjectRow sid := subjectsOpen && bool_decide (sid ∈ subject_id <$> tempSubjects e) in
  let ruleRow idx := rulesOpen && bool_decide (idx < length (tempRules e))%nat in
  match ev with
  | EPlanName pid t => if planRow pid then Some (handleChangeTempPlan pid (PlanName t) e) else None
  | EPlanQuota pid t =>
      if planRow pid then q ← numberInput t; Some (handleChangeTempPlan pid (PlanQuota q) e) else None
  | EDeletePlan pid => if planRow pid then Some (handleDeleteTempPlan pid e) else None
  | EAddPlan now => if plansOpen then Some (handleAddTempPlan now e) else None
  | ESubjectName sid t => if subjectRow sid then Some (handleChangeTempSubject sid (SubjectName t) e) else None
  | ESubjectMax sid t =>
      if subjectRow sid then m ← numberInput t; Some (handleChangeTempSubject sid (SubjectMax m) e) else None
  | EDeleteSubject sid => if subjectRow sid then Some (handleDeleteTempSubject sid e) else None
  | EAddSubject now => if subjectsOpen then Some (handleAddTempSubject now e) else None
  | ERuleText idx t => if ruleRow idx then Some (handleChangeTempRule idx t e) else None
  | EDeleteRule idx => if ruleRow idx then Some (handleDeleteTempRule idx e) else None
  | EAddRule => if rulesOpen then Some (handleAddTempRule e) else None
  | _ => None
  end.

(** The destructive confirmation over the dialog (440-470): its input,
    cancel and confirm buttons, the confirm button disabled until
    [delete] is typed or while saving; the backdrop of the portal stays
    clickable around the dialog. *)
Definition confirmStep (ev : EditorEvent) (st : S) (e : Editor) : option (S * Editor) :=
  match ev with
  | EBackdrop => Some (st, handleClose e)
  | EConfirmText t => Some (st, setDeleteConfirmation t e)
  | ECancelConfirm => Some (st, setShowConfirm false e)
  | EConfirmSave =>
      if negb (deleteConfirmation e =s? "delete") || isSaving e then None
      else Some (handleConfirmSave props st e)
  | _ => None
  end.

(** One click or input: the page while no modal is open; the dialog
    while the confirmation is closed; the confirmation and the backdrop
    while it is open. *)
Definition fireEditor (ev : EditorEvent) (st : S) (e : Editor) : option (S * Editor) :=
  match editMode e with
  | NONE =>
      match ev with
      | EOpenPlans => Some (st, handleOpenEditPlans props e)
      | EOpenSubjects => Some (st, handleOpenEditSubjects props e)
      | EOpenRules => Some (st, handleOpenEditRules e)
      | _ => None
      end
  | _ =>
      if showConfirm e then confirmStep ev st e
      else
        match ev with
        | EBackdrop | ECloseButton | ECancel => Some (st, handleClose e)
        | ERequestSave => Some (st, handleRequestSave e)
        | _ => e' ← bodyStep ev e; Some (st, e')
        end
  end.

(** The awaited callback of a confirmed save settles: not a click, it
    can happen between any two events while a save is in flight. *)
Definition settleEditor (st : S) (e : Editor) : option (S * Editor) :=
  match pendingSave e with
  | Some _ => Some (resumeConfirmSave props st e)
  | None => None
  end.

End Screen.

(** The editor states that a mount, then events, settled saves and
    reruns of the rules effect reach, whatever the parent passes as
    props at each step. *)
Inductive editorReachable : Editor → Prop :=
| editorReachable_mount subjects stored : editorReachable (mountEditor subjects stored)
| editorReachable_fire {S} (props : SettingsProps S) ev st e st' e' :
    editorReachable e → fireEditor props ev st e = Some (st', e') → editorReachable e'
| editorReachable_settle {S} (props : SettingsProps S) st e st' e' :
    editorReachable e → settleEditor props st e = Some (st', e') → editorReachable e'
| editorReachable_effect old new e :
    editorReachable e → editorReachable (onSubjectsProp old new e).

(** A confirmed save awaits its callback. *)
Definition inFlight (e : Editor) : bool := match pendingSave e with Some _ => true | None => false end.

(** ** The invariant of the editor

    [isSaving] is set exactly while a save is in flight; the
    confirmation is open only over the plans or the subjects; with no
    modal open, the confirmation is closed and its input empty. *)
Definition EditorInv (e : Editor) : Prop :=
  isSaving e = inFlight e ∧
  (showConfirm e = true → editMode e = PLANS ∨ editMode e = SUBJECTS) ∧
  (editMode e = NONE → showConfirm e = false ∧ deleteConfirmation e = "").

Lemma mountEditor_inv subjects stored : EditorInv (mountEditor subjects stored).
Proof. unfold mountEditor, initRules. by destruct stored; repeat split. Qed.

(** The body of the modal edits the lists only. *)
Lemma bodyStep_fields ev e e' :
  bodyStep ev e = Some e' →
  editMode e' = editMode e ∧ showConfirm e' = showConfirm e ∧
  deleteConfirmation e' = deleteConfirmation e ∧ isSaving e' = isSaving e ∧
  pendingSave e' = pendingSave e.
Proof.
  unfold bodyStep. destruct ev; simpl; intros H; repeat (case_match; simplify_option_eq); done.
Qed.

(** What is left of [handleConfirmSave] after the [await] restores the
    invariant from any editor whose confirmation is shown only over the
    plans or the subjects, whatever [isSaving] holds. *)
Lemma finishConfirmSave_inv {S} (props : SettingsProps S) r st e st' e' :
  (showConfirm e = true → editMode e = PLANS ∨ editMode e = SUBJECTS) →
  (editMode e = NONE → showConfirm e = false ∧ deleteConfirmation e = "") →
  pendingSave e = None →
  finishConfirmSave props r st e = (st', e') → EditorInv e'.
Proof.
  intros Hc Hn Hp. unfold finishConfirmSave.
  destruct r; intros [= <- <-]; unfold EditorInv, inFlight; simpl; rewrite ?Hp; [|repeat split; done].
  split_and!; [done|exact Hc|exact Hn].
Qed.

(** Started from an editor that is not saving, a confirmed save is in
    flight (or, outside the plans and the subjects, done at once). *)
Lemma handleConfirmSave_inv {S} (props : SettingsProps S) st e st' e' :
  EditorInv e → isSaving e = false → handleConfirmSave props st e = (st', e') → EditorInv e'.
Proof.
  intros Hi Hsv. pose proof Hi as (Hs & Hc & Hn). unfold inFlight in Hs. unfold handleConfirmSave.
  destruct (negb _); [intros [= <- <-]; done|]. simpl.
  assert (pendingSave e = None) as Hp by (destruct (pendingSave e); congruence).
  destruct (editMode e) eqn:Hm.
  - intros [= <- <-]. unfold EditorInv, inFlight; simpl; rewrite ?Hp. repeat split; done.
  - destruct (onUpdatePlans _ _ _) as [st1 r]; intros [= _ <-]. unfold EditorInv, inFlight; simpl; rewrite Hm. split_and!; [done|intros; auto|discriminate].
  - destruct (onUpdateSubjects _ _ _) as [st1 r]; intros [= _ <-]. unfold EditorInv, inFlight; simpl; rewrite Hm. split_and!; [done|intros; auto|discriminate].
  - intros [= <- <-]. unfold EditorInv, inFlight; simpl; rewrite ?Hp. repeat split; done.
Qed.

Lemma settleEditor_inv {S} (props : SettingsProps S) st e st' e' :
  EditorInv e → settleEditor props st e = Some (st', e') → EditorInv e'.
Proof.
  intros (Hs & Hc & Hn). unfold inFlight in Hs. unfold settleEditor, resumeConfirmSave.
  destruct (pendingSave e) as [r|]; [|done]. intros [= Hf].
  by apply (finishConfirmSave_inv props r st (setPending None e) st' e').
Qed.

Ltac editor_inv_finish Hm :=
  unfold EditorInv, inFlight; simpl; rewrite ?Hm; repeat split; intros; simplify_eq/=; auto.

Lemma handleRequestSave_inv e :
  EditorInv e → editMode e ≠ NONE → showConfirm e = false → EditorInv (handleRequestSave e).
Proof.
  intros (Hs & _ & _) Hm Hc. unfold handleRequestSave.
  destruct (editMode e) eqn:E; try done; simpl; rewrite ?E; simpl.
  all: editor_inv_finish E.
Qed.

Lemma fireEditor_confirm_inv {S} (props : SettingsProps S) ev st e st' e' :
  EditorInv e → editMode e ≠ NONE → showConfirm e = true →
  fireEditor props ev st e = Some (st', e') → EditorInv e'.
Proof.
  intros Hi Hm' Hsc Hf. pose proof Hi as (Hs & Hc & Hn). unfold fireEditor in Hf.
  pose proof (Hc Hsc) as Hpm. destruct (editMode e) eqn:Hm; [done| | |destruct Hpm; discriminate].
  all: rewrite Hsc in Hf; destruct ev; simplify_option_eq.
  all: try (destruct (negb _ || _) eqn:Hg; simplify_eq; eapply handleConfirmSave_inv; [exact Hi| |done];
            apply orb_false_iff in Hg as [_ Hg]; exact Hg).
  all: editor_inv_finish Hm.
Qed.

Lemma fireEditor_dialog_inv {S} (props : SettingsProps S) ev st e st' e' :
  EditorInv e → editMode e ≠ NONE → showConfirm e = false →
  fireEditor props ev st e = Some (st', e') → EditorInv e'.
Proof.
  intros Hi Hm' Hsc Hf. pose proof Hi as (Hs & Hc & Hn). unfold fireEditor in Hf.
  destruct (editMode e) eqn:Hm; [done|..].
  all: rewrite Hsc in Hf; destruct ev; simplify_option_eq;
    try (apply handleRequestSave_inv; [done|by rewrite Hm|done]);
    try (match goal with H : bodyStep _ _ = Some _ |- _ =>
           destruct (bodyStep_fields _ _ _ H) as (E1 & E2 & E3 & E4 & E5) end;
         unfold EditorInv, inFlight; rewrite E1, E2, E3, E4, E5; done).
  all: editor_inv_finish Hm.
Qed.

Lemma fireEditor_inv {S} (props : SettingsProps S) ev st e st' e' :
  EditorInv e → fireEditor props ev st e = Some (st', e') → EditorInv e'.
Proof.
  intros Hi Hf. destruct (decide (editMode e = NONE)) as [Hm|Hm].
  - pose proof Hi as (Hs & _ & Hn). destruct (Hn Hm) as [Hsc Hdc].
    unfold fireEditor in Hf. rewrite Hm in Hf. destruct ev; simplify_eq; editor_inv_finish Hsc.
  - destruct (showConfirm e) eqn:Hsc; [by eapply fireEditor_confirm_inv|by eapply fireEditor_dialog_inv].
Qed.

(** C19: in every reachable state of the settings editor (clicks,
    inputs and the settling of a save in flight interleaved) [isSaving]
    is set exactly while a confirmed save awaits its callback, the
    destructive confirmation is open only over the plans or the
    subjects, and with the modal closed the confirmation is closed and
    its input empty. *)
Theorem editor_reachable_inv e :
  editorReachable e →
  isSaving e = inFlight e ∧
  (showConfirm e = true → editMode e = PLANS ∨ editMode e = SUBJECTS) ∧
  (editMode e = NONE → showConfirm e = false ∧ deleteConfirmation e = "").
Proof.
  induction 1 as [| |S props st e st' e' _ IH Hs|old new e _ IH];
    [apply mountEditor_inv|by eapply fireEditor_inv|by eapply settleEditor_inv|].
  unfold onSubjectsProp, initRules. by repeat case_match.
Qed.

(** C20: the parent's state (plans, subjects, student data) changes
    only through the confirm button of the destructive confirmation,
    pressed after [delete] was typed: every other click or input of the
    page and the modal leaves it as it was. *)
Theorem settings_destructive_guarded {S} (props : SettingsProps S) ev st e st' e' :
  fireEditor props ev st e = Some (st', e') →
  st' = st ∨
  (ev = EConfirmSave ∧ editMode e ≠ NONE ∧ showConfirm e = true ∧ deleteConfirmation e = "delete").
Proof.
  unfold fireEditor. intros Hf.
  destruct (editMode e) eqn:Hm; [destruct ev; simplify_eq; by left|..].
  all: destruct (showConfirm e) eqn:Hsc; destruct ev; simplify_option_eq; try by left.
  all: destruct (deleteConfirmation e =s? "delete") eqn:Hd; simpl in Hf; [|done].
  all: apply String.eqb_eq in Hd; right; repeat split; congruence.
Qed.

(** ** Examples *)

(** A sequence of events, stopping at the first that cannot happen. *)
Fixpoint fireAllEditor {S} (props : SettingsProps S) (evs : list EditorEvent) (st : S) (e : Editor)
    : option (S * Editor) :=
  match evs with
  | [] => Some (st, e)
  | ev :: evs' => '(st', e') ← fireEditor props ev st e; fireAllEditor props evs' st' e'
  end.

Lemma fireAllEditor_reachable {S} (props : SettingsProps S) evs st e st' e' :
  editorReachable e → fireAllEditor props evs st e = Some (st', e') → editorReachable e'.
Proof.
  revert st e. induction evs as [|ev evs IH]; intros st e Hr Hf; simpl in Hf; [by simplify_eq|].
  destruct (fireEditor props ev st e) as [[st1 e1]|] eqn:E; [|done].
  eapply IH; [|exact Hf]. by eapply editorReachable_fire.
Qed.

(** A parent that records the plans it is asked to save. *)
Definition exRecorder : SettingsProps (list (list StudyPlan)) :=
  mkSettingsProps _ Dashboard.DEFAULT_PLANS Dashboard.DEFAULT_SUBJECTS
    (λ ps log, (log ++ [ps], inr ())) (λ _ log, (log, inr ())) (λ log, log).

Definition exMount : Editor := mountEditor Dashboard.DEFAULT_SUBJECTS None.

(** Editing the plans up to the confirmation, [delete] typed. *)
Definition exConfirmEvents : list EditorEvent :=
  [EOpenPlans; EPlanQuota "1" "12"; ERequestSave; EConfirmText "delete"].

Definition exConfirming : Editor :=
  default exMount (snd <$> fireAllEditor exRecorder exConfirmEvents [] exMount).

Lemma exConfirming_reachable : editorReachable exConfirming.
Proof.
  apply (fireAllEditor_reachable exRecorder exConfirmEvents [] exMount []); [constructor|].
  vm_compute. reflexivity.
Qed.

Lemma editor_reachable_inv_witness :
  isSaving exConfirming = inFlight exConfirming ∧
  (showConfirm exConfirming = true → editMode exConfirming = PLANS ∨ editMode exConfirming = SUBJECTS) ∧
  (editMode exConfirming = NONE → showConfirm exConfirming = false ∧ deleteConfirmation exConfirming = "").
Proof. apply editor_reachable_inv. apply exConfirming_reachable. Defined.

Lemma settings_destructive_guarded_witness :
  let r := default ([], exConfirming) (fireEditor exRecorder EConfirmSave [] exConfirming) in
  r.1 = [] ∨
  (EConfirmSave = EConfirmSave ∧ editMode exConfirming ≠ NONE ∧ showConfirm exConfirming = true ∧
   deleteConfirmation exConfirming = "delete").
Proof.
  cbv zeta.
  apply (settings_destructive_guarded exRecorder EConfirmSave [] exConfirming
           (default ([], exConfirming) (fireEditor exRecorder EConfirmSave [] exConfirming)).1
           (default ([], exConfirming) (fireEditor exRecorder EConfirmSave [] exConfirming)).2).
  vm_compute. reflexivity.
Defined.

(** The quota input has [min="0"], but the editor is not a form, so
    nothing checks it: a negative quota is saved as typed (and the
    allocation then places nobody in the plan). *)
Lemma negative_quota_saved :
  option_map fst (fireAllEditor exRecorder
                    [EOpenPlans; EPlanQuota "1" "-5"; ERequestSave; EConfirmText "delete"; EConfirmSave]
                    [] exMount) =
  Some [<[0 := mkStudyPlan "1" "SCI_MATH" (-5)]> Dashboard.DEFAULT_PLANS].
Proof. vm_compute. reflexivity. Qed.

(** A parent that records the calls it receives. *)
Definition exLogger : SettingsProps (list string) :=
  mkSettingsProps _ Dashboard.DEFAULT_PLANS Dashboard.DEFAULT_SUBJECTS
    (λ _ log, (log ++ ["onUpdatePlans"], inr ())) (λ _ log, (log ++ ["onUpdateSubjects"], inr ()))
    (λ log, log ++ ["onResetData"]).

(** Closing the dialog with the backdrop while the save is in flight
    does not cancel it: the dialog is gone and nothing is being reset
    yet, but when the callback settles [onResetData] still runs. *)
Lemma backdrop_during_save_still_resets :
  match fireAllEditor exLogger (exConfirmEvents ++ [EConfirmSave; EBackdrop]) [] exMount with
  | Some (log, e) =>
      log = ["onUpdatePlans"] ∧ editMode e = NONE ∧ isSaving e = true ∧
      option_map fst (settleEditor exLogger log e) = Some ["onUpdatePlans"; "onResetData"]
  | None => False
  end.
Proof. vm_compute. split_and!; reflexivity. Qed.

End SettingsScreen.
