(* ===== verification/SettingsView.v ===== *)
(** * The view of the settings page (components/SettingsPage.tsx, 164-280)

    Outside its dialogs, [SettingsPage] shows three panels: the plans
    with their quotas and the total quota, the subjects with their
    maximum score and share of the total, and the selection rules.
    [pageView] is what they show for the props and the editor state.
    The total quota bounds the number of students the allocator places
    when the plan names are distinct and no quota is negative; a
    negative quota lowers the total shown while the allocator counts it
    as zero, and the rounded shares need not add up to the [100%] of
    the footer. *)

From S2P Require Import Prelude Types Allocation Ranking Dashboard Settings.

Module SettingsView.

Import Settings.

(** [plans.reduce((acc, p) => acc + p.quota, 0)] *)
Definition totalQuota (plans : list StudyPlan) : Z :=
  fold_left (λ acc p, acc + quota p)%Z plans 0%Z.

(** [x.toFixed(0)] for [x = num / den], [den > 0]: the nearest integer,
    the larger magnitude on a tie, with the sign of [x]. *)
Definition roundFixed0 (num den : Z) : Z :=
  (Z.sgn num * ((2 * Z.abs num + den) / (2 * den)))%Z.

(** [viewTotalMaxScore > 0 ? ((subj.maxScore / viewTotalMaxScore) * 100).toFixed(0) : 0] *)
Definition share (total : Z) (subj : ExamSubject) : Z :=
  if (0 <? total)%Z then roundFixed0 (maxScore subj * 100) total else 0%Z.

Record PageView := mkPageView {
  planRows : list (nat * string * Z);          (** [index + 1], name, quota *)
  quotaShown : Z;
  subjectRows : list (string * Z * Z);         (** name, maximum, share in % *)
  maxTotalShown : Z;
  rulesShown : option (list string)            (** [None]: [ไม่มีข้อมูลข้อกำหนด] *)
}.

Definition pageView {St} (props : SettingsProps St) (e : Editor) : PageView :=
  let vt := totalMaxScore (subjects props) in
  mkPageView (imap (λ i p, (S i, name p, quota p)) (plans props)) (totalQuota (plans props))
    ((λ subj, (subject_name subj, maxScore subj, share vt subj)) <$> subjects props) vt
    (match rules e with [] => None | rs => Some rs end).

(** The number of students of a list that obtained a plan. *)
Definition placedCount (l : list RankedStudent) : nat :=
  countIf (λ s, bool_decide (is_Some (qualifiedStream s))) l.

(** ** The total quota and the allocator *)

Lemma fold_set_lookup_other {A} (f : A → string) (g : A → Z) xs o k :
  k ∉ f <$> xs → fold_left (λ o x, JsObj.set (f x) (g x) o) xs o !! k = o !! k.
Proof.
  revert o. induction xs as [|x xs IH]; intros o Hk; [done|]. simpl.
  rewrite fmap_cons, not_elem_of_cons in Hk. rewrite IH by tauto.
  apply JsObj.lookup_set_ne. intros Heq. destruct Hk; congruence.
Qed.

Lemma fold_set_lookup_key {A} (f : A → string) (g : A → Z) xs o k q :
  fold_left (λ o x, JsObj.set (f x) (g x) o) xs o !! k = Some q → o !! k = Some q ∨ k ∈ f <$> xs.
Proof.
  revert o. induction xs as [|x xs IH]; intros o H; [by left|]. simpl in H.
  apply IH in H as [H|H]; [|right; rewrite fmap_cons, elem_of_cons; by right].
  rewrite JsObj.lookup_set in H. case_decide as Hd; [right; destruct Hd as [<- _]; rewrite fmap_cons, elem_of_cons; by left|by left].
Qed.

Lemma fold_set_lookup_in {A} (f : A → string) (g : A → Z) xs o x :
  NoDup (f <$> xs) → x ∈ xs → f x ≠ "__proto__" →
  fold_left (λ o x, JsObj.set (f x) (g x) o) xs o !! f x = Some (g x).
Proof.
  revert o. induction xs as [|y xs IH]; intros o Hnd Hx Hp; [by apply elem_of_nil in Hx|]. simpl.
  rewrite fmap_cons in Hnd. apply NoDup_cons in Hnd as [Hy Hnd].
  apply elem_of_cons in Hx as [->|Hx]; [|by apply IH].
  rewrite fold_set_lookup_other by done. rewrite JsObj.lookup_set. case_decide; tauto.
Qed.

(** A plan of distinct names can take at most its quota, when the quota
    is not negative; a plan named [__proto__] takes nobody. *)
Lemma countStream_le_quota plans l p :
  NoDup (name <$> plans) → p ∈ plans → (0 ≤ quota p)%Z →
  (Z.of_nat (countStream (name p) (allocatePlans plans l)) ≤ quota p)%Z.
Proof.
  intros Hnd Hp Hq. unfold allocatePlans.
  destruct (decide (name p = "__proto__")) as [Hpr|Hpr].
  - rewrite allocate_unknown_gen; [lia|]. rewrite Hpr. apply initQuotas_protoFree.
  - assert (initQuotas plans !! name p = Some (quota p)) as Hiq by (by apply fold_set_lookup_in).
    pose proof (allocate_capacity_gen (initQuotas plans) (initUsage plans) l (name p) (quota p) 0
                  (initUsage_protoFree plans) Hiq (initUsage_zero plans _ _ Hiq)). lia.
Qed.

Lemma sum_indicator (ns : list string) (qs : option string) :
  NoDup ns → (∀ q, qs = Some q → q ∈ ns) →
  sum_list_with (λ n, if bool_decide (qs = Some n) then 1 else 0) ns =
  if bool_decide (is_Some qs) then 1 else 0.
Proof.
  intros Hnd Hin. induction Hnd as [|n ns Hn Hnd IH]; simpl.
  - destruct qs as [q|]; [exfalso; by eapply elem_of_nil, Hin|done].
  - destruct (decide (qs = Some n)) as [->|Hne].
    + rewrite !bool_decide_true by done.
      enough (sum_list_with (λ n0, if bool_decide (Some n = Some n0) then 1 else 0) ns = 0) by lia.
      clear IH Hin Hnd. induction ns as [|m ns IHm]; [done|]. simpl.
      rewrite bool_decide_false by set_solver. apply IHm. set_solver.
    + rewrite bool_decide_false by done. apply IH. intros q Hq.
      specialize (Hin q Hq). apply elem_of_cons in Hin as [->|]; [congruence|done].
Qed.

Lemma sum_list_with_ext {A} (f g : A → nat) xs :
  (∀ x, f x = g x) → sum_list_with f xs = sum_list_with g xs.
Proof. intros H. induction xs; simpl; [done|]. by rewrite H, IHxs. Qed.

Lemma sum_list_with_add {A} (f g : A → nat) xs :
  sum_list_with (λ x, f x + g x) xs = sum_list_with f xs + sum_list_with g xs.
Proof. induction xs; simpl; lia. Qed.

(** With distinct plan names, the placed students split by plan. *)
Lemma placedCount_split ns l :
  NoDup ns → (∀ s q, s ∈ l → qualifiedStream s = Some q → q ∈ ns) →
  placedCount l = sum_list_with (λ n, countStream n l) ns.
Proof.
  intros Hnd. induction l as [|s l IH]; intros Hl.
  - unfold placedCount, countStream. rewrite countIf_nil.
    rewrite (sum_list_with_ext _ (λ _, 0)) by (intros; apply countIf_nil).
    clear Hnd Hl. induction ns; simpl; lia.
  - unfold placedCount, countStream in *. rewrite countIf_cons.
    rewrite (sum_list_with_ext _ (λ n, (if bool_decide (qualifiedStream s = Some n) then 1 else 0) +
                  countIf (λ s0, bool_decide (qualifiedStream s0 = Some n)) l)) by (intros; by rewrite countIf_cons).
    rewrite sum_list_with_add, sum_indicator by (done || (intros; eapply Hl; [left|done])).
    rewrite IH; [|intros; eapply Hl; [right|]; done]. by destruct (qualifiedStream s).
Qed.

Lemma totalQuota_fold plans a :
  fold_left (λ acc p, acc + quota p)%Z plans a = (a + totalQuota plans)%Z.
Proof.
  unfold totalQuota. revert a. induction plans as [|p plans IH]; intros a; simpl; [lia|].
  rewrite (IH (a + quota p)%Z), (IH (0 + quota p)%Z). lia.
Qed.

Lemma sum_le_totalQuota (h : StudyPlan → nat) plans :
  (∀ p, p ∈ plans → (Z.of_nat (h p) ≤ quota p)%Z) →
  (Z.of_nat (sum_list_with h plans) ≤ totalQuota plans)%Z.
Proof.
  induction plans as [|p plans IH]; intros H; [done|]. simpl.
  unfold totalQuota. simpl. rewrite totalQuota_fold.
  pose proof (H p ltac:(set_solver)). ospecialize (IH _); [intros q Hq; apply H; set_solver|].
  lia.
Qed.

Lemma sum_list_with_fmap {A B} (f : B → nat) (g : A → B) xs :
  sum_list_with f (g <$> xs) = sum_list_with (λ x, f (g x)) xs.
Proof. induction xs as [|x xs IH]; [done|]. rewrite fmap_cons. simpl. by rewrite IH. Qed.

(** C28: on the Dashboard, when the plan names are distinct and no quota
    is negative, the total quota the settings page shows bounds the
    number of students of the ranked list that obtained a plan. *)
Theorem placed_within_total_quota dp logId now (d : Dashboard.DashState) e :
  NoDup (name <$> Dashboard.studyPlans d) → Forall (λ p, 0 ≤ quota p)%Z (Dashboard.studyPlans d) →
  (Z.of_nat (placedCount (Dashboard.rankedStudents d)) ≤
   quotaShown (pageView (dashboardProps dp logId now d) e))%Z.
Proof.
  intros Hnd Hq. simpl. unfold Dashboard.rankedStudents, rankStudents.
  set (plans := Dashboard.studyPlans d) in *.
  rewrite (placedCount_split (name <$> plans)); [|done|].
  - rewrite sum_list_with_fmap. apply sum_le_totalQuota. intros p Hp.
    apply countStream_le_quota; [done..|]. by eapply Forall_forall in Hq.
  - intros s q Hs Hsq. destruct (allocate_stream_elem _ _ _ s q Hs Hsq) as [_ [q' Hq']].
    by destruct (fold_set_lookup_key name quota plans ∅ q q' Hq') as [?|?].
Qed.

(** ** Examples *)

Definition exEditor : Editor := mkEditor NONE [] [] [] [] false "" false None [] None.

Definition exDash : Dashboard.DashState :=
  Dashboard.mkDashState [Dashboard.exStudent "S1" "A"; Dashboard.exStudent "S2" "B"]
    Dashboard.DEFAULT_PLANS Dashboard.DEFAULT_SUBJECTS None.

Lemma placed_within_total_quota_witness :
  NoDup (name <$> Dashboard.studyPlans exDash) ∧ Forall (λ p, 0 ≤ quota p)%Z (Dashboard.studyPlans exDash) ∧
  (Z.of_nat (placedCount (Dashboard.rankedStudents exDash)) ≤
   quotaShown (pageView (dashboardProps Dashboard.exProps "log1" "t1" exDash) exEditor))%Z.
Proof.
  assert (Hnd : NoDup (name <$> Dashboard.studyPlans exDash))
    by (apply (bool_decide_unpack _); vm_compute; reflexivity).
  assert (Hq : Forall (λ p, 0 ≤ quota p)%Z (Dashboard.studyPlans exDash))
    by (apply (bool_decide_unpack _); vm_compute; reflexivity).
  split; [exact Hnd|split; [exact Hq|]].
  apply (placed_within_total_quota Dashboard.exProps "log1" "t1" exDash exEditor Hnd Hq).
Defined.

(** A quota typed as [-5] lowers the total shown below the students
    the allocator places. *)
Lemma negative_quota_total_below_placed :
  let plans := [mkStudyPlan "1" "A" (-5); mkStudyPlan "2" "B" 1] in
  let d := Dashboard.mkDashState [mkStudent "S1" "Mr" "A" "T" ["B"] (mkScores 1 1 1 1 1)] plans
             Dashboard.DEFAULT_SUBJECTS None in
  quotaShown (pageView (dashboardProps Dashboard.exProps "log1" "t1" d) exEditor) = (-4)%Z ∧
  placedCount (Dashboard.rankedStudents d) = 1%nat.
Proof. vm_compute. split; reflexivity. Qed.

(** Three subjects of 100 points each: every share reads [33%], while
    the footer reads [100%]. *)
Lemma shares_do_not_add_up :
  let subjects := [mkExamSubject "math" "คณิต" 100; mkExamSubject "science" "วิทย์" 100;
                   mkExamSubject "thai" "ไทย" 100] in
  (λ row, row.2) <$> subjectRows (pageView (mkSettingsProps unit [] subjects
                                   (λ _ u, (u, inr ())) (λ _ u, (u, inr ())) (λ u, u)) exEditor) = [33; 33; 33]%Z.
Proof. vm_compute. reflexivity. Qed.

End SettingsView.
