(* ===== verification/DashboardScreen.v ===== *)
(** * The Dashboard page (components/SettingsPage.tsx, 518-540 and 661-849)

    The Dashboard renders a sidebar with one button per tab (the
    settings tab only for a non-viewer), a mobile header with a menu
    button, and the content of the active tab: a loading indicator while
    [loadData] runs, then [StudentList] ([ListScreen]), the analysis
    ([Analysis], a component that is not part of src/) or [SettingsPage]
    ([SettingsScreen]) wired to the Dashboard's handlers.  React mounts
    the content of the active tab and drops it when the tab changes, so
    the list's filters and modals and the editor's copies start afresh;
    the selection rules the editor saved live in [localStorage]
    ([savedRules]) and outlive it.

    The viewport is a parameter ([mobile]): on a wide screen the sidebar
    is always shown and the mobile header and overlay are hidden; on a
    narrow one the sidebar slides in with the menu button and the
    overlay over the content closes it.  The modals of the list and of
    the editor are portals above everything ([z-[9999]]): while one is
    open, only its own elements can be clicked.  [onBack] and
    [onLogout] leave the Dashboard; they are events of [App].

    A confirmed settings save is in flight until [SSettle]; if the
    settings tab is left meanwhile (the backdrop closes the dialog while
    saving), the unmounted page's save is kept in [orphans] and its
    resumption ([SSettleOrphan]) still calls [onResetData] or shows the
    alert, while its state setters do nothing. *)

From S2P Require Import Prelude Types Dashboard Settings Entry ListScreen SettingsScreen.

Module DashboardScreen.

Import Settings.

(** [DashboardTab] of types.ts. *)
Inductive Tab := LIST | ANALYSIS | SETTINGS.

#[export] Instance Tab_eq_dec : EqDecision Tab.
Proof. solve_decision. Defined.

Record Shell := mkShell {
  activeTab : Tab;
  isMobileMenuOpen : bool;
  loading : bool;
  listScreen : option ListScreen.Screen;      (** the mounted [StudentList] *)
  editor : option Settings.Editor;            (** the mounted [SettingsPage] *)
  savedRules : option (list string);          (** [localStorage['APP_SELECTION_RULES']] *)
  orphans : list (string + unit)              (** saves in flight of an unmounted [SettingsPage] *)
}.

(** The first render: [useState('LIST')], [useState(false)],
    [useState(true)]; the content waits for [loadData]. *)
Definition initialShell (stored : option (list string)) : Shell :=
  mkShell LIST false true None None stored [].

(** The clicks of the page. *)
Inductive ShellEvent :=
| SToggleMenu                                     (** the menu button of the mobile header *)
| SMenuOverlay                                    (** the overlay over the content *)
| STab (t : Tab)                                  (** a tab button of the sidebar *)
| SLoaded (now : string)                          (** [loadData] completes *)
| SList (ev : ListScreen.ScreenEvent)             (** an event of [StudentList] *)
| SSettings (ev : SettingsScreen.EditorEvent) (logId now : string)   (** an event of [SettingsPage] *)
| SSettle (logId now : string)                   (** the save in flight of the mounted [SettingsPage] settles *)
| SSettleOrphan (i : nat) (logId now : string).  (** the [i]-th save in flight of an unmounted one settles *)

Section Page.
Context (props : Dashboard.Props) (mobile : bool).

Definition isViewer : bool := Dashboard.isViewer props.

(** [{loading ? ... : activeTab === 'LIST' && <StudentList/>}] and
    [{activeTab === 'SETTINGS' && !isViewer && <SettingsPage/>}]: the
    content mounted after a render.  A newly mounted [SettingsPage] runs
    its rules effect on the saved rules; a mounted one reruns it when the
    subjects it is given change ([Settings.onSubjectsProp]). *)
Definition render (before after : Dashboard.Sys) (sh : Shell) : Shell :=
  let showList := negb (loading sh) && bool_decide (activeTab sh = LIST) in
  let showSettings := negb (loading sh) && bool_decide (activeTab sh = SETTINGS) && negb isViewer in
  let subjects := Dashboard.examSubjects (Dashboard.dash after) in
  let list' := if showList then Some (default ListScreen.initialScreen (listScreen sh)) else None in
  let editor' :=
    if showSettings then
      Some (match editor sh with
            | Some e => Settings.onSubjectsProp (Dashboard.examSubjects (Dashboard.dash before)) subjects e
            | None => SettingsScreen.mountEditor subjects (savedRules sh)
            end)
    else None in
  let saved := match editor' with Some e => Settings.storedRules e | None => savedRules sh end in
  (* an unmounted [SettingsPage] whose save is in flight: the [async]
     [handleConfirmSave] still resumes later *)
  let orphans' :=
    match editor sh, editor' with
    | Some e, None => match Settings.pendingSave e with Some r => orphans sh ++ [r] | None => orphans sh end
    | _, _ => orphans sh
    end in
  mkShell (activeTab sh) (isMobileMenuOpen sh) (loading sh) list' editor' saved orphans'.

(** A modal portal of the content is open. *)
Definition modalOpen (sh : Shell) : bool :=
  match listScreen sh with
  | Some l => bool_decide (ListScreen.modals (Dashboard.isViewer props) l ≠ 0)%nat
  | None => false
  end ||
  match editor sh with
  | Some e => bool_decide (Settings.editMode e ≠ Settings.NONE)
  | None => false
  end.

(** The sidebar can be clicked: always on a wide screen, when the menu
    is open on a narrow one. *)
Definition sidebarShown (sh : Shell) : bool := negb mobile || isMobileMenuOpen sh.

(** The content is not under the mobile overlay. *)
Definition contentShown (sh : Shell) : bool := negb (mobile && isMobileMenuOpen sh).

Definition setTab (t : Tab) (sh : Shell) : Shell :=
  mkShell t false (loading sh) (listScreen sh) (editor sh) (savedRules sh) (orphans sh).
Definition setMenu (b : bool) (sh : Shell) : Shell :=
  mkShell (activeTab sh) b (loading sh) (listScreen sh) (editor sh) (savedRules sh) (orphans sh).
Definition setLoaded (sh : Shell) : Shell :=
  mkShell (activeTab sh) (isMobileMenuOpen sh) false (listScreen sh) (editor sh) (savedRules sh) (orphans sh).
Definition setList (l : ListScreen.Screen) (sh : Shell) : Shell :=
  mkShell (activeTab sh) (isMobileMenuOpen sh) (loading sh) (Some l) (editor sh) (savedRules sh) (orphans sh).
Definition setEditor (e : Settings.Editor) (sh : Shell) : Shell :=
  mkShell (activeTab sh) (isMobileMenuOpen sh) (loading sh) (listScreen sh) (Some e) (savedRules sh) (orphans sh).

Definition setOrphans (os : list (string + unit)) (sh : Shell) : Shell :=
  mkShell (activeTab sh) (isMobileMenuOpen sh) (loading sh) (listScreen sh) (editor sh) (savedRules sh) os.

(** The handlers of the page, before the render. *)
Definition shellStep (ev : ShellEvent) (sys : Dashboard.Sys) (sh : Shell) : option (Dashboard.Sys * Shell) :=
  match ev with
  | SToggleMenu =>
      if mobile && negb (modalOpen sh) then Some (sys, setMenu (negb (isMobileMenuOpen sh)) sh) else None
  | SMenuOverlay =>
      if mobile && isMobileMenuOpen sh && negb (modalOpen sh) then Some (sys, setMenu false sh) else None
  | STab t =>
      if sidebarShown sh && negb (modalOpen sh) && negb (bool_decide (t = SETTINGS) && isViewer)
      then Some (sys, setTab t sh) else None
  | SLoaded now => if loading sh then Some (Dashboard.loadData props now sys, setLoaded sh) else None
  | SList lev =>
      match listScreen sh with
      | Some l =>
          if bool_decide (ListScreen.modals (Dashboard.isViewer props) l ≠ 0)%nat || contentShown sh then
            '(sys', l') ← ListScreen.fireScreen props lev (sys, l); Some (sys', setList l' sh)
          else None
      | None => None
      end
  | SSettings sev logId now =>
      match editor sh with
      | Some e =>
          if bool_decide (Settings.editMode e ≠ Settings.NONE) || contentShown sh then
            '(sys', e') ← SettingsScreen.fireEditor
                             (Settings.dashboardProps props logId now (Dashboard.dash sys)) sev sys e;
            Some (sys', setEditor e' sh)
          else None
      | None => None
      end
  | SSettle logId now =>
      match editor sh with
      | Some e =>
          '(sys', e') ← SettingsScreen.settleEditor
                           (Settings.dashboardProps props logId now (Dashboard.dash sys)) sys e;
          Some (sys', setEditor e' sh)
      | None => None
      end
  | SSettleOrphan i logId now =>
      (* [onResetData()] still runs, or [alert(...)]; the state setters of
         the unmounted component do nothing *)
      r ← orphans sh !! i;
      let sys' := match r with
                  | inr _ => Dashboard.handleResetData props logId now sys
                  | inl _ => Dashboard.alert Settings.msgSaveError sys
                  end in
      Some (sys', setOrphans (delete i (orphans sh)) sh)
  end.

Definition fireShell (ev : ShellEvent) (w : Dashboard.Sys * Shell) : option (Dashboard.Sys * Shell) :=
  '(sys', sh') ← shellStep ev w.1 w.2; Some (sys', render w.1 sys' sh').

Inductive shellReachable : Dashboard.Sys * Shell → Prop :=
| shellReachable_init sys stored : shellReachable (sys, initialShell stored)
| shellReachable_fire ev w w' : shellReachable w → fireShell ev w = Some w' → shellReachable w'.

(** ** The content mounted in reachable states *)

(** What a handler leaves for the render: a viewer is never on the
    settings tab, and the children still mounted are in states their own
    events reach. *)
Definition PreInv (w : Dashboard.Sys * Shell) : Prop :=
  let '(sys, sh) := w in
  (isViewer = true → activeTab sh ≠ SETTINGS ∧ editor sh = None ∧ orphans sh = []) ∧
  (∀ l, listScreen sh = Some l → ListScreen.screenReachable props (sys, l)) ∧
  (∀ e, editor sh = Some e → SettingsScreen.editorReachable e).

(** After the render the children are exactly those the flags select,
    and [savedRules] mirrors the mounted editor's storage. *)
Definition ShellInv (w : Dashboard.Sys * Shell) : Prop :=
  let '(sys, sh) := w in
  PreInv w ∧
  (is_Some (listScreen sh) ↔ loading sh = false ∧ activeTab sh = LIST) ∧
  (is_Some (editor sh) ↔ loading sh = false ∧ activeTab sh = SETTINGS ∧ isViewer = false) ∧
  (∀ e, editor sh = Some e → savedRules sh = Settings.storedRules e).

Lemma render_inv before sys sh : PreInv (sys, sh) → ShellInv (sys, render before sys sh).
Proof.
  unfold ShellInv, PreInv, render, isViewer. intros (Hv & Hl & He). cbn.
  destruct (loading sh), (activeTab sh), (Dashboard.isViewer props),
    (listScreen sh) as [l|], (editor sh) as [e|];
    try specialize (Hv eq_refl); try specialize (Hl _ eq_refl); try specialize (He _ eq_refl);
    cbn; repeat split; intros; simplify_eq/=; try done; try (by destruct_and?; congruence);
    first [apply ListScreen.screenReachable_init | apply SettingsScreen.editorReachable_mount
          | by apply SettingsScreen.editorReachable_effect].
Qed.

(** A save of an unmounted editor that settles changes the student
    list, not the plans or the subjects. *)
Lemma orphan_keeps_settings (r : string + unit) logId now sys :
  let sys' := match r with
              | inr _ => Dashboard.handleResetData props logId now sys
              | inl _ => Dashboard.alert Settings.msgSaveError sys
              end in
  Dashboard.studyPlans (Dashboard.dash sys') = Dashboard.studyPlans (Dashboard.dash sys) ∧
  Dashboard.examSubjects (Dashboard.dash sys') = Dashboard.examSubjects (Dashboard.dash sys).
Proof. destruct r; simpl; [done|]. unfold Dashboard.handleResetData. by case_match. Qed.

(** The handlers keep what the render needs.  [loadData] runs while
    nothing is mounted, and each child's events reach its own states;
    the list and the editor are never mounted together. *)
Lemma shellStep_pre ev sys sh sys' sh' :
  ShellInv (sys, sh) → shellStep ev sys sh = Some (sys', sh') → PreInv (sys', sh').
Proof.
  unfold ShellInv, PreInv, isViewer. intros ((Hv & Hl & He) & Hls & Hes & _) Hs.
  destruct ev as [| |t|now|lev|sev logId now|logId now|i logId now]; simpl in Hs.
  - case_match; simplify_eq/=. done.
  - case_match; simplify_eq/=. done.
  - case_match; simplify_eq/=. split_and!; [|done..].
    intros Hvw. split; [|by apply Hv]. intros ->. unfold isViewer in *.
    rewrite Hvw, bool_decide_true, !andb_false_r in * by done. discriminate.
  - case_match; simplify_eq/=. split_and!; intros; simplify_eq/=; [by apply Hv| |].
    + pose proof (proj1 Hls (mk_is_Some _ _ H0)). destruct_and!; congruence.
    + pose proof (proj1 Hes (mk_is_Some _ _ H0)). destruct_and!; congruence.
  - destruct (listScreen sh) as [l|] eqn:Hl0; [|done]. case_match; [|done].
    destruct (ListScreen.fireScreen props lev (sys, l)) as [[sys1 l1]|] eqn:Hf; simplify_eq/=.
    split_and!; intros; simplify_eq/=; [by apply Hv|by eapply ListScreen.screenReachable_fire; eauto|].
    pose proof (proj1 Hls (mk_is_Some _ _ eq_refl)); pose proof (proj1 Hes (mk_is_Some _ _ H0)).
    destruct_and!; congruence.
  - destruct (editor sh) as [e|] eqn:He0; [|done]. case_match; [|done].
    destruct (SettingsScreen.fireEditor _ sev sys e) as [[sys1 e1]|] eqn:Hf; simplify_eq/=.
    simpl. split_and!.
    + intros Hvw. destruct (Hv Hvw) as (_ & Hn & _). congruence.
    + intros l0 Hl0. pose proof (proj1 Hls (mk_is_Some _ _ Hl0)).
      pose proof (proj1 Hes (mk_is_Some _ _ eq_refl)). destruct_and!; congruence.
    + intros e2 [= <-]. by eapply SettingsScreen.editorReachable_fire; eauto.
  - destruct (editor sh) as [e|] eqn:He0; [|done].
    destruct (SettingsScreen.settleEditor _ sys e) as [[sys1 e1]|] eqn:Hf; simplify_eq/=.
    simpl. split_and!.
    + intros Hvw. destruct (Hv Hvw) as (_ & Hn & _). congruence.
    + intros l0 Hl0. pose proof (proj1 Hls (mk_is_Some _ _ Hl0)).
      pose proof (proj1 Hes (mk_is_Some _ _ eq_refl)). destruct_and!; congruence.
    + intros e2 [= <-]. by eapply SettingsScreen.editorReachable_settle; eauto.
  - destruct (orphans sh !! i) as [r|] eqn:Ho; simplify_eq/=.
    simpl. split_and!; [| |by eauto].
    + intros Hvw. destruct (Hv Hvw) as (Ht & Hn & Hos). rewrite Hos in Ho. discriminate.
    + intros l Hl0. destruct (orphan_keeps_settings r logId now sys) as [Hp Hs].
      apply (ListScreen.screenReachable_parent props _ (sys, l)); [by apply Hl|done|done].
Qed.

Lemma shellReachable_ShellInv w : shellReachable w → ShellInv w.
Proof.
  induction 1 as [sys stored|ev [sys sh] [sys' sh'] _ IH Hf].
  - unfold ShellInv, PreInv. cbn. repeat split; intros; destruct_and?; simplify_eq/=; try done.
    all: by apply is_Some_None in H.
  - unfold fireShell in Hf. simpl in Hf.
    destruct (shellStep ev sys sh) as [[sys1 sh1]|] eqn:Hs; simplify_eq/=.
    apply render_inv. by eapply shellStep_pre.
Qed.

(** C21: in every state the Dashboard page reaches, a viewer is never on
    the settings tab and has no [SettingsPage] mounted; [StudentList] is
    mounted exactly when the data has loaded and the list tab is active,
    [SettingsPage] exactly when it has loaded, the settings tab is active
    and the user is not a viewer; each mounted child is in a state its own
    events reach (so the invariants of [ListScreen] and [SettingsScreen]
    hold of it); and the rules in storage are those the editor holds. *)
Theorem dashboard_content_consistent sys sh :
  shellReachable (sys, sh) →
  (isViewer = true → activeTab sh ≠ SETTINGS ∧ editor sh = None) ∧
  (is_Some (listScreen sh) ↔ loading sh = false ∧ activeTab sh = LIST) ∧
  (is_Some (editor sh) ↔ loading sh = false ∧ activeTab sh = SETTINGS ∧ isViewer = false) ∧
  (∀ l, listScreen sh = Some l → ListScreen.screenReachable props (sys, l)) ∧
  (∀ e, editor sh = Some e →
        SettingsScreen.editorReachable e ∧ savedRules sh = Settings.storedRules e).
Proof.
  intros Hr. destruct (shellReachable_ShellInv _ Hr) as ((Hv & Hl & He) & Hls & Hes & Hsv).
  split_and!; try done.
  - intros Hvw. split; [by apply Hv|].
    destruct (editor sh) eqn:E; [|done]. pose proof (proj1 Hes (mk_is_Some _ _ eq_refl)).
    destruct_and!; congruence.
  - intros e E. split; [by apply He|by apply Hsv].
Qed.

(** C23: a viewer's clicks on the Dashboard page change nothing of the
    system state (backend, browser storage, the Dashboard's data): the
    only event that does is the completion of [loadData] after the
    mount. *)
Theorem viewer_page_readonly sys sh ev sys' sh' :
  isViewer = true → shellReachable (sys, sh) → fireShell ev (sys, sh) = Some (sys', sh') →
  sys' = sys ∨ ∃ now, ev = SLoaded now ∧ sys' = Dashboard.loadData props now sys.
Proof.
  intros Hv Hr Hf. destruct (shellReachable_ShellInv _ Hr) as ((Hpv & _ & _) & _).
  destruct (Hpv Hv) as (_ & Hed & Hor).
  unfold fireShell in Hf. simpl in Hf.
  destruct (shellStep ev sys sh) as [[sys1 sh1]|] eqn:Hs; simplify_eq/=.
  destruct ev as [| |t|now|lev|sev logId now|logId now|i logId now]; simpl in Hs;
    rewrite ?Hed, ?Hor in Hs; repeat case_match; simplify_eq/=; auto.
  - right. by eexists.
  - destruct (ListScreen.fireScreen props lev (sys, _)) as [[sys2 l2]|] eqn:E in Hs; simplify_eq/=.
    left. by eapply ListScreen.fireScreen_viewer_sys.
Qed.

(** Leaving the list tab unmounts [StudentList]; coming back mounts a
    fresh one, so its search, filters, sort and page start afresh. *)
Lemma tab_switch_resets_list sys sh t :
  mobile = false → modalOpen sh = false → t ≠ LIST → t ≠ SETTINGS →
  ∃ sh1 sh2, fireShell (STab t) (sys, sh) = Some (sys, sh1) ∧
             fireShell (STab LIST) (sys, sh1) = Some (sys, sh2) ∧
             listScreen sh2 = (if loading sh then None else Some ListScreen.initialScreen).
Proof.
  intros Hm Hmo Ht Hs. set (sh1 := render sys sys (setTab t sh)).
  exists sh1, (render sys sys (setTab LIST sh1)).
  unfold fireShell, shellStep, sidebarShown. simpl. rewrite Hm, Hmo, (bool_decide_false (t = _)) by done.
  split_and!; [reflexivity| |].
  - unfold sh1, render, modalOpen. simpl. rewrite !bool_decide_false by done.
    by destruct (loading sh).
  - unfold sh1, render. simpl. rewrite !bool_decide_false by done. by destruct (loading sh).
Qed.

End Page.

(** ** Examples *)

Fixpoint fireAllShell (props : Dashboard.Props) (mobile : bool) (evs : list ShellEvent)
    (w : Dashboard.Sys * Shell) : option (Dashboard.Sys * Shell) :=
  match evs with
  | [] => Some w
  | ev :: evs' => w' ← fireShell props mobile ev w; fireAllShell props mobile evs' w'
  end.

Lemma fireAllShell_reachable props mobile evs w w' :
  shellReachable props mobile w → fireAllShell props mobile evs w = Some w' →
  shellReachable props mobile w'.
Proof.
  revert w. induction evs as [|ev evs IH]; intros w Hr Hf; simpl in Hf; [by simplify_eq|].
  destruct (fireShell props mobile ev w) as [w1|] eqn:E; [|done].
  eapply IH; [|exact Hf]. by eapply shellReachable_fire.
Qed.

(** On a phone: the data loads, the menu opens, the settings tab is
    chosen (which closes the menu) and the plans dialog is opened. *)
Definition exShellEvents : list ShellEvent :=
  [SLoaded "t1"; SToggleMenu; STab SETTINGS; SSettings SettingsScreen.EOpenPlans "log1" "t2"].

Definition exShell : Dashboard.Sys * Shell :=
  default (Dashboard.exSys0, initialShell None)
    (fireAllShell Dashboard.exProps true exShellEvents (Dashboard.exSys0, initialShell None)).

Lemma exShell_reachable : shellReachable Dashboard.exProps true exShell.
Proof.
  apply (fireAllShell_reachable _ _ exShellEvents (Dashboard.exSys0, initialShell None));
    [constructor|]. vm_compute. reflexivity.
Qed.

Lemma dashboard_content_consistent_witness :
  shellReachable Dashboard.exProps true (exShell.1, exShell.2) ∧
  (false = true → activeTab exShell.2 ≠ SETTINGS ∧ editor exShell.2 = None) ∧
  (is_Some (listScreen exShell.2) ↔ loading exShell.2 = false ∧ activeTab exShell.2 = LIST) ∧
  (is_Some (editor exShell.2) ↔ loading exShell.2 = false ∧ activeTab exShell.2 = SETTINGS ∧ false = false) ∧
  (∀ l, listScreen exShell.2 = Some l → ListScreen.screenReachable Dashboard.exProps (exShell.1, l)) ∧
  (∀ e, editor exShell.2 = Some e →
        SettingsScreen.editorReachable e ∧ savedRules exShell.2 = Settings.storedRules e).
Proof.
  split; [rewrite <-surjective_pairing; apply exShell_reachable|].
  apply (dashboard_content_consistent Dashboard.exProps true exShell.1 exShell.2).
  rewrite <-surjective_pairing. apply exShell_reachable.
Defined.

(** A viewer on a wide screen: the data loads, then a search is typed
    in the list. *)
Definition exViewerShell : Dashboard.Sys * Shell :=
  default (Dashboard.exSys0, initialShell None)
    (fireAllShell Dashboard.exViewerProps false [SLoaded "t1"] (Dashboard.exSys0, initialShell None)).

Definition exViewerNext : Dashboard.Sys * Shell :=
  default exViewerShell (fireShell Dashboard.exViewerProps false (SList (ListScreen.LSearch "S")) exViewerShell).

Lemma exViewerShell_reachable : shellReachable Dashboard.exViewerProps false exViewerShell.
Proof.
  apply (fireAllShell_reachable _ _ [SLoaded "t1"] (Dashboard.exSys0, initialShell None)); [constructor|].
  vm_compute. reflexivity.
Qed.

Lemma viewer_page_readonly_witness :
  isViewer Dashboard.exViewerProps = true ∧
  shellReachable Dashboard.exViewerProps false (exViewerShell.1, exViewerShell.2) ∧
  fireShell Dashboard.exViewerProps false (SList (ListScreen.LSearch "S")) (exViewerShell.1, exViewerShell.2) =
    Some (exViewerNext.1, exViewerNext.2) ∧
  (exViewerNext.1 = exViewerShell.1 ∨
   ∃ now, SList (ListScreen.LSearch "S") = SLoaded now ∧
          exViewerNext.1 = Dashboard.loadData Dashboard.exViewerProps now exViewerShell.1).
Proof.
  assert (Hv : isViewer Dashboard.exViewerProps = true) by reflexivity.
  assert (Hr : shellReachable Dashboard.exViewerProps false (exViewerShell.1, exViewerShell.2))
    by (rewrite <-surjective_pairing; apply exViewerShell_reachable).
  assert (Hf : fireShell Dashboard.exViewerProps false (SList (ListScreen.LSearch "S"))
                 (exViewerShell.1, exViewerShell.2) = Some (exViewerNext.1, exViewerNext.2))
    by (vm_compute; reflexivity).
  split; [exact Hv|split; [exact Hr|split; [exact Hf|]]].
  exact (viewer_page_readonly Dashboard.exViewerProps false _ _ _ _ _ Hv Hr Hf).
Defined.

(** The run above ends on the settings tab with the plans dialog open
    and the menu closed. *)
Lemma exShell_settings :
  activeTab exShell.2 = SETTINGS ∧ isMobileMenuOpen exShell.2 = false ∧
  option_map Settings.editMode (editor exShell.2) = Some Settings.PLANS.
Proof. vm_compute. auto. Qed.

(** A save of the plans is confirmed, the dialog is closed with the
    backdrop while the request is in flight, and the list tab is chosen,
    which unmounts [SettingsPage].  The list shows the student; when the
    save settles, the [handleConfirmSave] of the unmounted page still
    calls [onResetData] and the list on screen is emptied. *)
Lemma orphan_save_clears_list :
  let sys0 := Dashboard.handleAddStudents Dashboard.exProps [Dashboard.exStudent "S9" "A"] "log0" "t0"
                Dashboard.exSys0 in
  let evs := [SLoaded "t1"; STab SETTINGS; SSettings SettingsScreen.EOpenPlans "l" "t2";
              SSettings SettingsScreen.ERequestSave "l" "t2";
              SSettings (SettingsScreen.EConfirmText "delete") "l" "t2";
              SSettings SettingsScreen.EConfirmSave "l" "t3"; SSettings SettingsScreen.EBackdrop "l" "t3";
              STab LIST] in
  match fireAllShell Dashboard.exProps false evs (sys0, initialShell None) with
  | Some (sys, sh) =>
      activeTab sh = LIST ∧ editor sh = None ∧
      (Types.id <$> Dashboard.students (Dashboard.dash sys)) = ["S9"] ∧
      option_map (λ w, Dashboard.students (Dashboard.dash w.1))
        (fireShell Dashboard.exProps false (SSettleOrphan 0 "l" "t4") (sys, sh)) = Some []
  | None => False
  end.
Proof. vm_compute. split_and!; reflexivity. Qed.

End DashboardScreen.
